(** * cb-tumblebug: resource manager and connection registry

  A shallow embedding of the naming rule ([CheckString]), the key layout,
  the vNet life cycle ([CreateVNet], [DeleteVNet], [DeregisterVNet]) and
  the credential registration ([RegisterCredential]) of cb-tumblebug,
  with the properties the design document states about them.

  Go strings are byte strings ([string]); Go errors are their messages;
  the key-value store is a finite map from keys to documents; the remote
  broker (CB-Spider), the crypto primitives and the Go string library are
  an explicit record of external functions. *)

From Stdlib Require Import String Ascii List NArith Lia Bool Permutation.
From stdpp Require Import gmap strings list fin_maps pretty.
Import ListNotations.
Local Open Scope string_scope.
Local Open Scope list_scope.

(** ** Go values *)

(** A Go [error]: [None] is [nil], [Some msg] an error with that message. *)
Definition error := option string.
Abbreviation nil_error := (@None string).
Definition Errorf (msg : string) : error := Some msg.

Definition bytes := list ascii.
Definition byteval (b : ascii) : N := N_of_ascii b.

(** ** UTF-8 decoding, as [unicode/utf8] does it for the regexp engine *)

Module utf8.

Definition RuneError : N := 65533.   (* U+FFFD *)
Definition RuneSelf : N := 128.

(** Length of the sequence announced by a leading byte; 0 for a byte that
    cannot lead (0x80-0xC1, 0xF5-0xFF). *)
Definition seqLen (p0 : N) : nat :=
  if (194 <=? p0)%N && (p0 <=? 223)%N then 2
  else if (224 <=? p0)%N && (p0 <=? 239)%N then 3
  else if (240 <=? p0)%N && (p0 <=? 244)%N then 4
  else 0.

(** Accepted range of the second byte. *)
Definition acceptLo (p0 : N) : N :=
  if (p0 =? 224)%N then 160 else if (p0 =? 240)%N then 144 else 128.
Definition acceptHi (p0 : N) : N :=
  if (p0 =? 237)%N then 159 else if (p0 =? 244)%N then 143 else 191.

Definition isCont (b : N) : bool := (128 <=? b)%N && (b <=? 191)%N.

Definition low6 (b : N) : N := N.land b 63.

(** [DecodeRuneInString]: the rune at the head of [p] and its width in
    bytes; an invalid encoding gives [(RuneError, 1)]. *)
Definition DecodeRune (p : bytes) : N * nat :=
  match p with
  | [] => (RuneError, 0)
  | c0 :: p1 =>
      let p0 := byteval c0 in
      if (p0 <? RuneSelf)%N then (p0, 1)
      else
        match seqLen p0, p1 with
        | 0, _ => (RuneError, 1)
        | _, [] => (RuneError, 1)
        | sz, c1 :: p2 =>
            let b1 := byteval c1 in
            if (b1 <? acceptLo p0)%N || (acceptHi p0 <? b1)%N then (RuneError, 1)
            else if (sz <=? 2)%nat then
              (N.lor (N.shiftl (N.land p0 31) 6) (low6 b1), 2)
            else
              match p2 with
              | [] => (RuneError, 1)
              | c2 :: p3 =>
                  let b2 := byteval c2 in
                  if negb (isCont b2) then (RuneError, 1)
                  else if (sz <=? 3)%nat then
                    (N.lor (N.shiftl (N.land p0 15) 12)
                       (N.lor (N.shiftl (low6 b1) 6) (low6 b2)), 3)
                  else
                    match p3 with
                    | [] => (RuneError, 1)
                    | c3 :: _ =>
                        let b3 := byteval c3 in
                        if negb (isCont b3) then (RuneError, 1)
                        else
                          (N.lor (N.shiftl (N.land p0 7) 18)
                             (N.lor (N.shiftl (low6 b1) 12)
                                (N.lor (N.shiftl (low6 b2) 6) (low6 b3))), 4)
                    end
              end
        end
  end.

End utf8.

(** ** The regexp engine

  [regexp.FindString] returns the leftmost match, and among the matches
  that start there the one a backtracking engine finds first (greedy
  operators try the longer alternative first).  The matcher below is such
  a backtracking engine in continuation-passing style over decoded runes;
  every rune keeps the bytes it was decoded from, so that the match is
  returned as the substring of the input it covers. *)

Module regexp.

Record rune := mkRune { code : N; raw : bytes }.

Fixpoint runesOf (fuel : nat) (p : bytes) : list rune :=
  match fuel, p with
  | _, [] => []
  | 0, _ => []
  | S fuel', _ =>
      let '(r, w) := utf8.DecodeRune p in
      mkRune r (firstn w p) :: runesOf fuel' (skipn w p)
  end.

(** Every rune is at least one byte wide, so [length p] steps decode all
    of [p]. *)
Definition decode (s : string) : list rune :=
  let p := list_ascii_of_string s in runesOf (List.length p) p.

Definition text (rs : list rune) : string :=
  string_of_list_ascii (List.concat (List.map raw rs)).

Inductive regex :=
| Class (p : N -> bool)
| Concat (a b : regex)
| Star (a : regex)
| Quest (a : regex).

Definition cont := list rune -> option (list rune).

(** Greedy iteration: one more round of [m] first (it must consume
    input), the continuation after that. *)
Fixpoint starLoop (m : list rune -> cont -> option (list rune)) (k : cont)
         (fuel : nat) (s : list rune) : option (list rune) :=
  match fuel with
  | 0 => k s
  | S fuel' =>
      match m s (fun s' => if (List.length s' <? List.length s)%nat
                           then starLoop m k fuel' s' else None) with
      | Some rest => Some rest
      | None => k s
      end
  end.

(** [matchK r s k]: match [r] at the head of [s], then [k] on what is
    left; the result is the input left after the whole match. *)
Fixpoint matchK (r : regex) (s : list rune) (k : cont) {struct r}
  : option (list rune) :=
  match r with
  | Class p =>
      match s with
      | c :: s' => if p (code c) then k s' else None
      | [] => None
      end
  | Concat a b => matchK a s (fun s' => matchK b s' k)
  | Star a => starLoop (matchK a) k (List.length s) s
  | Quest a =>
      match matchK a s k with
      | Some rest => Some rest
      | None => k s
      end
  end.

(** Leftmost match: the first start position at which [r] matches. *)
Fixpoint findRunes (r : regex) (s : list rune) : list rune :=
  match matchK r s (fun rest => Some rest) with
  | Some rest => firstn (List.length s - List.length rest) s
  | None =>
      match s with
      | [] => []
      | _ :: s' => findRunes r s'
      end
  end.

(** [FindString]: the text of the leftmost match, [""] when there is
    none. *)
Definition FindString (r : regex) (s : string) : string :=
  text (findRunes r (decode s)).

(** Character classes of the pattern, under the flag [(?i)].  Case
    folding is Unicode simple folding, which puts U+017F (long s) and
    U+212A (Kelvin sign) in the orbits of [s] and [k]. *)
Definition lower (c : N) : bool := (97 <=? c)%N && (c <=? 122)%N.
Definition upper (c : N) : bool := (65 <=? c)%N && (c <=? 90)%N.
Definition digit (c : N) : bool := (48 <=? c)%N && (c <=? 57)%N.
Definition foldedLetter (c : N) : bool :=
  lower c || upper c || (c =? 383)%N || (c =? 8490)%N.

(** [(?i)[a-z]] *)
Definition cls_az : N -> bool := foldedLetter.
(** [(?i)[-a-z0-9+]] *)
Definition cls_mid (c : N) : bool :=
  (c =? 45)%N || foldedLetter c || digit c || (c =? 43)%N.
(** [(?i)[a-z0-9]] *)
Definition cls_az09 (c : N) : bool := foldedLetter c || digit c.

End regexp.

(** The Id rule in the words of the design document,
  [^[a-zA-Z][a-zA-Z0-9-]*[a-zA-Z0-9]$] with a single letter accepted too,
  here with the set of inner characters as a parameter. *)
Module IdRule.

Definition letter (c : ascii) : bool :=
  let n := byteval c in
  ((97 <=? n)%N && (n <=? 122)%N) || ((65 <=? n)%N && (n <=? 90)%N).
Definition digit (c : ascii) : bool :=
  let n := byteval c in (48 <=? n)%N && (n <=? 57)%N.
Definition alnum (c : ascii) : bool := letter c || digit c.
Definition dash (c : ascii) : bool := (byteval c =? 45)%N.
Definition plus (c : ascii) : bool := (byteval c =? 43)%N.

(** Inner characters of the rule as documented: letters, digits, dashes. *)
Definition inner (c : ascii) : bool := alnum c || dash c.
(** Inner characters with the plus sign admitted as well. *)
Definition innerPlus (c : ascii) : bool := alnum c || dash c || plus c.

Definition matchesWith (mid : ascii -> bool) (s : string) : bool :=
  match list_ascii_of_string s with
  | [] => false
  | c :: rest =>
      letter c &&
      match rest with
      | [] => true
      | _ => forallb mid rest && alnum (List.last rest c)
      end
  end.

Definition matches : string -> bool := matchesWith inner.
Definition matchesPlus : string -> bool := matchesWith innerPlus.

Definition isAscii (s : string) : bool :=
  forallb (fun c => (byteval c <? 128)%N) (list_ascii_of_string s).

End IdRule.

(** ** The model package: entities as the code uses them

    The struct declarations live in the model package; the records below
    carry the fields the functions of this development read or write. *)

Module model.

Record KeyValue := mkKeyValue { Key : string; Value : string }.

Record IID := mkIID { NameId : string; SystemId : string }.

Record SimpleMsg := mkSimpleMsg { Message : string }.

(** Modelled from the spec: the resource kinds of the key layout
    [/ns/<ns>/resources/<kind>/<id>] and
    [/ns/<ns>/resources/vNet/<vnet>/subnet/<subnet>]; the constants of the
    model package are not part of the sources at hand. *)
Definition StrImage : string := "image".
Definition StrCustomImage : string := "customImage".
Definition StrSSHKey : string := "sshKey".
Definition StrSpec : string := "spec".
Definition StrVNet : string := "vNet".
Definition StrSubnet : string := "subnet".
Definition StrSecurityGroup : string := "securityGroup".
Definition StrDataDisk : string := "dataDisk".

End model.

Module TbSubnetReq.
Record t := mk {
  Name : string;
  IPv4_CIDR : string;
  Zone : string;
  TagList : list model.KeyValue
}.
End TbSubnetReq.

Module TbVNetReq.
Record t := mk {
  Name : string;
  ConnectionName : string;
  CidrBlock : string;
  SubnetInfoList : list TbSubnetReq.t;
  Description : string;
  TagList : list model.KeyValue
}.
End TbVNetReq.

Module TbSubnetInfo.
Record t := mk {
  Id : string;
  Name : string;
  Uuid : string;
  ConnectionName : string;
  CspVNetId : string;
  CspVNetName : string;
  Status : string;
  CspSubnetId : string;
  CspSubnetName : string;
  KeyValueList : list model.KeyValue;
  TagList : list model.KeyValue;
  Zone : string;
  IPv4_CIDR : string
}.

Definition withStatus (st : string) (s : t) : t :=
  mk (Id s) (Name s) (Uuid s) (ConnectionName s) (CspVNetId s) (CspVNetName s)
     st (CspSubnetId s) (CspSubnetName s) (KeyValueList s) (TagList s) (Zone s)
     (IPv4_CIDR s).
End TbSubnetInfo.

Module TbVNetInfo.
Record t := mk {
  Id : string;
  Name : string;
  Uuid : string;
  ConnectionName : string;
  CidrBlock : string;
  Status : string;
  CspVNetId : string;
  CspVNetName : string;
  SubnetInfoList : list TbSubnetInfo.t;
  Description : string;
  TagList : list model.KeyValue;
  KeyValueList : list model.KeyValue;
  SystemLabel : string
}.

Definition withStatus (st : string) (v : t) : t :=
  mk (Id v) (Name v) (Uuid v) (ConnectionName v) (CidrBlock v) st (CspVNetId v)
     (CspVNetName v) (SubnetInfoList v) (Description v) (TagList v)
     (KeyValueList v) (SystemLabel v).

Definition withSubnetInfoList (l : list TbSubnetInfo.t) (v : t) : t :=
  mk (Id v) (Name v) (Uuid v) (ConnectionName v) (CidrBlock v) (Status v)
     (CspVNetId v) (CspVNetName v) l (Description v) (TagList v)
     (KeyValueList v) (SystemLabel v).
End TbVNetInfo.

Module RegionZoneInfo.
Record t := mk { AssignedRegion : string; AssignedZone : string }.
End RegionZoneInfo.

Module RegionDetail.
Record t := mk {
  RegionId : string;
  RegionName : string;
  Description : string;
  Zones : list string
}.
Definition empty : t := mk "" "" "" [].
End RegionDetail.

Module ConnConfig.
Record t := mk {
  ConfigName : string;
  ProviderName : string;
  DriverName : string;
  CredentialName : string;
  CredentialHolder : string;
  RegionZoneInfoName : string;
  RegionZoneInfo : RegionZoneInfo.t;
  RegionDetail : RegionDetail.t;
  RegionRepresentative : bool;
  Verified : bool
}.

Definition withProviderName (p : string) (c : t) : t :=
  mk (ConfigName c) p (DriverName c) (CredentialName c) (CredentialHolder c)
     (RegionZoneInfoName c) (RegionZoneInfo c) (RegionDetail c)
     (RegionRepresentative c) (Verified c).

Definition withVerified (b : bool) (c : t) : t :=
  mk (ConfigName c) (ProviderName c) (DriverName c) (CredentialName c)
     (CredentialHolder c) (RegionZoneInfoName c) (RegionZoneInfo c)
     (RegionDetail c) (RegionRepresentative c) b.

Definition withRegionDetail (d : RegionDetail.t) (c : t) : t :=
  mk (ConfigName c) (ProviderName c) (DriverName c) (CredentialName c)
     (CredentialHolder c) (RegionZoneInfoName c) (RegionZoneInfo c)
     d (RegionRepresentative c) (Verified c).

Definition withRegionRepresentative (b : bool) (c : t) : t :=
  mk (ConfigName c) (ProviderName c) (DriverName c) (CredentialName c)
     (CredentialHolder c) (RegionZoneInfoName c) (RegionZoneInfo c)
     (RegionDetail c) b (Verified c).

Definition withRegionZone (n : string) (z : RegionZoneInfo.t) (c : t) : t :=
  mk (ConfigName c) (ProviderName c) (DriverName c) (CredentialName c)
     (CredentialHolder c) n z (RegionDetail c) (RegionRepresentative c)
     (Verified c).
End ConnConfig.

Module CSPDetail.
Record t := mk {
  Driver : string;
  (** [map[string]RegionDetail]: the entries of the map *)
  Regions : list (string * RegionDetail.t)
}.
End CSPDetail.

Module CloudInfo.
Record t := mk { CSPs : gmap string CSPDetail.t }.
End CloudInfo.

Module CredentialReq.
Record t := mk {
  CredentialHolder : string;
  ProviderName : string;
  PublicKeyTokenId : string;
  EncryptedClientAesKeyByPublicKey : string;
  CredentialKeyValueList : list model.KeyValue
}.
End CredentialReq.

Module CredentialInfo.
Record t := mk {
  CredentialName : string;
  CredentialHolder : string;
  ProviderName : string;
  KeyValueInfoList : list model.KeyValue;
  AllConnections : list ConnConfig.t
}.
Definition empty : t := mk "" "" "" [] [].
End CredentialInfo.

(** *** Shapes of the broker's REST interface *)

Module SpiderConnConfig.
Record t := mk {
  ConfigName : string;
  ProviderName : string;
  DriverName : string;
  CredentialName : string;
  RegionName : string
}.
End SpiderConnConfig.

Module SpiderRegionZoneInfo.
Record t := mk {
  RegionName : string;
  ProviderName : string;
  KeyValueInfoList : list model.KeyValue;
  AvailableZoneList : list string
}.
End SpiderRegionZoneInfo.

Module spiderAddSubnetRequestInfo.
Record t := mk {
  Name : string;
  IPv4_CIDR : string;
  Zone : string;
  TagList : list model.KeyValue
}.
End spiderAddSubnetRequestInfo.

Module spiderCreateVPCRequestInfo.
Record t := mk {
  Name : string;
  IPv4_CIDR : string;
  SubnetInfoList : list spiderAddSubnetRequestInfo.t;
  TagList : list model.KeyValue
}.
End spiderCreateVPCRequestInfo.

Module spiderCreateVPCRequest.
Record t := mk {
  ConnectionName : string;
  IDTransformMode : string;
  ReqInfo : spiderCreateVPCRequestInfo.t
}.
End spiderCreateVPCRequest.

Module spiderSubnetInfo.
Record t := mk {
  IId : model.IID;
  Zone : string;
  IPv4_CIDR : string;
  KeyValueList : list model.KeyValue;
  TagList : list model.KeyValue
}.
End spiderSubnetInfo.

Module spiderVPCInfo.
Record t := mk {
  IId : model.IID;
  IPv4_CIDR : string;
  SubnetInfoList : list spiderSubnetInfo.t;
  TagList : list model.KeyValue;
  KeyValueList : list model.KeyValue
}.
End spiderVPCInfo.

Module spiderBooleanInfoResp.
Record t := mk { Result : string }.
End spiderBooleanInfoResp.

(** [netutil.Network] *)
Module Network.
Unset Elimination Schemes.
Inductive t := mk (CidrBlock : string) (Subnets : list t).
Set Elimination Schemes.
End Network.


(** ** Documents and the key-value store

    Every value of the store is the JSON text of one entity.  The embedding
    keeps the entity itself: [json.Marshal] is the constructor of [doc],
    [json.Unmarshal] into a struct the matching projection, and decoding
    the text of another kind of entity an error (the key layout keeps the
    kinds apart, so no function below ever does it on a store it wrote). *)

Inductive doc :=
| DocVNet (v : TbVNetInfo.t)
| DocSubnet (s : TbSubnetInfo.t)
| DocConnConfig (c : ConnConfig.t).

Module json.

Definition unmarshalError : string := "json: cannot unmarshal value into Go struct".

Definition UnmarshalVNet (d : doc) : option TbVNetInfo.t :=
  match d with DocVNet v => Some v | _ => None end.

Definition UnmarshalSubnet (d : doc) : option TbSubnetInfo.t :=
  match d with DocSubnet s => Some s | _ => None end.

Definition UnmarshalConnConfig (d : doc) : option ConnConfig.t :=
  match d with DocConnConfig c => Some c | _ => None end.

End json.

Module kvstore.

(** Modelled from the spec: the kvstore package is not part of the sources
    at hand.  "Hierarchical string->string store with prefix listing and
    atomic put/delete", with the operations [Put(k,v)],
    [Get(k) -> (v, found)], [Delete(k)] and [List(prefix) -> [(k,v)]]. *)
Definition Put (k : string) (v : doc) (m : gmap string doc) : gmap string doc :=
  <[k := v]> m.

Definition GetKv (k : string) (m : gmap string doc) : option doc := m !! k.

Definition Delete (k : string) (m : gmap string doc) : gmap string doc :=
  delete k m.

Definition GetKvList (prefix : string) (m : gmap string doc) : list (string * doc) :=
  List.filter (fun kv => String.prefix prefix (fst kv)) (map_to_list m).

End kvstore.

Module kvutil.

Fixpoint countSlash (s : string) : nat :=
  match s with
  | EmptyString => 0
  | String c s' => (if Ascii.eqb c "/" then 1 else 0) + countSlash s'
  end.

Fixpoint dropPrefix (p s : string) : option string :=
  match p, s with
  | EmptyString, _ => Some s
  | String a p', String b s' => if Ascii.eqb a b then dropPrefix p' s' else None
  | String _ _, EmptyString => None
  end.

(** Modelled from the spec: the kvutil package is not part of the sources
    at hand.  "[FilterByDepth(list, prefix, depth)] keeps only entries whose
    key has exactly [depth] path segments after [prefix]". *)
Definition FilterKvListBy (l : list (string * doc)) (prefix : string) (depth : nat)
  : list (string * doc) :=
  List.filter
    (fun kv =>
       match dropPrefix prefix (fst kv) with
       | Some (String c rest) => Ascii.eqb c "/" && (countSlash rest =? depth - 1)%nat
       | _ => false
       end) l.

End kvutil.

(** ** The broker (CB-Spider) *)

(** ["*rsa.PrivateKey"]: the registry stores the key and hands it to the
    decryption; the model keeps it as an opaque number. *)
Definition PrivateKey := N.

(** What a call to the broker gives: an error (transport failure or a
    non-2xx answer) or the decoded body. *)
Inductive answer (A : Type) :=
| Failed (msg : string)
| Body (a : A).
Arguments Failed {A} msg.
Arguments Body {A} a.

(** The requests the functions below send. *)
Inductive SpiderCall :=
| PostVpc (r : spiderCreateVPCRequest.t)
| DeleteVpc (cspVNetName connectionName : string)
| DeleteRegVpc (cspVNetName connectionName : string)
| DeleteVpcSubnet (cspVNetName cspSubnetName connectionName : string)
| PostCredential (c : CredentialInfo.t)
| GetRegionAll
| PostConnectionConfig (c : SpiderConnConfig.t)
| GetRegionByName (name : string)
| GetAllKeypair (connectionName : string).

Record Spider := mkSpider {
  postVpc : spiderCreateVPCRequest.t -> answer spiderVPCInfo.t;
  deleteVpc : string -> string -> answer spiderBooleanInfoResp.t;
  deleteRegVpc : string -> string -> answer spiderBooleanInfoResp.t;
  deleteVpcSubnet : string -> string -> string -> answer spiderBooleanInfoResp.t;
  postCredential : CredentialInfo.t -> answer CredentialInfo.t;
  getRegionAll : answer (list SpiderRegionZoneInfo.t);
  postConnectionConfig : SpiderConnConfig.t -> answer SpiderConnConfig.t;
  getRegionByName : string -> answer SpiderRegionZoneInfo.t;
  getAllKeypair : string -> answer unit
}.

(** ** Everything the functions take from outside the repository *)

Record Extern := mkExtern {
  (** package strings *)
  ToLower : string -> string;
  ToUpper : string -> string;
  EqualFold : string -> string -> bool;
  (** [uid.New().String()] of package xid, by the number of ids drawn *)
  xid : nat -> string;
  (** the field tags of [TbVNetReq] as the validator checks them *)
  validateTags : TbVNetReq.t -> error;
  (** [netutil.ValidateNetwork] *)
  ValidateNetwork : Network.t -> error;
  (** the catalog of providers and regions loaded at start *)
  RuntimeCloudInfo : CloudInfo.t;
  (** [model.DefaultCredentialHolder] *)
  DefaultCredentialHolder : string;
  (** the broker *)
  spider : Spider;
  (** [base64.StdEncoding.DecodeString]; the error is on the left *)
  base64Decode : string -> string + bytes;
  (** [rsa.DecryptOAEP] with SHA-256; the error is on the left *)
  DecryptOAEP : PrivateKey -> bytes -> string + bytes;
  (** one block of AES decryption under a key *)
  aesDecryptBlock : bytes -> bytes -> bytes;
  (** the entries of a map of regions in the order in which a [range]
      over the map visits them, which Go leaves open; one order for a
      map is all that a call of [GetRegion] sees of it *)
  rangeRegions : list (string * RegionDetail.t) -> list (string * RegionDetail.t)
}.

(** ** State and effects *)

Record World := mkWorld {
  (** the key-value store *)
  kv : gmap string doc;
  (** [privateKeyStore], the map guarded by [mu] *)
  privateKeyStore : gmap string PrivateKey;
  (** how many ids [GenUid] has drawn *)
  uidCount : nat;
  (** the calls sent to the broker, oldest first, each with the store as
      it was when the call was made *)
  spiderLog : list (SpiderCall * gmap string doc)
}.

Inductive result (A : Type) :=
| Ok (a : A)
| Err (msg : string)
| Panic (msg : string).
Arguments Ok {A} a.
Arguments Err {A} msg.
Arguments Panic {A} msg.

(** A Go function that may touch the store, the key map and the broker. A
    result [Err] is a returned non-nil [error] (the value returned beside
    it is dropped), a result [Panic] a run-time panic. *)
Definition M (A : Type) : Type := World -> result A * World.

Definition ret {A} (a : A) : M A := fun w => (Ok a, w).

Definition bind {A B} (c : M A) (k : A -> M B) : M B :=
  fun w =>
    match c w with
    | (Ok a, w') => k a w'
    | (Err e, w') => (Err e, w')
    | (Panic e, w') => (Panic e, w')
    end.

Notation "x <- c ;; k" := (bind c (fun x => k))
  (at level 100, c at next level, right associativity).
Notation "c ;;; k" := (bind c (fun _ => k))
  (at level 100, right associativity).

Definition fail {A} (msg : string) : M A := fun w => (Err msg, w).
Definition panic {A} (msg : string) : M A := fun w => (Panic msg, w).

(** [if err != nil { return ..., err }] *)
Definition check (e : error) : M unit :=
  match e with
  | None => ret tt
  | Some msg => fail msg
  end.

Fixpoint forM_ {A} (l : list A) (f : A -> M unit) : M unit :=
  match l with
  | [] => ret tt
  | x :: l' => f x ;;; forM_ l' f
  end.

Fixpoint mapM {A B} (f : A -> M B) (l : list A) : M (list B) :=
  match l with
  | [] => ret []
  | x :: l' => y <- f x ;; ys <- mapM f l' ;; ret (y :: ys)
  end.

Definition kvPut (k : string) (d : doc) : M unit :=
  fun w => (Ok tt, mkWorld (kvstore.Put k d (kv w)) (privateKeyStore w)
                     (uidCount w) (spiderLog w)).

Definition kvGetKv (k : string) : M (option doc) :=
  fun w => (Ok (kvstore.GetKv k (kv w)), w).

Definition kvDelete (k : string) : M unit :=
  fun w => (Ok tt, mkWorld (kvstore.Delete k (kv w)) (privateKeyStore w)
                     (uidCount w) (spiderLog w)).

Definition kvGetKvList (prefix : string) : M (list (string * doc)) :=
  fun w => (Ok (kvstore.GetKvList prefix (kv w)), w).

(** [common.ExecuteHttpRequest]: the call is sent, and its answer is either
    the error to return or the decoded body. *)
Definition ExecuteHttpRequest {A} (c : SpiderCall) (a : answer A) : M A :=
  fun w =>
    let w' := mkWorld (kv w) (privateKeyStore w) (uidCount w)
                (spiderLog w ++ [(c, kv w)]) in
    match a with
    | Failed msg => (Err msg, w')
    | Body b => (Ok b, w')
    end.

(** [strconv.ParseBool] *)
Definition ParseBool (s : string) : option bool :=
  if existsb (String.eqb s) ["1"; "t"; "T"; "TRUE"; "true"; "True"] then Some true
  else if existsb (String.eqb s) ["0"; "f"; "F"; "FALSE"; "false"; "False"] then Some false
  else None.

Definition ParseBoolError (s : string) : string :=
  "strconv.ParseBool: parsing " +:+ s +:+ ": invalid syntax".

(** [strings.SplitN(s, "-", 2)]: the text before the first dash, and the
    text after it when there is a dash. *)
Fixpoint SplitN2 (s : string) : string * option string :=
  match s with
  | EmptyString => (EmptyString, None)
  | String c s' =>
      if Ascii.eqb c "-" then (EmptyString, Some s')
      else let '(a, b) := SplitN2 s' in (String c a, b)
  end.

(** ** common/utility.go *)

Module common.

(** The compiled pattern ["(?i)[a-z]([-a-z0-9+]*[a-z0-9])?"]. *)
Definition namePattern : regexp.regex :=
  regexp.Concat (regexp.Class regexp.cls_az)
    (regexp.Quest
       (regexp.Concat (regexp.Star (regexp.Class regexp.cls_mid))
          (regexp.Class regexp.cls_az09))).

Definition nameRules : string :=
  ": The name must follow these rules: " +:+
  "1. The first character must be a letter (case-insensitive). " +:+
  "2. All following characters can be a dash, letter (case-insensitive), digit, or +. " +:+
  "3. The last character cannot be a dash.".

(** [CheckString] *)
Definition CheckString (name : string) : error :=
  if String.eqb name "" then Errorf "The provided string is empty"
  else
    let filtered := regexp.FindString namePattern name in
    if negb (String.eqb filtered name) then Errorf (name +:+ nameRules)
    else nil_error.

(** [GenConnectionKey] *)
Definition GenConnectionKey (connectionId : string) : string :=
  "/connection/" +:+ connectionId.

(** [GenResourceKey] *)
Definition GenResourceKey (nsId resourceType resourceId : string) : string :=
  if String.eqb resourceType model.StrImage
     || String.eqb resourceType model.StrCustomImage
     || String.eqb resourceType model.StrSSHKey
     || String.eqb resourceType model.StrSpec
     || String.eqb resourceType model.StrVNet
     || String.eqb resourceType model.StrSecurityGroup
     || String.eqb resourceType model.StrDataDisk
  then "/ns/" +:+ nsId +:+ "/resources/" +:+ resourceType +:+ "/" +:+ resourceId
  else "/invalidKey".

(** [GenChildResourceKey] *)
Definition GenChildResourceKey (nsId resourceType parentResourceId resourceId : string)
  : string :=
  if String.eqb resourceType model.StrSubnet then
    let parentResourceType := model.StrVNet in
    "/ns/" +:+ nsId +:+ "/resources/" +:+ parentResourceType +:+ "/" +:+
    parentResourceId +:+ "/" +:+ resourceType +:+ "/" +:+ resourceId
  else "/invalidKey".

Section WithExtern.

Variable X : Extern.

(** [GenUid] *)
Definition GenUid : M string :=
  fun w => (Ok (xid X (uidCount w)),
            mkWorld (kv w) (privateKeyStore w) (S (uidCount w)) (spiderLog w)).

(** [GetCloudInfo] *)
Definition GetCloudInfo : CloudInfo.t := RuntimeCloudInfo X.

(** [GetRegion]; the error is on the left.  Its loop ranges over the map
    of regions and returns at the first entry it visits whose key folds to
    the name. *)
Definition GetRegion (ProviderName RegionName : string) : string + RegionDetail.t :=
  let ProviderName := ToLower X ProviderName in
  let RegionName := ToLower X RegionName in
  match CloudInfo.CSPs GetCloudInfo !! ProviderName with
  | None => inl ("cloudType '" +:+ ProviderName +:+ "' not found")
  | Some cspDetail =>
      match List.find (fun kr => EqualFold X RegionName (fst kr))
                      (rangeRegions X (CSPDetail.Regions cspDetail)) with
      | Some kr => inr (snd kr)
      | None => inl ("nativeRegion '" +:+ RegionName +:+ "' not found in Provider '"
                     +:+ ProviderName +:+ "'")
      end
  end.


(** *** Credentials and connection configurations *)

(** [aes.BlockSize] *)
Definition BlockSize : nat := 16.

Definition xorByte (a b : ascii) : ascii := ascii_of_N (N.lxor (byteval a) (byteval b)).

(** A buffer cut or zero-filled to [n] bytes. *)
Definition sized (n : nat) (b : bytes) : bytes :=
  firstn n (b ++ repeat zero n).

Fixpoint blocksOf (count : nat) (src : bytes) : list bytes :=
  match count with
  | 0 => []
  | S count' => firstn BlockSize src :: blocksOf count' (skipn BlockSize src)
  end.

(** [unpad] *)
Definition unpad (data : bytes) (blockSize : nat) : M bytes :=
  let length := List.length data in
  match list.last data with
  | None => panic "runtime error: index out of range [-1]"
  | Some b =>
      let unpadding := N.to_nat (byteval b) in
      if (blockSize <? unpadding)%nat || (length <? unpadding)%nat
      then fail "invalid padding size"
      else ret (firstn (length - unpadding) data)
  end.

(** [fmt.Errorf(prefix + ": %w", err)] around a call *)
Definition wrapped {A} (prefix : string) (c : M A) : M A :=
  fun w =>
    match c w with
    | (Err msg, w') => (Err (prefix +:+ ": " +:+ msg), w')
    | r => r
    end.

(** [strings.ReplaceAll(s, "\\n", "\n")]: every backslash followed by [n]
    becomes a line feed. *)
Fixpoint restoreNewlines (s : string) : string :=
  match s with
  | String a (String b s' as t) =>
      if Ascii.eqb a "\" && Ascii.eqb b "n"
      then String (ascii_of_N 10) (restoreNewlines s')
      else String a (restoreNewlines t)
  | _ => s
  end.

(** [aes.NewCipher] accepts keys of 16, 24 and 32 bytes. *)
Definition validAesKey (key : bytes) : bool :=
  let n := List.length key in ((n =? 16) || (n =? 24) || (n =? 32))%nat.

(** [CryptBlocks] of a CBC decrypter: every block is decrypted and mixed
    with the block before it, the first one with the initial vector. *)
Fixpoint cbcBlocks (key prev : bytes) (blocks : list bytes) : bytes :=
  match blocks with
  | [] => []
  | c :: rest =>
      List.map (fun p => xorByte (fst p) (snd p))
               (combine (sized BlockSize (aesDecryptBlock X key c)) (sized BlockSize prev))
      ++ cbcBlocks key c rest
  end.

(** The body of the loop over [req.CredentialKeyValueList]. *)
Definition decryptValue (aesKey : bytes) (keyValue : model.KeyValue) : M model.KeyValue :=
  match base64Decode X (model.Value keyValue) with
  | inl msg => fail ("failed to decode encrypted value: " +:+ msg)
  | inr encryptedBytes =>
      if negb (validAesKey aesKey) then
        fail ("failed to create AES cipher: crypto/aes: invalid key size "
              +:+ pretty (List.length aesKey))
      else if (List.length encryptedBytes <? BlockSize)%nat then
        (* encryptedBytes[:aes.BlockSize], encryptedBytes[aes.BlockSize:] *)
        panic "runtime error: slice bounds out of range"
      else
        let iv := firstn BlockSize encryptedBytes in
        let ciphertext := skipn BlockSize encryptedBytes in
        if negb (List.length ciphertext mod BlockSize =? 0)%nat then
          panic "crypto/cipher: input not full blocks"
        else
          let decryptedValue :=
            cbcBlocks aesKey iv
              (blocksOf (List.length ciphertext / BlockSize) ciphertext) in
          decryptedValue <- wrapped "failed to unpad decrypted value"
                                    (unpad decryptedValue BlockSize) ;;
          ret (model.mkKeyValue (model.Key keyValue)
                 (string_of_list_ascii decryptedValue))
  end.

Definition deletePrivateKey (tokenId : string) : M unit :=
  fun w => (Ok tt, mkWorld (kv w) (delete tokenId (privateKeyStore w))
                     (uidCount w) (spiderLog w)).

Definition lookupPrivateKey (tokenId : string) : M (option PrivateKey) :=
  fun w => (Ok (privateKeyStore w !! tokenId), w).

(** The loop of [GetConnConfigList] that decodes the listed values: it
    stops at the first value that does not decode and returns what it has
    so far beside the error. *)
Fixpoint decodeConnConfigs (l : list (string * doc)) (acc : list ConnConfig.t)
  : list ConnConfig.t * error :=
  match l with
  | [] => (acc, nil_error)
  | v :: l' =>
      match json.UnmarshalConnConfig (snd v) with
      | None => (acc, Errorf json.unmarshalError)
      | Some tempObj => decodeConnConfigs l' (acc ++ [tempObj])
      end
  end.

(** [GetConnConfigList] *)
Definition GetConnConfigList (filterCredentialHolder : string)
           (filterVerified filterRegionRepresentative : bool)
  : M (list ConnConfig.t * error) :=
  let key := "/connection" in
  keyValue <- kvGetKvList key ;;
  let keyValue := kvutil.FilterKvListBy keyValue key 1 in
  match decodeConnConfigs keyValue [] with
  | (partial, Some msg) => ret (partial, Some msg)
  | (filteredConnections, None) =>
      let filteredConnections :=
        if negb (String.eqb filterCredentialHolder "") then
          List.filter (fun connConfig =>
                         EqualFold X (ConnConfig.CredentialHolder connConfig)
                                   filterCredentialHolder)
                      filteredConnections
        else filteredConnections in
      let filteredConnections :=
        if filterVerified then List.filter ConnConfig.Verified filteredConnections
        else filteredConnections in
      let filteredConnections :=
        if filterRegionRepresentative
        then List.filter ConnConfig.RegionRepresentative filteredConnections
        else filteredConnections in
      ret (filteredConnections, nil_error)
  end.

(** [CheckConnConfigAvailable] *)
Definition CheckConnConfigAvailable (connConfigName : string) : M (bool * error) :=
  fun w =>
    match ExecuteHttpRequest (GetAllKeypair connConfigName)
            (getAllKeypair (spider X) connConfigName) w with
    | (Ok _, w') => (Ok (true, nil_error), w')
    | (Err msg, w') => (Ok (false, Errorf msg), w')
    | (Panic msg, w') => (Panic msg, w')
    end.

(** [RegisterConnectionConfig] *)
Definition RegisterConnectionConfig (connConfig : ConnConfig.t) : M ConnConfig.t :=
  let requestBody :=
    SpiderConnConfig.mk (ConnConfig.ConfigName connConfig)
      (ConnConfig.ProviderName connConfig) (ConnConfig.DriverName connConfig)
      (ConnConfig.CredentialName connConfig)
      (ConnConfig.RegionZoneInfoName connConfig) in
  callResult <- ExecuteHttpRequest (PostConnectionConfig requestBody)
                  (postConnectionConfig (spider X) requestBody) ;;
  let RegionZoneInfoName := SpiderConnConfig.RegionName callResult in
  callResultRegion <- ExecuteHttpRequest (GetRegionByName RegionZoneInfoName)
                        (getRegionByName (spider X) RegionZoneInfoName) ;;
  let regionZoneInfo :=
    fold_left
      (fun rz keyVal =>
         let rz :=
           if String.eqb (model.Key keyVal) "Region"
           then RegionZoneInfo.mk (model.Value keyVal) (RegionZoneInfo.AssignedZone rz)
           else rz in
         if String.eqb (model.Key keyVal) "Zone"
         then RegionZoneInfo.mk (RegionZoneInfo.AssignedRegion rz) (model.Value keyVal)
         else rz)
      (SpiderRegionZoneInfo.KeyValueInfoList callResultRegion)
      (RegionZoneInfo.mk "" "") in
  let ProviderName := ToLower X (SpiderConnConfig.ProviderName callResult) in
  match GetRegion ProviderName (RegionZoneInfo.AssignedRegion regionZoneInfo) with
  | inl msg => fail msg
  | inr regionDetail =>
      let connection :=
        ConnConfig.mk (SpiderConnConfig.ConfigName callResult) ProviderName
          (SpiderConnConfig.DriverName callResult)
          (SpiderConnConfig.CredentialName callResult)
          (ConnConfig.CredentialHolder connConfig)
          RegionZoneInfoName regionZoneInfo regionDetail false false in
      kvPut (GenConnectionKey (ConnConfig.ConfigName connection))
            (DocConnConfig connection) ;;;
      ret connection
  end.

(** One probe of the verification fan-out (the body of the goroutine,
    without its random sleep). *)
Definition probe (connConfig : ConnConfig.t) : M ConnConfig.t :=
  r <- CheckConnConfigAvailable (ConnConfig.ConfigName connConfig) ;;
  let verified := fst r in
  let connConfig := ConnConfig.withVerified verified connConfig in
  if verified then
    match GetRegion (ConnConfig.ProviderName connConfig)
            (RegionDetail.RegionName (ConnConfig.RegionDetail connConfig)) with
    | inl _ => ret (ConnConfig.withVerified false connConfig)
    | inr regionInfo => ret (ConnConfig.withRegionDetail regionInfo connConfig)
    end
  else ret connConfig.

(** The map [regionRepresentative], by order of insertion: the first
    connection of every [<provider>-<region>] whose region-zone name is
    that very prefix. *)
Fixpoint electRepresentatives (providerName : string) (conns : list ConnConfig.t)
         (elected : list (string * ConnConfig.t)) : list (string * ConnConfig.t) :=
  match conns with
  | [] => elected
  | connConfig :: rest =>
      let prefix := providerName +:+ "-" +:+
                    RegionDetail.RegionName (ConnConfig.RegionDetail connConfig) in
      if EqualFold X (ConnConfig.RegionZoneInfoName connConfig) prefix
         && negb (existsb (fun e => String.eqb (fst e) prefix) elected)
      then electRepresentatives providerName rest (elected ++ [(prefix, connConfig)])
      else electRepresentatives providerName rest elected
  end.

(** The rewrite of a representative that is not verified itself: it takes
    the region-zone of the first verified connection whose name it
    prefixes. *)
Definition adoptVerifiedZone (verifiedConnections : list ConnConfig.t)
           (connConfig : ConnConfig.t) : ConnConfig.t :=
  match List.find (fun verifiedConnConfig =>
                     String.prefix (ConnConfig.ConfigName connConfig)
                                   (ConnConfig.ConfigName verifiedConnConfig))
                  verifiedConnections with
  | Some verifiedConnConfig =>
      ConnConfig.withRegionZone (ConnConfig.RegionZoneInfoName verifiedConnConfig)
        (ConnConfig.RegionZoneInfo verifiedConnConfig) connConfig
  | None => connConfig
  end.

(** The first part of [RegisterCredential]: the private key of the token
    is looked up, the AES key and with it every value is decrypted, and
    the private key is deleted from the map. *)
Definition decryptCredential (req : CredentialReq.t) : M (list model.KeyValue) :=
  privateKey <- lookupPrivateKey (CredentialReq.PublicKeyTokenId req) ;;
  match privateKey with
  | None => fail ("private key not found for token ID: "
                  +:+ CredentialReq.PublicKeyTokenId req)
  | Some privateKey =>
      match base64Decode X (CredentialReq.EncryptedClientAesKeyByPublicKey req) with
      | inl msg => fail ("failed to decode encrypted AES key: " +:+ msg)
      | inr encryptedAesKey =>
          match DecryptOAEP X privateKey encryptedAesKey with
          | inl msg => fail ("failed to decrypt AES key: " +:+ msg)
          | inr aesKey =>
              decryptedKeyValueList <-
                mapM (decryptValue aesKey) (CredentialReq.CredentialKeyValueList req) ;;
              (* Delete the private key from memory after use *)
              deletePrivateKey (CredentialReq.PublicKeyTokenId req) ;;;
              ret decryptedKeyValueList
          end
      end
  end.

(** The request body sent to the broker's [/credential]. *)
Definition credentialForSpider (req : CredentialReq.t)
           (decryptedKeyValueList : list model.KeyValue) : CredentialInfo.t :=
  let CredentialHolder := ToLower X (CredentialReq.CredentialHolder req) in
  let ProviderName := ToLower X (CredentialReq.ProviderName req) in
  let genneratedCredentialName :=
    if String.eqb CredentialHolder (DefaultCredentialHolder X) then ProviderName
    else CredentialHolder +:+ "-" +:+ ProviderName in
  CredentialInfo.mk genneratedCredentialName "" (ToUpper X ProviderName)
    (List.map (fun keyValue =>
                 model.mkKeyValue (model.Key keyValue)
                   (restoreNewlines (model.Value keyValue)))
              decryptedKeyValueList)
    [].

(** The loop "register connection config for all regions with the
    credential". *)
Definition registerRegionConnections (allRegisteredRegions : list SpiderRegionZoneInfo.t)
           (callResult : CredentialInfo.t) (Driver CredentialHolder : string) : M unit :=
  forM_ allRegisteredRegions
    (fun region =>
       if String.eqb (ToLower X (SpiderRegionZoneInfo.ProviderName region))
                     (CredentialInfo.ProviderName callResult)
       then
         let configName :=
           if String.eqb (CredentialInfo.CredentialHolder callResult)
                         (DefaultCredentialHolder X)
           then SpiderRegionZoneInfo.RegionName region
           else CredentialInfo.CredentialHolder callResult +:+ "-"
                +:+ SpiderRegionZoneInfo.RegionName region in
         let connConfig :=
           ConnConfig.mk configName
             (ToUpper X (CredentialInfo.ProviderName callResult))
             Driver
             (CredentialInfo.CredentialName callResult)
             CredentialHolder
             (SpiderRegionZoneInfo.RegionName region)
             (RegionZoneInfo.mk "" "") RegionDetail.empty false false in
         RegisterConnectionConfig connConfig ;;; ret tt
       else ret tt).

(** The block under [validate]: every connection of the holder and the
    provider is probed, and the verified ones are stored.  The probes run
    as goroutines in the code; here they run one after the other, in the
    order of the list, and their results arrive in that order. *)
Definition verifyConnections (callResultProviderName CredentialHolder : string) : M unit :=
  r <- GetConnConfigList CredentialHolder false false ;;
  check (snd r) ;;;
  let filteredConnections :=
    List.map (fun connConfig =>
                ConnConfig.withProviderName
                  (ToLower X (ConnConfig.ProviderName connConfig)) connConfig)
      (List.filter (fun connConfig =>
                      EqualFold X callResultProviderName
                                (ConnConfig.ProviderName connConfig))
                   (fst r)) in
  results <- mapM probe filteredConnections ;;
  forM_ results
    (fun result =>
       if ConnConfig.Verified result
       then kvPut (GenConnectionKey (ConnConfig.ConfigName result))
                  (DocConnConfig result)
       else ret tt).

(** The block under [setRegionRepresentative].  The code ranges over the
    map [regionRepresentative]; here its entries are visited in the order
    in which they were put in. *)
Definition setRegionRepresentative (ProviderName CredentialHolder : string) : M unit :=
  r <- GetConnConfigList CredentialHolder false false ;;
  check (snd r) ;;;
  let regionRepresentative := electRepresentatives ProviderName (fst r) [] in
  forM_ regionRepresentative
    (fun e =>
       let connConfig := ConnConfig.withRegionRepresentative true (snd e) in
       kvPut (GenConnectionKey (ConnConfig.ConfigName connConfig))
             (DocConnConfig connConfig)).

(** The block under [verifyRegionRepresentativeAndUpdateZone]. *)
Definition verifyRegionRepresentativeAndUpdateZone (ProviderName CredentialHolder : string)
  : M unit :=
  r <- GetConnConfigList CredentialHolder true false ;;
  check (snd r) ;;;
  let verifiedConnections := fst r in
  r <- GetConnConfigList CredentialHolder false true ;;
  let allRepresentativeRegionConnections := fst r in
  forM_ allRepresentativeRegionConnections
    (fun connConfig =>
       if EqualFold X ProviderName (ConnConfig.ProviderName connConfig) then
         let verified :=
           existsb (fun verifiedConnConfig =>
                      EqualFold X (ConnConfig.ConfigName connConfig)
                                (ConnConfig.ConfigName verifiedConnConfig))
                   verifiedConnections in
         if negb verified then
           let connConfig := adoptVerifiedZone verifiedConnections connConfig in
           kvPut (GenConnectionKey (ConnConfig.ConfigName connConfig))
                 (DocConnConfig connConfig)
         else ret tt
       else ret tt).

(** What [RegisterCredential] does once the broker has taken the
    credential. *)
Definition registerConnections (req : CredentialReq.t) (callResult : CredentialInfo.t)
  : M CredentialInfo.t :=
  let CredentialHolder := ToLower X (CredentialReq.CredentialHolder req) in
  let ProviderName := ToLower X (CredentialReq.ProviderName req) in
  let callResult :=
    CredentialInfo.mk (CredentialInfo.CredentialName callResult) CredentialHolder
      (ToLower X (CredentialInfo.ProviderName callResult))
      (List.map (fun keyValue => model.mkKeyValue (model.Key keyValue) "************")
                (CredentialInfo.KeyValueInfoList callResult))
      (CredentialInfo.AllConnections callResult) in
  match CloudInfo.CSPs GetCloudInfo !! CredentialInfo.ProviderName callResult with
  | None => fail ("cloudType '" +:+ CredentialInfo.ProviderName callResult
                  +:+ "' not found")
  | Some cspDetail =>
      allRegisteredRegions <- ExecuteHttpRequest GetRegionAll (getRegionAll (spider X)) ;;
      registerRegionConnections allRegisteredRegions callResult
        (CSPDetail.Driver cspDetail) CredentialHolder ;;;
      verifyConnections (CredentialInfo.ProviderName callResult) CredentialHolder ;;;
      setRegionRepresentative ProviderName CredentialHolder ;;;
      verifyRegionRepresentativeAndUpdateZone ProviderName CredentialHolder ;;;
      r <- GetConnConfigList CredentialHolder false false ;;
      check (snd r) ;;;
      ret (CredentialInfo.mk (CredentialInfo.CredentialName callResult)
             (CredentialInfo.CredentialHolder callResult)
             (CredentialInfo.ProviderName callResult)
             (CredentialInfo.KeyValueInfoList callResult)
             (fst r))
  end.

(** [RegisterCredential] *)
Definition RegisterCredential (req : CredentialReq.t) : M CredentialInfo.t :=
  decryptedKeyValueList <- decryptCredential req ;;
  let reqToSpider := credentialForSpider req decryptedKeyValueList in
  callResult <- ExecuteHttpRequest (PostCredential reqToSpider)
                  (postCredential (spider X) reqToSpider) ;;
  registerConnections req callResult.

End WithExtern.

End common.

(** ** The vNet part of the resource package *)

Module resource.

Definition NetworkOnConfiguring : string := "Configuring".
Definition NetworkOnReading : string := "Reading".
Definition NetworkOnUpdating : string := "Updating".
Definition NetworkOnDeleting : string := "Deleting".
Definition NetworkOnRegistering : string := "Registering".
Definition NetworkOnDeregistering : string := "Dergistering".
Definition NetworkAvailable : string := "Available".
Definition NetworkInUse : string := "InUse".
Definition NetworkUnknown : string := "Unknown".
Definition NetworkError : string := "Error".
Definition NetworkErrorOnConfiguring : string := "ErrorOnConfiguring".
Definition NetworkErrorOnReading : string := "ErrorOnReading".
Definition NetworkErrorOnUpdating : string := "ErrorOnUpdating".
Definition NetworkErrorOnDeleting : string := "ErrorOnDeleting".
Definition NetworkErrorOnRegistering : string := "ErrorOnRegistering".

(** [ContainsZone] *)
Definition ContainsZone (zones : list string) (zone : string) : bool :=
  existsb (fun z => String.eqb z zone) zones.

(** The loop of [CreateVNet] over the broker's subnets: every local subnet
    whose [Uuid] is the [NameId] of [sp] takes the broker's values. *)
Definition adoptSubnet (vNetConnectionName : string) (vpcIId : model.IID)
           (sp : spiderSubnetInfo.t) (tb : TbSubnetInfo.t) : TbSubnetInfo.t :=
  if String.eqb (TbSubnetInfo.Uuid tb) (model.NameId (spiderSubnetInfo.IId sp)) then
    TbSubnetInfo.mk
      (TbSubnetInfo.Id tb) (TbSubnetInfo.Name tb) (TbSubnetInfo.Uuid tb)
      vNetConnectionName
      (model.SystemId vpcIId)
      (model.NameId vpcIId)
      NetworkAvailable
      (model.SystemId (spiderSubnetInfo.IId sp))
      (model.NameId (spiderSubnetInfo.IId sp))
      (spiderSubnetInfo.KeyValueList sp)
      (spiderSubnetInfo.TagList sp)
      (spiderSubnetInfo.Zone sp)
      (spiderSubnetInfo.IPv4_CIDR sp)
  else tb.

Definition reconcileSubnets (vNetConnectionName : string) (vpcIId : model.IID)
           (spSubnets : list spiderSubnetInfo.t) (tbSubnets : list TbSubnetInfo.t)
  : list TbSubnetInfo.t :=
  fold_left (fun tbs sp => List.map (adoptSubnet vNetConnectionName vpcIId sp) tbs)
            spSubnets tbSubnets.

Section WithExtern.

Variable X : Extern.

(** [validate.Struct] on a [TbVNetReq]: the field tags, and the
    struct-level validation [TbVNetReqStructLevelValidation], which reports
    what [CheckString] says about the name. *)
Definition validateStruct (vNetReq : TbVNetReq.t) : error :=
  match validateTags X vNetReq with
  | Some msg => Some msg
  | None => common.CheckString (TbVNetReq.Name vNetReq)
  end.

(** [ValidateVNetReq] *)
Definition ValidateVNetReq (vNetReq : TbVNetReq.t) : M unit :=
  check (validateStruct vNetReq) ;;;
  if (List.length (TbVNetReq.SubnetInfoList vNetReq) =? 0)%nat then
    fail "at least one subnet is required"
  else
    match SplitN2 (TbVNetReq.ConnectionName vNetReq) with
    | (_, None) => panic "runtime error: index out of range [1] with length 1"
    | (provider, Some region) =>
        match common.GetRegion X provider region with
        | inl msg => fail msg
        | inr regionDetail =>
            let zones := RegionDetail.Zones regionDetail in
            forM_ (TbVNetReq.SubnetInfoList vNetReq)
              (fun subnetInfo =>
                 if negb (String.eqb (TbSubnetReq.Zone subnetInfo) "")
                    && negb (ContainsZone zones (TbSubnetReq.Zone subnetInfo))
                 then fail ("invalid zone: " +:+ TbSubnetReq.Zone subnetInfo)
                 else ret tt) ;;;
            let subnets :=
              List.map (fun subnetInfo => Network.mk (TbSubnetReq.IPv4_CIDR subnetInfo) [])
                       (TbVNetReq.SubnetInfoList vNetReq) in
            let network := Network.mk (TbVNetReq.CidrBlock vNetReq) subnets in
            check (ValidateNetwork X network)
        end
    end.

(** Modelled from the spec: [CheckResource] is not part of the sources at
    hand.  "Reject duplicate Id in the same namespace": the resource exists
    when its key is in the store. *)
Definition CheckResource (nsId resourceType resourceId : string) : M (bool * error) :=
  kvd <- kvGetKv (common.GenResourceKey nsId resourceType resourceId) ;;
  ret (match kvd with Some _ => true | None => false end, nil_error).

(** The vNet object [CreateVNet] sets up before it looks at the store. *)
Definition newVNetInfo (vNetReq : TbVNetReq.t) (uuid : string) : TbVNetInfo.t :=
  TbVNetInfo.mk (TbVNetReq.Name vNetReq) (TbVNetReq.Name vNetReq) uuid
    (TbVNetReq.ConnectionName vNetReq) "" "" "" "" []
    (TbVNetReq.Description vNetReq) (TbVNetReq.TagList vNetReq) [] "".

(** A subnet of the request with the id drawn for it. *)
Definition newSubnetInfo (subnetInfo : TbSubnetReq.t) (u : string) : TbSubnetInfo.t :=
  TbSubnetInfo.mk (TbSubnetReq.Name subnetInfo) (TbSubnetReq.Name subnetInfo) u
    "" "" "" "" "" "" [] (TbSubnetReq.TagList subnetInfo)
    (TbSubnetReq.Zone subnetInfo) (TbSubnetReq.IPv4_CIDR subnetInfo).

(** The request body [spReqt]: the ids of the vNet and of its subnets are
    the names the broker is given. *)
Definition vpcRequest (vNetReq : TbVNetReq.t) (uuid : string) (vNetInfo : TbVNetInfo.t)
  : spiderCreateVPCRequest.t :=
  spiderCreateVPCRequest.mk (TbVNetReq.ConnectionName vNetReq) ""
    (spiderCreateVPCRequestInfo.mk uuid (TbVNetReq.CidrBlock vNetReq)
       (List.map (fun subnetInfo =>
                    spiderAddSubnetRequestInfo.mk
                      (TbSubnetInfo.Uuid subnetInfo)
                      (TbSubnetInfo.IPv4_CIDR subnetInfo)
                      (TbSubnetInfo.Zone subnetInfo)
                      (TbSubnetInfo.TagList subnetInfo))
                 (TbVNetInfo.SubnetInfoList vNetInfo))
       []).

(** The vNet object after the broker's answer: its values, the subnets
    reconciled, the status set. *)
Definition adoptVpc (spResp : spiderVPCInfo.t) (vNetInfo : TbVNetInfo.t) : TbVNetInfo.t :=
  let subnets :=
    reconcileSubnets (TbVNetInfo.ConnectionName vNetInfo) (spiderVPCInfo.IId spResp)
      (spiderVPCInfo.SubnetInfoList spResp) (TbVNetInfo.SubnetInfoList vNetInfo) in
  let status :=
    if (List.length subnets =? 0)%nat then NetworkAvailable else NetworkInUse in
  TbVNetInfo.mk (TbVNetInfo.Id vNetInfo) (TbVNetInfo.Name vNetInfo)
    (TbVNetInfo.Uuid vNetInfo) (TbVNetInfo.ConnectionName vNetInfo)
    (spiderVPCInfo.IPv4_CIDR spResp) status
    (model.SystemId (spiderVPCInfo.IId spResp))
    (model.NameId (spiderVPCInfo.IId spResp))
    subnets (TbVNetInfo.Description vNetInfo)
    (spiderVPCInfo.TagList spResp) (spiderVPCInfo.KeyValueList spResp)
    (TbVNetInfo.SystemLabel vNetInfo).

(** The end of [CreateVNet]: the vNet and its subnets go to the store, and
    the vNet is read back. *)
Definition saveVNet (nsId : string) (vNetInfo : TbVNetInfo.t) : M TbVNetInfo.t :=
  let vNetKey := common.GenResourceKey nsId model.StrVNet (TbVNetInfo.Id vNetInfo) in
  kvPut vNetKey (DocVNet vNetInfo) ;;;
  forM_ (TbVNetInfo.SubnetInfoList vNetInfo)
    (fun subnetInfo =>
       let subnetKey :=
         common.GenChildResourceKey nsId model.StrSubnet (TbVNetInfo.Id vNetInfo)
           (TbSubnetInfo.Id subnetInfo) in
       kvPut subnetKey (DocSubnet subnetInfo)) ;;;
  vNetKv <- kvGetKv vNetKey ;;
  match vNetKv with
  | None => fail ("does not exist, vNet: " +:+ TbVNetInfo.Id vNetInfo)
  | Some d =>
      match json.UnmarshalVNet d with
      | None => fail json.unmarshalError
      | Some stored => ret stored
      end
  end.

(** [CreateVNet] *)
Definition CreateVNet (nsId : string) (vNetReq : TbVNetReq.t) : M TbVNetInfo.t :=
  let resourceType := model.StrVNet in
  check (common.CheckString nsId) ;;;
  check (validateStruct vNetReq) ;;;
  uuid <- common.GenUid X ;;
  let vNetInfo := newVNetInfo vNetReq uuid in
  let vNetKey := common.GenResourceKey nsId resourceType (TbVNetInfo.Id vNetInfo) in
  chk <- CheckResource nsId resourceType (TbVNetInfo.Id vNetInfo) ;;
  if fst chk then fail ("already exists, vNet: " +:+ TbVNetInfo.Id vNetInfo)
  else
  match snd chk with
  | Some _ =>
      fail ("failed to check if the vNet (" +:+ TbVNetInfo.Id vNetInfo
            +:+ ") exists or not")
  | None =>
      subnetInfoList <-
        mapM (fun subnetInfo => u <- common.GenUid X ;; ret (newSubnetInfo subnetInfo u))
             (TbVNetReq.SubnetInfoList vNetReq) ;;
      let vNetInfo := TbVNetInfo.withSubnetInfoList subnetInfoList vNetInfo in
      let vNetInfo := TbVNetInfo.withStatus NetworkOnConfiguring vNetInfo in
      kvPut vNetKey (DocVNet vNetInfo) ;;;
      let spReqt := vpcRequest vNetReq uuid vNetInfo in
      spResp <- ExecuteHttpRequest (PostVpc spReqt) (postVpc (spider X) spReqt) ;;
      saveVNet nsId (adoptVpc spResp vNetInfo)
  end.

(** Modelled from the spec: [DeleteSubnet] is not part of the sources at
    hand.  "On delete, [...] persist [Deleting]; call broker; on success
    delete the key and any child keys; on failure leave [ErrorOnDeleting]";
    "deleting a non-existent resource yields NotFound; state unchanged". *)
Definition DeleteSubnet (nsId vNetId subnetId : string) : M model.SimpleMsg :=
  let subnetKey := common.GenChildResourceKey nsId model.StrSubnet vNetId subnetId in
  subnetKv <- kvGetKv subnetKey ;;
  match subnetKv with
  | None => fail ("does not exist, subnet: " +:+ subnetId)
  | Some d =>
      match json.UnmarshalSubnet d with
      | None => fail json.unmarshalError
      | Some subnetInfo =>
          kvPut subnetKey (DocSubnet (TbSubnetInfo.withStatus NetworkOnDeleting subnetInfo)) ;;;
          fun w =>
            let call := DeleteVpcSubnet (TbSubnetInfo.CspVNetName subnetInfo)
                          (TbSubnetInfo.CspSubnetName subnetInfo)
                          (TbSubnetInfo.ConnectionName subnetInfo) in
            let ans := deleteVpcSubnet (spider X) (TbSubnetInfo.CspVNetName subnetInfo)
                          (TbSubnetInfo.CspSubnetName subnetInfo)
                          (TbSubnetInfo.ConnectionName subnetInfo) in
            match ExecuteHttpRequest call ans w with
            | (Ok spResp, w') =>
                match ParseBool (spiderBooleanInfoResp.Result spResp) with
                | Some true =>
                    (kvDelete subnetKey ;;;
                     ret (model.mkSimpleMsg
                            ("the subnet (" +:+ subnetId +:+ ") has been deleted"))) w'
                | _ =>
                    (kvPut subnetKey
                       (DocSubnet (TbSubnetInfo.withStatus NetworkErrorOnDeleting subnetInfo)) ;;;
                     fail ("failed to delete the subnet (" +:+ subnetId +:+ ")")) w'
                end
            | (Err msg, w') =>
                (kvPut subnetKey
                   (DocSubnet (TbSubnetInfo.withStatus NetworkErrorOnDeleting subnetInfo)) ;;;
                 fail msg) w'
            | (Panic msg, w') => (Panic msg, w')
            end
      end
  end.

(** The part [DeleteVNet] and [DeregisterVNet] share word for word: the
    checks of the arguments, the guard on stored subnets, the deletion of
    the subnets, the stored vNet set to [Deleting]. *)
Definition prepareDelete (nsId vNetId withSubnets : string) : M (string * TbVNetInfo.t) :=
  let resourceType := model.StrVNet in
  check (common.CheckString nsId) ;;;
  check (common.CheckString vNetId) ;;;
  if negb (String.eqb withSubnets "") && negb (String.eqb withSubnets "true")
     && negb (String.eqb withSubnets "false")
  then fail ("invalid option, withSubnets (" +:+ withSubnets +:+ ")")
  else
  let withSubnets := if String.eqb withSubnets "" then "false" else withSubnets in
  let vNetKey := common.GenResourceKey nsId resourceType vNetId in
  subnetsKv <- kvGetKvList (vNetKey +:+ "/subnet") ;;
  if String.eqb withSubnets "false" && (0 <? List.length subnetsKv)%nat
  then fail ("the vNet (" +:+ vNetId +:+ ") is in-use, may have subnets")
  else
  forM_ subnetsKv
    (fun kvp =>
       match json.UnmarshalSubnet (snd kvp) with
       | None => fail json.unmarshalError
       | Some subnet =>
           DeleteSubnet nsId vNetId (TbSubnetInfo.Id subnet) ;;; ret tt
       end) ;;;
  vNetKv <- kvGetKv vNetKey ;;
  match vNetKv with
  | None => fail ("does not exist, vNet: " +:+ vNetId)
  | Some d =>
      match json.UnmarshalVNet d with
      | None => fail json.unmarshalError
      | Some vNetInfo =>
          let vNetInfo := TbVNetInfo.withStatus NetworkOnDeleting vNetInfo in
          kvPut vNetKey (DocVNet vNetInfo) ;;;
          ret (vNetKey, vNetInfo)
      end
  end.

(** [DeleteVNet] *)
Definition DeleteVNet (nsId vNetId withSubnets : string) : M model.SimpleMsg :=
  p <- prepareDelete nsId vNetId withSubnets ;;
  let '(vNetKey, vNetInfo) := p in
  spResp <- ExecuteHttpRequest
              (DeleteVpc (TbVNetInfo.CspVNetName vNetInfo) (TbVNetInfo.ConnectionName vNetInfo))
              (deleteVpc (spider X) (TbVNetInfo.CspVNetName vNetInfo)
                 (TbVNetInfo.ConnectionName vNetInfo)) ;;
  match ParseBool (spiderBooleanInfoResp.Result spResp) with
  | None => fail (ParseBoolError (spiderBooleanInfoResp.Result spResp))
  | Some false => fail ("failed to delete the vNet (" +:+ vNetId +:+ ")")
  | Some true =>
      kvDelete vNetKey ;;;
      ret (model.mkSimpleMsg ("the vNet (" +:+ vNetId +:+ ") has been deleted"))
  end.

(** [DeregisterVNet] *)
Definition DeregisterVNet (nsId vNetId withSubnets : string) : M model.SimpleMsg :=
  p <- prepareDelete nsId vNetId withSubnets ;;
  let '(vNetKey, vNetInfo) := p in
  spResp <- ExecuteHttpRequest
              (DeleteRegVpc (TbVNetInfo.CspVNetName vNetInfo) (TbVNetInfo.ConnectionName vNetInfo))
              (deleteRegVpc (spider X) (TbVNetInfo.CspVNetName vNetInfo)
                 (TbVNetInfo.ConnectionName vNetInfo)) ;;
  match ParseBool (spiderBooleanInfoResp.Result spResp) with
  | None => fail (ParseBoolError (spiderBooleanInfoResp.Result spResp))
  | Some false => fail ("failed to deregister the vNet (" +:+ vNetId +:+ ")")
  | Some true =>
      kvDelete vNetKey ;;;
      ret (model.mkSimpleMsg ("the vnet (" +:+ vNetId +:+ ") has been deregistered"))
  end.

End WithExtern.

End resource.


(** ** A concrete setting to run the functions in

    One provider ([aws]) with one region and two zones, a broker that
    answers every call, and stand-ins for the libraries: ASCII case
    mapping, the standard base64 alphabet, and a cipher that leaves its
    input as it is. *)

Module Scenario.

Definition lowerByte (c : ascii) : ascii :=
  let n := byteval c in
  if (65 <=? n)%N && (n <=? 90)%N then ascii_of_N (n + 32) else c.

Definition upperByte (c : ascii) : ascii :=
  let n := byteval c in
  if (97 <=? n)%N && (n <=? 122)%N then ascii_of_N (n - 32) else c.

Fixpoint mapString (f : ascii -> ascii) (s : string) : string :=
  match s with
  | EmptyString => EmptyString
  | String c s' => String (f c) (mapString f s')
  end.

Definition ToLower : string -> string := mapString lowerByte.
Definition ToUpper : string -> string := mapString upperByte.
Definition EqualFold (a b : string) : bool := String.eqb (ToLower a) (ToLower b).

(** The standard base64 alphabet. *)
Definition sextet (c : ascii) : option N :=
  let n := byteval c in
  if (65 <=? n)%N && (n <=? 90)%N then Some (n - 65)%N
  else if (97 <=? n)%N && (n <=? 122)%N then Some (n - 71)%N
  else if (48 <=? n)%N && (n <=? 57)%N then Some (n + 4)%N
  else if (n =? 43)%N then Some 62%N
  else if (n =? 47)%N then Some 63%N
  else None.

Fixpoint sextets (l : bytes) : option (list N) :=
  match l with
  | [] => Some []
  | c :: l' =>
      match sextet c, sextets l' with
      | Some v, Some vs => Some (v :: vs)
      | _, _ => None
      end
  end.

Fixpoint unpack (fuel : nat) (vs : list N) : option bytes :=
  match fuel with
  | 0 => None
  | S fuel' =>
      match vs with
      | [] => Some []
      | [_] => None
      | [a; b] => Some [ascii_of_N (N.lor (N.shiftl a 2) (N.shiftr b 4))]
      | [a; b; c] =>
          Some [ascii_of_N (N.lor (N.shiftl a 2) (N.shiftr b 4));
                ascii_of_N (N.lor (N.shiftl (N.land b 15) 4) (N.shiftr c 2))]
      | a :: b :: c :: d :: rest =>
          match unpack fuel' rest with
          | Some out =>
              Some (ascii_of_N (N.lor (N.shiftl a 2) (N.shiftr b 4))
                    :: ascii_of_N (N.lor (N.shiftl (N.land b 15) 4) (N.shiftr c 2))
                    :: ascii_of_N (N.lor (N.shiftl (N.land c 3) 6) d)
                    :: out)
          | None => None
          end
      end
  end.

Definition stripPadding (l : bytes) : bytes :=
  match rev l with
  | "="%char :: "="%char :: r => rev r
  | "="%char :: r => rev r
  | _ => l
  end.

Definition base64Decode (s : string) : string + bytes :=
  let l := List.filter (fun c => negb (Ascii.eqb c (ascii_of_N 10))
                                 && negb (Ascii.eqb c (ascii_of_N 13)))
                       (list_ascii_of_string s) in
  if negb (List.length l mod 4 =? 0)%nat then inl "illegal base64 data"
  else
    match sextets (stripPadding l) with
    | None => inl "illegal base64 data"
    | Some vs =>
        match unpack (S (List.length vs)) vs with
        | Some out => inr out
        | None => inl "illegal base64 data"
        end
    end.

Definition usEast1 : RegionDetail.t :=
  RegionDetail.mk "us-east-1" "us-east-1" "US East (N. Virginia)" ["us-east-1a"; "us-east-1b"].

Definition catalog : CloudInfo.t :=
  CloudInfo.mk {[ "aws" := CSPDetail.mk "aws-driver-v1.0.so" [("us-east-1", usEast1)] ]}.

(** The regions as [RegisterRegionZone] pushes them to the broker. *)
Definition regions : list SpiderRegionZoneInfo.t :=
  [ SpiderRegionZoneInfo.mk "aws-us-east-1" "AWS"
      [model.mkKeyValue "Region" "us-east-1"; model.mkKeyValue "Zone" "us-east-1a"] [];
    SpiderRegionZoneInfo.mk "aws-us-east-1-us-east-1a" "AWS"
      [model.mkKeyValue "Region" "us-east-1"; model.mkKeyValue "Zone" "us-east-1a"]
      ["us-east-1a"; "us-east-1b"];
    SpiderRegionZoneInfo.mk "aws-us-east-1-us-east-1b" "AWS"
      [model.mkKeyValue "Region" "us-east-1"; model.mkKeyValue "Zone" "us-east-1b"]
      ["us-east-1a"; "us-east-1b"] ].

(** A broker that creates what it is asked to and lists subnets in the
    reverse of the order requested. *)
Definition createdSubnet (r : spiderAddSubnetRequestInfo.t) : spiderSubnetInfo.t :=
  spiderSubnetInfo.mk
    (model.mkIID (spiderAddSubnetRequestInfo.Name r)
                 ("subnet-" +:+ spiderAddSubnetRequestInfo.Name r))
    (spiderAddSubnetRequestInfo.Zone r) (spiderAddSubnetRequestInfo.IPv4_CIDR r)
    [] (spiderAddSubnetRequestInfo.TagList r).

Definition createdVpc (r : spiderCreateVPCRequest.t) : spiderVPCInfo.t :=
  let info := spiderCreateVPCRequest.ReqInfo r in
  spiderVPCInfo.mk
    (model.mkIID (spiderCreateVPCRequestInfo.Name info)
                 ("vpc-" +:+ spiderCreateVPCRequestInfo.Name info))
    (spiderCreateVPCRequestInfo.IPv4_CIDR info)
    (rev (List.map createdSubnet (spiderCreateVPCRequestInfo.SubnetInfoList info)))
    [] [].

Definition done : spiderBooleanInfoResp.t := spiderBooleanInfoResp.mk "true".

Definition goodSpider : Spider :=
  mkSpider
    (fun r => Body (createdVpc r))
    (fun _ _ => Body done)
    (fun _ _ => Body done)
    (fun _ _ _ => Body done)
    (fun c => Body c)
    (Body regions)
    (fun c => Body c)
    (fun name =>
       match List.find (fun r => String.eqb (SpiderRegionZoneInfo.RegionName r) name)
                       regions with
       | Some r => Body r
       | None => Failed "region not found"
       end)
    (fun _ => Body tt).

(** A broker that refuses to create or delete networks. *)
Definition refusingSpider : Spider :=
  mkSpider
    (fun _ => Failed "broker: quota exceeded")
    (fun _ _ => Failed "broker: vpc in use")
    (fun _ _ => Failed "broker: vpc in use")
    (fun _ _ _ => Body done)
    (postCredential goodSpider) (getRegionAll goodSpider)
    (postConnectionConfig goodSpider) (getRegionByName goodSpider)
    (getAllKeypair goodSpider).

Definition xid (n : nat) : string := "uid" +:+ pretty n.

(** The tags [validate:"required"] on the name and the connection. *)
Definition validateTags (r : TbVNetReq.t) : error :=
  if String.eqb (TbVNetReq.Name r) "" then Errorf "Name is required"
  else if String.eqb (TbVNetReq.ConnectionName r) "" then Errorf "ConnectionName is required"
  else nil_error.

Definition withSpider (s : Spider) : Extern :=
  mkExtern ToLower ToUpper EqualFold xid validateTags (fun _ => nil_error)
    catalog "admin" s base64Decode (fun _ c => inr c) (fun _ block => block)
    (fun entries => entries).

Definition X : Extern := withSpider goodSpider.
Definition Xrefusing : Extern := withSpider refusingSpider.

Definition emptyWorld : World := mkWorld ∅ ∅ 0 [].

Definition vnet1 : TbVNetReq.t :=
  TbVNetReq.mk "vnet1" "aws-us-east-1" "10.0.0.0/16"
    [ TbSubnetReq.mk "sn1" "10.0.1.0/24" "us-east-1a" [];
      TbSubnetReq.mk "sn2" "10.0.2.0/24" "us-east-1b" [] ]
    "vnet1 managed by CB-Tumblebug" [].

(** A registration request: the AES key is the 16 bytes
    [0123456789abcdef]; the one value is an initial vector of sixteen
    [A]s followed by one block that holds [secret] and ten bytes of
    padding. *)
Definition goodValue : string := "QUFBQUFBQUFBQUFBQUFBQTIkIjMkNUtLS0tLS0tLS0s=".

Definition credentialReq (holder value : string) : CredentialReq.t :=
  CredentialReq.mk holder "aws" "token1" "MDEyMzQ1Njc4OWFiY2RlZg=="
    [model.mkKeyValue "aws_secret_access_key" value].

(** The store after [vnet1] has been created in the namespace [default]. *)
Definition sn1 : TbSubnetInfo.t :=
  TbSubnetInfo.mk "sn1" "sn1" "uid1" "aws-us-east-1" "vpc-uid0" "uid0" "Available"
    "subnet-uid1" "uid1" [] [] "us-east-1a" "10.0.1.0/24".

Definition sn2 : TbSubnetInfo.t :=
  TbSubnetInfo.mk "sn2" "sn2" "uid2" "aws-us-east-1" "vpc-uid0" "uid0" "Available"
    "subnet-uid2" "uid2" [] [] "us-east-1b" "10.0.2.0/24".

Definition vnet1Info : TbVNetInfo.t :=
  TbVNetInfo.mk "vnet1" "vnet1" "uid0" "aws-us-east-1" "10.0.0.0/16" "InUse"
    "vpc-uid0" "uid0" [sn1; sn2] "vnet1 managed by CB-Tumblebug" [] [] "".

Definition vnet1Store : gmap string doc :=
  <["/ns/default/resources/vNet/vnet1/subnet/sn2" := DocSubnet sn2]>
    (<["/ns/default/resources/vNet/vnet1/subnet/sn1" := DocSubnet sn1]>
       (<["/ns/default/resources/vNet/vnet1" := DocVNet vnet1Info]> ∅)).

Definition vnet1World : World := mkWorld vnet1Store ∅ 3 [].

(** An answer of the broker that lists the first subnet asked for twice,
    under two ids. *)
Definition vpcTwice (first second : string) (r : spiderCreateVPCRequest.t)
  : spiderVPCInfo.t :=
  let info := spiderCreateVPCRequest.ReqInfo r in
  let entry (id : string) (s : spiderAddSubnetRequestInfo.t) :=
    spiderSubnetInfo.mk (model.mkIID (spiderAddSubnetRequestInfo.Name s) id)
      (spiderAddSubnetRequestInfo.Zone s) (spiderAddSubnetRequestInfo.IPv4_CIDR s) [] [] in
  spiderVPCInfo.mk
    (model.mkIID (spiderCreateVPCRequestInfo.Name info)
                 ("vpc-" +:+ spiderCreateVPCRequestInfo.Name info))
    (spiderCreateVPCRequestInfo.IPv4_CIDR info)
    (match spiderCreateVPCRequestInfo.SubnetInfoList info with
     | s :: _ => [entry first s; entry second s]
     | [] => []
     end)
    [] [].

(** The answer of [createdVpc] with the subnets in the order requested. *)
Definition createdVpcInOrder (r : spiderCreateVPCRequest.t) : spiderVPCInfo.t :=
  let info := spiderCreateVPCRequest.ReqInfo r in
  spiderVPCInfo.mk
    (model.mkIID (spiderCreateVPCRequestInfo.Name info)
                 ("vpc-" +:+ spiderCreateVPCRequestInfo.Name info))
    (spiderCreateVPCRequestInfo.IPv4_CIDR info)
    (List.map createdSubnet (spiderCreateVPCRequestInfo.SubnetInfoList info))
    [] [].

(** A request without subnets. *)
Definition vnet0 : TbVNetReq.t :=
  TbVNetReq.mk "vnet0" "aws-us-east-1" "10.0.0.0/16" [] "" [].

(** Requests with a key that is not base64, and with values of five and
    of sixteen bytes. *)
Definition badKeyReq : CredentialReq.t :=
  CredentialReq.mk "admin" "aws" "token1" "!!!!"
    [model.mkKeyValue "aws_secret_access_key" goodValue].

Definition shortValue : string := "c2hvcnQ=".
Definition ivOnlyValue : string := "QUFBQUFBQUFBQUFBQUFBQQ==".

Definition withToken (w : World) : World :=
  mkWorld (kv w) (<["token1" := 7%N]> (privateKeyStore w)) (uidCount w) (spiderLog w).

End Scenario.

(** ** Auxiliary definitions of the proofs *)

Section NameMatch.

Import regexp.

(** The rune of an ASCII byte. *)
Definition asc (c : ascii) : rune := mkRune (byteval c) [c].

(** Greedy star over a character class, as a plain recursion. *)
Fixpoint starCls (p : N -> bool) (k : cont) (s : list rune) : option (list rune) :=
  match s with
  | [] => k []
  | c :: s' =>
      if p (code c) then
        match starCls p k s' with
        | Some rest => Some rest
        | None => k s
        end
      else k s
  end.

(** The optional group [[-a-z0-9+]*[a-z0-9]]. *)
Definition lastCls : cont :=
  fun s => match s with
           | c :: s' => if cls_az09 (code c) then Some s' else None
           | [] => None
           end.

Definition group (s : list rune) : option (list rune) := starCls cls_mid lastCls s.

(** The group takes the whole input exactly when everything is an inner
    character and the last one is a letter or a digit. *)
Fixpoint okTail (s : list rune) : bool :=
  match s with
  | [] => false
  | c :: s' =>
      cls_mid (code c) &&
      match s' with
      | [] => cls_az09 (code c)
      | _ => okTail s'
      end
  end.

End NameMatch.

Section VNetAux.

Variable X : Extern.

(** The subnets [CreateVNet] makes when [n] ids have been drawn before. *)
Fixpoint subnetsFrom (n : nat) (reqs : list TbSubnetReq.t) : list TbSubnetInfo.t :=
  match reqs with
  | [] => []
  | r :: rest => resource.newSubnetInfo r (xid X n) :: subnetsFrom (S n) rest
  end.

(** The vNet object [CreateVNet] stores before it calls the broker, when
    [n] ids have been drawn before. *)
Definition configuringVNet (vNetReq : TbVNetReq.t) (n : nat) : TbVNetInfo.t :=
  TbVNetInfo.withStatus resource.NetworkOnConfiguring
    (TbVNetInfo.withSubnetInfoList
       (subnetsFrom (S n) (TbVNetReq.SubnetInfoList vNetReq))
       (resource.newVNetInfo vNetReq (xid X n))).

End VNetAux.

(** The status of the vNet stored under a key. *)
Definition vNetStatus (m : gmap string doc) (key : string) : option string :=
  match m !! key with
  | Some (DocVNet v) => Some (TbVNetInfo.Status v)
  | _ => None
  end.

(** A call that deletes a subnet. *)
Definition isSubnetCall (c : SpiderCall) : bool :=
  match c with
  | DeleteVpcSubnet _ _ _ => true
  | _ => false
  end.

(** [w'] has the log of [w] and then calls that all satisfy [P]. *)
Definition logExt (P : SpiderCall -> Prop) (w w' : World) : Prop :=
  exists l, spiderLog w' = spiderLog w ++ l /\ Forall (fun e => P (fst e)) l.

(** The same setting with another answer of the broker to [POST /vpc]. *)
Definition withPostVpc (f : spiderCreateVPCRequest.t -> answer spiderVPCInfo.t)
           (X : Extern) : Extern :=
  mkExtern (ToLower X) (ToUpper X) (EqualFold X) (xid X) (validateTags X)
    (ValidateNetwork X) (RuntimeCloudInfo X) (DefaultCredentialHolder X)
    (mkSpider f (deleteVpc (spider X)) (deleteRegVpc (spider X))
       (deleteVpcSubnet (spider X)) (postCredential (spider X))
       (getRegionAll (spider X)) (postConnectionConfig (spider X))
       (getRegionByName (spider X)) (getAllKeypair (spider X)))
    (base64Decode X) (DecryptOAEP X) (aesDecryptBlock X) (rangeRegions X).

(** The name the broker returns for a subnet. *)
Definition subnetNameId (sp : spiderSubnetInfo.t) : string :=
  model.NameId (spiderSubnetInfo.IId sp).

(** Two answers of the broker that differ at most in their lists of
    subnets. *)
Definition sameVpc (r1 r2 : spiderVPCInfo.t) : Prop :=
  spiderVPCInfo.IId r1 = spiderVPCInfo.IId r2 /\
  spiderVPCInfo.IPv4_CIDR r1 = spiderVPCInfo.IPv4_CIDR r2 /\
  spiderVPCInfo.TagList r1 = spiderVPCInfo.TagList r2 /\
  spiderVPCInfo.KeyValueList r1 = spiderVPCInfo.KeyValueList r2.

(** The broker deletes every subnet it is asked to. *)
Definition deletesSubnets (X : Extern) : Prop :=
  forall a b c, exists r,
    deleteVpcSubnet (spider X) a b c = Body r /\
    ParseBool (spiderBooleanInfoResp.Result r) = Some true.

(** The broker deletes every vNet it is asked to. *)
Definition deletesVpcs (X : Extern) : Prop :=
  forall a b, exists r,
    deleteVpc (spider X) a b = Body r /\
    ParseBool (spiderBooleanInfoResp.Result r) = Some true.

(** Everything stored under [<vNetKey>/] is a subnet under its own key. *)
Definition subnetsOnlyUnder (nsId vNetId : string) (m : gmap string doc) : Prop :=
  forall k d,
    m !! k = Some d ->
    String.prefix (common.GenResourceKey nsId model.StrVNet vNetId +:+ "/") k = true ->
    exists s, d = DocSubnet s /\
      k = common.GenChildResourceKey nsId model.StrSubnet vNetId (TbSubnetInfo.Id s).

(** The broker's subnet a local subnet is matched with: the one whose
    name is the local [Uuid]. *)
Definition matchByUuid (conn : string) (vpc : model.IID)
           (sps : list spiderSubnetInfo.t) (tb : TbSubnetInfo.t) : TbSubnetInfo.t :=
  match List.find (fun sp => String.eqb (TbSubnetInfo.Uuid tb) (subnetNameId sp)) sps with
  | Some sp => resource.adoptSubnet conn vpc sp tb
  | None => tb
  end.

(** *** Region representatives *)

(** A computation keeps a property of the store, whatever its outcome. *)
Definition keeps {A} (P : gmap string doc -> Prop) (c : M A) : Prop :=
  forall w, P (kv w) -> P (kv (snd (c w))).

(** The connection configuration is in the store. *)
Definition inStore (m : gmap string doc) (c : ConnConfig.t) : Prop :=
  exists k, m !! k = Some (DocConnConfig c).

Section RepresentativeAux.

Variable X : Extern.
Variables (holder provider : string).

(** A connection of the credential holder and of the provider, by the
    tests [GetConnConfigList] and [RegisterCredential] make. *)
Definition ofHolderProvider (c : ConnConfig.t) : bool :=
  EqualFold X (ConnConfig.CredentialHolder c) holder
  && EqualFold X provider (ConnConfig.ProviderName c).

(** No connection of the holder and the provider is a representative. *)
Definition noRepresentative (m : gmap string doc) : Prop :=
  forall k c,
    m !! k = Some (DocConnConfig c) ->
    ofHolderProvider c = true ->
    ConnConfig.RegionRepresentative c = false.

(** Every representative of the holder and the provider sits under the
    key of its name and has the name and the region of one of [elected]. *)
Definition representativesFrom (elected : list ConnConfig.t) (m : gmap string doc) : Prop :=
  forall k c,
    m !! k = Some (DocConnConfig c) ->
    ofHolderProvider c = true ->
    ConnConfig.RegionRepresentative c = true ->
    k = common.GenConnectionKey (ConnConfig.ConfigName c) /\
    exists e, In e elected /\
      ConnConfig.ConfigName e = ConnConfig.ConfigName c /\
      ConnConfig.RegionDetail e = ConnConfig.RegionDetail c.

(** At most one of [elected] for every region. *)
Definition distinctRegions (elected : list ConnConfig.t) : Prop :=
  forall e1 e2,
    In e1 elected -> In e2 elected ->
    RegionDetail.RegionName (ConnConfig.RegionDetail e1) =
    RegionDetail.RegionName (ConnConfig.RegionDetail e2) ->
    ConnConfig.ConfigName e1 = ConnConfig.ConfigName e2.

(** At most one representative of the holder and the provider for every
    region. *)
Definition oneRepresentativePerRegion (m : gmap string doc) : Prop :=
  forall k1 k2 c1 c2,
    m !! k1 = Some (DocConnConfig c1) ->
    m !! k2 = Some (DocConnConfig c2) ->
    ofHolderProvider c1 = true -> ofHolderProvider c2 = true ->
    ConnConfig.RegionRepresentative c1 = true ->
    ConnConfig.RegionRepresentative c2 = true ->
    RegionDetail.RegionName (ConnConfig.RegionDetail c1) =
    RegionDetail.RegionName (ConnConfig.RegionDetail c2) ->
    k1 = k2.

End RepresentativeAux.

(** The error of [GetConnConfigList] on a store: it does not depend on
    the filters. *)
Definition listError (m : gmap string doc) : error :=
  snd (common.decodeConnConfigs
         (kvutil.FilterKvListBy (kvstore.GetKvList "/connection" m) "/connection" 1) []).

(** *** The connections a registration stores anew *)

Section RegisteredAnew.

Variable X : Extern.

(** The request [RegisterCredential] sends to register the connection of
    a region, for the holder, the provider and the name of the credential
    as the broker answered it. *)
Definition connectionRequest (holder providerName credentialName Driver : string)
           (region : SpiderRegionZoneInfo.t) : SpiderConnConfig.t :=
  let configName :=
    if String.eqb holder (DefaultCredentialHolder X)
    then SpiderRegionZoneInfo.RegionName region
    else holder +:+ "-" +:+ SpiderRegionZoneInfo.RegionName region in
  SpiderConnConfig.mk configName (ToUpper X providerName) Driver credentialName
    (SpiderRegionZoneInfo.RegionName region).

(** The keys under which the registration loop of [RegisterCredential]
    stores a connection: for every region of the broker's list with the
    provider of the credential, the key of the name in the broker's answer
    to the request for it.  [RegisterConnectionConfig] stores the
    connection there, with [RegionRepresentative] and [Verified] false,
    unless it returns an error, which ends the loop and the call. *)
Definition loopKeys (regions : list SpiderRegionZoneInfo.t)
           (holder providerName credentialName Driver : string) : list string :=
  flat_map
    (fun region =>
       if String.eqb (ToLower X (SpiderRegionZoneInfo.ProviderName region)) providerName
       then
         match postConnectionConfig (spider X)
                 (connectionRequest holder providerName credentialName Driver region) with
         | Body answer => [common.GenConnectionKey (SpiderConnConfig.ConfigName answer)]
         | Failed _ => []
         end
       else [])
    regions.

(** These keys for a call of [RegisterCredential], when the call gets to
    the loop: the credential is decrypted, the broker takes it, the
    provider it answers with is in the catalog and the broker lists its
    regions. *)
Definition registeredKeys (req : CredentialReq.t) (w : World) : option (list string) :=
  match common.decryptCredential X req w with
  | (Ok decryptedKeyValueList, _) =>
      match postCredential (spider X)
              (common.credentialForSpider X req decryptedKeyValueList) with
      | Body callResult =>
          let providerName := ToLower X (CredentialInfo.ProviderName callResult) in
          match CloudInfo.CSPs (RuntimeCloudInfo X) !! providerName,
                getRegionAll (spider X) with
          | Some cspDetail, Body regions =>
              Some (loopKeys regions (ToLower X (CredentialReq.CredentialHolder req))
                      providerName (CredentialInfo.CredentialName callResult)
                      (CSPDetail.Driver cspDetail))
          | _, _ => None
          end
      | Failed _ => None
      end
  | _ => None
  end.

Variables (holder provider : string).

(** A connection that counts for the holder and the provider, or will
    when the verification of [RegisterCredential] has stored it with its
    provider name in lower case. *)
Definition mayBeOfHolderProvider (c : ConnConfig.t) : bool :=
  EqualFold X (ConnConfig.CredentialHolder c) holder
  && (EqualFold X provider (ConnConfig.ProviderName c)
      || EqualFold X provider (ToLower X (ConnConfig.ProviderName c))).

(** Every such connection that is a representative is stored under one
    of the keys. *)
Definition registeredAnew (keys : list string) (m : gmap string doc) : Prop :=
  forall k c,
    m !! k = Some (DocConnConfig c) ->
    mayBeOfHolderProvider c = true ->
    ConnConfig.RegionRepresentative c = true ->
    In k keys.

(** The same, as a check of the entries of the store. *)
Definition registeredAnewb (keys : list string) (m : gmap string doc) : bool :=
  forallb
    (fun kd =>
       match snd kd with
       | DocConnConfig c =>
           negb (mayBeOfHolderProvider c && ConnConfig.RegionRepresentative c)
           || existsb (String.eqb (fst kd)) keys
       | _ => true
       end)
    (map_to_list m).

End RegisteredAnew.

(** Every representative of [m] is in [m0], under the same key. *)
Definition representativesOf (m0 m : gmap string doc) : Prop :=
  forall k c,
    m !! k = Some (DocConnConfig c) ->
    ConnConfig.RegionRepresentative c = true ->
    m0 !! k = Some (DocConnConfig c).

(** The result is an error or a panic. *)
Definition failed {A} (r : result A) : Prop := forall a, r <> Ok a.

Module Reregistration.

(** A connection of [admin] for [aws] under a name that the broker does
    not list, left as the representative of [us-east-1]. *)
Definition legacy : ConnConfig.t :=
  ConnConfig.mk "aws-virginia" "aws" "aws-driver-v1.0.so" "aws" "admin"
    "aws-us-east-1-us-east-1a" (RegionZoneInfo.mk "us-east-1" "us-east-1a")
    Scenario.usEast1 true true.

Definition legacyWorld : World :=
  mkWorld (<["/connection/aws-virginia" := DocConnConfig legacy]> ∅)
          (<["token1" := 7%N]> ∅) 0 [].

(** The world after [admin] has registered a credential for [aws], with
    a key for the next registration. *)
Definition registeredWorld : World :=
  Scenario.withToken
    (snd (common.RegisterCredential Scenario.X
            (Scenario.credentialReq "admin" Scenario.goodValue)
            (Scenario.withToken Scenario.emptyWorld))).

End Reregistration.

(** *** More auxiliary definitions *)

(** The broker creates every network it is asked to. *)
Definition createsVpcs (X : Extern) : Prop :=
  forall r, exists resp, postVpc (spider X) r = Body resp.

(** The subnet the zone check stops at: the first one that names a zone
    the region does not have. *)
Definition badZone (zones : list string) (subnetInfo : TbSubnetReq.t) : bool :=
  negb (String.eqb (TbSubnetReq.Zone subnetInfo) "")
  && negb (resource.ContainsZone zones (TbSubnetReq.Zone subnetInfo)).

(** A computation leaves the map of private keys as it is, whatever its
    outcome. *)
Definition keepsKeys {A} (c : M A) : Prop :=
  forall w, privateKeyStore (snd (c w)) = privateKeyStore w.

(** Hypotheses of the form [String.eqb s "" = b] as equations on [s]. *)
Ltac empty_or_not :=
  repeat match goal with
         | E : String.eqb _ "" = true |- _ => apply String.eqb_eq in E
         | E : String.eqb _ "" = false |- _ => apply String.eqb_neq in E
         end.

(** ** [Regexp.ReplaceAllString]

    The matches are taken from left to right, each one the leftmost match
    at or after the end of the one before; the text between them is kept
    and every match gives way to the replacement, except an empty match
    right at the end of another match.  After an empty match the search
    goes on one rune further.  The replacement text is taken as it is
    (it holds no [$]). *)

Module regexpReplace.

Import regexp.

Fixpoint replaceAll (r : regex) (repl : bytes) (fuel : nat) (afterMatch : bool)
         (s : list rune) : bytes :=
  match fuel with
  | 0 => List.concat (List.map raw s)
  | S fuel' =>
      let copyOne :=
        match s with
        | [] => []
        | c :: s' => raw c ++ replaceAll r repl fuel' false s'
        end in
      match matchK r s (fun rest => Some rest) with
      | Some rest =>
          if (List.length rest <? List.length s)%nat
          then repl ++ replaceAll r repl fuel' true rest
          else (if afterMatch then [] else repl) ++ copyOne
      | None => copyOne
      end
  end.

(** One step for every rune and one for the end of the input. *)
Definition ReplaceAllString (r : regex) (src repl : string) : string :=
  let s := decode src in
  string_of_list_ascii
    (replaceAll r (list_ascii_of_string repl) (S (List.length s)) false s).

End regexpReplace.

(** ** The catalog of Kubernetes clusters

    The structs are declared in the model package, which is not part of
    the sources at hand; the records carry the fields the functions read.
    The two structs of available versions and node images have two string
    fields each and are pairs here.  The map [CSPs] is the list of its
    entries in the order in which [range] visits them. *)

Module K8sClusterVersionDetail.
Record t := mk { Region : list string; Available : list (string * string) }.
End K8sClusterVersionDetail.

Module K8sClusterNodeImageDetail.
Record t := mk { Region : list string; Available : list (string * string) }.
End K8sClusterNodeImageDetail.

Module K8sClusterDetail.
Record t := mk {
  NodeGroupsOnCreation : bool;
  Version : list K8sClusterVersionDetail.t;
  NodeImage : list K8sClusterNodeImageDetail.t
}.
End K8sClusterDetail.

Module K8sClusterInfo.
Record t := mk { CSPs : list (string * K8sClusterDetail.t) }.
End K8sClusterInfo.

(** What the Kubernetes functions take from outside this file: the
    catalog loaded at start and two constants of the model package. *)
Record K8sAssets := mkK8sAssets {
  RuntimeK8sClusterInfo : K8sClusterInfo.t;
  StrEmpty : string;
  StrCommon : string
}.

(** ** The requests of the catalog bootstrap

    [RegisterCloudInfo] and [RegisterRegionZone] talk to the broker only;
    a run of theirs is the error it returns beside the requests it has
    sent, in order. *)

Module CloudDriverInfo.
Record t := mk {
  DriverName : string;
  ProviderName : string;
  DriverLibFileName : string
}.
End CloudDriverInfo.

Inductive BootCall :=
| PostDriver (d : CloudDriverInfo.t)
| PostRegion (r : SpiderRegionZoneInfo.t).

(** The broker's answers to them. *)
Record BootSpider := mkBootSpider {
  postDriver : CloudDriverInfo.t -> answer CloudDriverInfo.t;
  postRegion : SpiderRegionZoneInfo.t -> answer SpiderRegionZoneInfo.t
}.

(** ** Random numbers and Go's [int]

    [math/rand] is a source outside the program: [Intn] for a positive
    argument, and the slice that the [k]-th [rand.Shuffle] of a call leaves
    behind.  An [int] has 64 bits and wraps around. *)

Definition wrap64 (z : Z) : Z := ((z + 2 ^ 63) mod 2 ^ 64 - 2 ^ 63)%Z.

Record Rand := mkRand {
  Intn : Z -> Z;
  Shuffle : nat -> list regexp.rune -> list regexp.rune
}.

(** ** More of common/utility.go *)

Module utility.

(** [GenMciKey] *)
Definition GenMciKey (nsId mciId vmId : string) : string :=
  if negb (String.eqb vmId "") then
    "/ns/" +:+ nsId +:+ "/mci/" +:+ mciId +:+ "/vm/" +:+ vmId
  else if negb (String.eqb mciId "") then
    "/ns/" +:+ nsId +:+ "/mci/" +:+ mciId
  else if negb (String.eqb nsId "") then
    "/ns/" +:+ nsId
  else "".

(** [GenMciSubGroupKey] *)
Definition GenMciSubGroupKey (nsId mciId groupId : string) : string :=
  "/ns/" +:+ nsId +:+ "/mci/" +:+ mciId +:+ "/subgroup/" +:+ groupId.

(** [GenMciPolicyKey] *)
Definition GenMciPolicyKey (nsId mciId vmId : string) : string :=
  if negb (String.eqb vmId "") then
    "/ns/" +:+ nsId +:+ "/policy/mci/" +:+ mciId +:+ "/vm/" +:+ vmId
  else if negb (String.eqb mciId "") then
    "/ns/" +:+ nsId +:+ "/policy/mci/" +:+ mciId
  else if negb (String.eqb nsId "") then
    "/ns/" +:+ nsId
  else "".

(** [GetConnConfig] *)
Definition GetConnConfig (ConnConfigName : string) : M ConnConfig.t :=
  let key := common.GenConnectionKey ConnConfigName in
  keyValue <- kvGetKv key ;;
  match keyValue with
  | None => fail ("Cannot find the model.ConnConfig " +:+ key)
  | Some d =>
      match json.UnmarshalConnConfig d with
      | None => fail json.unmarshalError
      | Some connConfig => ret connConfig
      end
  end.

(** [strings.TrimPrefix] *)
Definition TrimPrefix (s prefix : string) : string :=
  match kvutil.dropPrefix prefix s with
  | Some rest => rest
  | None => s
  end.

(** [GetChildIdList] (without what it prints) *)
Definition GetChildIdList (key : string) : M (list string) :=
  keyValue <- kvGetKvList key ;;
  let keyValue := kvutil.FilterKvListBy keyValue key 1 in
  ret (List.map (fun v => TrimPrefix (fst v) (key +:+ "/")) keyValue).

(** [GetObjectList] *)
Definition GetObjectList (key : string) : M (list string) :=
  keyValue <- kvGetKvList key ;;
  ret (List.map fst keyValue).

(** [DeleteObject] *)
Definition DeleteObject (key : string) : M unit :=
  kvDelete key.

(** [DeleteObjects] *)
Definition DeleteObjects (key : string) : M unit :=
  keyValue <- kvGetKvList key ;;
  forM_ keyValue (fun v => kvDelete (fst v)).

(** *** Kubernetes cluster versions and node images *)

Section Kubernetes.

Variable X : Extern.
Variable K : K8sAssets.

(** [getK8sClusterDetail]: [None] is the nil pointer. *)
Definition getK8sClusterDetail (providerName : string) : option K8sClusterDetail.t :=
  match List.find (fun e => String.eqb (ToLower X (fst e)) providerName)
                  (K8sClusterInfo.CSPs (RuntimeK8sClusterInfo K)) with
  | Some e => Some (snd e)
  | None => None
  end.

(** The inner loop of [GetAvailableK8sClusterVersion] over the regions of
    one entry: [Some] is what the function returns from inside the loop,
    [None] that the loop has ended. *)
Fixpoint versionInRegions (regionName : string) (regions : list string)
         (available : list (string * string)) : option (list (string * string)) :=
  match regions with
  | [] => None
  | region :: rest =>
      let region := ToLower X region in
      if EqualFold X region regionName then
        if (List.length available =? 0)%nat then Some [(StrEmpty K, StrEmpty K)]
        else Some available
      else versionInRegions regionName rest available
  end.

Fixpoint versionInEntries (regionName : string) (entries : list K8sClusterVersionDetail.t)
  : option (list (string * string)) :=
  match entries with
  | [] => None
  | versionDetail :: rest =>
      match versionInRegions regionName (K8sClusterVersionDetail.Region versionDetail)
              (K8sClusterVersionDetail.Available versionDetail) with
      | Some availableVersion => Some availableVersion
      | None => versionInEntries regionName rest
      end
  end.

(** [GetAvailableK8sClusterVersion] *)
Definition GetAvailableK8sClusterVersion (providerName regionName : string)
  : string + list (string * string) :=
  let providerName := ToLower X providerName in
  let regionName := ToLower X regionName in
  match getK8sClusterDetail providerName with
  | None => inl ("unsupported provider(" +:+ providerName +:+ ") for kubernetes cluster")
  | Some k8sClusterDetail =>
      match versionInEntries regionName (K8sClusterDetail.Version k8sClusterDetail) with
      | Some availableVersion => inr availableVersion
      | None =>
          match versionInEntries (StrCommon K) (K8sClusterDetail.Version k8sClusterDetail) with
          | Some availableVersion => inr availableVersion
          | None => inl ("no entry for provider(" +:+ providerName +:+ "):region("
                         +:+ regionName +:+ ")")
          end
      end
  end.

(** How the inner loop of [GetAvailableK8sClusterNodeImage] ends. *)
Inductive loopEnd :=
| Returned (availableNodeImage : list (string * string))
| Broken
| Exhausted.

Fixpoint nodeImageInRegions (regionName : string) (regions : list string)
         (available : list (string * string)) : loopEnd :=
  match regions with
  | [] => Exhausted
  | region :: rest =>
      let region := ToLower X region in
      if EqualFold X region regionName then
        if (List.length available =? 0)%nat then Broken
        else Returned available
      else nodeImageInRegions regionName rest available
  end.

Fixpoint nodeImageInEntries (regionName : string)
         (entries : list K8sClusterNodeImageDetail.t) : option (list (string * string)) :=
  match entries with
  | [] => None
  | nodeImageDetail :: rest =>
      match nodeImageInRegions regionName (K8sClusterNodeImageDetail.Region nodeImageDetail)
              (K8sClusterNodeImageDetail.Available nodeImageDetail) with
      | Returned availableNodeImage => Some availableNodeImage
      | Broken | Exhausted => nodeImageInEntries regionName rest
      end
  end.

(** [GetAvailableK8sClusterNodeImage] *)
Definition GetAvailableK8sClusterNodeImage (providerName regionName : string)
  : string + list (string * string) :=
  let providerName := ToLower X providerName in
  let regionName := ToLower X regionName in
  match getK8sClusterDetail providerName with
  | None => inl ("unsupported provider(" +:+ providerName +:+ ") for kubernetes cluster")
  | Some k8sClusterDetail =>
      match nodeImageInEntries regionName (K8sClusterDetail.NodeImage k8sClusterDetail) with
      | Some availableNodeImage => inr availableNodeImage
      | None =>
          match nodeImageInEntries (StrCommon K)
                  (K8sClusterDetail.NodeImage k8sClusterDetail) with
          | Some availableNodeImage => inr availableNodeImage
          | None =>
              inl ("no available kubernetes cluster node image for region(" +:+ regionName
                   +:+ ") of provider(" +:+ providerName +:+ ")")
          end
      end
  end.

(** [strconv.FormatBool] *)
Definition FormatBool (b : bool) : string := if b then "true" else "false".

(** [CheckNodeGroupsOnK8sCreation]: the [Result] of the answer. *)
Definition CheckNodeGroupsOnK8sCreation (providerName : string) : string + string :=
  let providerName := ToLower X providerName in
  match getK8sClusterDetail providerName with
  | None => inl ("unsupported provider(" +:+ providerName +:+ ") for kubernetes cluster")
  | Some k8sClusterDetail =>
      inr (FormatBool (K8sClusterDetail.NodeGroupsOnCreation k8sClusterDetail))
  end.

End Kubernetes.

(** *** Registration of the catalog with the broker *)

Section Bootstrap.

Variable X : Extern.
Variable S : BootSpider.

(** [RuntimeCloudInfo.CSPs[providerName]]: the zero value for a provider
    that is not in the map. *)
Definition cspOf (providerName : string) : CSPDetail.t :=
  match CloudInfo.CSPs (RuntimeCloudInfo X) !! providerName with
  | Some cspDetail => cspDetail
  | None => CSPDetail.mk "" []
  end.

(** [RuntimeCloudInfo.CSPs[providerName].Regions[regionName]] *)
Definition regionOf (providerName regionName : string) : RegionDetail.t :=
  match List.find (fun kr => String.eqb (fst kr) regionName)
                  (CSPDetail.Regions (cspOf providerName)) with
  | Some kr => snd kr
  | None => RegionDetail.empty
  end.

(** The loop of [RegisterRegionZone] over the zones of the region. *)
Fixpoint registerZones (providerName regionName : string) (zones : list string)
  : error * list BootCall :=
  match zones with
  | [] => (nil_error, [])
  | zoneName :: rest =>
      let requestBody :=
        SpiderRegionZoneInfo.mk
          (providerName +:+ "-" +:+ regionName +:+ "-" +:+ zoneName)
          (ToUpper X providerName)
          [model.mkKeyValue "Region" (RegionDetail.RegionId (regionOf providerName regionName));
           model.mkKeyValue "Zone" zoneName]
          (RegionDetail.Zones (regionOf providerName regionName)) in
      match postRegion S requestBody with
      | Failed msg => (Errorf msg, [PostRegion requestBody])
      | Body _ =>
          let '(err, sent) := registerZones providerName regionName rest in
          (err, PostRegion requestBody :: sent)
      end
  end.

(** [RegisterRegionZone] *)
Definition RegisterRegionZone (providerName regionName : string) : error * list BootCall :=
  let region := regionOf providerName regionName in
  let keyValueInfoList :=
    match RegionDetail.Zones region with
    | zone0 :: _ =>
        [model.mkKeyValue "Region" (RegionDetail.RegionId region);
         model.mkKeyValue "Zone" zone0]
    | [] =>
        [model.mkKeyValue "Region" (RegionDetail.RegionId region);
         model.mkKeyValue "Zone" "N/A"]
    end in
  let requestBody :=
    SpiderRegionZoneInfo.mk (providerName +:+ "-" +:+ regionName) (ToUpper X providerName)
      keyValueInfoList [] in
  match postRegion S requestBody with
  | Failed msg => (Errorf msg, [PostRegion requestBody])
  | Body _ =>
      let '(err, sent) := registerZones providerName regionName (RegionDetail.Zones region) in
      (err, PostRegion requestBody :: sent)
  end.

(** The loop of [RegisterCloudInfo] over the regions of the provider. *)
Fixpoint registerRegions (providerName : string) (regionNames : list string)
  : error * list BootCall :=
  match regionNames with
  | [] => (nil_error, [])
  | regionName :: rest =>
      match RegisterRegionZone providerName regionName with
      | (Some msg, sent) => (Some msg, sent)
      | (None, sent) =>
          let '(err, more) := registerRegions providerName rest in
          (err, sent ++ more)
      end
  end.

(** [RegisterCloudInfo] *)
Definition RegisterCloudInfo (providerName : string) : error * list BootCall :=
  let driverName := CSPDetail.Driver (cspOf providerName) in
  let requestBody := CloudDriverInfo.mk driverName (ToUpper X providerName) driverName in
  match postDriver S requestBody with
  | Failed msg => (Errorf msg, [PostDriver requestBody])
  | Body _ =>
      let '(err, sent) :=
        registerRegions providerName
          (List.map fst (CSPDetail.Regions (cspOf providerName))) in
      (err, PostDriver requestBody :: sent)
  end.

(** [RegisterAllCloudInfo]: the providers in the order in which [range]
    visits the map, here the order of [map_to_list]; the error of a
    provider is logged and dropped. *)
Definition RegisterAllCloudInfo : error * list BootCall :=
  (nil_error,
   List.concat
     (List.map (fun providerName => snd (RegisterCloudInfo providerName))
               (List.map fst (map_to_list (CloudInfo.CSPs (RuntimeCloudInfo X)))))).

End Bootstrap.

(** *** Random passwords and pauses *)

Section Random.

Variable X : Extern.
Variable R : Rand.

(** [string(r)] for a rune: a rune that was decoded from valid bytes is
    encoded to these bytes, and the replacement character U+FFFD to its
    three bytes. *)
Definition encodeRune (r : regexp.rune) : bytes :=
  if (regexp.code r =? utf8.RuneError)%N
  then [ascii_of_N 239; ascii_of_N 191; ascii_of_N 189]
  else regexp.raw r.

(** [string(shuff)] for a slice of runes *)
Definition stringOfRunes (rs : list regexp.rune) : string :=
  string_of_list_ascii (List.concat (List.map encodeRune rs)).

(** [GenRandomPassword]: the slice [randomString[0 : length-len(charset)]]
    panics when its upper bound is negative or beyond the string. *)
Definition GenRandomPassword (length : Z) : M string :=
  let charset := "A1!$" in
  let shuff := Shuffle R 0 (regexp.decode charset) in
  randomString <- common.GenUid X ;;
  randomString <-
    (if (Z.of_nat (String.length randomString) <? length)%Z
     then (more <- common.GenUid X ;; ret (randomString +:+ more))
     else ret randomString) ;;
  let hi := wrap64 (length - Z.of_nat (String.length charset)) in
  if (hi <? 0)%Z || (Z.of_nat (String.length randomString) <? hi)%Z
  then panic "runtime error: slice bounds out of range"
  else
    let reducedString :=
      string_of_list_ascii (firstn (Z.to_nat hi) (list_ascii_of_string randomString)) in
    let reducedString := reducedString +:+ stringOfRunes shuff in
    let shuff := Shuffle R 1 (regexp.decode reducedString) in
    ret (stringOfRunes shuff).

(** [RandomSleep]: the duration handed to [time.Sleep], in nanoseconds;
    [rand.Intn] panics on an argument that is not positive. *)
Definition RandomSleep (from to : Z) : result Z :=
  let '(from, to) := if (to <? from)%Z then (to, from) else (from, to) in
  let t := wrap64 (to - from) in
  let n := wrap64 (t * 1000) in
  if (n <=? 0)%Z then Panic "invalid argument to Intn"
  else Ok (wrap64 (Intn R n * 1000000)).

End Random.

Section WithExtern.

Variable X : Extern.

(** [[^a-zA-Z0-9]] *)
Definition nonAlnum (c : N) : bool :=
  negb (regexp.lower c || regexp.upper c || regexp.digit c).

(** The compiled pattern ["[^a-zA-Z0-9]+"]. *)
Definition idPattern : regexp.regex :=
  regexp.Concat (regexp.Class nonAlnum) (regexp.Star (regexp.Class nonAlnum)).

(** [ChangeIdString]: the slice [changedString[len(changedString)-1:]]
    panics on the empty string. *)
Definition ChangeIdString (name : string) : result string :=
  let changedString :=
    ToLower X (regexpReplace.ReplaceAllString idPattern name "-") in
  match list.last (list_ascii_of_string changedString) with
  | None => Panic "runtime error: slice bounds out of range [-1:]"
  | Some c =>
      if Ascii.eqb c "-" then Ok (changedString +:+ "r") else Ok changedString
  end.

(** [strings.ReplaceAll] for [old] and [new] of one byte each. *)
Fixpoint replaceByte (old new : ascii) (s : string) : string :=
  match s with
  | EmptyString => EmptyString
  | String c s' => String (if Ascii.eqb c old then new else c) (replaceByte old new s')
  end.

(** [ToLower] *)
Definition ToLower (name : string) : string :=
  let out := replaceByte "_" "-" name in
  let out := replaceByte " " "-" out in
  ToLower X out.

End WithExtern.

End utility.

(** *** Keys and their segments *)

(** No byte of the string is a slash. *)
Definition noSlash (s : string) : bool :=
  forallb (fun c => negb (Ascii.eqb c "/")) (list_ascii_of_string s).

(** The segments of a key between its slashes. *)
Fixpoint segments (s : string) : list string :=
  match s with
  | EmptyString => [EmptyString]
  | String c s' =>
      if Ascii.eqb c "/" then EmptyString :: segments s'
      else match segments s' with
           | [] => [String c EmptyString]
           | seg :: rest => String c seg :: rest
           end
  end.

(** An ASCII name that [CheckString] accepts. *)
Definition validId (s : string) : Prop :=
  IdRule.isAscii s = true /\ common.CheckString s = nil_error.

(** *** Auxiliary definitions for [ChangeIdString] and [ToLower] *)

(** On ASCII text [strings.ToLower] turns the letters [A-Z] into [a-z]
    and keeps every other byte. *)
Definition lowersAscii (X : Extern) : Prop :=
  forall s, IdRule.isAscii s = true -> ToLower X s = Scenario.ToLower s.

(** What the replacement of [ChangeIdString] makes of the runes: one dash
    for every run of runes that are no letters and no digits. *)
Fixpoint squeeze (inRun : bool) (s : list regexp.rune) : bytes :=
  match s with
  | [] => []
  | c :: s' =>
      if utility.nonAlnum (regexp.code c)
      then (if inRun then [] else ["-"%char]) ++ squeeze true s'
      else regexp.raw c ++ squeeze false s'
  end.

(** The input after the run of runes that are no letters and no digits. *)
Fixpoint dropRun (s : list regexp.rune) : list regexp.rune :=
  match s with
  | [] => []
  | c :: s' => if utility.nonAlnum (regexp.code c) then dropRun s' else s
  end.

(** A rune that is a letter or a digit is one byte, the byte of its
    code. *)
Definition plainRune (r : regexp.rune) : Prop :=
  utility.nonAlnum (regexp.code r) = false ->
  exists c, regexp.raw r = [c] /\ byteval c = regexp.code r.

Definition lowerAlnum (c : ascii) : bool :=
  let n := byteval c in
  ((97 <=? n)%N && (n <=? 122)%N) || ((48 <=? n)%N && (n <=? 57)%N).

(** Every byte satisfies [a] or is a dash right before a byte that does;
    with [trail] the last byte may be a dash too. *)
Fixpoint dashesInside (a : ascii -> bool) (trail : bool) (l : bytes) : bool :=
  match l with
  | [] => true
  | c :: l' =>
      (a c || (Ascii.eqb c "-" && match l' with
                                  | [] => trail
                                  | c' :: _ => a c'
                                  end))
      && dashesInside a trail l'
  end.

(** A text that is not empty, holds lower-case letters, digits and single
    dashes only, and does not end in a dash. *)
Definition normalId (s : string) : bool :=
  negb (String.eqb s "") && dashesInside lowerAlnum false (list_ascii_of_string s).

(** All bytes. *)
Definition allAscii : list ascii := List.map ascii_of_nat (List.seq 0 256).

(** Of a sequence of two or more bytes that [DecodeRune] accepts, the
    first two bytes alone put the rune at 128 or above. *)
Definition leadsHigh (c0 c1 : ascii) : bool :=
  let p0 := byteval c0 in
  let b1 := byteval c1 in
  match utf8.seqLen p0 with
  | 0 => true
  | sz =>
      (b1 <? utf8.acceptLo p0)%N || (utf8.acceptHi p0 <? b1)%N ||
      if (sz <=? 2)%nat then (2 <=? N.land p0 31)%N
      else if (sz <=? 3)%nat then (1 <=? N.land p0 15)%N || (2 <=? utf8.low6 b1)%N
      else (1 <=? N.land p0 7)%N || (1 <=? utf8.low6 b1)%N
  end.

(** What [ToLower] makes of one byte of an ASCII text. *)
Definition lowerDashed (c : ascii) : ascii :=
  let c := if Ascii.eqb c "_" then "-"%char else c in
  let c := if Ascii.eqb c " " then "-"%char else c in
  Scenario.lowerByte c.

(** An upper-case letter. *)
Definition upperLetter (c : ascii) : bool :=
  let n := byteval c in (65 <=? n)%N && (n <=? 90)%N.

(** One of the regions folds to the name looked for, as the loops of the
    Kubernetes functions test it. *)
Definition listsRegion (X : Extern) (regionName : string) (regions : list string) : bool :=
  existsb (fun region => EqualFold X (ToLower X region) regionName) regions.

(** The requests [RegisterRegionZone] has to send for a region: one
    under the name [<provider>-<region>], with the first zone of the
    region (or [N/A]) and no list of zones, and one for every zone under
    the name [<provider>-<region>-<zone>], with the list of all zones. *)
Definition regionRequests (X : Extern) (providerName regionName : string)
  : list SpiderRegionZoneInfo.t :=
  let region := utility.regionOf X providerName regionName in
  let keyValues := fun zone =>
    [model.mkKeyValue "Region" (RegionDetail.RegionId region);
     model.mkKeyValue "Zone" zone] in
  SpiderRegionZoneInfo.mk (providerName +:+ "-" +:+ regionName) (ToUpper X providerName)
    (keyValues (List.hd "N/A" (RegionDetail.Zones region))) []
  :: List.map (fun zoneName =>
                 SpiderRegionZoneInfo.mk
                   (providerName +:+ "-" +:+ regionName +:+ "-" +:+ zoneName)
                   (ToUpper X providerName) (keyValues zoneName)
                   (RegionDetail.Zones region))
              (RegionDetail.Zones region).

(** The broker takes every region it is sent. *)
Definition takesRegions (S : BootSpider) : Prop :=
  forall r, exists a, postRegion S r = Body a.

(** The broker refuses every driver it is sent. *)
Definition refusesDrivers (S : BootSpider) : Prop :=
  forall d, exists msg, postDriver S d = Failed msg.

(** [rand.Intn] returns a number below its argument, and [rand.Shuffle]
    rearranges the slice. *)
Definition fairRand (R : Rand) : Prop :=
  (forall n, (0 < n)%Z -> (0 <= Intn R n < n)%Z) /\
  (forall k l, Permutation l (Shuffle R k l)).

(** A [range] over a map of regions visits every entry once. *)
Definition rangesEntries (X : Extern) : Prop :=
  forall entries, Permutation entries (rangeRegions X entries).

(** The ids of package xid: twenty ASCII characters. *)
Definition xidIds (X : Extern) : Prop :=
  forall n, String.length (xid X n) = 20%nat /\ IdRule.isAscii (xid X n) = true.

(** A value of an [int]. *)
Definition isInt (z : Z) : Prop := (- 2 ^ 63 <= z < 2 ^ 63)%Z.

(** More settings to run the functions in. *)
Module Cases.

(** A broker that answers every request to delete a network, and says
    that it has not deleted it. *)
Definition denyingSpider : Spider :=
  mkSpider
    (postVpc Scenario.goodSpider)
    (fun _ _ => Body (spiderBooleanInfoResp.mk "false"))
    (fun _ _ => Body (spiderBooleanInfoResp.mk "false"))
    (deleteVpcSubnet Scenario.goodSpider)
    (postCredential Scenario.goodSpider) (getRegionAll Scenario.goodSpider)
    (postConnectionConfig Scenario.goodSpider) (getRegionByName Scenario.goodSpider)
    (getAllKeypair Scenario.goodSpider).

Definition Xdenying : Extern := Scenario.withSpider denyingSpider.

(** A broker that refuses to delete a subnet. *)
Definition subnetKeepingSpider : Spider :=
  mkSpider
    (postVpc Scenario.goodSpider)
    (deleteVpc Scenario.goodSpider)
    (deleteRegVpc Scenario.goodSpider)
    (fun _ _ _ => Failed "broker: subnet in use")
    (postCredential Scenario.goodSpider) (getRegionAll Scenario.goodSpider)
    (postConnectionConfig Scenario.goodSpider) (getRegionByName Scenario.goodSpider)
    (getAllKeypair Scenario.goodSpider).

Definition XsubnetKeeping : Extern := Scenario.withSpider subnetKeepingSpider.

(** A vNet without subnets in the namespace [default]. *)
Definition vnet0Info : TbVNetInfo.t :=
  TbVNetInfo.mk "vnet0" "vnet0" "uid0" "aws-us-east-1" "10.0.0.0/16" "Available"
    "vpc-uid0" "uid0" [] "" [] [] "".

Definition vnet0World : World :=
  mkWorld (<["/ns/default/resources/vNet/vnet0" := DocVNet vnet0Info]> ∅) ∅ 1 [].

(** A request whose connection name has no dash. *)
Definition vnetNoDash : TbVNetReq.t :=
  TbVNetReq.mk "vnet1" "aws" "10.0.0.0/16"
    [ TbSubnetReq.mk "sn1" "10.0.1.0/24" "" [] ] "" [].

(** The connection configuration of the region [us-east-1] of [aws], as
    [RegisterCredential] makes it for the holder [admin]. *)
Definition awsEast : ConnConfig.t :=
  ConnConfig.mk "aws-us-east-1" "AWS" "aws-driver-v1.0.so" "aws" "admin" "aws-us-east-1"
    (RegionZoneInfo.mk "" "") RegionDetail.empty false false.

(** A catalog of Kubernetes clusters: for [aws], versions for every
    region and none for [us-east-1], node images for every region and an
    empty list for [us-east-1]. *)
Definition k8s : K8sAssets :=
  mkK8sAssets
    (K8sClusterInfo.mk
       [("AWS",
         K8sClusterDetail.mk true
           [ K8sClusterVersionDetail.mk ["common"] [("1.30", "1.30")];
             K8sClusterVersionDetail.mk ["us-east-1"] [] ]
           [ K8sClusterNodeImageDetail.mk ["us-east-1"] [];
             K8sClusterNodeImageDetail.mk ["common"] [("default", "")] ])])
    "empty" "common".

(** A broker that takes every driver and every region, one that takes
    no driver, and one that takes every region but those of the zone
    [us-east-1b]. *)
Definition bootAll : BootSpider := mkBootSpider (fun d => Body d) (fun r => Body r).

Definition bootNoDriver : BootSpider :=
  mkBootSpider (fun _ => Failed "broker: driver file missing") (fun r => Body r).

Definition bootNoZoneB : BootSpider :=
  mkBootSpider (fun d => Body d)
    (fun r => if String.eqb (SpiderRegionZoneInfo.RegionName r) "aws-us-east-1-us-east-1b"
              then Failed "broker: unknown zone" else Body r).

(** A source of random numbers that always gives the largest number and
    turns the slice around, and ids of twenty characters. *)
Definition rand : Rand := mkRand (fun n => (n - 1)%Z) (fun _ => @rev regexp.rune).

Definition digitChar (n : nat) : ascii :=
  match n with
  | 0 => "0" | 1 => "1" | 2 => "2" | 3 => "3" | 4 => "4"
  | 5 => "5" | 6 => "6" | 7 => "7" | 8 => "8" | _ => "9"
  end%char.

Definition xid20 (n : nat) : string :=
  "cn5qg0dbsu7mfbres5" +:+
  String (digitChar ((n / 10) mod 10)) (String (digitChar (n mod 10)) "").

Definition X20 : Extern :=
  mkExtern Scenario.ToLower Scenario.ToUpper Scenario.EqualFold xid20
    Scenario.validateTags (fun _ => nil_error) Scenario.catalog "admin"
    Scenario.goodSpider Scenario.base64Decode (fun _ c => inr c) (fun _ block => block)
    (fun entries => entries).

End Cases.


(** ** More of resource/vnet.go: a vNet registered and read *)

(** Modelled from its use: the struct is in the model package, which is not
    part of the sources at hand; these are the fields [RegisterVNet] reads. *)
Module TbRegisterVNetReq.
Record t := mk {
  ConnectionName : string;
  CspVNetId : string;
  Description : string;
  Name : string
}.
End TbRegisterVNetReq.

Module spiderVPCRegisterRequestInfo.
Record t := mk { Name : string; CSPId : string }.
End spiderVPCRegisterRequestInfo.

Module spiderVPCRegisterRequest.
Record t := mk {
  ConnectionName : string;
  ReqInfo : spiderVPCRegisterRequestInfo.t
}.
End spiderVPCRegisterRequest.

(** What [RegisterVNet] and [GetVNet] take from outside beside [Extern]:
    [validate.Struct] on a registration request, and the answers of the
    broker to [POST /regvpc] and to [GET /vpc/<name>?ConnectionName=<c>]. *)
Record VNetExtern := mkVNetExtern {
  validateRegisterReq : TbRegisterVNetReq.t -> error;
  postRegVpc : spiderVPCRegisterRequest.t -> answer spiderVPCInfo.t;
  getVpc : string -> string -> answer spiderVPCInfo.t
}.

(** [common.ExecuteHttpRequest] for these two calls: the error to return
    or the decoded body.  The log of [World] keeps the calls of the
    functions above only. *)
Definition request {A} (a : answer A) : M A :=
  fun w =>
    match a with
    | Failed msg => (Err msg, w)
    | Body b => (Ok b, w)
    end.

(** [fmt.Sprintf("%02d", n)] for a number that is not negative *)
Definition pad2 (n : nat) : string :=
  if (n <? 10)%nat then "0" +:+ pretty n else pretty n.

Module vnet.

Section WithExtern.

Variable X : Extern.
Variable V : VNetExtern.

(** The vNet object [RegisterVNet] stores before it calls the broker: the
    fields taken from the request, the id drawn for it and the status
    [Registering]. *)
Definition registeringVNet (vNetRegisterReq : TbRegisterVNetReq.t) (uuid : string)
  : TbVNetInfo.t :=
  TbVNetInfo.mk (TbRegisterVNetReq.Name vNetRegisterReq)
    (TbRegisterVNetReq.Name vNetRegisterReq) uuid
    (TbRegisterVNetReq.ConnectionName vNetRegisterReq) ""
    resource.NetworkOnRegistering "" "" []
    (TbRegisterVNetReq.Description vNetRegisterReq) [] [] "".

(** The request body [spReqt] of [RegisterVNet]. *)
Definition registerRequest (vNetRegisterReq : TbRegisterVNetReq.t) (name : string)
  : spiderVPCRegisterRequest.t :=
  spiderVPCRegisterRequest.mk (TbRegisterVNetReq.ConnectionName vNetRegisterReq)
    (spiderVPCRegisterRequestInfo.mk name (TbRegisterVNetReq.CspVNetId vNetRegisterReq)).

(** The vNet object with the values of the broker's answer; the status and
    the subnets stay. *)
Definition withVpc (spResp : spiderVPCInfo.t) (vNetInfo : TbVNetInfo.t) : TbVNetInfo.t :=
  TbVNetInfo.mk (TbVNetInfo.Id vNetInfo) (TbVNetInfo.Name vNetInfo)
    (TbVNetInfo.Uuid vNetInfo) (TbVNetInfo.ConnectionName vNetInfo)
    (spiderVPCInfo.IPv4_CIDR spResp) (TbVNetInfo.Status vNetInfo)
    (model.SystemId (spiderVPCInfo.IId spResp))
    (model.NameId (spiderVPCInfo.IId spResp))
    (TbVNetInfo.SubnetInfoList vNetInfo) (TbVNetInfo.Description vNetInfo)
    (spiderVPCInfo.TagList spResp) (spiderVPCInfo.KeyValueList spResp)
    (TbVNetInfo.SystemLabel vNetInfo).

Definition withSystemLabel (l : string) (v : TbVNetInfo.t) : TbVNetInfo.t :=
  TbVNetInfo.mk (TbVNetInfo.Id v) (TbVNetInfo.Name v) (TbVNetInfo.Uuid v)
    (TbVNetInfo.ConnectionName v) (TbVNetInfo.CidrBlock v) (TbVNetInfo.Status v)
    (TbVNetInfo.CspVNetId v) (TbVNetInfo.CspVNetName v) (TbVNetInfo.SubnetInfoList v)
    (TbVNetInfo.Description v) (TbVNetInfo.TagList v) (TbVNetInfo.KeyValueList v) l.

(** The local subnet made of the [i]-th subnet of the broker's answer,
    counted from zero. *)
Definition registeredSubnet (connectionName : string) (spResp : spiderVPCInfo.t)
           (i : nat) (spSubnetInfo : spiderSubnetInfo.t) : TbSubnetInfo.t :=
  TbSubnetInfo.mk
    ("reg-subnet-" +:+ pad2 (i + 1)) ("reg-subnet-" +:+ pad2 (i + 1)) ""
    connectionName
    (model.SystemId (spiderVPCInfo.IId spResp))
    (model.NameId (spiderVPCInfo.IId spResp))
    resource.NetworkUnknown
    (model.SystemId (spiderSubnetInfo.IId spSubnetInfo))
    (model.NameId (spiderSubnetInfo.IId spSubnetInfo))
    (spiderSubnetInfo.KeyValueList spSubnetInfo)
    (spiderSubnetInfo.TagList spSubnetInfo)
    (spiderSubnetInfo.Zone spSubnetInfo)
    (spiderSubnetInfo.IPv4_CIDR spSubnetInfo).

(** The loop of [RegisterVNet] over the broker's subnets, from index [i]:
    each one is appended to the list of the vNet and stored. *)
Fixpoint registerSubnets (nsId vNetId connectionName : string) (spResp : spiderVPCInfo.t)
         (i : nat) (l : list spiderSubnetInfo.t) : M (list TbSubnetInfo.t) :=
  match l with
  | [] => ret []
  | spSubnetInfo :: l' =>
      let subnet := registeredSubnet connectionName spResp i spSubnetInfo in
      let subnetKey :=
        common.GenChildResourceKey nsId model.StrSubnet vNetId (TbSubnetInfo.Id subnet) in
      kvPut subnetKey (DocSubnet subnet) ;;;
      rest <- registerSubnets nsId vNetId connectionName spResp (S i) l' ;;
      ret (subnet :: rest)
  end.

(** [RegisterVNet].  At its end the stored text is decoded into the vNet
    object and an error of the decoding is only logged: the object is
    returned as it is then. *)
Definition RegisterVNet (nsId : string) (vNetRegisterReq : TbRegisterVNetReq.t)
  : M TbVNetInfo.t :=
  let resourceType := model.StrVNet in
  check (common.CheckString nsId) ;;;
  check (validateRegisterReq V vNetRegisterReq) ;;;
  uuid <- common.GenUid X ;;
  let vNetInfo := registeringVNet vNetRegisterReq uuid in
  let vNetKey :=
    common.GenResourceKey nsId resourceType (TbRegisterVNetReq.Name vNetRegisterReq) in
  chk <- resource.CheckResource nsId resourceType (TbRegisterVNetReq.Name vNetRegisterReq) ;;
  if fst chk then
    fail ("already exists, vNet: " +:+ TbRegisterVNetReq.Name vNetRegisterReq)
  else
  match snd chk with
  | Some _ =>
      fail ("failed to check if the vNet (" +:+ TbRegisterVNetReq.Name vNetRegisterReq
            +:+ ") exists or not")
  | None =>
      kvPut vNetKey (DocVNet vNetInfo) ;;;
      name <- common.GenUid X ;;
      let spReqt := registerRequest vNetRegisterReq name in
      spResp <- request (postRegVpc V spReqt) ;;
      let vNetInfo := withVpc spResp vNetInfo in
      let vNetInfo :=
        if String.eqb (TbRegisterVNetReq.CspVNetId vNetRegisterReq) ""
        then withSystemLabel "Registered from CB-Spider resource" vNetInfo
        else withSystemLabel "Registered from CSP resource" vNetInfo in
      subnets <- registerSubnets nsId (TbVNetInfo.Id vNetInfo)
                   (TbVNetInfo.ConnectionName vNetInfo) spResp 0
                   (spiderVPCInfo.SubnetInfoList spResp) ;;
      let vNetInfo := TbVNetInfo.withSubnetInfoList subnets vNetInfo in
      let vNetInfo := TbVNetInfo.withStatus resource.NetworkAvailable vNetInfo in
      kvPut vNetKey (DocVNet vNetInfo) ;;;
      keyValue <- kvGetKv vNetKey ;;
      match keyValue with
      | None => fail ("does not exist, vNet: " +:+ TbRegisterVNetReq.Name vNetRegisterReq)
      | Some d =>
          match json.UnmarshalVNet d with
          | None => ret vNetInfo
          | Some stored => ret stored
          end
      end
  end.

(** [GetVNet] *)
Definition GetVNet (nsId vNetId : string) : M TbVNetInfo.t :=
  let resourceType := model.StrVNet in
  let vNetKey := common.GenResourceKey nsId resourceType vNetId in
  check (common.CheckString nsId) ;;;
  check (common.CheckString vNetId) ;;;
  keyValue <- kvGetKv vNetKey ;;
  match keyValue with
  | None => fail ("does not exist, vNet: " +:+ vNetId)
  | Some d =>
      match json.UnmarshalVNet d with
      | None => fail json.unmarshalError
      | Some vNetInfo =>
          spResp <- request (getVpc V (TbVNetInfo.CspVNetName vNetInfo)
                               (TbVNetInfo.ConnectionName vNetInfo)) ;;
          let vNetInfo := withVpc spResp vNetInfo in
          kvPut vNetKey (DocVNet vNetInfo) ;;;
          ret vNetInfo
      end
  end.

End WithExtern.

End vnet.

(** The number a string of decimal digits stands for, after [acc]. *)
Fixpoint decValue (acc : N) (s : string) : N :=
  match s with
  | EmptyString => acc
  | String c s' => decValue (acc * 10 + (byteval c - 48))%N s'
  end.

(** The local subnets made of the broker's subnets, the first one with
    index [i]. *)
Fixpoint registeredSubnets (connectionName : string) (spResp : spiderVPCInfo.t)
         (i : nat) (l : list spiderSubnetInfo.t) : list TbSubnetInfo.t :=
  match l with
  | [] => []
  | sp :: l' =>
      vnet.registeredSubnet connectionName spResp i sp
      :: registeredSubnets connectionName spResp (S i) l'
  end.

(** *** Brokers for registration *)

Module RegCases.

Definition subnetA : spiderSubnetInfo.t :=
  spiderSubnetInfo.mk (model.mkIID "subnet-a" "subnet-0a1") "us-east-1a" "10.0.1.0/24" [] [].

Definition subnetB : spiderSubnetInfo.t :=
  spiderSubnetInfo.mk (model.mkIID "subnet-b" "subnet-0b2") "us-east-1b" "10.0.2.0/24" [] [].

Definition vpc : spiderVPCInfo.t :=
  spiderVPCInfo.mk (model.mkIID "uid1" "vpc-0123") "10.0.0.0/16" [subnetA; subnetB] [] [].

(** A broker that registers every network with the two subnets above,
    and one that is down. *)
Definition broker : VNetExtern :=
  mkVNetExtern (fun _ => nil_error) (fun _ => Body vpc) (fun _ _ => Body vpc).

Definition brokerDown : VNetExtern :=
  mkVNetExtern (fun _ => nil_error) (fun _ => Failed "broker: connection refused")
    (fun _ _ => Failed "broker: connection refused").

Definition req : TbRegisterVNetReq.t :=
  TbRegisterVNetReq.mk "aws-us-east-1" "vpc-0123" "a network made by hand" "vnet0".

End RegCases.
(* ================================================================== *)
(** * Properties *)

Example CheckString_kelvin :
common.CheckString (String (ascii_of_N 226) (String (ascii_of_N 132) (String (ascii_of_N 170) ""))) = nil_error.
Proof. vm_compute. reflexivity. Qed.

Example CheckString_a_plus_b : common.CheckString "a+b" = nil_error.
Proof. vm_compute. reflexivity. Qed.

Example CheckString_samples :
common.CheckString "a" = nil_error /\ common.CheckString "a--b" = nil_error /\
common.CheckString "1a" <> nil_error /\ common.CheckString "a-" <> nil_error /\
common.CheckString "" <> nil_error.
Proof. vm_compute. repeat split; discriminate. Qed.

(** ** The regexp engine on the name pattern *)

Section NamePattern.

Import regexp.


Lemma byteval_lt_256 c : (byteval c < 256)%N.
Proof. apply N_ascii_bounded. Qed.

Lemma runesOf_ascii p : forall fuel,
  forallb (fun c => (byteval c <? 128)%N) p = true ->
  (List.length p <= fuel)%nat ->
  runesOf fuel p = List.map asc p.
Proof.
  induction p as [|c p IH]; intros fuel Hp Hf.
  - destruct fuel; reflexivity.
  - destruct fuel as [|fuel]; [simpl in Hf; lia|].
    simpl in Hp. apply andb_prop in Hp as [Hc Hp].
    cbn [runesOf]. unfold utf8.DecodeRune, utf8.RuneSelf. rewrite Hc.
    cbn [firstn skipn List.map]. f_equal. apply IH; [exact Hp|simpl in Hf; lia].
Qed.

Lemma decode_ascii s :
  IdRule.isAscii s = true -> decode s = List.map asc (list_ascii_of_string s).
Proof. intros H. unfold decode. apply runesOf_ascii; [exact H|lia]. Qed.

Lemma concat_raw_asc l : List.concat (List.map raw (List.map asc l)) = l.
Proof. induction l as [|c l IH]; simpl; [reflexivity|now rewrite IH]. Qed.


Lemma starLoop_class p k : forall fuel s,
  (List.length s <= fuel)%nat ->
  starLoop (matchK (Class p)) k fuel s = starCls p k s.
Proof.
  induction fuel as [|fuel IH]; intros s Hs.
  - destruct s; [reflexivity|simpl in Hs; lia].
  - destruct s as [|c s']; [reflexivity|].
    cbn [starLoop matchK starCls]. destruct (p (code c)); [|reflexivity].
    replace (List.length s' <? List.length (c :: s'))%nat with true
      by (symmetry; apply Nat.ltb_lt; simpl; lia).
    rewrite IH by (simpl in Hs; lia). reflexivity.
Qed.


Lemma matchK_namePattern s :
  matchK common.namePattern s (fun rest => Some rest) =
  match s with
  | c :: s' =>
      if cls_az (code c) then
        match group s' with
        | Some rest => Some rest
        | None => Some s'
        end
      else None
  | [] => None
  end.
Proof.
  destruct s as [|c s']; [reflexivity|].
  unfold common.namePattern. cbn [matchK]. destruct (cls_az (code c)); [|reflexivity].
  unfold group. rewrite <- (starLoop_class cls_mid lastCls (List.length s') s') by lia.
  reflexivity.
Qed.

Lemma az09_mid c : cls_az09 c = true -> cls_mid c = true.
Proof.
  unfold cls_az09, cls_mid. intros H. apply orb_prop in H as [H|H]; rewrite H;
    rewrite ?orb_true_r; reflexivity.
Qed.

(** What is left after the group is shorter than its input. *)
Lemma group_shorter s : forall rest,
  group s = Some rest -> (List.length rest < List.length s)%nat.
Proof.
  unfold group. induction s as [|c s IH]; intros rest H.
  - discriminate.
  - cbn [starCls] in H. destruct (cls_mid (code c)).
    + destruct (starCls cls_mid lastCls s) as [r|] eqn:E.
      * inversion H; subst. specialize (IH _ eq_refl). simpl. lia.
      * cbn [lastCls] in H. destruct (cls_az09 (code c)); inversion H; subst. simpl. lia.
    + cbn [lastCls] in H. destruct (cls_az09 (code c)); inversion H; subst. simpl. lia.
Qed.


Lemma group_all s : group s = Some [] <-> okTail s = true.
Proof.
  unfold group. induction s as [|c s IH].
  - cbn. split; discriminate.
  - cbn [starCls okTail]. destruct (cls_mid (code c)) eqn:Hm; cbn [andb].
    + destruct s as [|c' s'].
      * cbn. destruct (cls_az09 (code c)); split; congruence.
      * destruct (starCls cls_mid lastCls (c' :: s')) as [r|] eqn:E.
        -- rewrite <- IH. split; congruence.
        -- cbn [lastCls]. destruct (cls_az09 (code c)); split; intros H.
           ++ inversion H.
           ++ apply IH in H. discriminate.
           ++ discriminate.
           ++ apply IH in H. discriminate.
    + cbn [lastCls]. destruct (cls_az09 (code c)) eqn:Ha.
      * apply az09_mid in Ha. congruence.
      * split; discriminate.
Qed.

Lemma findRunes_length r : forall s,
  (List.length (findRunes r s) <= List.length s)%nat.
Proof.
  induction s as [|c s IH]; cbn [findRunes];
    destruct (matchK r _ _); try (rewrite length_firstn; lia); simpl; lia.
Qed.

Lemma okTail_asc c0 l :
  l <> [] ->
  okTail (List.map asc l) =
  forallb IdRule.innerPlus l && IdRule.alnum (List.last l c0).
Proof.
  assert (Hmid : forall c, cls_mid (code (asc c)) = IdRule.innerPlus c).
  { intros c. unfold cls_mid, IdRule.innerPlus, IdRule.alnum, IdRule.letter,
      IdRule.digit, IdRule.dash, IdRule.plus, foldedLetter, lower, upper, digit.
    cbn [asc code]. pose proof (byteval_lt_256 c).
    replace (byteval c =? 383)%N with false by (symmetry; apply N.eqb_neq; lia).
    replace (byteval c =? 8490)%N with false by (symmetry; apply N.eqb_neq; lia).
    destruct (byteval c =? 45)%N, (byteval c =? 43)%N,
      ((97 <=? byteval c)%N && (byteval c <=? 122)%N),
      ((65 <=? byteval c)%N && (byteval c <=? 90)%N),
      ((48 <=? byteval c)%N && (byteval c <=? 57)%N); reflexivity. }
  assert (Hlast : forall c, cls_az09 (code (asc c)) = IdRule.alnum c).
  { intros c. unfold cls_az09, IdRule.alnum, IdRule.letter, IdRule.digit,
      foldedLetter, lower, upper, digit.
    cbn [asc code]. pose proof (byteval_lt_256 c).
    replace (byteval c =? 383)%N with false by (symmetry; apply N.eqb_neq; lia).
    replace (byteval c =? 8490)%N with false by (symmetry; apply N.eqb_neq; lia).
    rewrite !orb_false_r. reflexivity. }
  induction l as [|c l IH]; intros Hne; [congruence|].
  destruct l as [|c' l'].
  - cbn [List.map okTail forallb List.last]. rewrite Hmid, Hlast, andb_true_r. reflexivity.
  - change (okTail (List.map asc (c :: c' :: l')))
      with (cls_mid (code (asc c)) && okTail (List.map asc (c' :: l'))).
    rewrite IH by discriminate. rewrite Hmid.
    change (forallb IdRule.innerPlus (c :: c' :: l'))
      with (IdRule.innerPlus c && forallb IdRule.innerPlus (c' :: l')).
    change (List.last (c :: c' :: l') c0) with (List.last (c' :: l') c0).
    rewrite andb_assoc. reflexivity.
Qed.

Lemma az_asc c : cls_az (code (asc c)) = IdRule.letter c.
Proof.
  unfold cls_az, IdRule.letter, foldedLetter, lower, upper. cbn [asc code].
  pose proof (byteval_lt_256 c).
  replace (byteval c =? 383)%N with false by (symmetry; apply N.eqb_neq; lia).
  replace (byteval c =? 8490)%N with false by (symmetry; apply N.eqb_neq; lia).
  rewrite !orb_false_r. reflexivity.
Qed.

Lemma text_asc l : text (List.map asc l) = string_of_list_ascii l.
Proof. unfold text. now rewrite concat_raw_asc. Qed.

Lemma string_of_list_ascii_inj l1 l2 :
  string_of_list_ascii l1 = string_of_list_ascii l2 -> l1 = l2.
Proof.
  intros H. rewrite <- (list_ascii_of_string_of_list_ascii l1),
    <- (list_ascii_of_string_of_list_ascii l2). now rewrite H.
Qed.

Lemma text_firstn_asc n l :
  text (firstn n (List.map asc l)) = string_of_list_ascii l <-> (List.length l <= n)%nat.
Proof.
  rewrite firstn_map, text_asc. split.
  - intros H. apply string_of_list_ascii_inj in H.
    apply (f_equal (@List.length ascii)) in H. rewrite length_firstn in H. lia.
  - intros H. now rewrite firstn_all2.
Qed.

Lemma findRunes_asc r : forall l,
  exists l', findRunes r (List.map asc l) = List.map asc l' /\
             (List.length l' <= List.length l)%nat.
Proof.
  induction l as [|c l IH]; cbn [List.map findRunes].
  - destruct (matchK r [] _); exists []; split; try reflexivity; simpl; lia.
  - destruct (matchK r (asc c :: List.map asc l) _).
    + exists (firstn (List.length (asc c :: List.map asc l) - List.length l0) (c :: l)).
      split; [change (asc c :: List.map asc l) with (List.map asc (c :: l)); now rewrite firstn_map|rewrite length_firstn; lia].
    + destruct IH as (l' & E & Hlen). exists l'. split; [exact E|simpl; lia].
Qed.

(** On input decoded from ASCII, the leftmost match is the whole input
    exactly when it starts with a letter and the group takes all the
    rest. *)
Lemma findRunes_whole c rest :
  text (findRunes common.namePattern (List.map asc (c :: rest))) =
    string_of_list_ascii (c :: rest) <->
  IdRule.letter c = true /\ (rest = [] \/ okTail (List.map asc rest) = true).
Proof.
  cbn [List.map findRunes]. rewrite matchK_namePattern. rewrite az_asc.
  destruct (IdRule.letter c) eqn:Hl.
  - change (asc c :: List.map asc rest) with (List.map asc (c :: rest)).
    destruct (group (List.map asc rest)) as [r|] eqn:Hg.
    + pose proof (group_shorter _ _ Hg) as Hlen.
      rewrite text_firstn_asc. rewrite !length_map in *. cbn [List.length].
      split.
      * intros H. assert (r = []) by (destruct r; [reflexivity|simpl in H; lia]).
        subst r. split; [reflexivity|right; now apply group_all].
      * intros [_ [Hr|Hr]].
        -- subst rest. simpl in Hlen. lia.
        -- apply group_all in Hr. rewrite Hr in Hg. inversion Hg. simpl. lia.
    + rewrite text_firstn_asc. rewrite !length_map. cbn [List.length].
      split.
      * intros H. split; [reflexivity|left]. destruct rest; [reflexivity|simpl in H; lia].
      * intros [_ [Hr|Hr]].
        -- subst rest. simpl. lia.
        -- apply group_all in Hr. congruence.
  - split; [|intros [H _]; discriminate].
    intros H. exfalso.
    destruct (findRunes_asc common.namePattern rest) as (l' & E & Hlen).
    rewrite E, text_asc in H. apply string_of_list_ascii_inj in H.
    subst l'. simpl in Hlen. lia.
Qed.

End NamePattern.

Lemma CheckString_ascii (s : string) :
  IdRule.isAscii s = true ->
  (common.CheckString s = nil_error <-> IdRule.matchesPlus s = true).
Proof.
  intros Hs. unfold common.CheckString, IdRule.matchesPlus, IdRule.matchesWith.
  destruct (String.eqb s "") eqn:He.
  - apply String.eqb_eq in He. subst s. cbn. split; discriminate.
  - unfold regexp.FindString. rewrite (decode_ascii s Hs).
    destruct (list_ascii_of_string s) as [|c rest] eqn:El.
    + apply (f_equal string_of_list_ascii) in El.
      rewrite string_of_list_ascii_of_string in El. subst s. discriminate.
    + assert (Es : s = string_of_list_ascii (c :: rest))
        by (rewrite <- El; now rewrite string_of_list_ascii_of_string).
      pose proof (findRunes_whole c rest) as Hw. rewrite <- Es in Hw.
      destruct (String.eqb (regexp.text (regexp.findRunes common.namePattern
                                            (List.map asc (c :: rest)))) s) eqn:Hf; cbn [negb].
      * apply String.eqb_eq in Hf. apply Hw in Hf as [Hl Hr].
        split; [intros _|reflexivity]. rewrite Hl. cbn [andb].
        destruct rest as [|c' rest']; [reflexivity|].
        destruct Hr as [Hr|Hr]; [discriminate|].
        rewrite <- (okTail_asc c) by discriminate. exact Hr.
      * apply String.eqb_neq in Hf. split; [discriminate|].
        intros H. exfalso. apply Hf. apply Hw.
        apply andb_prop in H as [Hl Hr]. split; [exact Hl|].
        destruct rest as [|c' rest']; [left; reflexivity|right].
        rewrite (okTail_asc c) by discriminate. exact Hr.
Qed.

(** ** Validation and duplicate detection *)

Section VNetGuards.

Variable X : Extern.

Lemma ValidateVNetReq_no_subnet_run (vNetReq : TbVNetReq.t) (w : World) :
  TbVNetReq.SubnetInfoList vNetReq = [] ->
  resource.ValidateVNetReq X vNetReq w =
  match resource.validateStruct X vNetReq with
  | Some msg => (Err msg, w)
  | None => (Err "at least one subnet is required", w)
  end.
Proof.
  intros Hl. unfold resource.ValidateVNetReq, bind, check.
  destruct (resource.validateStruct X vNetReq) as [msg|]; [reflexivity|].
  cbn [ret]. rewrite Hl. reflexivity.
Qed.

Lemma CreateVNet_duplicate_run (nsId : string) (vNetReq : TbVNetReq.t) (w : World) (d : doc) :
  kv w !! common.GenResourceKey nsId model.StrVNet (TbVNetReq.Name vNetReq) = Some d ->
  resource.CreateVNet X nsId vNetReq w =
  match common.CheckString nsId with
  | Some msg => (Err msg, w)
  | None =>
      match resource.validateStruct X vNetReq with
      | Some msg => (Err msg, w)
      | None =>
          (Err ("already exists, vNet: " +:+ TbVNetReq.Name vNetReq),
           mkWorld (kv w) (privateKeyStore w) (S (uidCount w)) (spiderLog w))
      end
  end.
Proof.
  intros Hd. unfold resource.CreateVNet, bind, check.
  destruct (common.CheckString nsId) as [msg|]; [reflexivity|]. cbn [ret].
  destruct (resource.validateStruct X vNetReq) as [msg|]; [reflexivity|]. cbn [ret].
  unfold common.GenUid, resource.CheckResource, bind, kvGetKv, kvstore.GetKv,
    resource.newVNetInfo.
  cbn [kv TbVNetInfo.Id]. rewrite Hd. reflexivity.
Qed.

End VNetGuards.

(** ** Runs of [CreateVNet] *)

Section VNetRuns.

Variable X : Extern.

Lemma mapM_newSubnets (reqs : list TbSubnetReq.t) : forall w,
  mapM (fun subnetInfo => u <- common.GenUid X ;; ret (resource.newSubnetInfo subnetInfo u))
       reqs w =
  (Ok (subnetsFrom X (uidCount w) reqs),
   mkWorld (kv w) (privateKeyStore w) (uidCount w + List.length reqs) (spiderLog w)).
Proof.
  induction reqs as [|r reqs IH]; intros w.
  - cbn. rewrite Nat.add_0_r. destruct w; reflexivity.
  - cbn [mapM]. unfold bind at 1. unfold bind at 1. unfold common.GenUid at 1.
    cbn [ret]. unfold bind at 1. rewrite IH. cbn [ret uidCount kv privateKeyStore spiderLog subnetsFrom List.length].
    rewrite Nat.add_succ_r. reflexivity.
Qed.

(** Up to the broker's answer, a run of [CreateVNet] on a free name is
    fixed: the vNet is stored as [Configuring], then the broker is
    called. *)
Lemma CreateVNet_run (nsId : string) (vNetReq : TbVNetReq.t) (w : World) :
  common.CheckString nsId = nil_error ->
  resource.validateStruct X vNetReq = nil_error ->
  kv w !! common.GenResourceKey nsId model.StrVNet (TbVNetReq.Name vNetReq) = None ->
  let vNetKey := common.GenResourceKey nsId model.StrVNet (TbVNetReq.Name vNetReq) in
  let vNetInfo := configuringVNet X vNetReq (uidCount w) in
  let spReqt := resource.vpcRequest vNetReq (xid X (uidCount w)) vNetInfo in
  let kv1 := <[vNetKey := DocVNet vNetInfo]> (kv w) in
  let w1 := mkWorld kv1 (privateKeyStore w)
              (S (uidCount w) + List.length (TbVNetReq.SubnetInfoList vNetReq))
              (spiderLog w ++ [(PostVpc spReqt, kv1)]) in
  resource.CreateVNet X nsId vNetReq w =
  match postVpc (spider X) spReqt with
  | Failed msg => (Err msg, w1)
  | Body spResp => resource.saveVNet nsId (resource.adoptVpc spResp vNetInfo) w1
  end.
Proof.
  intros Hns Hreq Hfree. cbv zeta.
  unfold resource.CreateVNet, bind at 1. rewrite Hns. cbn [check ret].
  unfold bind at 1. rewrite Hreq. cbn [check ret].
  unfold bind at 1. unfold common.GenUid at 1.
  unfold bind at 1. unfold resource.CheckResource, bind at 1, kvGetKv, kvstore.GetKv.
  cbn [kv]. change (TbVNetInfo.Id (resource.newVNetInfo vNetReq (xid X (uidCount w))))
    with (TbVNetReq.Name vNetReq).
  rewrite Hfree. cbn [ret fst snd].
  unfold bind at 1. rewrite mapM_newSubnets. cbn [uidCount kv privateKeyStore spiderLog].
  unfold bind at 1. unfold kvPut at 1. cbn [uidCount kv privateKeyStore spiderLog].
  unfold bind at 1. unfold ExecuteHttpRequest at 1. cbn [uidCount kv privateKeyStore spiderLog].
  unfold configuringVNet, kvstore.Put.
  destruct (postVpc (spider X) _) as [msg|spResp]; reflexivity.
Qed.

End VNetRuns.

(** ** The monad *)

Section MonadFacts.

Lemma bind_Ok_inv {A B} (c : M A) (k : A -> M B) w b w' :
  bind c k w = (Ok b, w') ->
  exists a w1, c w = (Ok a, w1) /\ k a w1 = (Ok b, w').
Proof.
  unfold bind. destruct (c w) as [[a|e|e] w1]; intros H; try discriminate.
  exists a, w1. split; [reflexivity|exact H].
Qed.

Lemma bind_Ok {A B} (c : M A) (k : A -> M B) w a w1 :
  c w = (Ok a, w1) -> bind c k w = k a w1.
Proof. intros E. unfold bind. now rewrite E. Qed.

Lemma logExt_refl P w : logExt P w w.
Proof. exists []. split; [now rewrite app_nil_r|constructor]. Qed.

Lemma logExt_eq P w w' : spiderLog w' = spiderLog w -> logExt P w w'.
Proof. intros E. exists []. split; [now rewrite app_nil_r|constructor]. Qed.

Lemma logExt_trans P w1 w2 w3 : logExt P w1 w2 -> logExt P w2 w3 -> logExt P w1 w3.
Proof.
  intros (l1 & E1 & F1) (l2 & E2 & F2). exists (l1 ++ l2). split.
  - rewrite E2, E1. now rewrite app_assoc.
  - apply Forall_app. split; assumption.
Qed.

Lemma logExt_bind {A B} P (c : M A) (k : A -> M B) w :
  logExt P w (snd (c w)) ->
  (forall a w1, logExt P w1 (snd (k a w1))) ->
  logExt P w (snd (bind c k w)).
Proof.
  intros Hc Hk. unfold bind. destruct (c w) as [[a|e|e] w1]; cbn [snd] in *; try exact Hc.
  eapply logExt_trans; [exact Hc|apply Hk].
Qed.

Lemma logExt_check P e w : logExt P w (snd (check e w)).
Proof. destruct e; apply logExt_refl. Qed.

Lemma logExt_forM_ {A} P (f : A -> M unit) (l : list A) :
  (forall a w, logExt P w (snd (f a w))) ->
  forall w, logExt P w (snd (forM_ l f w)).
Proof.
  intros Hf. induction l as [|x l IH]; intros w; cbn [forM_].
  - apply logExt_refl.
  - apply logExt_bind; [apply Hf|intros _ w1; apply IH].
Qed.

Lemma logExt_call {A} (P : SpiderCall -> Prop) (c : SpiderCall) (a : answer A) w :
  P c -> logExt P w (snd (ExecuteHttpRequest c a w)).
Proof.
  intros Hc. exists [(c, kv w)]. unfold ExecuteHttpRequest.
  destruct a; cbn; (split; [reflexivity|repeat constructor; exact Hc]).
Qed.

End MonadFacts.

(** ** Strings and keys *)

Section KeyFacts.

Lemma append_cons (x : ascii) (a b : string) : String x a +:+ b = String x (a +:+ b).
Proof. reflexivity. Qed.

Lemma append_assoc (a b c : string) : (a +:+ b) +:+ c = a +:+ (b +:+ c).
Proof.
  induction a as [|x a IH]; [reflexivity|]. rewrite !append_cons. f_equal. exact IH.
Qed.

Lemma append_length (a b : string) :
  String.length (a +:+ b) = (String.length a + String.length b)%nat.
Proof.
  induction a as [|x a IH]; [reflexivity|]. rewrite append_cons. cbn [String.length].
  now rewrite IH.
Qed.

Lemma prefix_append (a b : string) : String.prefix a (a +:+ b) = true.
Proof.
  induction a as [|x a IH]; [destruct b; reflexivity|].
  rewrite append_cons. cbn [String.prefix].
  destruct (ascii_dec x x); [exact IH|congruence].
Qed.

Lemma prefix_split (a : string) : forall s,
  String.prefix a s = true -> exists b, s = a +:+ b.
Proof.
  induction a as [|x a IH]; intros s H.
  - exists s. reflexivity.
  - destruct s as [|y s]; cbn in H; [discriminate|].
    destruct (ascii_dec x y); [|discriminate]. subst y.
    destruct (IH _ H) as (b & ->). exists b. reflexivity.
Qed.

Lemma prefix_length (a s : string) :
  String.prefix a s = true -> (String.length a <= String.length s)%nat.
Proof.
  intros H. destruct (prefix_split _ _ H) as (b & ->). rewrite append_length. lia.
Qed.

Lemma GenResourceKey_vNet (nsId vNetId : string) :
  common.GenResourceKey nsId model.StrVNet vNetId =
  "/ns/" +:+ nsId +:+ "/resources/vNet/" +:+ vNetId.
Proof. reflexivity. Qed.

Lemma GenChildResourceKey_subnet (nsId vNetId subnetId : string) :
  common.GenChildResourceKey nsId model.StrSubnet vNetId subnetId =
  common.GenResourceKey nsId model.StrVNet vNetId +:+ "/subnet/" +:+ subnetId.
Proof.
  rewrite GenResourceKey_vNet. unfold common.GenChildResourceKey.
  cbn [String.eqb model.StrSubnet model.StrVNet Ascii.eqb Bool.eqb].
  rewrite !append_assoc. reflexivity.
Qed.

(** A subnet key lies under [<vNetKey>/subnet], and the vNet key does
    not. *)
Lemma subnetKey_under (nsId vNetId subnetId : string) :
  String.prefix (common.GenResourceKey nsId model.StrVNet vNetId +:+ "/subnet")
    (common.GenChildResourceKey nsId model.StrSubnet vNetId subnetId) = true.
Proof.
  rewrite GenChildResourceKey_subnet.
  change ("/subnet/" +:+ subnetId) with ("/subnet" +:+ "/" +:+ subnetId).
  rewrite <- append_assoc. apply prefix_append.
Qed.

Lemma vNetKey_not_under (key suffix : string) :
  suffix <> "" -> String.prefix (key +:+ suffix) key = false.
Proof.
  intros Hs. destruct (String.prefix (key +:+ suffix) key) eqn:E; [|reflexivity].
  apply prefix_length in E. rewrite append_length in E.
  destruct suffix; [congruence|cbn in E; lia].
Qed.

End KeyFacts.

(** ** Deleting a vNet *)

Section DeleteRuns.

Variable X : Extern.

Lemma DeleteSubnet_log (nsId vNetId subnetId : string) (w : World) :
  logExt (fun c => isSubnetCall c = true) w
         (snd (resource.DeleteSubnet X nsId vNetId subnetId w)).
Proof.
  unfold resource.DeleteSubnet. apply logExt_bind; [apply logExt_refl|].
  intros [d|] w1; [|apply logExt_refl].
  destruct (json.UnmarshalSubnet d) as [subnetInfo|]; [|apply logExt_refl].
  apply logExt_bind; [apply logExt_eq; reflexivity|]. intros _ w2.
  match goal with
  | |- context [ExecuteHttpRequest ?cc ?aa w2] =>
      pose proof (logExt_call (fun c => isSubnetCall c = true) cc aa w2 eq_refl) as Hc;
      destruct (ExecuteHttpRequest cc aa w2) as [[r|e|e] w3]
  end; cbn [snd] in Hc.
  - destruct (ParseBool _) as [[|]|];
      (eapply logExt_trans; [exact Hc|]);
      (apply logExt_bind; [apply logExt_eq; reflexivity|intros; apply logExt_refl]).
  - eapply logExt_trans; [exact Hc|].
    apply logExt_bind; [apply logExt_eq; reflexivity|intros; apply logExt_refl].
  - exact Hc.
Qed.

Lemma prepareDelete_log (nsId vNetId withSubnets : string) (w : World) :
  logExt (fun c => isSubnetCall c = true) w
         (snd (resource.prepareDelete X nsId vNetId withSubnets w)).
Proof.
  unfold resource.prepareDelete.
  apply logExt_bind; [apply logExt_check|]. intros _ w1.
  apply logExt_bind; [apply logExt_check|]. intros _ w2.
  destruct (_ && _ && _); [apply logExt_refl|].
  apply logExt_bind; [apply logExt_refl|]. intros subnetsKv w3.
  destruct (_ && _); [apply logExt_refl|].
  apply logExt_bind.
  - apply logExt_forM_. intros kvp w4.
    destruct (json.UnmarshalSubnet (snd kvp)); [|apply logExt_refl].
    apply logExt_bind; [apply DeleteSubnet_log|intros; apply logExt_refl].
  - intros _ w4. apply logExt_bind; [apply logExt_refl|].
    intros [d|] w5; [|apply logExt_refl].
    destruct (json.UnmarshalVNet d); [|apply logExt_refl].
    apply logExt_bind; [apply logExt_eq; reflexivity|intros; apply logExt_refl].
Qed.

(** When the preparation succeeds the vNet is stored as [Deleting]. *)
Lemma prepareDelete_ok (nsId vNetId withSubnets : string) (w w1 : World)
      (key : string) (vNetInfo : TbVNetInfo.t) :
  resource.prepareDelete X nsId vNetId withSubnets w = (Ok (key, vNetInfo), w1) ->
  key = common.GenResourceKey nsId model.StrVNet vNetId /\
  kv w1 !! key = Some (DocVNet vNetInfo) /\
  TbVNetInfo.Status vNetInfo = resource.NetworkOnDeleting.
Proof.
  unfold resource.prepareDelete. intros H.
  apply bind_Ok_inv in H as (_ & wa & _ & H).
  apply bind_Ok_inv in H as (_ & wb & _ & H).
  destruct (_ && _ && _); [discriminate|].
  apply bind_Ok_inv in H as (subnetsKv & wc & _ & H).
  destruct (_ && _); [discriminate|].
  apply bind_Ok_inv in H as (_ & wd & _ & H).
  apply bind_Ok_inv in H as (vNetKv & we & _ & H).
  destruct vNetKv as [d|]; [|discriminate].
  destruct (json.UnmarshalVNet d) as [v|]; [|discriminate].
  unfold bind, kvPut, ret, kvstore.Put in H. inversion H; subst. cbn [kv].
  split; [reflexivity|]. split; [apply lookup_insert_eq|reflexivity].
Qed.

(** The guard on stored subnets. *)
Lemma prepareDelete_in_use (nsId vNetId withSubnets : string) (w : World) :
  common.CheckString nsId = nil_error ->
  common.CheckString vNetId = nil_error ->
  withSubnets = "" \/ withSubnets = "false" ->
  kvstore.GetKvList (common.GenResourceKey nsId model.StrVNet vNetId +:+ "/subnet") (kv w) <> [] ->
  resource.prepareDelete X nsId vNetId withSubnets w =
  (Err ("the vNet (" +:+ vNetId +:+ ") is in-use, may have subnets"), w).
Proof.
  intros Hns Hid Hopt Hl. unfold resource.prepareDelete.
  unfold bind at 1. rewrite Hns. cbn [check ret].
  unfold bind at 1. rewrite Hid. cbn [check ret].
  replace (negb (String.eqb withSubnets "") && negb (String.eqb withSubnets "true")
           && negb (String.eqb withSubnets "false")) with false
    by (destruct Hopt; subst; reflexivity).
  unfold bind, kvGetKvList.
  replace (String.eqb (if String.eqb withSubnets "" then "false" else withSubnets) "false")
    with true by (destruct Hopt; subst; reflexivity).
  destruct (kvstore.GetKvList _ (kv w)); [congruence|]. reflexivity.
Qed.

End DeleteRuns.

(** ** The stored status around the broker call *)

Section StatusAroundCall.

Variable X : Extern.

Lemma logExt_none w w' : logExt (fun _ => False) w w' -> spiderLog w' = spiderLog w.
Proof.
  intros (l & E & F). destruct l as [|e l]; [now rewrite app_nil_r in E|].
  inversion F; subst. contradiction.
Qed.

Lemma saveVNet_log (nsId : string) (vNetInfo : TbVNetInfo.t) (w : World) :
  spiderLog (snd (resource.saveVNet nsId vNetInfo w)) = spiderLog w.
Proof.
  apply logExt_none. unfold resource.saveVNet.
  apply logExt_bind; [apply logExt_eq; reflexivity|]. intros _ w1.
  apply logExt_bind.
  - apply logExt_forM_. intros a w2. apply logExt_eq. reflexivity.
  - intros _ w2. apply logExt_bind; [apply logExt_refl|].
    intros [d|] w3; [|apply logExt_refl].
    destruct (json.UnmarshalVNet d); apply logExt_refl.
Qed.

Lemma vNetStatus_insert (m : gmap string doc) (key : string) (v : TbVNetInfo.t) :
  vNetStatus (<[key := DocVNet v]> m) key = Some (TbVNetInfo.Status v).
Proof. unfold vNetStatus. now rewrite lookup_insert_eq. Qed.

Lemma CreateVNet_status (nsId : string) (vNetReq : TbVNetReq.t) (w : World) :
  let key := common.GenResourceKey nsId model.StrVNet (TbVNetReq.Name vNetReq) in
  let run := resource.CreateVNet X nsId vNetReq w in
  exists l, spiderLog (snd run) = spiderLog w ++ l /\
    forall r snap, In (PostVpc r, snap) l ->
      vNetStatus snap key = Some resource.NetworkOnConfiguring /\
      forall msg, postVpc (spider X) r = Failed msg ->
        fst run = Err msg /\
        vNetStatus (kv (snd run)) key = Some resource.NetworkOnConfiguring.
Proof.
  cbv zeta.
  destruct (kv w !! common.GenResourceKey nsId model.StrVNet (TbVNetReq.Name vNetReq))
    as [d|] eqn:Hk.
  - rewrite (CreateVNet_duplicate_run X nsId vNetReq w d Hk).
    exists []. split.
    + destruct (common.CheckString nsId); [now rewrite app_nil_r|].
      destruct (resource.validateStruct X vNetReq); now rewrite app_nil_r.
    + intros r snap [].
  - destruct (common.CheckString nsId) as [e|] eqn:Hns.
    { exists []. unfold resource.CreateVNet, bind. rewrite Hns. cbn.
      split; [now rewrite app_nil_r|intros r snap []]. }
    destruct (resource.validateStruct X vNetReq) as [e|] eqn:Hreq.
    { exists []. unfold resource.CreateVNet, bind. rewrite Hns, Hreq. cbn.
      split; [now rewrite app_nil_r|intros r snap []]. }
    rewrite (CreateVNet_run X nsId vNetReq w Hns Hreq Hk).
    set (vNetInfo := configuringVNet X vNetReq (uidCount w)).
    set (spReqt := resource.vpcRequest vNetReq (xid X (uidCount w)) vNetInfo).
    set (key := common.GenResourceKey nsId model.StrVNet (TbVNetReq.Name vNetReq)).
    exists [(PostVpc spReqt, <[key := DocVNet vNetInfo]> (kv w))].
    destruct (postVpc (spider X) spReqt) as [msg|spResp] eqn:Hans.
    + cbn [fst snd spiderLog kv]. split; [reflexivity|].
      intros r snap [Hin|[]]. inversion Hin; subst r snap.
      split; [apply vNetStatus_insert|].
      intros msg' Hm. rewrite Hans in Hm. inversion Hm; subst msg'.
      split; [reflexivity|apply vNetStatus_insert].
    + rewrite saveVNet_log. cbn [spiderLog]. split; [reflexivity|].
      intros r snap [Hin|[]]. inversion Hin; subst r snap.
      split; [apply vNetStatus_insert|].
      intros msg' Hm. rewrite Hans in Hm. discriminate.
Qed.

Lemma not_subnet_call_in (l : list (SpiderCall * gmap string doc)) c snap :
  Forall (fun e => isSubnetCall (fst e) = true) l ->
  isSubnetCall c = false -> In (c, snap) l -> False.
Proof.
  intros F Hc Hin. rewrite List.Forall_forall in F. specialize (F _ Hin). cbn in F. congruence.
Qed.

Lemma DeleteVNet_status (nsId vNetId withSubnets : string) (w : World) :
  let key := common.GenResourceKey nsId model.StrVNet vNetId in
  let run := resource.DeleteVNet X nsId vNetId withSubnets w in
  exists l, spiderLog (snd run) = spiderLog w ++ l /\
    forall name conn snap, In (DeleteVpc name conn, snap) l ->
      vNetStatus snap key = Some resource.NetworkOnDeleting /\
      forall msg, deleteVpc (spider X) name conn = Failed msg ->
        fst run = Err msg /\
        vNetStatus (kv (snd run)) key = Some resource.NetworkOnDeleting.
Proof.
  intros key run.
  pose proof (prepareDelete_log X nsId vNetId withSubnets w) as (l1 & E1 & F1).
  destruct (resource.prepareDelete X nsId vNetId withSubnets w)
    as [[[key' vNetInfo]|e|e] w1] eqn:Hp; cbn [snd] in E1.
  - apply prepareDelete_ok in Hp as Hok. destruct Hok as (-> & Hkv & Hst).
    assert (Hs : vNetStatus (kv w1) key = Some resource.NetworkOnDeleting).
    { unfold vNetStatus. fold key in Hkv. rewrite Hkv. now rewrite Hst. }
    set (name := TbVNetInfo.CspVNetName vNetInfo).
    set (conn := TbVNetInfo.ConnectionName vNetInfo).
    exists (l1 ++ [(DeleteVpc name conn, kv w1)]).
    destruct (deleteVpc (spider X) name conn) as [msg|spResp] eqn:Hans.
    + assert (Erun : run = (Err msg, mkWorld (kv w1) (privateKeyStore w1) (uidCount w1)
                                    (spiderLog w1 ++ [(DeleteVpc name conn, kv w1)]))).
      { unfold run, resource.DeleteVNet, bind. rewrite Hp. unfold ExecuteHttpRequest.
        fold name conn. rewrite Hans. reflexivity. }
      rewrite Erun. cbn [fst snd spiderLog kv]. split; [rewrite E1; now rewrite app_assoc|].
      intros n c snap Hin. apply in_app_or in Hin as [Hin|[Hin|[]]].
      * exfalso; eapply not_subnet_call_in; [exact F1| |exact Hin]; reflexivity.
      * inversion Hin; subst n c snap. split; [exact Hs|].
        intros msg' Hm. rewrite Hans in Hm. inversion Hm; subst. split; [reflexivity|exact Hs].
    + split.
      * unfold run, resource.DeleteVNet, bind. rewrite Hp. unfold ExecuteHttpRequest.
        fold name conn. rewrite Hans.
        destruct (ParseBool _) as [[|]|]; cbn; rewrite E1; now rewrite app_assoc.
      * intros n c snap Hin. apply in_app_or in Hin as [Hin|[Hin|[]]].
        -- exfalso; eapply not_subnet_call_in; [exact F1| |exact Hin]; reflexivity.
        -- inversion Hin; subst n c snap. split; [exact Hs|].
           intros msg' Hm. rewrite Hans in Hm. discriminate.
  - exists l1. unfold run, resource.DeleteVNet, bind. rewrite Hp. cbn [fst snd].
    split; [exact E1|].
    intros n c snap Hin. exfalso; eapply not_subnet_call_in; [exact F1| |exact Hin]; reflexivity.
  - exists l1. unfold run, resource.DeleteVNet, bind. rewrite Hp. cbn [fst snd].
    split; [exact E1|].
    intros n c snap Hin. exfalso; eapply not_subnet_call_in; [exact F1| |exact Hin]; reflexivity.
Qed.

Lemma DeregisterVNet_status (nsId vNetId withSubnets : string) (w : World) :
  let key := common.GenResourceKey nsId model.StrVNet vNetId in
  let run := resource.DeregisterVNet X nsId vNetId withSubnets w in
  exists l, spiderLog (snd run) = spiderLog w ++ l /\
    forall name conn snap, In (DeleteRegVpc name conn, snap) l ->
      vNetStatus snap key = Some resource.NetworkOnDeleting /\
      forall msg, deleteRegVpc (spider X) name conn = Failed msg ->
        fst run = Err msg /\
        vNetStatus (kv (snd run)) key = Some resource.NetworkOnDeleting.
Proof.
  intros key run.
  pose proof (prepareDelete_log X nsId vNetId withSubnets w) as (l1 & E1 & F1).
  destruct (resource.prepareDelete X nsId vNetId withSubnets w)
    as [[[key' vNetInfo]|e|e] w1] eqn:Hp; cbn [snd] in E1.
  - apply prepareDelete_ok in Hp as Hok. destruct Hok as (-> & Hkv & Hst).
    assert (Hs : vNetStatus (kv w1) key = Some resource.NetworkOnDeleting).
    { unfold vNetStatus. fold key in Hkv. rewrite Hkv. now rewrite Hst. }
    set (name := TbVNetInfo.CspVNetName vNetInfo).
    set (conn := TbVNetInfo.ConnectionName vNetInfo).
    exists (l1 ++ [(DeleteRegVpc name conn, kv w1)]).
    destruct (deleteRegVpc (spider X) name conn) as [msg|spResp] eqn:Hans.
    + assert (Erun : run = (Err msg, mkWorld (kv w1) (privateKeyStore w1) (uidCount w1)
                                    (spiderLog w1 ++ [(DeleteRegVpc name conn, kv w1)]))).
      { unfold run, resource.DeregisterVNet, bind. rewrite Hp. unfold ExecuteHttpRequest.
        fold name conn. rewrite Hans. reflexivity. }
      rewrite Erun. cbn [fst snd spiderLog kv]. split; [rewrite E1; now rewrite app_assoc|].
      intros n c snap Hin. apply in_app_or in Hin as [Hin|[Hin|[]]].
      * exfalso; eapply not_subnet_call_in; [exact F1| |exact Hin]; reflexivity.
      * inversion Hin; subst n c snap. split; [exact Hs|].
        intros msg' Hm. rewrite Hans in Hm. inversion Hm; subst. split; [reflexivity|exact Hs].
    + split.
      * unfold run, resource.DeregisterVNet, bind. rewrite Hp. unfold ExecuteHttpRequest.
        fold name conn. rewrite Hans.
        destruct (ParseBool _) as [[|]|]; cbn; rewrite E1; now rewrite app_assoc.
      * intros n c snap Hin. apply in_app_or in Hin as [Hin|[Hin|[]]].
        -- exfalso; eapply not_subnet_call_in; [exact F1| |exact Hin]; reflexivity.
        -- inversion Hin; subst n c snap. split; [exact Hs|].
           intros msg' Hm. rewrite Hans in Hm. discriminate.
  - exists l1. unfold run, resource.DeregisterVNet, bind. rewrite Hp. cbn [fst snd].
    split; [exact E1|].
    intros n c snap Hin. exfalso; eapply not_subnet_call_in; [exact F1| |exact Hin]; reflexivity.
  - exists l1. unfold run, resource.DeregisterVNet, bind. rewrite Hp. cbn [fst snd].
    split; [exact E1|].
    intros n c snap Hin. exfalso; eapply not_subnet_call_in; [exact F1| |exact Hin]; reflexivity.
Qed.

End StatusAroundCall.

(** ** Reconciling the broker's subnets *)

Section Reconcile.

Variables (conn : string) (vpc : model.IID).

Lemma adoptSubnet_Uuid sp tb :
  TbSubnetInfo.Uuid (resource.adoptSubnet conn vpc sp tb) = TbSubnetInfo.Uuid tb.
Proof. unfold resource.adoptSubnet. destruct (String.eqb _ _); reflexivity. Qed.

Lemma adoptSubnet_miss sp tb :
  String.eqb (TbSubnetInfo.Uuid tb) (model.NameId (spiderSubnetInfo.IId sp)) = false ->
  resource.adoptSubnet conn vpc sp tb = tb.
Proof. intros E. unfold resource.adoptSubnet. now rewrite E. Qed.

Lemma adoptSubnet_comm sp1 sp2 tb :
  subnetNameId sp1 <> subnetNameId sp2 ->
  resource.adoptSubnet conn vpc sp1 (resource.adoptSubnet conn vpc sp2 tb) =
  resource.adoptSubnet conn vpc sp2 (resource.adoptSubnet conn vpc sp1 tb).
Proof.
  intros Hne. unfold subnetNameId in Hne.
  destruct (String.eqb (TbSubnetInfo.Uuid tb) (model.NameId (spiderSubnetInfo.IId sp1))) eqn:E1;
  destruct (String.eqb (TbSubnetInfo.Uuid tb) (model.NameId (spiderSubnetInfo.IId sp2))) eqn:E2.
  - apply String.eqb_eq in E1, E2. congruence.
  - rewrite (adoptSubnet_miss sp2 tb E2).
    rewrite (adoptSubnet_miss sp2 (resource.adoptSubnet conn vpc sp1 tb))
      by (rewrite adoptSubnet_Uuid; exact E2).
    reflexivity.
  - rewrite (adoptSubnet_miss sp1 tb E1).
    rewrite (adoptSubnet_miss sp1 (resource.adoptSubnet conn vpc sp2 tb))
      by (rewrite adoptSubnet_Uuid; exact E1).
    reflexivity.
  - rewrite (adoptSubnet_miss sp2 tb E2), (adoptSubnet_miss sp1 tb E1).
    now rewrite (adoptSubnet_miss sp2 tb E2).
Qed.

Lemma reconcileSubnets_cons sp sps tbs :
  resource.reconcileSubnets conn vpc (sp :: sps) tbs =
  resource.reconcileSubnets conn vpc sps (List.map (resource.adoptSubnet conn vpc sp) tbs).
Proof. reflexivity. Qed.

(** The order in which the broker lists subnets of pairwise distinct names
    does not matter. *)
Lemma reconcileSubnets_perm sps1 sps2 :
  Permutation sps1 sps2 ->
  List.NoDup (List.map subnetNameId sps1) ->
  forall tbs, resource.reconcileSubnets conn vpc sps1 tbs =
              resource.reconcileSubnets conn vpc sps2 tbs.
Proof.
  induction 1 as [|x l l' Hp IH|x y l|l l' l'' Hp1 IH1 Hp2 IH2]; intros Hnd tbs.
  - reflexivity.
  - rewrite !reconcileSubnets_cons. apply IH. now inversion Hnd.
  - rewrite !reconcileSubnets_cons. f_equal. rewrite !List.map_map.
    apply List.map_ext. intros tb. apply adoptSubnet_comm.
    inversion Hnd as [|? ? Hin _]; subst. intros E. apply Hin. left. now rewrite E.
  - rewrite IH1 by exact Hnd. apply IH2.
    eapply Permutation_NoDup; [|exact Hnd]. now apply Permutation_map.
Qed.

End Reconcile.

Lemma adoptVpc_perm (r1 r2 : spiderVPCInfo.t) (vNetInfo : TbVNetInfo.t) :
  sameVpc r1 r2 ->
  Permutation (spiderVPCInfo.SubnetInfoList r1) (spiderVPCInfo.SubnetInfoList r2) ->
  List.NoDup (List.map subnetNameId (spiderVPCInfo.SubnetInfoList r1)) ->
  resource.adoptVpc r1 vNetInfo = resource.adoptVpc r2 vNetInfo.
Proof.
  intros (Hi & Hc & Ht & Hk) Hp Hnd. unfold resource.adoptVpc.
  rewrite (reconcileSubnets_perm _ _ _ _ Hp Hnd). now rewrite Hi, Hc, Ht, Hk.
Qed.

Lemma vpcRequest_names (vNetReq : TbVNetReq.t) (uuid : string) (vNetInfo : TbVNetInfo.t) :
  List.map spiderAddSubnetRequestInfo.Name
    (spiderCreateVPCRequestInfo.SubnetInfoList
       (spiderCreateVPCRequest.ReqInfo (resource.vpcRequest vNetReq uuid vNetInfo))) =
  List.map TbSubnetInfo.Uuid (TbVNetInfo.SubnetInfoList vNetInfo).
Proof. unfold resource.vpcRequest. cbn. now rewrite List.map_map. Qed.

(** ** Listing by prefix *)

Section Listing.

Lemma GetKvList_In (prefix : string) (m : gmap string doc) (k : string) (d : doc) :
  In (k, d) (kvstore.GetKvList prefix m) <-> m !! k = Some d /\ String.prefix prefix k = true.
Proof.
  unfold kvstore.GetKvList. rewrite List.filter_In. cbn [fst].
  rewrite <- list_elem_of_In, elem_of_map_to_list. reflexivity.
Qed.

Lemma NoDup_fst_filter {A B} (f : A * B -> bool) (l : list (A * B)) :
  List.NoDup (List.map fst l) -> List.NoDup (List.map fst (List.filter f l)).
Proof.
  induction l as [|x l IH]; intros H; [constructor|].
  inversion H as [|? ? Hx Hl]; subst. cbn [List.filter].
  destruct (f x); [|now apply IH]. cbn [List.map]. constructor; [|now apply IH].
  intros Hin. apply Hx. apply List.in_map_iff in Hin as (y & E & Hy).
  apply List.filter_In in Hy as [Hy _]. apply List.in_map_iff. now exists y.
Qed.

Lemma GetKvList_NoDup (prefix : string) (m : gmap string doc) :
  List.NoDup (List.map fst (kvstore.GetKvList prefix m)).
Proof.
  unfold kvstore.GetKvList. apply NoDup_fst_filter.
  pose proof (NoDup_fst_map_to_list m) as H. apply NoDup_ListNoDup in H.
  replace (List.map fst (map_to_list m)) with ((map_to_list m).*1); [exact H|].
  generalize (map_to_list m). intros l. induction l as [|x l IH]; [reflexivity|].
  cbn. now rewrite IH.
Qed.

Lemma GetKvList_nonempty (prefix : string) (m : gmap string doc) (k : string) (d : doc) :
  m !! k = Some d -> String.prefix prefix k = true -> kvstore.GetKvList prefix m <> [].
Proof.
  intros Hk Hp E. assert (Hin : In (k, d) (kvstore.GetKvList prefix m))
    by (apply GetKvList_In; split; assumption).
  rewrite E in Hin. exact Hin.
Qed.

End Listing.

(** ** Deleting a vNet with its subnets *)

Section CascadingDelete.

Variable X : Extern.

Lemma DeleteSubnet_ok (nsId vNetId subnetId : string) (w : World) (s : TbSubnetInfo.t) :
  deletesSubnets X ->
  kv w !! common.GenChildResourceKey nsId model.StrSubnet vNetId subnetId = Some (DocSubnet s) ->
  exists w',
    resource.DeleteSubnet X nsId vNetId subnetId w =
      (Ok (model.mkSimpleMsg ("the subnet (" +:+ subnetId +:+ ") has been deleted")), w') /\
    kv w' = delete (common.GenChildResourceKey nsId model.StrSubnet vNetId subnetId) (kv w).
Proof.
  intros Hb Hk. unfold resource.DeleteSubnet, bind at 1, kvGetKv, kvstore.GetKv.
  rewrite Hk. cbn [json.UnmarshalSubnet]. unfold bind at 1, kvPut at 1.
  destruct (Hb (TbSubnetInfo.CspVNetName s) (TbSubnetInfo.CspSubnetName s)
               (TbSubnetInfo.ConnectionName s)) as (r & Hr & Hpb).
  unfold ExecuteHttpRequest. rewrite Hr, Hpb.
  unfold bind, kvDelete, ret, kvstore.Delete, kvstore.Put. cbn [kv].
  eexists. split; [reflexivity|]. cbn [kv]. apply delete_insert_eq.
Qed.

(** The loop of [DeleteVNet] over the listed subnets removes their keys
    and nothing else. *)
Lemma delete_listed_subnets (nsId vNetId : string) (l : list (string * doc)) :
  deletesSubnets X ->
  List.NoDup (List.map fst l) ->
  forall w,
  (forall k d, In (k, d) l ->
     kv w !! k = Some d /\
     exists s, d = DocSubnet s /\
       k = common.GenChildResourceKey nsId model.StrSubnet vNetId (TbSubnetInfo.Id s)) ->
  exists w',
    forM_ l (fun kvp =>
               match json.UnmarshalSubnet (snd kvp) with
               | None => fail json.unmarshalError
               | Some subnet =>
                   resource.DeleteSubnet X nsId vNetId (TbSubnetInfo.Id subnet) ;;; ret tt
               end) w = (Ok tt, w') /\
    (forall k, In k (List.map fst l) -> kv w' !! k = None) /\
    (forall k, ~ In k (List.map fst l) -> kv w' !! k = kv w !! k).
Proof.
  intros Hb. induction l as [|[k d] l IH]; intros Hnd w Hl.
  - exists w. cbn. split; [reflexivity|]. split; [intros k []|reflexivity].
  - inversion Hnd as [|? ? Hk Hnd']; subst.
    destruct (Hl k d (or_introl eq_refl)) as (Hkd & s & -> & Ek).
    cbn [forM_ snd json.UnmarshalSubnet]. unfold bind at 1. unfold bind at 1.
    rewrite Ek in Hkd.
    destruct (DeleteSubnet_ok nsId vNetId (TbSubnetInfo.Id s) w s Hb Hkd) as (w1 & Hrun & Hkv1).
    rewrite Hrun. cbn [ret].
    destruct (IH Hnd' w1) as (w' & Hloop & Hgone & Hkept).
    { intros k' d' Hin. destruct (Hl k' d' (or_intror Hin)) as (Hk' & Hs').
      split; [|exact Hs']. rewrite Hkv1, <- Ek. rewrite lookup_delete_ne; [exact Hk'|].
      intros E. subst k'. apply Hk. apply List.in_map_iff. now exists (k, d'). }
    exists w'. split; [exact Hloop|]. split.
    + intros k' [E|Hin]; cbn [fst] in *.
      * subst k'. destruct (List.in_dec string_dec k (List.map fst l)) as [Hi|Hn];
          [now apply Hgone|]. rewrite (Hkept _ Hn), Hkv1, <- Ek. apply lookup_delete_eq.
      * now apply Hgone.
    + intros k' Hn. cbn [List.map fst] in Hn.
      rewrite Hkept by (intros Hi; apply Hn; now right).
      rewrite Hkv1, <- Ek. apply lookup_delete_ne. intros E. apply Hn. now left.
Qed.

Lemma prefix_subnet_slash (key k : string) :
  String.prefix (key +:+ "/subnet") k = true -> String.prefix (key +:+ "/") k = true.
Proof.
  intros H. apply prefix_split in H as (b & ->).
  change "/subnet" with ("/" +:+ "subnet"). rewrite <- (append_assoc key "/" "subnet").
  rewrite append_assoc. apply prefix_append.
Qed.

Lemma DeleteVNet_cascade (nsId vNetId : string) (w : World) (vNetInfo : TbVNetInfo.t) :
  common.CheckString nsId = nil_error ->
  common.CheckString vNetId = nil_error ->
  kv w !! common.GenResourceKey nsId model.StrVNet vNetId = Some (DocVNet vNetInfo) ->
  subnetsOnlyUnder nsId vNetId (kv w) ->
  deletesSubnets X -> deletesVpcs X ->
  exists w',
    resource.DeleteVNet X nsId vNetId "true" w =
      (Ok (model.mkSimpleMsg ("the vNet (" +:+ vNetId +:+ ") has been deleted")), w') /\
    (forall k, k = common.GenResourceKey nsId model.StrVNet vNetId \/
               String.prefix (common.GenResourceKey nsId model.StrVNet vNetId +:+ "/") k = true ->
               kv w' !! k = None) /\
    (forall k, k <> common.GenResourceKey nsId model.StrVNet vNetId ->
               String.prefix (common.GenResourceKey nsId model.StrVNet vNetId +:+ "/") k = false ->
               kv w' !! k = kv w !! k).
Proof.
  intros Hns Hid Hv Hlay Hbs Hbv.
  set (key := common.GenResourceKey nsId model.StrVNet vNetId) in *.
  set (l := kvstore.GetKvList (key +:+ "/subnet") (kv w)).
  destruct (delete_listed_subnets nsId vNetId l Hbs (GetKvList_NoDup _ _) w)
    as (w1 & Hloop & Hgone & Hkept).
  { intros k d Hin. apply GetKvList_In in Hin as [Hk Hp]. split; [exact Hk|].
    apply (Hlay k d Hk). now apply prefix_subnet_slash. }
  assert (Hkey1 : kv w1 !! key = Some (DocVNet vNetInfo)).
  { rewrite Hkept; [exact Hv|]. intros Hin. apply List.in_map_iff in Hin as ([k d] & E & Hin).
    cbn in E. subst k. apply GetKvList_In in Hin as [_ Hp].
    rewrite vNetKey_not_under in Hp; [discriminate|discriminate]. }
  destruct (Hbv (TbVNetInfo.CspVNetName vNetInfo) (TbVNetInfo.ConnectionName vNetInfo))
    as (r & Hr & Hpb).
  assert (Hprep : resource.prepareDelete X nsId vNetId "true" w =
                  (Ok (key, TbVNetInfo.withStatus resource.NetworkOnDeleting vNetInfo),
                   mkWorld (<[key := DocVNet (TbVNetInfo.withStatus resource.NetworkOnDeleting vNetInfo)]> (kv w1))
                     (privateKeyStore w1) (uidCount w1) (spiderLog w1))).
  { unfold resource.prepareDelete.
    rewrite (bind_Ok _ _ w tt w) by (rewrite Hns; reflexivity).
    rewrite (bind_Ok _ _ w tt w) by (rewrite Hid; reflexivity).
    cbn [String.eqb Ascii.eqb Bool.eqb negb andb].
    rewrite (bind_Ok _ _ w l w) by reflexivity.
    rewrite (bind_Ok _ _ w tt w1) by exact Hloop.
    rewrite (bind_Ok _ _ w1 (Some (DocVNet vNetInfo)) w1)
      by (unfold kvGetKv, kvstore.GetKv; fold key; now rewrite Hkey1).
    reflexivity. }
  eexists. split; [|split].
  - unfold resource.DeleteVNet.
    rewrite (bind_Ok _ _ _ _ _ Hprep).
    unfold bind, ExecuteHttpRequest.
    cbn [TbVNetInfo.withStatus TbVNetInfo.CspVNetName TbVNetInfo.ConnectionName].
    rewrite Hr, Hpb. unfold kvDelete, ret. reflexivity.
  - cbn [kv]. unfold kvstore.Delete, kvstore.Put. intros k [->|Hp].
    + apply lookup_delete_eq.
    + assert (Hne : k <> key).
      { intros ->. rewrite vNetKey_not_under in Hp; [discriminate|discriminate]. }
      rewrite lookup_delete_ne by congruence. rewrite lookup_insert_ne by congruence.
      destruct (kv w !! k) as [d|] eqn:Hk.
      * destruct (Hlay k d Hk Hp) as (s & -> & Ek).
        apply Hgone. apply List.in_map_iff. exists (k, DocSubnet s). split; [reflexivity|].
        apply GetKvList_In. split; [exact Hk|]. rewrite Ek. apply subnetKey_under.
      * destruct (List.in_dec string_dec k (List.map fst l)) as [Hi|Hn].
        -- now apply Hgone.
        -- rewrite Hkept by exact Hn. exact Hk.
  - cbn [kv]. unfold kvstore.Delete, kvstore.Put. intros k Hne Hp.
    rewrite lookup_delete_ne by congruence. rewrite lookup_insert_ne by congruence.
    apply Hkept. intros Hin. apply List.in_map_iff in Hin as ([k' d] & E & Hin).
    cbn in E. subst k'. apply GetKvList_In in Hin as [_ Hp'].
    apply prefix_subnet_slash in Hp'. congruence.
Qed.

(** The guard: a vNet with stored subnets is not deleted without
    [withSubnets=true], and nothing is written. *)
Lemma DeleteVNet_in_use (nsId vNetId withSubnets subnetId : string) (w : World) (d : doc) :
  common.CheckString nsId = nil_error ->
  common.CheckString vNetId = nil_error ->
  withSubnets = "" \/ withSubnets = "false" ->
  kv w !! common.GenChildResourceKey nsId model.StrSubnet vNetId subnetId = Some d ->
  resource.DeleteVNet X nsId vNetId withSubnets w =
  (Err ("the vNet (" +:+ vNetId +:+ ") is in-use, may have subnets"), w).
Proof.
  intros Hns Hid Hopt Hk. unfold resource.DeleteVNet, bind.
  rewrite (prepareDelete_in_use X nsId vNetId withSubnets w Hns Hid Hopt); [reflexivity|].
  eapply GetKvList_nonempty; [exact Hk|apply subnetKey_under].
Qed.

End CascadingDelete.

(** ** Matching by uuid and the end of [CreateVNet] *)

Section MatchByUuid.

Variables (conn : string) (vpc : model.IID).

Lemma find_none_absent (u : string) (sps : list spiderSubnetInfo.t) :
  ~ In u (List.map subnetNameId sps) ->
  List.find (fun sp => String.eqb u (subnetNameId sp)) sps = None.
Proof.
  induction sps as [|sp sps IH]; intros H; [reflexivity|].
  cbn [List.find]. destruct (String.eqb u (subnetNameId sp)) eqn:E.
  - apply String.eqb_eq in E. exfalso. apply H. left. now rewrite E.
  - apply IH. intros Hin. apply H. now right.
Qed.

(** With pairwise distinct names in the answer, the loop of [CreateVNet]
    gives every local subnet the values of the broker's subnet named by
    its [Uuid], and leaves the others alone. *)
Lemma reconcileSubnets_match sps :
  List.NoDup (List.map subnetNameId sps) ->
  forall tbs, resource.reconcileSubnets conn vpc sps tbs =
              List.map (matchByUuid conn vpc sps) tbs.
Proof.
  induction sps as [|sp sps IH]; intros Hnd tbs.
  - cbn. unfold matchByUuid. cbn. now rewrite List.map_id.
  - inversion Hnd as [|? ? Hsp Hnd']; subst.
    rewrite reconcileSubnets_cons, (IH Hnd'), List.map_map.
    apply List.map_ext. intros tb. unfold matchByUuid at 2. cbn [List.find].
    destruct (String.eqb (TbSubnetInfo.Uuid tb) (subnetNameId sp)) eqn:E.
    + unfold matchByUuid. rewrite adoptSubnet_Uuid.
      apply String.eqb_eq in E. rewrite E. now rewrite find_none_absent.
    + rewrite adoptSubnet_miss by exact E. reflexivity.
Qed.

End MatchByUuid.

Lemma subnetKey_ne_vNetKey (nsId vNetId subnetId : string) :
  common.GenChildResourceKey nsId model.StrSubnet vNetId subnetId <>
  common.GenResourceKey nsId model.StrVNet vNetId.
Proof.
  rewrite GenChildResourceKey_subnet. intros E.
  apply (f_equal String.length) in E. rewrite !append_length in E.
  cbn [String.length] in E. lia.
Qed.

Lemma put_subnets_keep (nsId vNetId : string) (k : string) (l : list TbSubnetInfo.t) :
  (forall s, common.GenChildResourceKey nsId model.StrSubnet vNetId (TbSubnetInfo.Id s) <> k) ->
  forall w, exists w',
    forM_ l (fun subnetInfo =>
               kvPut (common.GenChildResourceKey nsId model.StrSubnet vNetId
                        (TbSubnetInfo.Id subnetInfo))
                     (DocSubnet subnetInfo)) w = (Ok tt, w') /\
    kv w' !! k = kv w !! k.
Proof.
  intros Hne. induction l as [|s l IH]; intros w.
  - exists w. split; reflexivity.
  - cbn [forM_]. unfold bind at 1, kvPut at 1.
    destruct (IH (mkWorld (kvstore.Put (common.GenChildResourceKey nsId model.StrSubnet vNetId
                                          (TbSubnetInfo.Id s)) (DocSubnet s) (kv w))
                    (privateKeyStore w) (uidCount w) (spiderLog w))) as (w' & Hrun & Hk).
    exists w'. split; [exact Hrun|]. rewrite Hk. cbn [kv]. unfold kvstore.Put.
    apply lookup_insert_ne. apply Hne.
Qed.

(** The vNet read back at the end of [CreateVNet] is the one just
    stored. *)
Lemma saveVNet_ok (nsId : string) (vNetInfo : TbVNetInfo.t) (w : World) :
  exists w', resource.saveVNet nsId vNetInfo w = (Ok vNetInfo, w').
Proof.
  unfold resource.saveVNet. unfold bind at 1, kvPut at 1.
  set (key := common.GenResourceKey nsId model.StrVNet (TbVNetInfo.Id vNetInfo)).
  set (w1 := mkWorld _ _ _ _).
  destruct (put_subnets_keep nsId (TbVNetInfo.Id vNetInfo) key
              (TbVNetInfo.SubnetInfoList vNetInfo)
              (fun s => subnetKey_ne_vNetKey nsId (TbVNetInfo.Id vNetInfo) (TbSubnetInfo.Id s))
              w1) as (w2 & Hrun & Hk).
  exists w2. rewrite (bind_Ok _ _ _ _ _ Hrun).
  unfold bind, kvGetKv, kvstore.GetKv. rewrite Hk. unfold w1. cbn [kv]. unfold kvstore.Put.
  rewrite lookup_insert_eq. reflexivity.
Qed.

(** ** Decrypting a credential *)

Section Decrypt.

Variable X : Extern.

Lemma unpad_world (data : bytes) (blockSize : nat) (w : World) :
  snd (common.unpad data blockSize w) = w.
Proof.
  unfold common.unpad. destruct (list.last data); [|reflexivity].
  destruct (_ || _); reflexivity.
Qed.

Lemma decryptValue_world (aesKey : bytes) (keyValue : model.KeyValue) (w : World) :
  snd (common.decryptValue X aesKey keyValue w) = w.
Proof.
  unfold common.decryptValue.
  destruct (base64Decode X _) as [msg|enc]; [reflexivity|].
  destruct (negb (common.validAesKey aesKey)); [reflexivity|].
  destruct (_ <? _)%nat; [reflexivity|].
  destruct (negb _); [reflexivity|].
  unfold bind, common.wrapped.
  match goal with |- context [common.unpad ?d ?b w] =>
    pose proof (unpad_world d b w) as Hu; destruct (common.unpad d b w) as [[v|e|e] w1]
  end; cbn [snd] in *; subst; reflexivity.
Qed.

Lemma mapM_decryptValue_world (aesKey : bytes) (l : list model.KeyValue) (w : World) :
  snd (mapM (common.decryptValue X aesKey) l w) = w.
Proof.
  induction l as [|kvp l IH]; [reflexivity|].
  cbn [mapM]. unfold bind at 1.
  pose proof (decryptValue_world aesKey kvp w) as Hd.
  destruct (common.decryptValue X aesKey kvp w) as [[v|e|e] w1]; cbn [snd] in *; subst;
    try reflexivity.
  unfold bind. destruct (mapM (common.decryptValue X aesKey) l w) as [[vs|e|e] w1];
    cbn [snd] in *; subst; reflexivity.
Qed.

(** A value shorter than a block, or exactly one block long, makes the
    decryption of the value panic. *)
Lemma decryptValue_short (aesKey enc : bytes) (keyValue : model.KeyValue) (w : World) :
  common.validAesKey aesKey = true ->
  base64Decode X (model.Value keyValue) = inr enc ->
  (List.length enc < common.BlockSize)%nat ->
  common.decryptValue X aesKey keyValue w =
  (Panic "runtime error: slice bounds out of range", w).
Proof.
  intros Hk He Hl. unfold common.decryptValue. rewrite He, Hk. cbn [negb].
  replace (List.length enc <? common.BlockSize)%nat with true
    by (symmetry; now apply Nat.ltb_lt).
  reflexivity.
Qed.

Lemma decryptValue_iv_only (aesKey enc : bytes) (keyValue : model.KeyValue) (w : World) :
  common.validAesKey aesKey = true ->
  base64Decode X (model.Value keyValue) = inr enc ->
  List.length enc = common.BlockSize ->
  common.decryptValue X aesKey keyValue w =
  (Panic "runtime error: index out of range [-1]", w).
Proof.
  intros Hk He Hl. unfold common.decryptValue. rewrite He, Hk. cbn [negb].
  replace (List.length enc <? common.BlockSize)%nat with false
    by (symmetry; apply Nat.ltb_ge; lia).
  assert (Hs : skipn common.BlockSize enc = []).
  { apply List.skipn_all2. lia. }
  rewrite Hs. reflexivity.
Qed.

(** The run of [RegisterCredential] up to the decryption of the values. *)
Lemma decryptCredential_run (req : CredentialReq.t) (w : World) (pk : PrivateKey)
      (ek aesKey : bytes) :
  privateKeyStore w !! CredentialReq.PublicKeyTokenId req = Some pk ->
  base64Decode X (CredentialReq.EncryptedClientAesKeyByPublicKey req) = inr ek ->
  DecryptOAEP X pk ek = inr aesKey ->
  common.decryptCredential X req w =
  match mapM (common.decryptValue X aesKey) (CredentialReq.CredentialKeyValueList req) w with
  | (Ok vals, _) =>
      (Ok vals, mkWorld (kv w) (delete (CredentialReq.PublicKeyTokenId req) (privateKeyStore w))
                  (uidCount w) (spiderLog w))
  | (Err e, _) => (Err e, w)
  | (Panic e, _) => (Panic e, w)
  end.
Proof.
  intros Hpk Hek Hd. unfold common.decryptCredential, bind at 1, common.lookupPrivateKey.
  rewrite Hpk, Hek, Hd. unfold bind at 1.
  pose proof (mapM_decryptValue_world aesKey (CredentialReq.CredentialKeyValueList req) w) as Hw.
  destruct (mapM _ _ w) as [[vals|e|e] w1]; cbn [snd] in Hw; subst; reflexivity.
Qed.

End Decrypt.

(** ** Properties of the store that a computation keeps *)

Section Keeps.

Context {P : gmap string doc -> Prop}.

Lemma keeps_ret {A} (a : A) : keeps P (ret a).
Proof. intros w H. exact H. Qed.

Lemma keeps_fail {A} (msg : string) : keeps P (@fail A msg).
Proof. intros w H. exact H. Qed.

Lemma keeps_check (e : error) : keeps P (check e).
Proof. destruct e; [apply keeps_fail|apply keeps_ret]. Qed.

Lemma keeps_bind {A B} (c : M A) (k : A -> M B) :
  keeps P c -> (forall a, keeps P (k a)) -> keeps P (bind c k).
Proof.
  intros Hc Hk w H. unfold bind. specialize (Hc w H).
  destruct (c w) as [[a|e|e] w1]; cbn [snd] in *; try exact Hc. now apply Hk.
Qed.

Lemma keeps_forM_ {A} (f : A -> M unit) (l : list A) :
  (forall a, keeps P (f a)) -> keeps P (forM_ l f).
Proof.
  intros Hf. induction l as [|x l IH]; cbn [forM_]; [apply keeps_ret|].
  apply keeps_bind; [apply Hf|intros _; exact IH].
Qed.

Lemma keeps_call {A} (c : SpiderCall) (a : answer A) : keeps P (ExecuteHttpRequest c a).
Proof. intros w H. unfold ExecuteHttpRequest. destruct a; exact H. Qed.

Lemma keeps_kvPut (k : string) (d : doc) :
  (forall m, P m -> P (<[k := d]> m)) -> keeps P (kvPut k d).
Proof. intros Hp w H. cbn. now apply Hp. Qed.

End Keeps.

(** ** Listing the connection configurations *)

Section ConnConfigList.

Variable X : Extern.

Lemma decodeConnConfigs_from (Q : ConnConfig.t -> Prop) (l : list (string * doc)) :
  (forall k c, In (k, DocConnConfig c) l -> Q c) ->
  forall acc, (forall c, In c acc -> Q c) ->
  forall c, In c (fst (common.decodeConnConfigs l acc)) -> Q c.
Proof.
  induction l as [|[k d] l IH]; intros Hl acc Hacc c Hc.
  - now apply Hacc.
  - cbn [common.decodeConnConfigs snd] in Hc.
    destruct d as [v|s0|c0]; cbn [json.UnmarshalConnConfig] in Hc;
      try (now apply Hacc).
    eapply IH; [| |exact Hc].
    + intros k' c' Hin. apply (Hl k'). now right.
    + intros c' Hin. apply in_app_or in Hin as [Hin|[<-|[]]]; [now apply Hacc|].
      apply (Hl k). now left.
Qed.

(** [GetConnConfigList] leaves the world as it is, and what it lists is in
    the store; without error and with the filter on representatives, it
    lists representatives only. *)
Lemma GetConnConfigList_run (h : string) (v r : bool) (w : World) :
  exists cs,
    common.GetConnConfigList X h v r w = (Ok (cs, listError (kv w)), w) /\
    (forall c, In c cs -> inStore (kv w) c) /\
    (listError (kv w) = nil_error -> r = true ->
     forall c, In c cs -> ConnConfig.RegionRepresentative c = true).
Proof.
  unfold common.GetConnConfigList, bind, kvGetKvList, ret, listError.
  set (listed := kvutil.FilterKvListBy (kvstore.GetKvList "/connection" (kv w)) "/connection" 1).
  assert (Hl : forall c, In c (fst (common.decodeConnConfigs listed [])) -> inStore (kv w) c).
  { apply (decodeConnConfigs_from (inStore (kv w))); [|intros c []].
    intros k c Hin. unfold listed, kvutil.FilterKvListBy in Hin.
    apply List.filter_In in Hin as [Hin _]. apply GetKvList_In in Hin as [Hk _].
    now exists k. }
  destruct (common.decodeConnConfigs listed []) as [cs [msg|]] eqn:E; cbn [fst snd] in *.
  - exists cs. split; [reflexivity|]. split; [exact Hl|discriminate].
  - eexists. split; [reflexivity|]. split.
    + intros c Hc. apply Hl.
      destruct r; [apply List.filter_In in Hc as [Hc _]|];
        (destruct v; [apply List.filter_In in Hc as [Hc _]|]);
        (destruct (negb (String.eqb h "")); [apply List.filter_In in Hc as [Hc _]|]);
        exact Hc.
    + intros _ -> c Hc. apply List.filter_In in Hc as [_ Hc]. exact Hc.
Qed.

End ConnConfigList.

(** ** Electing the region representatives *)

Section Representatives.

Variable X : Extern.
Variables (holder provider : string).

Lemma keeps_forM_In {A} (P : gmap string doc -> Prop) (f : A -> M unit) (l : list A) :
  (forall a, In a l -> keeps P (f a)) -> keeps P (forM_ l f).
Proof.
  induction l as [|x l IH]; intros Hf; cbn [forM_]; [apply keeps_ret|].
  apply keeps_bind; [apply Hf; now left|intros _; apply IH].
  intros a Ha. apply Hf. now right.
Qed.

(** From one property of the store to a weaker one across a bind. *)
Lemma post_bind {A B} (Q R : gmap string doc -> Prop) (c : M A) (k : A -> M B) (w : World) :
  Q (kv (snd (c w))) ->
  (forall a w1, Q (kv w1) -> R (kv (snd (k a w1)))) ->
  (forall m, Q m -> R m) ->
  R (kv (snd (bind c k w))).
Proof.
  intros Hc Hk Hw. unfold bind. destruct (c w) as [[a|e|e] w1]; cbn [snd] in *;
    [now apply Hk|now apply Hw|now apply Hw].
Qed.

Lemma noRepresentative_put (m : gmap string doc) (k : string) (c : ConnConfig.t) :
  noRepresentative X holder provider m ->
  (ofHolderProvider X holder provider c = true -> ConnConfig.RegionRepresentative c = false) ->
  noRepresentative X holder provider (<[k := DocConnConfig c]> m).
Proof.
  intros Hm Hc k' c' Hk Hof. apply lookup_insert_Some in Hk as [[_ E]|[_ Hk]].
  - inversion E; subst. now apply Hc.
  - now apply (Hm k').
Qed.

(** A probe leaves the store alone, and its result differs from the
    connection probed in [Verified] and [RegionDetail] at most. *)
Lemma probe_facts (c : ConnConfig.t) (w : World) :
  kv (snd (common.probe X c w)) = kv w /\
  forall c', fst (common.probe X c w) = Ok c' ->
    ConnConfig.CredentialHolder c' = ConnConfig.CredentialHolder c /\
    ConnConfig.ProviderName c' = ConnConfig.ProviderName c /\
    ConnConfig.RegionRepresentative c' = ConnConfig.RegionRepresentative c.
Proof.
  unfold common.probe, bind, common.CheckConnConfigAvailable, ExecuteHttpRequest.
  destruct (getAllKeypair (spider X) (ConnConfig.ConfigName c)) as [msg|[]]; cbn.
  - split; [reflexivity|]. intros c' E. inversion E; subst. repeat split.
  - destruct (common.GetRegion X _ _) as [msg|regionInfo]; cbn;
      (split; [reflexivity|]); intros c' E; inversion E; subst; repeat split.
Qed.

Lemma mapM_probe_facts (l : list ConnConfig.t) : forall w,
  kv (snd (mapM (common.probe X) l w)) = kv w /\
  forall rs, fst (mapM (common.probe X) l w) = Ok rs ->
    forall x, In x rs -> exists c, In c l /\
      ConnConfig.CredentialHolder x = ConnConfig.CredentialHolder c /\
      ConnConfig.ProviderName x = ConnConfig.ProviderName c /\
      ConnConfig.RegionRepresentative x = ConnConfig.RegionRepresentative c.
Proof.
  induction l as [|c l IH]; intros w.
  - cbn. split; [reflexivity|]. intros rs E. inversion E. intros x [].
  - assert (Erun : mapM (common.probe X) (c :: l) w =
                   match common.probe X c w with
                   | (Ok c', w1) =>
                       match mapM (common.probe X) l w1 with
                       | (Ok rs, w2) => (Ok (c' :: rs), w2)
                       | (Err e, w2) => (Err e, w2)
                       | (Panic e, w2) => (Panic e, w2)
                       end
                   | (Err e, w1) => (Err e, w1)
                   | (Panic e, w1) => (Panic e, w1)
                   end).
    { cbn [mapM]. unfold bind. destruct (common.probe X c w) as [[c'|e|e] w1];
        try reflexivity; destruct (mapM (common.probe X) l w1) as [[rs|e|e] w2]; reflexivity. }
    rewrite Erun. clear Erun.
    destruct (probe_facts c w) as (Hkv & Hres).
    destruct (common.probe X c w) as [[c'|e|e] w1]; cbn [fst snd] in *;
      try (split; [exact Hkv|discriminate]).
    destruct (IH w1) as (Hkv1 & Hres1).
    destruct (mapM (common.probe X) l w1) as [[rs|e|e] w2]; cbn [fst snd] in *;
      try (split; [congruence|discriminate]).
    split; [congruence|]. intros rs' E. inversion E; subst rs'.
    intros x [<-|Hx].
    + exists c. split; [now left|]. now apply Hres.
    + destruct (Hres1 rs eq_refl x Hx) as (c0 & Hc0 & Hf). exists c0. split; [now right|exact Hf].
Qed.

(** The election: one entry for every prefix, and the prefix of an entry
    is the one of its connection. *)
Lemma electRepresentatives_spec (p : string) (conns : list ConnConfig.t) :
  forall acc,
    List.NoDup (List.map fst acc) ->
    (forall e, In e acc ->
       fst e = p +:+ "-" +:+ RegionDetail.RegionName (ConnConfig.RegionDetail (snd e))) ->
    List.NoDup (List.map fst (common.electRepresentatives X p conns acc)) /\
    (forall e, In e (common.electRepresentatives X p conns acc) ->
       fst e = p +:+ "-" +:+ RegionDetail.RegionName (ConnConfig.RegionDetail (snd e))).
Proof.
  induction conns as [|c conns IH]; intros acc Hnd Hacc; cbn [common.electRepresentatives].
  - split; assumption.
  - destruct (EqualFold X _ _ && negb (existsb _ acc)) eqn:E; [|now apply IH].
    apply andb_prop in E as [_ E]. apply negb_true_iff in E.
    apply IH.
    + rewrite List.map_app. cbn [List.map fst]. apply NoDup_ListNoDup.
      apply NoDup_ListNoDup in Hnd. apply NoDup_app. split; [exact Hnd|]. split.
      * intros x Hx Hx'. apply list_elem_of_In in Hx, Hx'. destruct Hx' as [<-|[]].
        apply List.in_map_iff in Hx as (e & He & Hin).
        assert (Ht : existsb (fun e0 => String.eqb (fst e0)
                        (p +:+ "-" +:+ RegionDetail.RegionName (ConnConfig.RegionDetail c))) acc = true).
        { apply List.existsb_exists. exists e. split; [exact Hin|]. apply String.eqb_eq. exact He. }
        congruence.
      * apply NoDup_ListNoDup. repeat constructor. intros [].
    + intros e Hin. apply in_app_or in Hin as [Hin|[<-|[]]]; [now apply Hacc|reflexivity].
Qed.

Lemma append_inj_l (a b c : string) : a +:+ b = a +:+ c -> b = c.
Proof.
  induction a as [|x a IH]; intros E; [exact E|]. rewrite !append_cons in E.
  inversion E. now apply IH.
Qed.

Lemma NoDup_fst_unique {A B} (l : list (A * B)) (k : A) (a b : B) :
  List.NoDup (List.map fst l) -> In (k, a) l -> In (k, b) l -> a = b.
Proof.
  induction l as [|[k0 v0] l IH]; intros Hnd Ha Hb; [destruct Ha|].
  inversion Hnd as [|? ? Hk Hnd']; subst. cbn [List.map fst] in Hk.
  destruct Ha as [Ea|Ha], Hb as [Eb|Hb].
  - congruence.
  - inversion Ea; subst. exfalso. apply Hk. apply List.in_map_iff. now exists (k, b).
  - inversion Eb; subst. exfalso. apply Hk. apply List.in_map_iff. now exists (k, a).
  - now apply IH.
Qed.

Lemma elected_distinctRegions (p : string) (conns : list ConnConfig.t) :
  distinctRegions (List.map snd (common.electRepresentatives X p conns [])).
Proof.
  destruct (electRepresentatives_spec p conns []) as (Hnd & Hpre);
    [constructor|intros e []|].
  intros e1 e2 H1 H2 Hreg.
  apply List.in_map_iff in H1 as ([p1 c1] & <- & H1).
  apply List.in_map_iff in H2 as ([p2 c2] & <- & H2). cbn [snd] in *.
  pose proof (Hpre _ H1) as E1. pose proof (Hpre _ H2) as E2. cbn [fst snd] in E1, E2.
  assert (Ep : p2 = p1) by (rewrite E1, E2, Hreg; reflexivity).
  rewrite Ep in H2. now rewrite (NoDup_fst_unique _ _ _ _ Hnd H1 H2).
Qed.

Lemma representativesFrom_none (el : list ConnConfig.t) (m : gmap string doc) :
  noRepresentative X holder provider m -> representativesFrom X holder provider el m.
Proof.
  intros Hno k c Hk Hof Hr. rewrite (Hno k c Hk Hof) in Hr. discriminate.
Qed.

Lemma representativesFrom_put (el : list ConnConfig.t) (m : gmap string doc)
      (c : ConnConfig.t) :
  representativesFrom X holder provider el m ->
  (ofHolderProvider X holder provider c = true ->
   ConnConfig.RegionRepresentative c = true ->
   exists e, In e el /\ ConnConfig.ConfigName e = ConnConfig.ConfigName c /\
             ConnConfig.RegionDetail e = ConnConfig.RegionDetail c) ->
  representativesFrom X holder provider el
    (<[common.GenConnectionKey (ConnConfig.ConfigName c) := DocConnConfig c]> m).
Proof.
  intros Hm Hc k c' Hk Hof Hr. apply lookup_insert_Some in Hk as [[Ek E]|[_ Hk]].
  - inversion E; subst c'. split; [now rewrite Ek|]. now apply Hc.
  - now apply (Hm k).
Qed.

Lemma setRegionRepresentative_post (p h : string) (w : World) :
  noRepresentative X holder provider (kv w) ->
  exists el, distinctRegions el /\
    representativesFrom X holder provider el
      (kv (snd (common.setRegionRepresentative X p h w))).
Proof.
  intros Hno. unfold common.setRegionRepresentative.
  destruct (GetConnConfigList_run X h false false w) as (cs & E & Hin & _).
  rewrite (bind_Ok _ _ _ _ _ E). cbn [fst snd].
  destruct (listError (kv w)) as [msg|].
  { exists []. split; [intros e1 e2 []|]. now apply representativesFrom_none. }
  rewrite (bind_Ok _ _ w tt w) by reflexivity.
  exists (List.map snd (common.electRepresentatives X p cs [])).
  split; [apply elected_distinctRegions|].
  set (el := List.map snd _).
  assert (H0 : representativesFrom X holder provider el (kv w))
    by now apply representativesFrom_none.
  revert H0. apply (keeps_forM_In (representativesFrom X holder provider el)).
  intros e He. apply keeps_kvPut. intros m Hm.
  apply (representativesFrom_put el m (ConnConfig.withRegionRepresentative true (snd e)) Hm).
  intros _ _. exists (snd e). split; [|split; reflexivity].
  unfold el. apply List.in_map_iff. now exists e.
Qed.

Lemma adoptVerifiedZone_fields (vcs : list ConnConfig.t) (c : ConnConfig.t) :
  let c' := common.adoptVerifiedZone vcs c in
  ConnConfig.ConfigName c' = ConnConfig.ConfigName c /\
  ConnConfig.CredentialHolder c' = ConnConfig.CredentialHolder c /\
  ConnConfig.ProviderName c' = ConnConfig.ProviderName c /\
  ConnConfig.RegionRepresentative c' = ConnConfig.RegionRepresentative c /\
  ConnConfig.RegionDetail c' = ConnConfig.RegionDetail c.
Proof.
  unfold common.adoptVerifiedZone. destruct (List.find _ vcs); repeat split.
Qed.

Lemma verifyRegionRepresentativeAndUpdateZone_keeps (el : list ConnConfig.t) (p h : string) :
  keeps (representativesFrom X holder provider el)
        (common.verifyRegionRepresentativeAndUpdateZone X p h).
Proof.
  intros w Hw. unfold common.verifyRegionRepresentativeAndUpdateZone.
  destruct (GetConnConfigList_run X h true false w) as (vcs & E & _ & _).
  rewrite (bind_Ok _ _ _ _ _ E). cbn [fst snd].
  destruct (listError (kv w)) as [msg|] eqn:Herr; [exact Hw|].
  rewrite (bind_Ok _ _ w tt w) by reflexivity.
  destruct (GetConnConfigList_run X h false true w) as (cs & E2 & Hin & Hrep).
  rewrite (bind_Ok _ _ _ _ _ E2). cbn [fst snd].
  pose proof Hw as Hw0.
  revert Hw. apply (keeps_forM_In (representativesFrom X holder provider el)).
  intros c Hc. destruct (EqualFold X p (ConnConfig.ProviderName c)); [|apply keeps_ret].
  destruct (negb _); [|apply keeps_ret].
  destruct (adoptVerifiedZone_fields vcs c) as (En & Eh & Ep & Er & Ed).
  apply keeps_kvPut. intros m Hm.
  apply (representativesFrom_put el m (common.adoptVerifiedZone vcs c) Hm).
  intros Hof Hr. rewrite En, Ed.
  destruct (Hin c Hc) as (k & Hk).
  destruct (Hw0 k c Hk) as (_ & e & He & Hn & Hd).
  - unfold ofHolderProvider in *. now rewrite Eh, Ep in Hof.
  - now rewrite Er in Hr.
  - exists e. repeat split; assumption.
Qed.

End Representatives.

(** ** The representatives across a registration *)

Lemma bind_Err {A B} (c : M A) (k : A -> M B) w e w1 :
  c w = (Err e, w1) -> bind c k w = (Err e, w1).
Proof. intros E. unfold bind. now rewrite E. Qed.

Lemma bind_Panic {A B} (c : M A) (k : A -> M B) w e w1 :
  c w = (Panic e, w1) -> bind c k w = (Panic e, w1).
Proof. intros E. unfold bind. now rewrite E. Qed.

Lemma representativesOf_refl (m : gmap string doc) : representativesOf m m.
Proof. intros k c H _. exact H. Qed.

Lemma representativesOf_put (m0 m : gmap string doc) (k : string) (c : ConnConfig.t) :
  representativesOf m0 m ->
  ConnConfig.RegionRepresentative c = false ->
  representativesOf m0 (<[k := DocConnConfig c]> m).
Proof.
  intros Hm Hc k' c' Hk Hr. apply lookup_insert_Some in Hk as [[_ E]|[_ Hk]].
  - inversion E; subst. congruence.
  - now apply Hm.
Qed.

Section Reregistered.

Variable X : Extern.
Variables (holder provider : string).

(** What [RegisterConnectionConfig] does to the store: when it returns a
    connection, it has stored it, not as a representative, under the key
    of the name the broker answered with; otherwise nothing. *)
Lemma RegisterConnectionConfig_store (connConfig : ConnConfig.t) (w : World) :
  match common.RegisterConnectionConfig X connConfig w with
  | (Ok connection, w') =>
      exists answer,
        postConnectionConfig (spider X)
          (SpiderConnConfig.mk (ConnConfig.ConfigName connConfig)
             (ConnConfig.ProviderName connConfig) (ConnConfig.DriverName connConfig)
             (ConnConfig.CredentialName connConfig)
             (ConnConfig.RegionZoneInfoName connConfig)) = Body answer /\
        ConnConfig.RegionRepresentative connection = false /\
        kv w' = <[common.GenConnectionKey (SpiderConnConfig.ConfigName answer)
                  := DocConnConfig connection]> (kv w)
  | (_, w') => kv w' = kv w
  end.
Proof.
  unfold common.RegisterConnectionConfig. cbv zeta.
  unfold bind at 1, ExecuteHttpRequest at 1.
  destruct (postConnectionConfig (spider X) _) as [msg|answer] eqn:Ea; [reflexivity|].
  unfold bind at 1, ExecuteHttpRequest at 1.
  destruct (getRegionByName (spider X) _) as [msg|region]; [reflexivity|].
  destruct (common.GetRegion X _ _) as [msg|regionDetail]; [reflexivity|].
  unfold bind, kvPut, ret. cbn [kv ConnConfig.ConfigName].
  exists answer. split; [reflexivity|]. split; reflexivity.
Qed.

Lemma registerRegionConnections_representativesOf (m0 : gmap string doc)
      (regions : list SpiderRegionZoneInfo.t) (callResult : CredentialInfo.t)
      (driver h : string) :
  keeps (representativesOf m0)
        (common.registerRegionConnections X regions callResult driver h).
Proof.
  unfold common.registerRegionConnections. apply keeps_forM_. intros region.
  destruct (String.eqb _ _); [|apply keeps_ret].
  apply keeps_bind; [|intros; apply keeps_ret].
  intros w Hw. set (conn := ConnConfig.mk _ _ _ _ _ _ _ _ _ _).
  pose proof (RegisterConnectionConfig_store conn w) as H.
  destruct (common.RegisterConnectionConfig X conn w) as [[c|e|e] w1]; cbn [snd].
  - destruct H as (answer & _ & Hr & ->). now apply representativesOf_put.
  - now rewrite H.
  - now rewrite H.
Qed.

(** When the loop has come to its end, every connection it has stored is
    no representative: the representatives left are under none of its
    keys. *)
Lemma registerRegionConnections_clears (callResult : CredentialInfo.t) (driver h : string)
      (regions : list SpiderRegionZoneInfo.t) :
  forall w w',
    registeredAnew X holder provider
      (loopKeys X regions (CredentialInfo.CredentialHolder callResult)
         (CredentialInfo.ProviderName callResult)
         (CredentialInfo.CredentialName callResult) driver) (kv w) ->
    common.registerRegionConnections X regions callResult driver h w = (Ok tt, w') ->
    registeredAnew X holder provider [] (kv w').
Proof.
  unfold common.registerRegionConnections.
  induction regions as [|region rest IH]; intros w w' Hcov Hrun.
  - cbn in Hrun. injection Hrun as <-. exact Hcov.
  - cbn [forM_] in Hrun. cbn [loopKeys flat_map] in Hcov. fold (loopKeys X rest) in Hcov.
    apply bind_Ok_inv in Hrun. destruct Hrun as ([] & w1 & Hstep & Hrest).
    apply (IH w1 w'); [|exact Hrest]. clear IH Hrest.
    destruct (String.eqb (ToLower X (SpiderRegionZoneInfo.ProviderName region))
                         (CredentialInfo.ProviderName callResult)).
    + apply bind_Ok_inv in Hstep. destruct Hstep as (c & w2 & Hc & Hret).
      injection Hret as <-.
      match type of Hc with
      | common.RegisterConnectionConfig X ?conn w = _ =>
          pose proof (RegisterConnectionConfig_store conn w) as H
      end.
      rewrite Hc in H. destruct H as (answer & Ea & Hr & Ekv).
      cbn [ConnConfig.ConfigName ConnConfig.ProviderName ConnConfig.DriverName
           ConnConfig.CredentialName ConnConfig.RegionZoneInfoName] in Ea.
      unfold connectionRequest in Hcov. rewrite Ea in Hcov.
      intros k c' Hk Hmay Hrep. rewrite Ekv in Hk.
      apply lookup_insert_Some in Hk as [[_ E]|[Hne Hk]].
      * inversion E; subst c'. congruence.
      * specialize (Hcov k c' Hk Hmay Hrep). cbn [List.app In] in Hcov.
        destruct Hcov as [Hcov|Hcov]; [congruence|exact Hcov].
    + injection Hstep as <-. exact Hcov.
Qed.

(** The verification after the loop: what it stores of the holder and
    the provider is no representative. *)
Lemma verifyConnections_clears (q h : string) (w : World) :
  registeredAnew X holder provider [] (kv w) ->
  noRepresentative X holder provider (kv (snd (common.verifyConnections X q h w))).
Proof.
  intros Hno'.
  assert (Hno : noRepresentative X holder provider (kv w)).
  { intros k c Hk Hof. destruct (ConnConfig.RegionRepresentative c) eqn:Hr; [|reflexivity].
    exfalso. apply (Hno' k c Hk); [|exact Hr].
    unfold ofHolderProvider in Hof. unfold mayBeOfHolderProvider.
    apply andb_prop in Hof as [-> ->]. reflexivity. }
  unfold common.verifyConnections.
  destruct (GetConnConfigList_run X h false false w) as (cs & E & Hin & _).
  rewrite (bind_Ok _ _ _ _ _ E). cbn [fst snd].
  destruct (listError (kv w)) as [msg|]; [exact Hno|].
  rewrite (bind_Ok _ _ w tt w) by reflexivity.
  set (filtered := List.map _ _).
  destruct (mapM_probe_facts X filtered w) as (Hkv & Hres).
  unfold bind. destruct (mapM (common.probe X) filtered w) as [[rs|e|e] w1];
    cbn [fst snd] in *; try (rewrite Hkv; exact Hno).
  assert (Hno1 : noRepresentative X holder provider (kv w1)) by (rewrite Hkv; exact Hno).
  revert Hno1. apply (keeps_forM_In (noRepresentative X holder provider)).
  intros x Hx. destruct (ConnConfig.Verified x); [|apply keeps_ret].
  apply keeps_kvPut. intros m Hm. apply noRepresentative_put; [exact Hm|].
  intros Hof. destruct (Hres rs eq_refl x Hx) as (c0 & Hc0 & Hh & Hp & Hr).
  rewrite Hr. unfold filtered in Hc0. apply List.in_map_iff in Hc0 as (c & <- & Hc).
  apply List.filter_In in Hc as [Hc _]. destruct (Hin c Hc) as (k & Hk).
  cbn [ConnConfig.withProviderName ConnConfig.RegionRepresentative].
  destruct (ConnConfig.RegionRepresentative c) eqn:Hrc; [|reflexivity].
  exfalso. apply (Hno' k c Hk); [|exact Hrc].
  unfold ofHolderProvider in Hof. rewrite Hh, Hp in Hof.
  cbn [ConnConfig.withProviderName ConnConfig.CredentialHolder ConnConfig.ProviderName] in Hof.
  unfold mayBeOfHolderProvider. apply andb_prop in Hof as [-> ->].
  now rewrite orb_true_r.
Qed.

End Reregistered.


(** ** The representatives after a registration *)

Section AfterRegistration.

Variable X : Extern.

Lemma keeps_GetConnConfigList (P : gmap string doc -> Prop) (h : string) (v r : bool) :
  keeps P (common.GetConnConfigList X h v r).
Proof.
  intros w H. destruct (GetConnConfigList_run X h v r w) as (cs & E & _).
  rewrite E. exact H.
Qed.

Lemma decryptCredential_kv (req : CredentialReq.t) (w : World) :
  kv (snd (common.decryptCredential X req w)) = kv w.
Proof.
  unfold common.decryptCredential, bind at 1, common.lookupPrivateKey.
  destruct (privateKeyStore w !! _) as [pk|]; [|reflexivity].
  destruct (base64Decode X _) as [msg|ek]; [reflexivity|].
  destruct (DecryptOAEP X pk ek) as [msg|aesKey]; [reflexivity|].
  unfold bind at 1.
  pose proof (mapM_decryptValue_world X aesKey (CredentialReq.CredentialKeyValueList req) w) as Hw.
  destruct (mapM _ _ w) as [[vals|e|e] w1]; cbn [snd] in Hw; subst; reflexivity.
Qed.

Lemma one_of_distinct (holder provider : string) (el : list ConnConfig.t)
      (m : gmap string doc) :
  distinctRegions el ->
  representativesFrom X holder provider el m ->
  oneRepresentativePerRegion X holder provider m.
Proof.
  intros Hd Hr k1 k2 c1 c2 H1 H2 Ho1 Ho2 Hr1 Hr2 Hreg.
  destruct (Hr k1 c1 H1 Ho1 Hr1) as (-> & e1 & He1 & Hn1 & Hd1).
  destruct (Hr k2 c2 H2 Ho2 Hr2) as (-> & e2 & He2 & Hn2 & Hd2).
  rewrite <- Hn1, <- Hn2. f_equal. apply Hd; [exact He1|exact He2|].
  now rewrite Hd1, Hd2.
Qed.

Lemma one_of_representativesOf (holder provider : string) (m0 m : gmap string doc) :
  representativesOf m0 m ->
  oneRepresentativePerRegion X holder provider m0 ->
  oneRepresentativePerRegion X holder provider m.
Proof.
  intros Hfrom H0 k1 k2 c1 c2 H1 H2 Ho1 Ho2 Hr1 Hr2 Hreg.
  apply (H0 k1 k2 c1 c2); auto.
Qed.

(** The registration of the connections: it ends with at most one
    representative for every region, or it fails before the loop has come
    to its end and has made no representative. *)
Lemma registerConnections_post (req : CredentialReq.t) (callResult : CredentialInfo.t)
      (w : World) :
  let holder := ToLower X (CredentialReq.CredentialHolder req) in
  let provider := ToLower X (CredentialReq.ProviderName req) in
  let providerName := ToLower X (CredentialInfo.ProviderName callResult) in
  (forall cspDetail regions,
     CloudInfo.CSPs (RuntimeCloudInfo X) !! providerName = Some cspDetail ->
     getRegionAll (spider X) = Body regions ->
     registeredAnew X holder provider
       (loopKeys X regions holder providerName (CredentialInfo.CredentialName callResult)
          (CSPDetail.Driver cspDetail)) (kv w)) ->
  let run := common.registerConnections X req callResult w in
  oneRepresentativePerRegion X holder provider (kv (snd run)) \/
  (failed (fst run) /\ representativesOf (kv w) (kv (snd run))).
Proof.
  intros holder provider providerName Hcov run.
  set (cr := CredentialInfo.mk (CredentialInfo.CredentialName callResult) holder providerName
               (List.map (fun keyValue => model.mkKeyValue (model.Key keyValue) "************")
                  (CredentialInfo.KeyValueInfoList callResult))
               (CredentialInfo.AllConnections callResult)).
  set (rest := (common.verifyConnections X providerName holder;;;
                common.setRegionRepresentative X provider holder;;;
                common.verifyRegionRepresentativeAndUpdateZone X provider holder;;;
                r <- common.GetConnConfigList X holder false false;;
                check (snd r);;;
                ret (CredentialInfo.mk (CredentialInfo.CredentialName cr)
                       (CredentialInfo.CredentialHolder cr)
                       (CredentialInfo.ProviderName cr)
                       (CredentialInfo.KeyValueInfoList cr) (fst r)))).
  assert (Erun : run =
    match CloudInfo.CSPs (RuntimeCloudInfo X) !! providerName with
    | None => (Err ("cloudType '" +:+ providerName +:+ "' not found"), w)
    | Some cspDetail =>
        let w1 := mkWorld (kv w) (privateKeyStore w) (uidCount w)
                    (spiderLog w ++ [(GetRegionAll, kv w)]) in
        match getRegionAll (spider X) with
        | Failed msg => (Err msg, w1)
        | Body regions =>
            (common.registerRegionConnections X regions cr (CSPDetail.Driver cspDetail)
               holder ;;; rest) w1
        end
    end).
  { subst run. unfold common.registerConnections. cbv zeta. unfold common.GetCloudInfo.
    cbn [CredentialInfo.ProviderName]. fold holder. fold provider. fold providerName.
    destruct (CloudInfo.CSPs (RuntimeCloudInfo X) !! providerName) as [cspDetail|];
      [|reflexivity].
    unfold bind at 1, ExecuteHttpRequest at 1.
    destruct (getRegionAll (spider X)) as [msg|regions]; reflexivity. }
  rewrite Erun. clear Erun run.
  destruct (CloudInfo.CSPs (RuntimeCloudInfo X) !! providerName) as [cspDetail|] eqn:Ec.
  2:{ right. split; [intros a; discriminate|apply representativesOf_refl]. }
  cbv zeta. set (w1 := mkWorld _ _ _ _).
  destruct (getRegionAll (spider X)) as [msg|regions] eqn:Eg.
  { right. split; [intros a; discriminate|apply representativesOf_refl]. }
  specialize (Hcov cspDetail regions eq_refl eq_refl).
  pose proof (registerRegionConnections_representativesOf X (kv w) regions cr
                (CSPDetail.Driver cspDetail) holder w1 (representativesOf_refl _)) as Hfrom.
  destruct (common.registerRegionConnections X regions cr (CSPDetail.Driver cspDetail)
              holder w1) as [[[]|e|e] w2] eqn:El; cbn [snd] in Hfrom.
  2:{ right. rewrite (bind_Err _ _ _ _ _ El). cbn [fst snd].
      split; [intros a; discriminate|exact Hfrom]. }
  2:{ right. rewrite (bind_Panic _ _ _ _ _ El). cbn [fst snd].
      split; [intros a; discriminate|exact Hfrom]. }
  left. rewrite (bind_Ok _ _ _ _ _ El).
  assert (H2 : registeredAnew X holder provider [] (kv w2)).
  { apply (registerRegionConnections_clears X holder provider cr
             (CSPDetail.Driver cspDetail) holder regions w1 w2); [|exact El].
    subst cr. cbn [CredentialInfo.ProviderName CredentialInfo.CredentialName
                   CredentialInfo.CredentialHolder]. exact Hcov. }
  set (R := fun m => exists el, distinctRegions el /\
                                representativesFrom X holder provider el m).
  assert (Hweak : forall m, noRepresentative X holder provider m -> R m).
  { intros m Hm. exists []. split; [intros e1 e2 []|].
    now apply representativesFrom_none. }
  enough (HR : R (kv (snd (rest w2)))).
  { destruct HR as (el & Hd & Hr). now apply (one_of_distinct holder provider el). }
  subst rest.
  apply (post_bind (noRepresentative X holder provider) R);
    [now apply verifyConnections_clears| |exact Hweak].
  intros _ w3 H3.
  apply (post_bind R R); [now apply setRegionRepresentative_post| |auto].
  intros _ w4 (el & Hd & H4). exists el. split; [exact Hd|].
  revert H4. apply keeps_bind; [apply verifyRegionRepresentativeAndUpdateZone_keeps|].
  intros _. apply keeps_bind; [apply keeps_GetConnConfigList|].
  intros r. apply keeps_bind; [apply keeps_check|intros; apply keeps_ret].
Qed.

Lemma RegisterCredential_post (req : CredentialReq.t) (w : World) :
  let holder := ToLower X (CredentialReq.CredentialHolder req) in
  let provider := ToLower X (CredentialReq.ProviderName req) in
  (forall keys, registeredKeys X req w = Some keys ->
                registeredAnew X holder provider keys (kv w)) ->
  let run := common.RegisterCredential X req w in
  oneRepresentativePerRegion X holder provider (kv (snd run)) \/
  (failed (fst run) /\ representativesOf (kv w) (kv (snd run))).
Proof.
  intros holder provider Hcov run.
  pose proof (decryptCredential_kv req w) as Hkv.
  assert (Erun : run =
    match common.decryptCredential X req w with
    | (Ok vals, w1) =>
        let w2 := mkWorld (kv w1) (privateKeyStore w1) (uidCount w1)
                    (spiderLog w1
                     ++ [(PostCredential (common.credentialForSpider X req vals), kv w1)]) in
        match postCredential (spider X) (common.credentialForSpider X req vals) with
        | Failed msg => (Err msg, w2)
        | Body callResult => common.registerConnections X req callResult w2
        end
    | (Err e, w1) => (Err e, w1)
    | (Panic e, w1) => (Panic e, w1)
    end).
  { subst run. unfold common.RegisterCredential. unfold bind at 1.
    destruct (common.decryptCredential X req w) as [[vals|e|e] w1]; try reflexivity.
    unfold bind at 1, ExecuteHttpRequest at 1.
    destruct (postCredential (spider X) _) as [msg|callResult]; reflexivity. }
  rewrite Erun. clear Erun run.
  unfold registeredKeys in Hcov.
  destruct (common.decryptCredential X req w) as [[vals|e|e] w1] eqn:Ed; cbn [snd] in Hkv.
  2:{ right. cbn [fst snd]. rewrite Hkv.
      split; [intros a; discriminate|apply representativesOf_refl]. }
  2:{ right. cbn [fst snd]. rewrite Hkv.
      split; [intros a; discriminate|apply representativesOf_refl]. }
  cbv zeta. set (w2 := mkWorld _ _ _ _).
  assert (Hkv2 : kv w2 = kv w) by (subst w2; cbn [kv]; exact Hkv).
  destruct (postCredential (spider X) (common.credentialForSpider X req vals))
    as [msg|callResult] eqn:Ep.
  { right. cbn [fst snd]. rewrite Hkv2.
    split; [intros a; discriminate|apply representativesOf_refl]. }
  rewrite <- Hkv2.
  apply (registerConnections_post req callResult w2).
  intros cspDetail regions Ec Eg. rewrite Hkv2. apply Hcov.
  cbv zeta. now rewrite Ec, Eg.
Qed.

End AfterRegistration.

Lemma registeredAnewb_spec (X : Extern) (holder provider : string) (keys : list string)
      (m : gmap string doc) :
  registeredAnewb X holder provider keys m = true ->
  registeredAnew X holder provider keys m.
Proof.
  unfold registeredAnewb. rewrite forallb_forall. intros H k c Hk Hmay Hrep.
  specialize (H (k, DocConnConfig c)). cbn [fst snd] in H.
  rewrite Hmay, Hrep in H. cbn [andb negb orb] in H.
  assert (Hin : In (k, DocConnConfig c) (map_to_list m)).
  { apply list_elem_of_In. now apply elem_of_map_to_list. }
  specialize (H Hin). apply List.existsb_exists in H. destruct H as (k' & Hk' & E).
  apply String.eqb_eq in E. now subst k'.
Qed.

(* ================================================================== *)
(** * The claims of the design document *)

(** C1, as the code has it, for the request that [CreateVNet],
    [DeleteVNet] and [DeregisterVNet] send to the broker on the vNet
    itself ([POST /vpc], [DELETE /vpc/<name>], [DELETE /regvpc/<name>]):
    the stored status of the vNet is the intent state ([Configuring],
    [Deleting]) at the moment this request is sent; when the broker
    answers it with an error, the operation returns that error and the
    stored status stays the intent state. *)
Theorem intent_state_around_broker_call (X : Extern) :
  (forall nsId vNetReq w,
     let key := common.GenResourceKey nsId model.StrVNet (TbVNetReq.Name vNetReq) in
     let run := resource.CreateVNet X nsId vNetReq w in
     exists l, spiderLog (snd run) = spiderLog w ++ l /\
       forall r snap, In (PostVpc r, snap) l ->
         vNetStatus snap key = Some resource.NetworkOnConfiguring /\
         forall msg, postVpc (spider X) r = Failed msg ->
           fst run = Err msg /\
           vNetStatus (kv (snd run)) key = Some resource.NetworkOnConfiguring) /\
  (forall nsId vNetId withSubnets w,
     let key := common.GenResourceKey nsId model.StrVNet vNetId in
     let run := resource.DeleteVNet X nsId vNetId withSubnets w in
     exists l, spiderLog (snd run) = spiderLog w ++ l /\
       forall name conn snap, In (DeleteVpc name conn, snap) l ->
         vNetStatus snap key = Some resource.NetworkOnDeleting /\
         forall msg, deleteVpc (spider X) name conn = Failed msg ->
           fst run = Err msg /\
           vNetStatus (kv (snd run)) key = Some resource.NetworkOnDeleting) /\
  (forall nsId vNetId withSubnets w,
     let key := common.GenResourceKey nsId model.StrVNet vNetId in
     let run := resource.DeregisterVNet X nsId vNetId withSubnets w in
     exists l, spiderLog (snd run) = spiderLog w ++ l /\
       forall name conn snap, In (DeleteRegVpc name conn, snap) l ->
         vNetStatus snap key = Some resource.NetworkOnDeleting /\
         forall msg, deleteRegVpc (spider X) name conn = Failed msg ->
           fst run = Err msg /\
           vNetStatus (kv (snd run)) key = Some resource.NetworkOnDeleting).
Proof.
  split; [|split].
  - intros. apply CreateVNet_status.
  - intros. apply DeleteVNet_status.
  - intros. apply DeregisterVNet_status.
Qed.

(** C1 at a broker that refuses to create the network: the error comes
    back and the vNet stays [Configuring]. *)
Lemma intent_state_around_broker_call_witness :
  let run := resource.CreateVNet Scenario.Xrefusing "default" Scenario.vnet1
               Scenario.emptyWorld in
  fst run = Err "broker: quota exceeded" /\
  vNetStatus (kv (snd run)) "/ns/default/resources/vNet/vnet1"
    = Some resource.NetworkOnConfiguring.
Proof.
  destruct (intent_state_around_broker_call Scenario.Xrefusing) as (Hc & _ & _).
  destruct (Hc "default" Scenario.vnet1 Scenario.emptyWorld) as (l & El & H).
  vm_compute in El. subst l.
  destruct (H _ _ (or_introl eq_refl)) as [_ Hf].
  apply (Hf "broker: quota exceeded"). reflexivity.
Defined.

(** C1 as stated fails: after the broker refused, the stored status is not
    [ErrorOnConfiguring]. *)
Lemma broker_failure_leaves_Configuring :
  let run := resource.CreateVNet Scenario.Xrefusing "default" Scenario.vnet1
               Scenario.emptyWorld in
  fst run = Err "broker: quota exceeded" /\
  vNetStatus (kv (snd run)) "/ns/default/resources/vNet/vnet1"
    <> Some resource.NetworkErrorOnConfiguring.
Proof. vm_compute. split; [reflexivity|discriminate]. Qed.

(** The requests on the subnets come before that: with [withSubnets]
    ["true"], [DeleteVNet] has the subnets deleted first, while the vNet
    has the status it had, and a refusal of the broker there comes back
    with the vNet left [InUse]. *)
Lemma DeleteVNet_subnets_before_Deleting :
  let run := resource.DeleteVNet Cases.XsubnetKeeping "default" "vnet1" "true"
               Scenario.vnet1World in
  fst run = Err "broker: subnet in use" /\
  vNetStatus (kv (snd run)) "/ns/default/resources/vNet/vnet1"
    = Some resource.NetworkInUse.
Proof. vm_compute. split; reflexivity. Qed.

(** C4: with valid names, a stored subnet under the vNet and [withSubnets]
    empty or ["false"], [DeleteVNet] returns the in-use error and leaves
    the store (and everything else) as it was. *)
Theorem DeleteVNet_with_subnets_refused (X : Extern)
        (nsId vNetId withSubnets subnetId : string) (w : World) (d : doc) :
  common.CheckString nsId = nil_error ->
  common.CheckString vNetId = nil_error ->
  withSubnets = "" \/ withSubnets = "false" ->
  kv w !! common.GenChildResourceKey nsId model.StrSubnet vNetId subnetId = Some d ->
  fst (resource.DeleteVNet X nsId vNetId withSubnets w)
    = Err ("the vNet (" +:+ vNetId +:+ ") is in-use, may have subnets") /\
  snd (resource.DeleteVNet X nsId vNetId withSubnets w) = w.
Proof.
  intros Hns Hid Hopt Hk.
  rewrite (DeleteVNet_in_use X nsId vNetId withSubnets subnetId w d Hns Hid Hopt Hk).
  split; reflexivity.
Qed.

Lemma DeleteVNet_with_subnets_refused_witness :
  fst (resource.DeleteVNet Scenario.X "default" "vnet1" "false" Scenario.vnet1World)
    = Err "the vNet (vnet1) is in-use, may have subnets" /\
  snd (resource.DeleteVNet Scenario.X "default" "vnet1" "false" Scenario.vnet1World)
    = Scenario.vnet1World.
Proof.
  apply (DeleteVNet_with_subnets_refused Scenario.X "default" "vnet1" "false" "sn1"
           Scenario.vnet1World (DocSubnet Scenario.sn1)).
  - vm_compute. reflexivity.
  - vm_compute. reflexivity.
  - right. reflexivity.
  - vm_compute. reflexivity.
Defined.

(** C5: with [withSubnets="true"], a stored vNet whose keys below it are
    its subnets, and a broker that deletes what it is asked to,
    [DeleteVNet] returns the message of deletion, and neither the vNet key
    nor any key below it is left; the other keys keep their values. *)
Theorem DeleteVNet_with_subnets_cascades (X : Extern) (nsId vNetId : string)
        (w : World) (vNetInfo : TbVNetInfo.t) :
  common.CheckString nsId = nil_error ->
  common.CheckString vNetId = nil_error ->
  kv w !! common.GenResourceKey nsId model.StrVNet vNetId = Some (DocVNet vNetInfo) ->
  subnetsOnlyUnder nsId vNetId (kv w) ->
  deletesSubnets X -> deletesVpcs X ->
  exists w',
    resource.DeleteVNet X nsId vNetId "true" w =
      (Ok (model.mkSimpleMsg ("the vNet (" +:+ vNetId +:+ ") has been deleted")), w') /\
    (forall k, k = common.GenResourceKey nsId model.StrVNet vNetId \/
               String.prefix (common.GenResourceKey nsId model.StrVNet vNetId +:+ "/") k = true ->
               kv w' !! k = None) /\
    (forall k, k <> common.GenResourceKey nsId model.StrVNet vNetId ->
               String.prefix (common.GenResourceKey nsId model.StrVNet vNetId +:+ "/") k = false ->
               kv w' !! k = kv w !! k).
Proof. apply DeleteVNet_cascade. Qed.

Lemma DeleteVNet_with_subnets_cascades_witness :
  exists w',
    resource.DeleteVNet Scenario.X "default" "vnet1" "true" Scenario.vnet1World =
      (Ok (model.mkSimpleMsg "the vNet (vnet1) has been deleted"), w') /\
    kv w' !! "/ns/default/resources/vNet/vnet1" = None /\
    kv w' !! "/ns/default/resources/vNet/vnet1/subnet/sn1" = None /\
    kv w' !! "/ns/default/resources/vNet/vnet1/subnet/sn2" = None.
Proof.
  destruct (DeleteVNet_with_subnets_cascades Scenario.X "default" "vnet1"
              Scenario.vnet1World Scenario.vnet1Info) as (w' & Hrun & Hgone & _).
  - vm_compute. reflexivity.
  - vm_compute. reflexivity.
  - vm_compute. reflexivity.
  - intros k d Hk Hp. unfold Scenario.vnet1World, Scenario.vnet1Store in Hk. cbn [kv] in Hk.
    apply lookup_insert_Some in Hk as [[<- <-]|[_ Hk]];
      [exists Scenario.sn2; split; reflexivity|].
    apply lookup_insert_Some in Hk as [[<- <-]|[_ Hk]];
      [exists Scenario.sn1; split; reflexivity|].
    apply lookup_insert_Some in Hk as [[<- <-]|[_ Hk]];
      [vm_compute in Hp; discriminate|].
    rewrite lookup_empty in Hk. discriminate.
  - intros a b c. exists Scenario.done. split; reflexivity.
  - intros a b. exists Scenario.done. split; reflexivity.
  - exists w'. split; [exact Hrun|]. split; [|split]; apply Hgone.
    + left. reflexivity.
    + right. vm_compute. reflexivity.
    + right. vm_compute. reflexivity.
Defined.

(** C6: when the key of the vNet is in the store already, [CreateVNet]
    returns an error and writes nothing to the store nor calls the broker;
    with a valid namespace and request the error is the already-exists
    one. *)
Theorem CreateVNet_duplicate_rejected (X : Extern) (nsId : string)
        (vNetReq : TbVNetReq.t) (w : World) :
  is_Some (kv w !! common.GenResourceKey nsId model.StrVNet (TbVNetReq.Name vNetReq)) ->
  let run := resource.CreateVNet X nsId vNetReq w in
  kv (snd run) = kv w /\
  spiderLog (snd run) = spiderLog w /\
  (exists msg, fst run = Err msg) /\
  (common.CheckString nsId = nil_error ->
   resource.validateStruct X vNetReq = nil_error ->
   fst run = Err ("already exists, vNet: " +:+ TbVNetReq.Name vNetReq)).
Proof.
  intros [d Hd] run. unfold run. rewrite (CreateVNet_duplicate_run X nsId vNetReq w d Hd).
  destruct (common.CheckString nsId) as [e|].
  { repeat split; eauto. discriminate. }
  destruct (resource.validateStruct X vNetReq) as [e|].
  { repeat split; eauto. discriminate. }
  repeat split; eauto.
Qed.

(** C6 on the same request sent twice. *)
Lemma CreateVNet_duplicate_rejected_witness :
  let w1 := snd (resource.CreateVNet Scenario.X "default" Scenario.vnet1
                   Scenario.emptyWorld) in
  let run := resource.CreateVNet Scenario.X "default" Scenario.vnet1 w1 in
  kv (snd run) = kv w1 /\ fst run = Err "already exists, vNet: vnet1".
Proof.
  intros w1 run.
  destruct (CreateVNet_duplicate_rejected Scenario.X "default" Scenario.vnet1 w1)
    as (Hkv & _ & _ & Herr).
  - vm_compute. eexists. reflexivity.
  - split; [exact Hkv|]. apply Herr; vm_compute; reflexivity.
Defined.

(** C7, as the code has it: on a request without subnets
    [ValidateVNetReq] returns an error, touches neither the store nor the
    broker, and the error is ["at least one subnet is required"] once the
    struct validation has passed. *)
Theorem ValidateVNetReq_requires_subnet (X : Extern) (vNetReq : TbVNetReq.t) (w : World) :
  TbVNetReq.SubnetInfoList vNetReq = [] ->
  (exists msg, resource.ValidateVNetReq X vNetReq w = (Err msg, w)) /\
  (resource.validateStruct X vNetReq = nil_error ->
   resource.ValidateVNetReq X vNetReq w = (Err "at least one subnet is required", w)).
Proof.
  intros Hl. rewrite (ValidateVNetReq_no_subnet_run X vNetReq w Hl).
  destruct (resource.validateStruct X vNetReq) as [e|]; split; eauto; discriminate.
Qed.

Lemma ValidateVNetReq_requires_subnet_witness :
  resource.ValidateVNetReq Scenario.X Scenario.vnet0 Scenario.vnet1World
  = (Err "at least one subnet is required", Scenario.vnet1World).
Proof.
  apply (ValidateVNetReq_requires_subnet Scenario.X Scenario.vnet0 Scenario.vnet1World).
  - reflexivity.
  - vm_compute. reflexivity.
Defined.

(** C7 as stated fails for a request that gets to [CreateVNet], which
    does not call [ValidateVNetReq]: the request [vnet0] has no subnet, and
    [CreateVNet] sends it to the broker, stores the vNet and returns it
    with the status [Available]. *)
Lemma CreateVNet_without_subnets_is_not_rejected :
  let run := resource.CreateVNet Scenario.X "default" Scenario.vnet0 Scenario.emptyWorld in
  TbVNetReq.SubnetInfoList Scenario.vnet0 = [] /\
  (exists vNetInfo,
     fst run = Ok vNetInfo /\
     TbVNetInfo.Status vNetInfo = resource.NetworkAvailable /\
     kv (snd run) !! "/ns/default/resources/vNet/vnet0" = Some (DocVNet vNetInfo)) /\
  (exists r snap, spiderLog (snd run) = [(PostVpc r, snap)]).
Proof.
  vm_compute. split; [reflexivity|]. split.
  - eexists. repeat split.
  - eexists. eexists. reflexivity.
Qed.

(** C8, as the code has it: on ASCII strings [CheckString] returns [nil]
    exactly for a letter followed, if by anything, by letters, digits,
    dashes and plus signs that end in a letter or a digit; ["a"] and
    ["a--b"] are accepted, ["1a"], ["a-"] and the empty string are not. *)
Theorem CheckString_id_rule (s : string) (Hs : IdRule.isAscii s = true) :
  (common.CheckString s = nil_error <-> IdRule.matchesPlus s = true) /\
  common.CheckString "a" = nil_error /\
  common.CheckString "a--b" = nil_error /\
  common.CheckString "1a" <> nil_error /\
  common.CheckString "a-" <> nil_error /\
  common.CheckString "" <> nil_error.
Proof.
  split; [now apply CheckString_ascii|].
  vm_compute. repeat split; discriminate.
Qed.

Lemma CheckString_id_rule_witness :
  common.CheckString "vnet-01" = nil_error <-> IdRule.matchesPlus "vnet-01" = true.
Proof. apply (CheckString_id_rule "vnet-01"). vm_compute. reflexivity. Defined.

(** C8 as stated fails: ["a+b"] is accepted although it does not match
    the rule of letters, digits and dashes. *)
Lemma CheckString_accepts_plus :
  ~ (common.CheckString "a+b" = nil_error <-> IdRule.matches "a+b" = true).
Proof.
  intros [H _]. assert (E : common.CheckString "a+b" = nil_error) by (vm_compute; reflexivity).
  specialize (H E). vm_compute in H. discriminate.
Qed.

(** C9, as the code has it: [CreateVNet] draws the [Uuid] of every subnet
    before it calls the broker and sends it as the subnet's name; on
    success every local subnet takes the values of the broker's subnet
    whose [NameId] is its [Uuid]; so two answers of the broker that list
    the same subnets, of pairwise distinct names, in different orders give
    the same run of [CreateVNet]. *)
Theorem CreateVNet_subnets_matched_by_uuid (X : Extern) (nsId : string)
        (vNetReq : TbVNetReq.t) (w : World)
        (f1 f2 : spiderCreateVPCRequest.t -> answer spiderVPCInfo.t)
        (r1 r2 : spiderVPCInfo.t) :
  common.CheckString nsId = nil_error ->
  resource.validateStruct X vNetReq = nil_error ->
  kv w !! common.GenResourceKey nsId model.StrVNet (TbVNetReq.Name vNetReq) = None ->
  let key := common.GenResourceKey nsId model.StrVNet (TbVNetReq.Name vNetReq) in
  let vNetInfo := configuringVNet X vNetReq (uidCount w) in
  let spReqt := resource.vpcRequest vNetReq (xid X (uidCount w)) vNetInfo in
  f1 spReqt = Body r1 ->
  f2 spReqt = Body r2 ->
  sameVpc r1 r2 ->
  Permutation (spiderVPCInfo.SubnetInfoList r1) (spiderVPCInfo.SubnetInfoList r2) ->
  List.NoDup (List.map subnetNameId (spiderVPCInfo.SubnetInfoList r1)) ->
  let run1 := resource.CreateVNet (withPostVpc f1 X) nsId vNetReq w in
  let run2 := resource.CreateVNet (withPostVpc f2 X) nsId vNetReq w in
  (spiderLog (snd run1) = spiderLog w ++ [(PostVpc spReqt, <[key := DocVNet vNetInfo]> (kv w))] /\
   List.map spiderAddSubnetRequestInfo.Name
     (spiderCreateVPCRequestInfo.SubnetInfoList (spiderCreateVPCRequest.ReqInfo spReqt)) =
   List.map TbSubnetInfo.Uuid (TbVNetInfo.SubnetInfoList vNetInfo)) /\
  (exists stored, fst run1 = Ok stored /\
     TbVNetInfo.SubnetInfoList stored =
     List.map (matchByUuid (TbVNetInfo.ConnectionName vNetInfo) (spiderVPCInfo.IId r1)
                 (spiderVPCInfo.SubnetInfoList r1))
              (TbVNetInfo.SubnetInfoList vNetInfo)) /\
  run1 = run2.
Proof.
  intros Hns Hreq Hfree key vNetInfo spReqt H1 H2 Hsame Hperm Hnd run1 run2.
  assert (E1 : run1 = resource.saveVNet nsId (resource.adoptVpc r1 vNetInfo)
                        (mkWorld (<[key := DocVNet vNetInfo]> (kv w)) (privateKeyStore w)
                           (S (uidCount w) + List.length (TbVNetReq.SubnetInfoList vNetReq))
                           (spiderLog w ++ [(PostVpc spReqt, <[key := DocVNet vNetInfo]> (kv w))]))).
  { unfold run1. rewrite (CreateVNet_run (withPostVpc f1 X) nsId vNetReq w Hns Hreq Hfree).
    change (postVpc (spider (withPostVpc f1 X))) with f1.
    change (configuringVNet (withPostVpc f1 X) vNetReq (uidCount w)) with vNetInfo.
    change (xid (withPostVpc f1 X)) with (xid X). fold spReqt. rewrite H1. reflexivity. }
  assert (E2 : run2 = resource.saveVNet nsId (resource.adoptVpc r2 vNetInfo)
                        (mkWorld (<[key := DocVNet vNetInfo]> (kv w)) (privateKeyStore w)
                           (S (uidCount w) + List.length (TbVNetReq.SubnetInfoList vNetReq))
                           (spiderLog w ++ [(PostVpc spReqt, <[key := DocVNet vNetInfo]> (kv w))]))).
  { unfold run2. rewrite (CreateVNet_run (withPostVpc f2 X) nsId vNetReq w Hns Hreq Hfree).
    change (postVpc (spider (withPostVpc f2 X))) with f2.
    change (configuringVNet (withPostVpc f2 X) vNetReq (uidCount w)) with vNetInfo.
    change (xid (withPostVpc f2 X)) with (xid X). fold spReqt. rewrite H2. reflexivity. }
  split; [split|split].
  - rewrite E1, saveVNet_log. reflexivity.
  - apply vpcRequest_names.
  - rewrite E1. destruct (saveVNet_ok nsId (resource.adoptVpc r1 vNetInfo)
                            (mkWorld (<[key := DocVNet vNetInfo]> (kv w)) (privateKeyStore w)
                               (S (uidCount w) + List.length (TbVNetReq.SubnetInfoList vNetReq))
                               (spiderLog w ++ [(PostVpc spReqt, <[key := DocVNet vNetInfo]> (kv w))])))
      as (w' & Hs).
    rewrite Hs. eexists. split; [reflexivity|].
    unfold resource.adoptVpc. cbn [TbVNetInfo.SubnetInfoList].
    now apply reconcileSubnets_match.
  - rewrite E1, E2. now rewrite (adoptVpc_perm r1 r2 vNetInfo Hsame Hperm Hnd).
Qed.

(** C9 on the two subnets of [vnet1], listed by the broker in reverse and
    in the order requested. *)
Lemma CreateVNet_subnets_matched_by_uuid_witness :
  resource.CreateVNet (withPostVpc (fun r => Body (Scenario.createdVpc r)) Scenario.X)
    "default" Scenario.vnet1 Scenario.emptyWorld =
  resource.CreateVNet (withPostVpc (fun r => Body (Scenario.createdVpcInOrder r)) Scenario.X)
    "default" Scenario.vnet1 Scenario.emptyWorld.
Proof.
  eapply (CreateVNet_subnets_matched_by_uuid Scenario.X "default" Scenario.vnet1
            Scenario.emptyWorld (fun r => Body (Scenario.createdVpc r))
            (fun r => Body (Scenario.createdVpcInOrder r))).
  - vm_compute. reflexivity.
  - vm_compute. reflexivity.
  - vm_compute. reflexivity.
  - reflexivity.
  - reflexivity.
  - repeat split.
  - vm_compute. apply perm_swap.
  - vm_compute. constructor.
    + intros [H|[]]. discriminate.
    + constructor; [intros []|constructor].
Defined.

(** C9 as stated fails: two answers that list the same two subnets of one
    name in different orders are permutations of each other and give
    different vNets. *)
Lemma duplicate_names_order_matters :
  let req := resource.vpcRequest Scenario.vnet1 (Scenario.xid 0)
               (configuringVNet Scenario.X Scenario.vnet1 0) in
  let r1 := Scenario.vpcTwice "subnet-a" "subnet-b" req in
  let r2 := Scenario.vpcTwice "subnet-b" "subnet-a" req in
  sameVpc r1 r2 /\
  Permutation (spiderVPCInfo.SubnetInfoList r1) (spiderVPCInfo.SubnetInfoList r2) /\
  fst (resource.CreateVNet (withPostVpc (fun _ => Body r1) Scenario.X)
         "default" Scenario.vnet1 Scenario.emptyWorld) <>
  fst (resource.CreateVNet (withPostVpc (fun _ => Body r2) Scenario.X)
         "default" Scenario.vnet1 Scenario.emptyWorld).
Proof.
  cbv zeta. split; [|split].
  - repeat split.
  - vm_compute. apply perm_swap.
  - vm_compute. intros H. discriminate H.
Qed.

(** C2, where the code departs from it: with the token in the map, a
    registration that fails before or while the values are decrypted (the
    AES key is not base64, RSA-OAEP fails, a value fails to decrypt)
    returns its error with the map as it was, the token still in it; a
    registration the broker refuses afterwards has deleted the token. *)
Theorem RegisterCredential_token_after_failure (X : Extern) (req : CredentialReq.t)
        (w : World) (pk : PrivateKey) :
  privateKeyStore w !! CredentialReq.PublicKeyTokenId req = Some pk ->
  (forall msg,
     base64Decode X (CredentialReq.EncryptedClientAesKeyByPublicKey req) = inl msg ->
     common.RegisterCredential X req w =
       (Err ("failed to decode encrypted AES key: " +:+ msg), w)) /\
  (forall ek msg,
     base64Decode X (CredentialReq.EncryptedClientAesKeyByPublicKey req) = inr ek ->
     DecryptOAEP X pk ek = inl msg ->
     common.RegisterCredential X req w =
       (Err ("failed to decrypt AES key: " +:+ msg), w)) /\
  (forall ek aesKey msg,
     base64Decode X (CredentialReq.EncryptedClientAesKeyByPublicKey req) = inr ek ->
     DecryptOAEP X pk ek = inr aesKey ->
     fst (mapM (common.decryptValue X aesKey) (CredentialReq.CredentialKeyValueList req) w)
       = Err msg ->
     common.RegisterCredential X req w = (Err msg, w)) /\
  (forall ek aesKey vals msg,
     base64Decode X (CredentialReq.EncryptedClientAesKeyByPublicKey req) = inr ek ->
     DecryptOAEP X pk ek = inr aesKey ->
     fst (mapM (common.decryptValue X aesKey) (CredentialReq.CredentialKeyValueList req) w)
       = Ok vals ->
     postCredential (spider X) (common.credentialForSpider X req vals) = Failed msg ->
     fst (common.RegisterCredential X req w) = Err msg /\
     privateKeyStore (snd (common.RegisterCredential X req w))
       !! CredentialReq.PublicKeyTokenId req = None).
Proof.
  intros Hpk. split; [|split; [|split]].
  - intros msg Hm. unfold common.RegisterCredential, common.decryptCredential, bind,
      common.lookupPrivateKey. rewrite Hpk, Hm. reflexivity.
  - intros ek msg Hek Hm. unfold common.RegisterCredential, common.decryptCredential, bind,
      common.lookupPrivateKey. rewrite Hpk, Hek, Hm. reflexivity.
  - intros ek aesKey msg Hek Hd Hm. unfold common.RegisterCredential, bind at 1.
    rewrite (decryptCredential_run X req w pk ek aesKey Hpk Hek Hd).
    destruct (mapM _ _ w) as [[vals|e|e] w1]; cbn [fst] in Hm; try discriminate.
    now inversion Hm.
  - intros ek aesKey vals msg Hek Hd Hv Hm.
    assert (Erun : common.RegisterCredential X req w =
                   (Err msg,
                    mkWorld (kv w)
                      (delete (CredentialReq.PublicKeyTokenId req) (privateKeyStore w))
                      (uidCount w)
                      (spiderLog w ++
                       [(PostCredential (common.credentialForSpider X req vals), kv w)]))).
    { unfold common.RegisterCredential, bind at 1.
      rewrite (decryptCredential_run X req w pk ek aesKey Hpk Hek Hd).
      destruct (mapM _ _ w) as [[vals'|e|e] w1]; cbn [fst] in Hv; try discriminate.
      inversion Hv; subst vals'. unfold bind, ExecuteHttpRequest. rewrite Hm. reflexivity. }
    rewrite Erun. cbn [fst snd privateKeyStore]. split; [reflexivity|apply lookup_delete_eq].
Qed.

(** C2 at a request whose AES key is not base64: the error comes back and
    [token1] is still in the map. *)
Lemma RegisterCredential_token_after_failure_witness :
  let w := Scenario.withToken Scenario.emptyWorld in
  common.RegisterCredential Scenario.X Scenario.badKeyReq w =
    (Err "failed to decode encrypted AES key: illegal base64 data", w) /\
  privateKeyStore w !! "token1" = Some 7%N.
Proof.
  intros w. split; [|reflexivity].
  destruct (RegisterCredential_token_after_failure Scenario.X Scenario.badKeyReq w 7%N)
    as (H & _).
  - reflexivity.
  - apply (H "illegal base64 data"). vm_compute. reflexivity.
Defined.

(** C10: with the token in the map, an AES key that decrypts to a valid
    key, and a first credential value that decodes to fewer than sixteen
    bytes, [RegisterCredential] panics on the slice; with one of exactly
    sixteen bytes it panics in [unpad] on the index of the last byte. *)
Theorem RegisterCredential_panics (X : Extern) (req : CredentialReq.t) (w : World)
        (pk : PrivateKey) (ek aesKey enc : bytes) (keyValue : model.KeyValue)
        (rest : list model.KeyValue) :
  privateKeyStore w !! CredentialReq.PublicKeyTokenId req = Some pk ->
  base64Decode X (CredentialReq.EncryptedClientAesKeyByPublicKey req) = inr ek ->
  DecryptOAEP X pk ek = inr aesKey ->
  common.validAesKey aesKey = true ->
  CredentialReq.CredentialKeyValueList req = keyValue :: rest ->
  base64Decode X (model.Value keyValue) = inr enc ->
  ((List.length enc < common.BlockSize)%nat ->
   common.RegisterCredential X req w =
     (Panic "runtime error: slice bounds out of range", w)) /\
  (List.length enc = common.BlockSize ->
   common.RegisterCredential X req w =
     (Panic "runtime error: index out of range [-1]", w)).
Proof.
  intros Hpk Hek Hd Hk Hl He. split; intros Hlen;
    unfold common.RegisterCredential, bind at 1;
    rewrite (decryptCredential_run X req w pk ek aesKey Hpk Hek Hd), Hl;
    cbn [mapM]; unfold bind at 1.
  - rewrite (decryptValue_short X aesKey enc keyValue w Hk He Hlen). reflexivity.
  - rewrite (decryptValue_iv_only X aesKey enc keyValue w Hk He Hlen). reflexivity.
Qed.

(** C10 at values of five bytes and of sixteen bytes. *)
Lemma RegisterCredential_panics_witness :
  let w := Scenario.withToken Scenario.emptyWorld in
  common.RegisterCredential Scenario.X (Scenario.credentialReq "admin" Scenario.shortValue) w =
    (Panic "runtime error: slice bounds out of range", w) /\
  common.RegisterCredential Scenario.X (Scenario.credentialReq "admin" Scenario.ivOnlyValue) w =
    (Panic "runtime error: index out of range [-1]", w).
Proof.
  intros w. split.
  - eapply (RegisterCredential_panics Scenario.X
              (Scenario.credentialReq "admin" Scenario.shortValue) w 7%N).
    + reflexivity.
    + vm_compute. reflexivity.
    + reflexivity.
    + vm_compute. reflexivity.
    + reflexivity.
    + vm_compute. reflexivity.
    + vm_compute. lia.
  - eapply (RegisterCredential_panics Scenario.X
              (Scenario.credentialReq "admin" Scenario.ivOnlyValue) w 7%N).
    + reflexivity.
    + vm_compute. reflexivity.
    + reflexivity.
    + vm_compute. reflexivity.
    + reflexivity.
    + vm_compute. reflexivity.
    + vm_compute. reflexivity.
Defined.

(** C3, as the code has it: the election is a matter of one credential
    holder and one provider.  After [RegisterCredential] has returned
    without an error, the connections of the holder and the provider of
    the request that are region representatives are at most one for every
    region, provided every connection that was their representative
    before the call is under the key of a connection that the call
    registers: [RegisterConnectionConfig] stores each of these anew, as no
    representative, before the election.  After a call that has returned
    an error the same holds when it held before. *)
Theorem one_representative_per_holder_and_region (X : Extern) (req : CredentialReq.t)
        (w : World) :
  let holder := ToLower X (CredentialReq.CredentialHolder req) in
  let provider := ToLower X (CredentialReq.ProviderName req) in
  let run := common.RegisterCredential X req w in
  (forall keys, registeredKeys X req w = Some keys ->
                registeredAnew X holder provider keys (kv w)) ->
  (exists res, fst run = Ok res) \/ oneRepresentativePerRegion X holder provider (kv w) ->
  oneRepresentativePerRegion X holder provider (kv (snd run)).
Proof.
  intros holder provider run Hcov Hbefore.
  destruct (RegisterCredential_post X req w Hcov) as [H|[Hfail Hfrom]]; [exact H|].
  destruct Hbefore as [[res Hres]|H0]; [now apply Hfail in Hres|].
  now apply (one_of_representativesOf X holder provider (kv w)).
Qed.

(** C3 at a second registration of [admin] for [aws]: the three
    connections of the first registration are registered again, and one of
    them is the representative of [us-east-1] afterwards. *)
Lemma one_representative_per_holder_and_region_witness :
  oneRepresentativePerRegion Scenario.X "admin" "aws"
    (kv (snd (common.RegisterCredential Scenario.X
                (Scenario.credentialReq "admin" Scenario.goodValue)
                Reregistration.registeredWorld))).
Proof.
  apply (one_representative_per_holder_and_region Scenario.X
           (Scenario.credentialReq "admin" Scenario.goodValue)
           Reregistration.registeredWorld).
  - intros keys E. vm_compute in E. injection E as <-.
    apply registeredAnewb_spec. vm_compute. reflexivity.
  - left. eexists. vm_compute. reflexivity.
Defined.

(** C3 as stated fails: after [admin] and then [alice] have registered a
    credential for [aws], two connections stored under [/connection/] for
    the provider [aws] and the region [us-east-1] are region
    representatives. *)
Lemma two_holders_two_representatives :
  let w1 := snd (common.RegisterCredential Scenario.X
                   (Scenario.credentialReq "admin" Scenario.goodValue)
                   (Scenario.withToken Scenario.emptyWorld)) in
  let run := common.RegisterCredential Scenario.X
               (Scenario.credentialReq "alice" Scenario.goodValue)
               (Scenario.withToken w1) in
  (exists res, fst run = Ok res) /\
  exists c1 c2,
    kv (snd run) !! "/connection/aws-us-east-1" = Some (DocConnConfig c1) /\
    kv (snd run) !! "/connection/alice-aws-us-east-1" = Some (DocConnConfig c2) /\
    ConnConfig.ProviderName c1 = "aws" /\ ConnConfig.ProviderName c2 = "aws" /\
    RegionDetail.RegionName (ConnConfig.RegionDetail c1) = "us-east-1" /\
    RegionDetail.RegionName (ConnConfig.RegionDetail c2) = "us-east-1" /\
    ConnConfig.RegionRepresentative c1 = true /\
    ConnConfig.RegionRepresentative c2 = true.
Proof.
  vm_compute. split; [eexists; reflexivity|].
  eexists. eexists. repeat split.
Qed.

(** The condition on the earlier representatives is needed: a
    representative under a name that the call does not register stays
    one, and the election adds another for its region. *)
Lemma stale_representative_stays :
  let run := common.RegisterCredential Scenario.X
               (Scenario.credentialReq "admin" Scenario.goodValue)
               Reregistration.legacyWorld in
  (exists res, fst run = Ok res) /\
  exists c1 c2,
    kv (snd run) !! "/connection/aws-us-east-1" = Some (DocConnConfig c1) /\
    kv (snd run) !! "/connection/aws-virginia" = Some (DocConnConfig c2) /\
    ofHolderProvider Scenario.X "admin" "aws" c1 = true /\
    ofHolderProvider Scenario.X "admin" "aws" c2 = true /\
    RegionDetail.RegionName (ConnConfig.RegionDetail c1) = "us-east-1" /\
    RegionDetail.RegionName (ConnConfig.RegionDetail c2) = "us-east-1" /\
    ConnConfig.RegionRepresentative c1 = true /\
    ConnConfig.RegionRepresentative c2 = true.
Proof.
  vm_compute. split; [eexists; reflexivity|].
  eexists. eexists. repeat split.
Qed.

(* ================================================================== *)
(** * Further properties of the code *)
(** ** Removing a vNet: the guards *)

Section RemovalGuards.

Variable X : Extern.

Lemma prepareDelete_bad_arguments (nsId vNetId withSubnets : string) (w : World) :
  common.CheckString nsId <> nil_error \/ common.CheckString vNetId <> nil_error \/
  (withSubnets <> "" /\ withSubnets <> "true" /\ withSubnets <> "false") ->
  exists msg, resource.prepareDelete X nsId vNetId withSubnets w = (Err msg, w).
Proof.
  intros H. unfold resource.prepareDelete.
  destruct (common.CheckString nsId) as [m1|] eqn:E1; [eexists; reflexivity|].
  destruct (common.CheckString vNetId) as [m2|] eqn:E2; [eexists; reflexivity|].
  destruct H as [H|[H|(Ha & Hb & Hc)]]; [congruence|congruence|].
  apply String.eqb_neq in Ha, Hb, Hc.
  unfold bind, check, ret. rewrite Ha, Hb, Hc. cbn. eexists; reflexivity.
Qed.

Lemma prepareDelete_missing (nsId vNetId withSubnets : string) (w : World) :
  common.CheckString nsId = nil_error ->
  common.CheckString vNetId = nil_error ->
  withSubnets = "" \/ withSubnets = "true" \/ withSubnets = "false" ->
  kvstore.GetKvList (common.GenResourceKey nsId model.StrVNet vNetId +:+ "/subnet") (kv w) = [] ->
  kv w !! common.GenResourceKey nsId model.StrVNet vNetId = None ->
  resource.prepareDelete X nsId vNetId withSubnets w =
  (Err ("does not exist, vNet: " +:+ vNetId), w).
Proof.
  intros E1 E2 Hopt Hl Hk. unfold resource.prepareDelete. rewrite E1, E2.
  unfold bind at 1. unfold check at 1, ret at 1. unfold bind at 1. unfold check at 1, ret at 1.
  assert (Hg : negb (withSubnets =? "")%string && negb (withSubnets =? "true")%string
               && negb (withSubnets =? "false")%string = false).
  { destruct Hopt as [-> | [-> | ->]]; reflexivity. }
  rewrite Hg. unfold bind at 1, kvGetKvList at 1. rewrite Hl.
  rewrite andb_false_r. cbn [forM_]. unfold bind at 1, ret at 1.
  unfold bind at 1, kvGetKv at 1, kvstore.GetKv. rewrite Hk. reflexivity.
Qed.

Lemma prepareDelete_plain (nsId vNetId withSubnets : string) (w : World) (v : TbVNetInfo.t) :
  common.CheckString nsId = nil_error ->
  common.CheckString vNetId = nil_error ->
  withSubnets = "" \/ withSubnets = "true" \/ withSubnets = "false" ->
  kvstore.GetKvList (common.GenResourceKey nsId model.StrVNet vNetId +:+ "/subnet") (kv w) = [] ->
  kv w !! common.GenResourceKey nsId model.StrVNet vNetId = Some (DocVNet v) ->
  let key := common.GenResourceKey nsId model.StrVNet vNetId in
  let v' := TbVNetInfo.withStatus resource.NetworkOnDeleting v in
  resource.prepareDelete X nsId vNetId withSubnets w =
  (Ok (key, v'),
   mkWorld (<[key := DocVNet v']> (kv w)) (privateKeyStore w) (uidCount w) (spiderLog w)).
Proof.
  intros E1 E2 Hopt Hl Hk. unfold resource.prepareDelete. rewrite E1, E2.
  unfold bind at 1. unfold check at 1, ret at 1. unfold bind at 1. unfold check at 1, ret at 1.
  assert (Hg : negb (withSubnets =? "")%string && negb (withSubnets =? "true")%string
               && negb (withSubnets =? "false")%string = false).
  { destruct Hopt as [-> | [-> | ->]]; reflexivity. }
  rewrite Hg. unfold bind at 1, kvGetKvList at 1. rewrite Hl.
  rewrite andb_false_r. cbn [forM_]. unfold bind at 1, ret at 1.
  unfold bind at 1, kvGetKv at 1, kvstore.GetKv. rewrite Hk. reflexivity.
Qed.

End RemovalGuards.

(** [DeleteVNet] and [DeregisterVNet] refuse an invalid namespace id, an
    invalid vNet id and an option other than the empty string, [true] and
    [false] with an error, the same for both, before they read or write
    anything. *)
Theorem vNet_removal_rejects_bad_arguments (X : Extern) (nsId vNetId withSubnets : string)
        (w : World) :
  common.CheckString nsId <> nil_error \/ common.CheckString vNetId <> nil_error \/
  (withSubnets <> "" /\ withSubnets <> "true" /\ withSubnets <> "false") ->
  exists msg,
    resource.DeleteVNet X nsId vNetId withSubnets w = (Err msg, w) /\
    resource.DeregisterVNet X nsId vNetId withSubnets w = (Err msg, w).
Proof.
  intros H. destruct (prepareDelete_bad_arguments X nsId vNetId withSubnets w H) as (msg & E).
  exists msg. unfold resource.DeleteVNet, resource.DeregisterVNet, bind. now rewrite E.
Qed.

Lemma vNet_removal_rejects_bad_arguments_witness :
  exists msg,
    resource.DeleteVNet Scenario.X "default" "vnet1" "yes" Scenario.vnet1World
      = (Err msg, Scenario.vnet1World) /\
    resource.DeregisterVNet Scenario.X "default" "vnet1" "yes" Scenario.vnet1World
      = (Err msg, Scenario.vnet1World).
Proof.
  apply (vNet_removal_rejects_bad_arguments Scenario.X "default" "vnet1" "yes").
  right. right. repeat split; discriminate.
Defined.

(** For a vNet that is not in the store and has no subnet keys below its
    key, [DeleteVNet] and [DeregisterVNet] return the error "does not
    exist" and leave the store, the key map and the log of broker calls as
    they were. *)
Theorem vNet_removal_of_unknown_vNet (X : Extern) (nsId vNetId withSubnets : string)
        (w : World) :
  common.CheckString nsId = nil_error ->
  common.CheckString vNetId = nil_error ->
  withSubnets = "" \/ withSubnets = "true" \/ withSubnets = "false" ->
  kvstore.GetKvList (common.GenResourceKey nsId model.StrVNet vNetId +:+ "/subnet") (kv w) = [] ->
  kv w !! common.GenResourceKey nsId model.StrVNet vNetId = None ->
  resource.DeleteVNet X nsId vNetId withSubnets w =
    (Err ("does not exist, vNet: " +:+ vNetId), w) /\
  resource.DeregisterVNet X nsId vNetId withSubnets w =
    (Err ("does not exist, vNet: " +:+ vNetId), w).
Proof.
  intros E1 E2 Hopt Hl Hk.
  pose proof (prepareDelete_missing X nsId vNetId withSubnets w E1 E2 Hopt Hl Hk) as E.
  unfold resource.DeleteVNet, resource.DeregisterVNet, bind. now rewrite E.
Qed.

Lemma vNet_removal_of_unknown_vNet_witness :
  resource.DeleteVNet Scenario.X "default" "vnet9" "true" Scenario.vnet1World =
    (Err "does not exist, vNet: vnet9", Scenario.vnet1World) /\
  resource.DeregisterVNet Scenario.X "default" "vnet9" "true" Scenario.vnet1World =
    (Err "does not exist, vNet: vnet9", Scenario.vnet1World).
Proof.
  apply (vNet_removal_of_unknown_vNet Scenario.X "default" "vnet9" "true" Scenario.vnet1World).
  - vm_compute. reflexivity.
  - vm_compute. reflexivity.
  - right. left. reflexivity.
  - vm_compute. reflexivity.
  - vm_compute. reflexivity.
Defined.

(** When the broker answers the request to delete a vNet without subnets
    with a body whose [Result] is not true, [DeleteVNet] returns an error
    and the vNet stays in the store, now with the status [Deleting]:
    the record is neither removed nor put back as it was. *)
Theorem DeleteVNet_not_confirmed (X : Extern) (nsId vNetId withSubnets : string)
        (w : World) (v : TbVNetInfo.t) (r : spiderBooleanInfoResp.t) :
  common.CheckString nsId = nil_error ->
  common.CheckString vNetId = nil_error ->
  withSubnets = "" \/ withSubnets = "true" \/ withSubnets = "false" ->
  kvstore.GetKvList (common.GenResourceKey nsId model.StrVNet vNetId +:+ "/subnet") (kv w) = [] ->
  kv w !! common.GenResourceKey nsId model.StrVNet vNetId = Some (DocVNet v) ->
  deleteVpc (spider X) (TbVNetInfo.CspVNetName v) (TbVNetInfo.ConnectionName v) = Body r ->
  ParseBool (spiderBooleanInfoResp.Result r) <> Some true ->
  let key := common.GenResourceKey nsId model.StrVNet vNetId in
  let run := resource.DeleteVNet X nsId vNetId withSubnets w in
  fst run = Err (match ParseBool (spiderBooleanInfoResp.Result r) with
                 | None => ParseBoolError (spiderBooleanInfoResp.Result r)
                 | Some _ => "failed to delete the vNet (" +:+ vNetId +:+ ")"
                 end) /\
  kv (snd run) = <[key := DocVNet (TbVNetInfo.withStatus resource.NetworkOnDeleting v)]> (kv w).
Proof.
  intros E1 E2 Hopt Hl Hk Hb Hp key run.
  pose proof (prepareDelete_plain X nsId vNetId withSubnets w v E1 E2 Hopt Hl Hk) as E.
  cbv zeta in E.
  assert (Erun : run =
    (Err (match ParseBool (spiderBooleanInfoResp.Result r) with
          | None => ParseBoolError (spiderBooleanInfoResp.Result r)
          | Some _ => "failed to delete the vNet (" +:+ vNetId +:+ ")"
          end),
     mkWorld (<[key := DocVNet (TbVNetInfo.withStatus resource.NetworkOnDeleting v)]> (kv w))
       (privateKeyStore w) (uidCount w)
       (spiderLog w ++
        [(DeleteVpc (TbVNetInfo.CspVNetName v) (TbVNetInfo.ConnectionName v),
          <[key := DocVNet (TbVNetInfo.withStatus resource.NetworkOnDeleting v)]> (kv w))]))).
  { subst run. unfold resource.DeleteVNet. unfold bind at 1. rewrite E.
    unfold bind at 1, ExecuteHttpRequest at 1.
    cbn [TbVNetInfo.withStatus TbVNetInfo.CspVNetName TbVNetInfo.ConnectionName].
    rewrite Hb.
    destruct (ParseBool (spiderBooleanInfoResp.Result r)) as [[|]|]; [congruence| |];
      reflexivity. }
  rewrite Erun. split; reflexivity.
Qed.

Lemma DeleteVNet_not_confirmed_witness :
  fst (resource.DeleteVNet Cases.Xdenying "default" "vnet0" "" Cases.vnet0World) =
    Err "failed to delete the vNet (vnet0)" /\
  kv (snd (resource.DeleteVNet Cases.Xdenying "default" "vnet0" "" Cases.vnet0World)) =
    <["/ns/default/resources/vNet/vnet0" :=
        DocVNet (TbVNetInfo.withStatus resource.NetworkOnDeleting Cases.vnet0Info)]>
      (kv Cases.vnet0World).
Proof.
  apply (DeleteVNet_not_confirmed Cases.Xdenying "default" "vnet0" "" Cases.vnet0World
           Cases.vnet0Info (spiderBooleanInfoResp.mk "false")).
  - vm_compute. reflexivity.
  - vm_compute. reflexivity.
  - left. reflexivity.
  - vm_compute. reflexivity.
  - vm_compute. reflexivity.
  - reflexivity.
  - vm_compute. discriminate.
Defined.
(** ** What [CreateVNet] leaves in the store *)

Section CreateStore.

Variable X : Extern.

Lemma put_subnets_store (nsId vNetId : string) (l : list TbSubnetInfo.t) :
  forall w, exists w',
    forM_ l (fun subnetInfo =>
               kvPut (common.GenChildResourceKey nsId model.StrSubnet vNetId
                        (TbSubnetInfo.Id subnetInfo))
                     (DocSubnet subnetInfo)) w = (Ok tt, w') /\
    privateKeyStore w' = privateKeyStore w /\ uidCount w' = uidCount w /\
    spiderLog w' = spiderLog w /\
    (forall k, (forall s, In s l ->
                common.GenChildResourceKey nsId model.StrSubnet vNetId (TbSubnetInfo.Id s) <> k) ->
               kv w' !! k = kv w !! k) /\
    (forall s, In s l -> exists s', In s' l /\ TbSubnetInfo.Id s' = TbSubnetInfo.Id s /\
       kv w' !! common.GenChildResourceKey nsId model.StrSubnet vNetId (TbSubnetInfo.Id s)
         = Some (DocSubnet s')).
Proof.
  induction l as [|x l IH]; intros w.
  - exists w. cbn. repeat split; auto. intros s [].
  - cbn [forM_]. unfold bind at 1, kvPut at 1.
    set (w1 := mkWorld _ _ _ _).
    destruct (IH w1) as (w' & E & Hp & Hu & Hl & Hother & Hin).
    exists w'. rewrite E. split; [reflexivity|].
    split; [exact Hp|]. split; [exact Hu|]. split; [exact Hl|]. split.
    + intros k Hk. rewrite Hother by (intros s Hs; apply Hk; now right).
      subst w1. cbn [kv]. unfold kvstore.Put. apply lookup_insert_ne.
      apply Hk. now left.
    + intros s [<-|Hs].
      * destruct (in_dec string_dec (TbSubnetInfo.Id x) (List.map TbSubnetInfo.Id l))
          as [Hdup|Hfresh].
        -- apply in_map_iff in Hdup. destruct Hdup as (s2 & Hid & Hs2).
           destruct (Hin s2 Hs2) as (s' & Hs' & Hid' & Hlk).
           exists s'. split; [now right|]. split; [congruence|]. now rewrite <- Hid.
        -- exists x. split; [now left|]. split; [reflexivity|].
           rewrite Hother.
           ++ subst w1. cbn [kv]. unfold kvstore.Put. apply lookup_insert_eq.
           ++ intros s Hs Heq. apply Hfresh. apply in_map_iff. exists s. split; [|exact Hs].
              rewrite !GenChildResourceKey_subnet in Heq.
              now apply append_inj_l, append_inj_l in Heq.
      * destruct (Hin s Hs) as (s' & Hs' & Hid' & Hlk).
        exists s'. split; [now right|]. split; [exact Hid'|exact Hlk].
Qed.

Lemma saveVNet_store (nsId : string) (vNetInfo : TbVNetInfo.t) (w : World) :
  let vNetKey := common.GenResourceKey nsId model.StrVNet (TbVNetInfo.Id vNetInfo) in
  let childKey := common.GenChildResourceKey nsId model.StrSubnet (TbVNetInfo.Id vNetInfo) in
  exists w',
    resource.saveVNet nsId vNetInfo w = (Ok vNetInfo, w') /\
    privateKeyStore w' = privateKeyStore w /\ uidCount w' = uidCount w /\
    spiderLog w' = spiderLog w /\
    kv w' !! vNetKey = Some (DocVNet vNetInfo) /\
    (forall s, In s (TbVNetInfo.SubnetInfoList vNetInfo) ->
       exists s', In s' (TbVNetInfo.SubnetInfoList vNetInfo) /\
         TbSubnetInfo.Id s' = TbSubnetInfo.Id s /\
         kv w' !! childKey (TbSubnetInfo.Id s) = Some (DocSubnet s')) /\
    (forall k, k <> vNetKey ->
       (forall s, In s (TbVNetInfo.SubnetInfoList vNetInfo) -> childKey (TbSubnetInfo.Id s) <> k) ->
       kv w' !! k = kv w !! k).
Proof.
  intros vNetKey childKey. unfold resource.saveVNet. cbv zeta. fold vNetKey.
  unfold bind at 1, kvPut at 1. set (w1 := mkWorld _ _ _ _).
  destruct (put_subnets_store nsId (TbVNetInfo.Id vNetInfo)
              (TbVNetInfo.SubnetInfoList vNetInfo) w1)
    as (w' & E & Hp & Hu & Hl & Hother & Hin).
  assert (Hkey : kv w' !! vNetKey = Some (DocVNet vNetInfo)).
  { rewrite Hother.
    - subst w1. cbn [kv]. unfold kvstore.Put. apply lookup_insert_eq.
    - intros s _. apply subnetKey_ne_vNetKey. }
  exists w'. unfold bind at 1. rewrite E. unfold bind at 1, kvGetKv at 1, kvstore.GetKv.
  rewrite Hkey. cbn [json.UnmarshalVNet]. split; [reflexivity|].
  split; [exact Hp|]. split; [exact Hu|]. split; [exact Hl|]. split; [reflexivity|].
  split; [exact Hin|].
  intros k Hk Hks. rewrite Hother by exact Hks.
  subst w1. cbn [kv]. unfold kvstore.Put. now apply lookup_insert_ne.
Qed.

Lemma reconcileSubnets_Id conn vpc sps : forall tbs,
  List.map TbSubnetInfo.Id (resource.reconcileSubnets conn vpc sps tbs) =
  List.map TbSubnetInfo.Id tbs.
Proof.
  induction sps as [|sp sps IH]; intros tbs; [reflexivity|].
  rewrite reconcileSubnets_cons, IH, List.map_map. apply List.map_ext.
  intros tb. unfold resource.adoptSubnet. now destruct (String.eqb _ _).
Qed.

Lemma subnetsFrom_Id (reqs : list TbSubnetReq.t) : forall n,
  List.map TbSubnetInfo.Id (subnetsFrom X n reqs) = List.map TbSubnetReq.Name reqs.
Proof. induction reqs as [|r reqs IH]; intros n; cbn; [reflexivity|now rewrite IH]. Qed.

Lemma validateStruct_name (vNetReq : TbVNetReq.t) :
  resource.validateStruct X vNetReq = nil_error ->
  common.CheckString (TbVNetReq.Name vNetReq) = nil_error.
Proof. unfold resource.validateStruct. now destruct (validateTags X vNetReq). Qed.

(** The run of [CreateVNet] when the broker has created the network. *)
Lemma CreateVNet_created (nsId : string) (vNetReq : TbVNetReq.t) (w : World)
      (spResp : spiderVPCInfo.t) :
  common.CheckString nsId = nil_error ->
  resource.validateStruct X vNetReq = nil_error ->
  kv w !! common.GenResourceKey nsId model.StrVNet (TbVNetReq.Name vNetReq) = None ->
  postVpc (spider X)
    (resource.vpcRequest vNetReq (xid X (uidCount w)) (configuringVNet X vNetReq (uidCount w)))
    = Body spResp ->
  let vNetKey := common.GenResourceKey nsId model.StrVNet (TbVNetReq.Name vNetReq) in
  let childKey := common.GenChildResourceKey nsId model.StrSubnet (TbVNetReq.Name vNetReq) in
  let vNetInfo := resource.adoptVpc spResp (configuringVNet X vNetReq (uidCount w)) in
  exists w',
    resource.CreateVNet X nsId vNetReq w = (Ok vNetInfo, w') /\
    List.map TbSubnetInfo.Id (TbVNetInfo.SubnetInfoList vNetInfo) =
      List.map TbSubnetReq.Name (TbVNetReq.SubnetInfoList vNetReq) /\
    kv w' !! vNetKey = Some (DocVNet vNetInfo) /\
    (forall s, In s (TbVNetInfo.SubnetInfoList vNetInfo) ->
       exists s', In s' (TbVNetInfo.SubnetInfoList vNetInfo) /\
         TbSubnetInfo.Id s' = TbSubnetInfo.Id s /\
         kv w' !! childKey (TbSubnetInfo.Id s) = Some (DocSubnet s')) /\
    (forall k, k <> vNetKey ->
       (forall s, In s (TbVNetInfo.SubnetInfoList vNetInfo) -> childKey (TbSubnetInfo.Id s) <> k) ->
       kv w' !! k = kv w !! k).
Proof.
  intros E1 E2 Hk Hb vNetKey childKey vNetInfo.
  pose proof (CreateVNet_run X nsId vNetReq w E1 E2 Hk) as Erun. cbv zeta in Erun.
  rewrite Hb in Erun. rewrite Erun. clear Erun.
  set (w1 := mkWorld _ _ _ _).
  destruct (saveVNet_store nsId vNetInfo w1) as (w' & E & _ & _ & _ & Hkey & Hin & Hother).
  exists w'. split; [exact E|]. split.
  { subst vNetInfo. cbn [resource.adoptVpc TbVNetInfo.SubnetInfoList].
    rewrite reconcileSubnets_Id. unfold configuringVNet.
    cbn [TbVNetInfo.withStatus TbVNetInfo.withSubnetInfoList TbVNetInfo.SubnetInfoList].
    apply subnetsFrom_Id. }
  split; [exact Hkey|]. split; [exact Hin|].
  intros k Hne Hks. rewrite (Hother k Hne Hks).
  subst w1. cbn [kv]. now apply lookup_insert_ne.
Qed.

End CreateStore.

Section CreateFacts.

Variable X : Extern.

Lemma adoptVpc_Status (spResp : spiderVPCInfo.t) (vNetInfo : TbVNetInfo.t) :
  TbVNetInfo.Status (resource.adoptVpc spResp vNetInfo) =
  match TbVNetInfo.SubnetInfoList vNetInfo with
  | [] => resource.NetworkAvailable
  | _ :: _ => resource.NetworkInUse
  end.
Proof.
  cbn [resource.adoptVpc TbVNetInfo.Status].
  pose proof (f_equal (@List.length _)
    (reconcileSubnets_Id (TbVNetInfo.ConnectionName vNetInfo) (spiderVPCInfo.IId spResp)
       (spiderVPCInfo.SubnetInfoList spResp) (TbVNetInfo.SubnetInfoList vNetInfo))) as Hlen.
  rewrite !List.length_map in Hlen. rewrite Hlen.
  now destruct (TbVNetInfo.SubnetInfoList vNetInfo).
Qed.

Lemma NoDup_map_unique {A B} (f : A -> B) (l : list A) (a b : A) :
  List.NoDup (List.map f l) -> In a l -> In b l -> f a = f b -> a = b.
Proof.
  induction l as [|x l IH]; intros Hnd Ha Hb Hf; [destruct Ha|].
  cbn in Hnd. apply List.NoDup_cons_iff in Hnd. destruct Hnd as [Hx Hnd].
  destruct Ha as [<-|Ha], Hb as [<-|Hb]; auto.
  - exfalso. apply Hx. rewrite Hf. now apply List.in_map.
  - exfalso. apply Hx. rewrite <- Hf. now apply List.in_map.
Qed.

(** After [CreateVNet] with valid arguments the key of the vNet is in the
    store, however the call ended. *)
Lemma CreateVNet_leaves_key (nsId : string) (vNetReq : TbVNetReq.t) (w : World) :
  common.CheckString nsId = nil_error ->
  resource.validateStruct X vNetReq = nil_error ->
  exists d, kv (snd (resource.CreateVNet X nsId vNetReq w))
              !! common.GenResourceKey nsId model.StrVNet (TbVNetReq.Name vNetReq) = Some d.
Proof.
  intros E1 E2.
  destruct (kv w !! common.GenResourceKey nsId model.StrVNet (TbVNetReq.Name vNetReq))
    as [d|] eqn:Hk.
  - rewrite (CreateVNet_duplicate_run X nsId vNetReq w d Hk), E1, E2. now exists d.
  - pose proof (CreateVNet_run X nsId vNetReq w E1 E2 Hk) as Erun. cbv zeta in Erun.
    rewrite Erun. clear Erun.
    destruct (postVpc (spider X) _) as [msg|spResp].
    + cbn [snd kv]. eexists. apply lookup_insert_eq.
    + match goal with |- context [resource.saveVNet nsId ?v ?w1] =>
        destruct (saveVNet_store nsId v w1) as (w' & E & _ & _ & _ & Hkey & _) end.
      rewrite E. eexists. exact Hkey.
Qed.

End CreateFacts.

(** When the broker creates the network and the request names its subnets
    by distinct names, [CreateVNet] returns the vNet it has stored: the
    vNet is under its key, every subnet of the result is under its own
    key below it, the status is [InUse] (or [Available] for a request
    without subnets), and no key outside this vNet has changed. *)
Theorem CreateVNet_stores_what_it_returns (X : Extern) (nsId : string)
        (vNetReq : TbVNetReq.t) (w : World) :
  common.CheckString nsId = nil_error ->
  resource.validateStruct X vNetReq = nil_error ->
  kv w !! common.GenResourceKey nsId model.StrVNet (TbVNetReq.Name vNetReq) = None ->
  createsVpcs X ->
  List.NoDup (List.map TbSubnetReq.Name (TbVNetReq.SubnetInfoList vNetReq)) ->
  let vNetKey := common.GenResourceKey nsId model.StrVNet (TbVNetReq.Name vNetReq) in
  exists vNetInfo w',
    resource.CreateVNet X nsId vNetReq w = (Ok vNetInfo, w') /\
    TbVNetInfo.Id vNetInfo = TbVNetReq.Name vNetReq /\
    TbVNetInfo.Status vNetInfo =
      match TbVNetReq.SubnetInfoList vNetReq with
      | [] => resource.NetworkAvailable
      | _ :: _ => resource.NetworkInUse
      end /\
    List.map TbSubnetInfo.Id (TbVNetInfo.SubnetInfoList vNetInfo) =
      List.map TbSubnetReq.Name (TbVNetReq.SubnetInfoList vNetReq) /\
    kv w' !! vNetKey = Some (DocVNet vNetInfo) /\
    (forall s, In s (TbVNetInfo.SubnetInfoList vNetInfo) ->
       kv w' !! common.GenChildResourceKey nsId model.StrSubnet (TbVNetReq.Name vNetReq)
                  (TbSubnetInfo.Id s) = Some (DocSubnet s)) /\
    (forall k, k <> vNetKey -> String.prefix (vNetKey +:+ "/subnet/") k = false ->
       kv w' !! k = kv w !! k).
Proof.
  intros E1 E2 Hk Hcreates Hnd vNetKey.
  destruct (Hcreates (resource.vpcRequest vNetReq (xid X (uidCount w))
                        (configuringVNet X vNetReq (uidCount w)))) as (spResp & Hb).
  destruct (CreateVNet_created X nsId vNetReq w spResp E1 E2 Hk Hb)
    as (w' & E & Hids & Hkey & Hin & Hother).
  eexists. exists w'. split; [exact E|]. split; [reflexivity|]. split.
  { rewrite adoptVpc_Status. unfold configuringVNet.
    cbn [TbVNetInfo.withStatus TbVNetInfo.withSubnetInfoList TbVNetInfo.SubnetInfoList].
    now destruct (TbVNetReq.SubnetInfoList vNetReq). }
  split; [exact Hids|]. split; [exact Hkey|]. split.
  - intros s Hs. destruct (Hin s Hs) as (s' & Hs' & Hid & Hlk).
    rewrite Hlk. do 2 f_equal.
    apply (NoDup_map_unique TbSubnetInfo.Id
             (TbVNetInfo.SubnetInfoList
                (resource.adoptVpc spResp (configuringVNet X vNetReq (uidCount w)))) s' s);
      auto. now rewrite Hids.
  - intros k Hne Hpre. apply Hother; [exact Hne|].
    intros s _ <-. rewrite GenChildResourceKey_subnet in Hpre.
    fold vNetKey in Hpre.
    rewrite <- append_assoc, prefix_append in Hpre. discriminate.
Qed.

Lemma CreateVNet_stores_what_it_returns_witness :
  exists vNetInfo w',
    resource.CreateVNet Scenario.X "default" Scenario.vnet1 Scenario.emptyWorld
      = (Ok vNetInfo, w') /\
    TbVNetInfo.Id vNetInfo = "vnet1" /\
    TbVNetInfo.Status vNetInfo = "InUse" /\
    List.map TbSubnetInfo.Id (TbVNetInfo.SubnetInfoList vNetInfo) = ["sn1"; "sn2"] /\
    kv w' !! "/ns/default/resources/vNet/vnet1" = Some (DocVNet vNetInfo) /\
    (forall s, In s (TbVNetInfo.SubnetInfoList vNetInfo) ->
       kv w' !! common.GenChildResourceKey "default" model.StrSubnet "vnet1"
                  (TbSubnetInfo.Id s) = Some (DocSubnet s)) /\
    (forall k, k <> "/ns/default/resources/vNet/vnet1" ->
       String.prefix ("/ns/default/resources/vNet/vnet1" +:+ "/subnet/") k = false ->
       kv w' !! k = kv Scenario.emptyWorld !! k).
Proof.
  apply (CreateVNet_stores_what_it_returns Scenario.X "default" Scenario.vnet1
           Scenario.emptyWorld).
  - vm_compute. reflexivity.
  - vm_compute. reflexivity.
  - vm_compute. reflexivity.
  - intros r. eexists. reflexivity.
  - vm_compute. repeat constructor; cbn; intuition discriminate.
Defined.

(** A vNet that [CreateVNet] has created with at least one subnet cannot
    be removed without the option [withSubnets=true]: [DeleteVNet] and
    [DeregisterVNet] answer that it is in use and change nothing. *)
Theorem created_vNet_with_subnets_is_in_use (X : Extern) (nsId withSubnets : string)
        (vNetReq : TbVNetReq.t) (w : World) :
  common.CheckString nsId = nil_error ->
  resource.validateStruct X vNetReq = nil_error ->
  kv w !! common.GenResourceKey nsId model.StrVNet (TbVNetReq.Name vNetReq) = None ->
  createsVpcs X ->
  TbVNetReq.SubnetInfoList vNetReq <> [] ->
  withSubnets = "" \/ withSubnets = "false" ->
  let vNetId := TbVNetReq.Name vNetReq in
  let w1 := snd (resource.CreateVNet X nsId vNetReq w) in
  resource.DeleteVNet X nsId vNetId withSubnets w1 =
    (Err ("the vNet (" +:+ vNetId +:+ ") is in-use, may have subnets"), w1) /\
  resource.DeregisterVNet X nsId vNetId withSubnets w1 =
    (Err ("the vNet (" +:+ vNetId +:+ ") is in-use, may have subnets"), w1).
Proof.
  intros E1 E2 Hk Hcreates Hne Hopt vNetId w1.
  destruct (Hcreates (resource.vpcRequest vNetReq (xid X (uidCount w))
                        (configuringVNet X vNetReq (uidCount w)))) as (spResp & Hb).
  destruct (CreateVNet_created X nsId vNetReq w spResp E1 E2 Hk Hb)
    as (w' & E & Hids & Hkey & Hin & Hother).
  assert (Hw1 : w1 = w') by (subst w1; now rewrite E). rewrite Hw1. clear Hw1 w1.
  pose proof (validateStruct_name X vNetReq E2) as E3.
  destruct (TbVNetInfo.SubnetInfoList
              (resource.adoptVpc spResp (configuringVNet X vNetReq (uidCount w))))
    as [|s l] eqn:Hl.
  { destruct (TbVNetReq.SubnetInfoList vNetReq); [congruence|discriminate]. }
  destruct (Hin s (or_introl eq_refl)) as (s' & _ & _ & Hlk).
  assert (Hlist : kvstore.GetKvList
                    (common.GenResourceKey nsId model.StrVNet vNetId +:+ "/subnet") (kv w') <> []).
  { eapply GetKvList_nonempty; [exact Hlk|apply subnetKey_under]. }
  pose proof (prepareDelete_in_use X nsId vNetId withSubnets w' E1 E3 Hopt Hlist) as Ep.
  unfold resource.DeleteVNet, resource.DeregisterVNet, bind. now rewrite Ep.
Qed.

Lemma created_vNet_with_subnets_is_in_use_witness :
  let w1 := snd (resource.CreateVNet Scenario.X "default" Scenario.vnet1 Scenario.emptyWorld) in
  resource.DeleteVNet Scenario.X "default" "vnet1" "" w1 =
    (Err "the vNet (vnet1) is in-use, may have subnets", w1) /\
  resource.DeregisterVNet Scenario.X "default" "vnet1" "" w1 =
    (Err "the vNet (vnet1) is in-use, may have subnets", w1).
Proof.
  apply (created_vNet_with_subnets_is_in_use Scenario.X "default" "" Scenario.vnet1
           Scenario.emptyWorld).
  - vm_compute. reflexivity.
  - vm_compute. reflexivity.
  - vm_compute. reflexivity.
  - intros r. eexists. reflexivity.
  - discriminate.
  - left. reflexivity.
Defined.

(** After a call of [CreateVNet] with valid arguments, whether it
    succeeded or failed at the broker, the next call for the same name in
    the same namespace is refused as a duplicate: a creation that the
    broker refused leaves its record behind and blocks the retry. *)
Theorem CreateVNet_again_is_refused (X : Extern) (nsId : string)
        (vNetReq again : TbVNetReq.t) (w : World) :
  common.CheckString nsId = nil_error ->
  resource.validateStruct X vNetReq = nil_error ->
  resource.validateStruct X again = nil_error ->
  TbVNetReq.Name again = TbVNetReq.Name vNetReq ->
  let w1 := snd (resource.CreateVNet X nsId vNetReq w) in
  fst (resource.CreateVNet X nsId again w1) =
    Err ("already exists, vNet: " +:+ TbVNetReq.Name vNetReq) /\
  kv (snd (resource.CreateVNet X nsId again w1)) = kv w1.
Proof.
  intros E1 E2 E3 Hname w1.
  destruct (CreateVNet_leaves_key X nsId vNetReq w E1 E2) as (d & Hd).
  fold w1 in Hd. rewrite <- Hname in Hd.
  rewrite (CreateVNet_duplicate_run X nsId again w1 d Hd), E1, E3, Hname.
  split; reflexivity.
Qed.

Lemma CreateVNet_again_is_refused_witness :
  let w1 := snd (resource.CreateVNet Scenario.Xrefusing "default" Scenario.vnet1
                   Scenario.emptyWorld) in
  fst (resource.CreateVNet Scenario.Xrefusing "default" Scenario.vnet1 w1) =
    Err "already exists, vNet: vnet1" /\
  kv (snd (resource.CreateVNet Scenario.Xrefusing "default" Scenario.vnet1 w1)) = kv w1.
Proof.
  apply (CreateVNet_again_is_refused Scenario.Xrefusing "default" Scenario.vnet1
           Scenario.vnet1 Scenario.emptyWorld).
  - vm_compute. reflexivity.
  - vm_compute. reflexivity.
  - vm_compute. reflexivity.
  - reflexivity.
Defined.

(** ** [ValidateVNetReq] and [GetRegion] *)

Lemma SplitN2_no_dash (s : string) :
  ~ In "-"%char (list_ascii_of_string s) -> SplitN2 s = (s, None).
Proof.
  induction s as [|c s IH]; intros H; [reflexivity|].
  cbn [SplitN2]. destruct (Ascii.eqb c "-") eqn:Ec.
  - apply Ascii.eqb_eq in Ec. subst c. exfalso. apply H. now left.
  - rewrite IH; [reflexivity|]. intros Hin. apply H. now right.
Qed.

Lemma SplitN2_dash (s a b : string) :
  SplitN2 s = (a, Some b) ->
  s = a +:+ "-" +:+ b /\ ~ In "-"%char (list_ascii_of_string a).
Proof.
  revert a. induction s as [|c s IH]; intros a H; [discriminate|].
  cbn [SplitN2] in H. destruct (Ascii.eqb c "-") eqn:Ec.
  - apply Ascii.eqb_eq in Ec. subst c. injection H as <- <-. split; [reflexivity|intros []].
  - destruct (SplitN2 s) as [a' b'] eqn:Es. injection H as <- ->.
    destruct (IH a' eq_refl) as [-> Hno]. split; [now rewrite append_cons|].
    cbn [list_ascii_of_string]. intros [Hc|Hin]; [|now apply Hno].
    subst c. now rewrite Ascii.eqb_refl in Ec.
Qed.

Section Validate.

Variable X : Extern.

Lemma zone_loop (zones : list string) (l : list TbSubnetReq.t) (w : World) :
  forM_ l (fun subnetInfo =>
             if negb (String.eqb (TbSubnetReq.Zone subnetInfo) "")
                && negb (resource.ContainsZone zones (TbSubnetReq.Zone subnetInfo))
             then fail ("invalid zone: " +:+ TbSubnetReq.Zone subnetInfo)
             else ret tt) w =
  match List.find (badZone zones) l with
  | Some s => (Err ("invalid zone: " +:+ TbSubnetReq.Zone s), w)
  | None => (Ok tt, w)
  end.
Proof.
  induction l as [|s l IH]; [reflexivity|].
  cbn [forM_ List.find]. unfold bind at 1. fold (badZone zones s).
  destruct (badZone zones s); [reflexivity|]. cbn. exact IH.
Qed.

Lemma ContainsZone_In (zones : list string) (zone : string) :
  resource.ContainsZone zones zone = true <-> In zone zones.
Proof.
  unfold resource.ContainsZone. rewrite existsb_exists. split.
  - intros (z & Hz & E). apply String.eqb_eq in E. now subst.
  - intros H. exists zone. split; [exact H|apply String.eqb_refl].
Qed.

Lemma ValidateVNetReq_run (vNetReq : TbVNetReq.t) (w : World)
      (provider region : string) (regionDetail : RegionDetail.t) :
  resource.validateStruct X vNetReq = nil_error ->
  TbVNetReq.SubnetInfoList vNetReq <> [] ->
  SplitN2 (TbVNetReq.ConnectionName vNetReq) = (provider, Some region) ->
  common.GetRegion X provider region = inr regionDetail ->
  resource.ValidateVNetReq X vNetReq w =
  match List.find (badZone (RegionDetail.Zones regionDetail))
                  (TbVNetReq.SubnetInfoList vNetReq) with
  | Some s => (Err ("invalid zone: " +:+ TbSubnetReq.Zone s), w)
  | None =>
      match ValidateNetwork X
              (Network.mk (TbVNetReq.CidrBlock vNetReq)
                 (List.map (fun subnetInfo => Network.mk (TbSubnetReq.IPv4_CIDR subnetInfo) [])
                    (TbVNetReq.SubnetInfoList vNetReq))) with
      | Some msg => (Err msg, w)
      | None => (Ok tt, w)
      end
  end.
Proof.
  intros E Hne Hs Hr. unfold resource.ValidateVNetReq. rewrite E.
  unfold bind at 1, check at 1, ret at 1.
  destruct (TbVNetReq.SubnetInfoList vNetReq) as [|s0 l] eqn:El; [congruence|].
  cbn [List.length Nat.eqb]. rewrite Hs, Hr. cbv zeta.
  unfold bind at 1. rewrite zone_loop.
  destruct (List.find _ _); [reflexivity|].
  unfold check. now destruct (ValidateNetwork X _).
Qed.

End Validate.

(** [ValidateVNetReq] takes the region from the text after the first dash
    of the connection name by the index 1; for a request with valid
    fields and at least one subnet whose connection name has no dash it
    panics on that index instead of returning an error. *)
Theorem ValidateVNetReq_panics_without_dash (X : Extern) (vNetReq : TbVNetReq.t) (w : World) :
  resource.validateStruct X vNetReq = nil_error ->
  TbVNetReq.SubnetInfoList vNetReq <> [] ->
  ~ In "-"%char (list_ascii_of_string (TbVNetReq.ConnectionName vNetReq)) ->
  resource.ValidateVNetReq X vNetReq w =
  (Panic "runtime error: index out of range [1] with length 1", w).
Proof.
  intros E Hne Hno. unfold resource.ValidateVNetReq. rewrite E.
  unfold bind at 1, check at 1, ret at 1.
  destruct (TbVNetReq.SubnetInfoList vNetReq) as [|s0 l] eqn:El; [congruence|].
  cbn [List.length Nat.eqb]. now rewrite (SplitN2_no_dash _ Hno).
Qed.

Lemma ValidateVNetReq_panics_without_dash_witness :
  resource.ValidateVNetReq Scenario.X Cases.vnetNoDash Scenario.emptyWorld =
  (Panic "runtime error: index out of range [1] with length 1", Scenario.emptyWorld).
Proof.
  apply (ValidateVNetReq_panics_without_dash Scenario.X Cases.vnetNoDash Scenario.emptyWorld).
  - vm_compute. reflexivity.
  - discriminate.
  - vm_compute. intuition discriminate.
Defined.

(** A request that [ValidateVNetReq] accepts has valid fields and at least
    one subnet, its connection name is a provider and a region of the
    catalog joined by the first dash, every subnet names no zone or a zone
    of that region, and the network check has passed; nothing is written. *)
Theorem ValidateVNetReq_accepted (X : Extern) (vNetReq : TbVNetReq.t) (w w' : World) :
  resource.ValidateVNetReq X vNetReq w = (Ok tt, w') ->
  w' = w /\
  resource.validateStruct X vNetReq = nil_error /\
  TbVNetReq.SubnetInfoList vNetReq <> [] /\
  exists provider region regionDetail,
    TbVNetReq.ConnectionName vNetReq = provider +:+ "-" +:+ region /\
    ~ In "-"%char (list_ascii_of_string provider) /\
    common.GetRegion X provider region = inr regionDetail /\
    (forall s, In s (TbVNetReq.SubnetInfoList vNetReq) ->
       TbSubnetReq.Zone s = "" \/ In (TbSubnetReq.Zone s) (RegionDetail.Zones regionDetail)) /\
    ValidateNetwork X
      (Network.mk (TbVNetReq.CidrBlock vNetReq)
         (List.map (fun subnetInfo => Network.mk (TbSubnetReq.IPv4_CIDR subnetInfo) [])
            (TbVNetReq.SubnetInfoList vNetReq))) = nil_error.
Proof.
  intros H.
  destruct (resource.validateStruct X vNetReq) as [msg|] eqn:E.
  { unfold resource.ValidateVNetReq in H. rewrite E in H. discriminate. }
  destruct (TbVNetReq.SubnetInfoList vNetReq) as [|s0 l] eqn:El.
  { rewrite (ValidateVNetReq_no_subnet_run X vNetReq w El), E in H. discriminate. }
  assert (Hne : TbVNetReq.SubnetInfoList vNetReq <> []) by (rewrite El; discriminate).
  destruct (SplitN2 (TbVNetReq.ConnectionName vNetReq)) as [provider [region|]] eqn:Es.
  2:{ unfold resource.ValidateVNetReq in H. rewrite E, El in H.
      unfold bind at 1, check at 1, ret at 1 in H. cbn [List.length Nat.eqb] in H.
      rewrite Es in H. discriminate. }
  destruct (common.GetRegion X provider region) as [msg|regionDetail] eqn:Er.
  { unfold resource.ValidateVNetReq in H. rewrite E, El in H.
    unfold bind at 1, check at 1, ret at 1 in H. cbn [List.length Nat.eqb] in H.
    rewrite Es, Er in H. discriminate. }
  rewrite (ValidateVNetReq_run X vNetReq w provider region regionDetail E Hne Es Er) in H.
  rewrite El in H.
  destruct (List.find _ _) as [s|] eqn:Ef; [discriminate|].
  destruct (ValidateNetwork X _) as [msg|] eqn:Ev; [discriminate|].
  injection H as <-. split; [reflexivity|]. split; [reflexivity|]. split; [discriminate|].
  destruct (SplitN2_dash _ _ _ Es) as [Hc Hno].
  exists provider, region, regionDetail. repeat split; auto.
  intros s Hs. pose proof (List.find_none _ _ Ef s Hs) as Hb. unfold badZone in Hb.
  apply andb_false_iff in Hb. destruct Hb as [Hb|Hb].
  - left. apply negb_false_iff, String.eqb_eq in Hb. exact Hb.
  - right. apply negb_false_iff in Hb. now apply ContainsZone_In.
Qed.

Lemma ValidateVNetReq_accepted_witness :
  Scenario.emptyWorld = Scenario.emptyWorld /\
  resource.validateStruct Scenario.X Scenario.vnet1 = nil_error /\
  TbVNetReq.SubnetInfoList Scenario.vnet1 <> [] /\
  exists provider region regionDetail,
    TbVNetReq.ConnectionName Scenario.vnet1 = provider +:+ "-" +:+ region /\
    ~ In "-"%char (list_ascii_of_string provider) /\
    common.GetRegion Scenario.X provider region = inr regionDetail /\
    (forall s, In s (TbVNetReq.SubnetInfoList Scenario.vnet1) ->
       TbSubnetReq.Zone s = "" \/ In (TbSubnetReq.Zone s) (RegionDetail.Zones regionDetail)) /\
    ValidateNetwork Scenario.X
      (Network.mk (TbVNetReq.CidrBlock Scenario.vnet1)
         (List.map (fun subnetInfo => Network.mk (TbSubnetReq.IPv4_CIDR subnetInfo) [])
            (TbVNetReq.SubnetInfoList Scenario.vnet1))) = nil_error.
Proof.
  apply (ValidateVNetReq_accepted Scenario.X Scenario.vnet1 Scenario.emptyWorld
           Scenario.emptyWorld).
  vm_compute. reflexivity.
Defined.

(** [GetRegion] answers from the catalog of the provider asked for, by
    its lower-case name.  Without the provider it returns the error
    [cloudType ... not found].  A region it returns is the value of an
    entry of the provider's map whose key folds to the lower-case region
    name, and it returns the error [nativeRegion ... not found] exactly
    when the map has no such entry.  When one entry only has such a key,
    the region of that entry is returned, in whatever order the map is
    visited. *)
Theorem GetRegion_from_catalog (X : Extern) (ProviderName RegionName : string) :
  rangesEntries X ->
  let provider := ToLower X ProviderName in
  let region := ToLower X RegionName in
  match CloudInfo.CSPs (RuntimeCloudInfo X) !! provider with
  | None =>
      common.GetRegion X ProviderName RegionName
      = inl ("cloudType '" +:+ provider +:+ "' not found")
  | Some cspDetail =>
      let matching :=
        List.filter (fun kr => EqualFold X region (fst kr)) (CSPDetail.Regions cspDetail) in
      match common.GetRegion X ProviderName RegionName with
      | inr regionDetail => exists key, In (key, regionDetail) matching
      | inl msg =>
          matching = [] /\
          msg = "nativeRegion '" +:+ region +:+ "' not found in Provider '"
                +:+ provider +:+ "'"
      end /\
      (forall key regionDetail,
         matching = [(key, regionDetail)] ->
         common.GetRegion X ProviderName RegionName = inr regionDetail)
  end.
Proof.
  intros Hrange provider region. unfold common.GetRegion, common.GetCloudInfo. cbv zeta.
  fold provider. fold region.
  destruct (CloudInfo.CSPs (RuntimeCloudInfo X) !! provider) as [csp|] eqn:Ec;
    [|reflexivity].
  pose proof (Hrange (CSPDetail.Regions csp)) as Hp.
  set (f := fun kr : string * RegionDetail.t => EqualFold X region (fst kr)).
  destruct (List.find f (rangeRegions X (CSPDetail.Regions csp))) as [[key d]|] eqn:Ef.
  - apply List.find_some in Ef. destruct Ef as [Hin Hf].
    apply (Permutation_in _ (Permutation_sym Hp)) in Hin.
    assert (Hm : In (key, d) (List.filter f (CSPDetail.Regions csp)))
      by (apply List.filter_In; split; assumption).
    split; [exists key; exact Hm|].
    intros key' d' E. rewrite E in Hm. destruct Hm as [[= <- <-]|[]]. reflexivity.
  - assert (Hnone : forall x, In x (CSPDetail.Regions csp) -> f x = false).
    { intros x Hx. apply (List.find_none _ _ Ef).
      apply (Permutation_in _ Hp). exact Hx. }
    assert (Hm : List.filter f (CSPDetail.Regions csp) = []).
    { destruct (List.filter f (CSPDetail.Regions csp)) as [|x l] eqn:E; [reflexivity|].
      assert (Hx : In x (List.filter f (CSPDetail.Regions csp))) by (rewrite E; now left).
      apply List.filter_In in Hx. destruct Hx as [Hx Hfx].
      rewrite (Hnone x Hx) in Hfx. discriminate. }
    split; [split; [exact Hm|reflexivity]|].
    intros key d E. rewrite E in Hm. discriminate.
Qed.

Lemma GetRegion_from_catalog_witness :
  common.GetRegion Scenario.X "AWS" "US-East-1" = inr Scenario.usEast1.
Proof.
  pose proof (GetRegion_from_catalog Scenario.X "AWS" "US-East-1"
                (fun entries => Permutation_refl entries)) as H.
  cbv zeta in H.
  change (CloudInfo.CSPs (RuntimeCloudInfo Scenario.X) !! ToLower Scenario.X "AWS")
    with (Some (CSPDetail.mk "aws-driver-v1.0.so" [("us-east-1", Scenario.usEast1)])) in H.
  destruct H as [_ H]. apply (H "us-east-1"). reflexivity.
Defined.

(** ** The private keys across [RegisterCredential] *)

Section PrivateKeys.

Variable X : Extern.

Lemma keepsKeys_ret {A} (a : A) : keepsKeys (ret a).
Proof. intros w. reflexivity. Qed.

Lemma keepsKeys_fail {A} (msg : string) : keepsKeys (@fail A msg).
Proof. intros w. reflexivity. Qed.

Lemma keepsKeys_check (e : error) : keepsKeys (check e).
Proof. intros w. now destruct e. Qed.

Lemma keepsKeys_bind {A B} (c : M A) (k : A -> M B) :
  keepsKeys c -> (forall a, keepsKeys (k a)) -> keepsKeys (bind c k).
Proof.
  intros Hc Hk w. unfold bind. specialize (Hc w).
  destruct (c w) as [[a|e|e] w1]; cbn [snd] in *; [|exact Hc|exact Hc].
  now rewrite (Hk a w1).
Qed.

Lemma keepsKeys_forM_ {A} (f : A -> M unit) (l : list A) :
  (forall a, keepsKeys (f a)) -> keepsKeys (forM_ l f).
Proof.
  intros Hf. induction l as [|x l IH]; [apply keepsKeys_ret|].
  cbn [forM_]. apply keepsKeys_bind; [apply Hf|intros _; exact IH].
Qed.

Lemma keepsKeys_mapM {A B} (f : A -> M B) (l : list A) :
  (forall a, keepsKeys (f a)) -> keepsKeys (mapM f l).
Proof.
  intros Hf. induction l as [|x l IH]; [apply keepsKeys_ret|].
  cbn [mapM]. apply keepsKeys_bind; [apply Hf|intros y].
  apply keepsKeys_bind; [exact IH|intros ys; apply keepsKeys_ret].
Qed.

Lemma keepsKeys_call {A} (c : SpiderCall) (a : answer A) :
  keepsKeys (ExecuteHttpRequest c a).
Proof. intros w. unfold ExecuteHttpRequest. now destruct a. Qed.

Lemma keepsKeys_kvPut (k : string) (d : doc) : keepsKeys (kvPut k d).
Proof. intros w. reflexivity. Qed.

Lemma keepsKeys_GetConnConfigList (h : string) (v r : bool) :
  keepsKeys (common.GetConnConfigList X h v r).
Proof.
  intros w. destruct (GetConnConfigList_run X h v r w) as (cs & E & _). now rewrite E.
Qed.

Lemma keepsKeys_RegisterConnectionConfig (c : ConnConfig.t) :
  keepsKeys (common.RegisterConnectionConfig X c).
Proof.
  unfold common.RegisterConnectionConfig. cbv zeta.
  apply keepsKeys_bind; [apply keepsKeys_call|intros callResult].
  apply keepsKeys_bind; [apply keepsKeys_call|intros callResultRegion].
  destruct (common.GetRegion X _ _); [apply keepsKeys_fail|].
  apply keepsKeys_bind; [apply keepsKeys_kvPut|intros _; apply keepsKeys_ret].
Qed.

Lemma keepsKeys_probe (c : ConnConfig.t) : keepsKeys (common.probe X c).
Proof.
  unfold common.probe. apply keepsKeys_bind.
  - intros w. unfold common.CheckConnConfigAvailable.
    pose proof (keepsKeys_call (GetAllKeypair (ConnConfig.ConfigName c))
                  (getAllKeypair (spider X) (ConnConfig.ConfigName c)) w) as H.
    destruct (ExecuteHttpRequest _ _ w) as [[a|e|e] w1]; exact H.
  - intros r. cbv zeta. destruct (fst r); [|apply keepsKeys_ret].
    destruct (common.GetRegion X _ _); apply keepsKeys_ret.
Qed.

Lemma keepsKeys_registerConnections (req : CredentialReq.t) (callResult : CredentialInfo.t) :
  keepsKeys (common.registerConnections X req callResult).
Proof.
  unfold common.registerConnections. cbv zeta.
  destruct (CloudInfo.CSPs (common.GetCloudInfo X) !! _); [|apply keepsKeys_fail].
  apply keepsKeys_bind; [apply keepsKeys_call|intros regions].
  apply keepsKeys_bind.
  { unfold common.registerRegionConnections. apply keepsKeys_forM_. intros region.
    destruct (String.eqb _ _); [|apply keepsKeys_ret]. cbv zeta.
    apply keepsKeys_bind; [apply keepsKeys_RegisterConnectionConfig|].
    intros _. apply keepsKeys_ret. }
  intros _. apply keepsKeys_bind.
  { unfold common.verifyConnections.
    apply keepsKeys_bind; [apply keepsKeys_GetConnConfigList|intros r].
    apply keepsKeys_bind; [apply keepsKeys_check|intros _]. cbv zeta.
    apply keepsKeys_bind; [apply keepsKeys_mapM, keepsKeys_probe|intros results].
    apply keepsKeys_forM_. intros result.
    destruct (ConnConfig.Verified result); [apply keepsKeys_kvPut|apply keepsKeys_ret]. }
  intros _. apply keepsKeys_bind.
  { unfold common.setRegionRepresentative.
    apply keepsKeys_bind; [apply keepsKeys_GetConnConfigList|intros r].
    apply keepsKeys_bind; [apply keepsKeys_check|intros _]. cbv zeta.
    apply keepsKeys_forM_. intros e. apply keepsKeys_kvPut. }
  intros _. apply keepsKeys_bind.
  { unfold common.verifyRegionRepresentativeAndUpdateZone.
    apply keepsKeys_bind; [apply keepsKeys_GetConnConfigList|intros r].
    apply keepsKeys_bind; [apply keepsKeys_check|intros _]. cbv zeta.
    apply keepsKeys_bind; [apply keepsKeys_GetConnConfigList|intros r2].
    apply keepsKeys_forM_. intros c.
    destruct (EqualFold X _ _); [|apply keepsKeys_ret].
    destruct (negb _); [apply keepsKeys_kvPut|apply keepsKeys_ret]. }
  intros _. apply keepsKeys_bind; [apply keepsKeys_GetConnConfigList|intros r].
  apply keepsKeys_bind; [apply keepsKeys_check|intros _]. apply keepsKeys_ret.
Qed.

(** The first part of [RegisterCredential] sends nothing to the broker,
    and what it does to the map of private keys is to delete the token
    when it ends well. *)
Lemma decryptCredential_world (req : CredentialReq.t) (w : World) :
  match common.decryptCredential X req w with
  | (Ok _, w1) =>
      w1 = mkWorld (kv w) (delete (CredentialReq.PublicKeyTokenId req) (privateKeyStore w))
             (uidCount w) (spiderLog w)
  | (_, w1) => w1 = w
  end.
Proof.
  unfold common.decryptCredential, bind at 1, common.lookupPrivateKey.
  destruct (privateKeyStore w !! _) as [pk|]; [|reflexivity].
  destruct (base64Decode X _) as [msg|ek]; [reflexivity|].
  destruct (DecryptOAEP X pk ek) as [msg|aesKey]; [reflexivity|].
  unfold bind at 1.
  pose proof (mapM_decryptValue_world X aesKey (CredentialReq.CredentialKeyValueList req) w) as Hw.
  destruct (mapM _ _ w) as [[vals|e|e] w1]; cbn [snd] in Hw; subst; reflexivity.
Qed.

Lemma RegisterCredential_unknown_token (req : CredentialReq.t) (w : World) :
  privateKeyStore w !! CredentialReq.PublicKeyTokenId req = None ->
  common.RegisterCredential X req w =
  (Err ("private key not found for token ID: " +:+ CredentialReq.PublicKeyTokenId req), w).
Proof.
  intros H. unfold common.RegisterCredential, bind at 1, common.decryptCredential, bind at 1,
    common.lookupPrivateKey. now rewrite H.
Qed.

Lemma RegisterCredential_keys (req : CredentialReq.t) (w : World) :
  let run := common.RegisterCredential X req w in
  (spiderLog (snd run) = spiderLog w /\ privateKeyStore (snd run) = privateKeyStore w) \/
  privateKeyStore (snd run) =
    delete (CredentialReq.PublicKeyTokenId req) (privateKeyStore w).
Proof.
  intros run. pose proof (decryptCredential_world req w) as Hd.
  destruct (common.decryptCredential X req w) as [[vals|e|e] w1] eqn:Ed.
  - right. subst run. unfold common.RegisterCredential.
    rewrite (bind_Ok _ _ w vals w1 Ed).
    match goal with |- privateKeyStore (snd (bind ?c ?k w1)) = _ =>
      rewrite (keepsKeys_bind c k) end.
    + now subst w1.
    + apply keepsKeys_call.
    + intros callResult. apply keepsKeys_registerConnections.
  - left. assert (Hrun : run = (Err e, w1)).
    { subst run. unfold common.RegisterCredential, bind at 1. now rewrite Ed. }
    rewrite Hrun. subst w1. split; reflexivity.
  - left. assert (Hrun : run = (Panic e, w1)).
    { subst run. unfold common.RegisterCredential, bind at 1. now rewrite Ed. }
    rewrite Hrun. subst w1. split; reflexivity.
Qed.

End PrivateKeys.

(** A token is good for one registration: when [RegisterCredential] has
    sent anything to the broker, the private key of its token is gone
    from the map, and another call with the same token returns the error
    "private key not found" without any effect. *)
Theorem RegisterCredential_token_single_use (X : Extern) (req again : CredentialReq.t)
        (w : World) :
  let w1 := snd (common.RegisterCredential X req w) in
  spiderLog w1 <> spiderLog w ->
  CredentialReq.PublicKeyTokenId again = CredentialReq.PublicKeyTokenId req ->
  privateKeyStore w1 !! CredentialReq.PublicKeyTokenId req = None /\
  common.RegisterCredential X again w1 =
    (Err ("private key not found for token ID: " +:+ CredentialReq.PublicKeyTokenId req), w1).
Proof.
  intros w1 Hlog Htok.
  assert (Hgone : privateKeyStore w1 !! CredentialReq.PublicKeyTokenId req = None).
  { destruct (RegisterCredential_keys X req w) as [[Hl _]|Hk]; [now fold w1 in Hl|].
    fold w1 in Hk. rewrite Hk. apply lookup_delete_eq. }
  split; [exact Hgone|].
  rewrite <- Htok in Hgone |- *. now apply RegisterCredential_unknown_token.
Qed.

Lemma RegisterCredential_token_single_use_witness :
  let req := Scenario.credentialReq "admin" Scenario.goodValue in
  let w1 := snd (common.RegisterCredential Scenario.X req
                   (Scenario.withToken Scenario.emptyWorld)) in
  privateKeyStore w1 !! "token1" = None /\
  common.RegisterCredential Scenario.X req w1 =
    (Err "private key not found for token ID: token1", w1).
Proof.
  apply (RegisterCredential_token_single_use Scenario.X
           (Scenario.credentialReq "admin" Scenario.goodValue)
           (Scenario.credentialReq "admin" Scenario.goodValue)
           (Scenario.withToken Scenario.emptyWorld)).
  - vm_compute. discriminate.
  - reflexivity.
Defined.

(** [RegisterCredential] never adds a private key and never touches the
    key of another token: whatever the request and the outcome, a token
    that has a key after the call had that key before, and every token
    other than the one of the request has the key it had before. *)
Theorem RegisterCredential_adds_no_key (X : Extern) (req : CredentialReq.t) (w : World)
        (tokenId : string) :
  let after := privateKeyStore (snd (common.RegisterCredential X req w)) in
  (forall privateKey, after !! tokenId = Some privateKey ->
                      privateKeyStore w !! tokenId = Some privateKey) /\
  (tokenId <> CredentialReq.PublicKeyTokenId req ->
   after !! tokenId = privateKeyStore w !! tokenId).
Proof.
  intros after. subst after.
  destruct (RegisterCredential_keys X req w) as [[_ Hk]|Hk]; rewrite Hk.
  - split; auto.
  - split.
    + intros pk H. apply lookup_delete_Some in H. tauto.
    + intros Hne. apply lookup_delete_ne. congruence.
Qed.

(** ** The key layout *)

Lemma noSlash_cons (c : ascii) (s : string) :
  noSlash (String c s) = negb (Ascii.eqb c "/") && noSlash s.
Proof. reflexivity. Qed.

Lemma segments_noSlash (a : string) : noSlash a = true -> segments a = [a].
Proof.
  induction a as [|c a IH]; intros H; [reflexivity|].
  rewrite noSlash_cons in H. apply andb_true_iff in H. destruct H as [Hc Ha].
  cbn [segments]. apply negb_true_iff in Hc. now rewrite Hc, (IH Ha).
Qed.

Lemma segments_nonempty (s : string) : segments s <> [].
Proof.
  destruct s as [|c s]; [discriminate|]. cbn [segments].
  destruct (Ascii.eqb c "/"); [discriminate|]. now destruct (segments s).
Qed.

(** A slash-free text followed by anything: it joins the first segment of
    what follows. *)
Lemma segments_app (a r : string) :
  noSlash a = true ->
  segments (a +:+ r) =
  match segments r with
  | seg :: rest => (a +:+ seg) :: rest
  | [] => [a]
  end.
Proof.
  induction a as [|c a IH]; intros H.
  - change ("" +:+ r) with r.
    destruct (segments r) eqn:E; [now apply segments_nonempty in E|reflexivity].
  - rewrite noSlash_cons in H. apply andb_true_iff in H. destruct H as [Hc Ha].
    apply negb_true_iff in Hc. rewrite append_cons. cbn [segments]. rewrite Hc, (IH Ha).
    destruct (segments r); now rewrite ?append_cons.
Qed.

Lemma segments_slash (a r : string) :
  noSlash a = true -> segments (a +:+ "/" +:+ r) = a :: segments r.
Proof.
  intros H. rewrite (segments_app a _ H).
  change ("/" +:+ r) with (String "/" r). cbn [segments Ascii.eqb]. cbn.
  f_equal. induction a as [|c a IH]; [reflexivity|].
  rewrite append_cons. f_equal. apply IH.
  rewrite noSlash_cons in H. now apply andb_true_iff in H.
Qed.

Lemma validId_noSlash (s : string) : validId s -> noSlash s = true.
Proof.
  intros [Ha Hc]. apply (CheckString_ascii s Ha) in Hc.
  unfold IdRule.matchesPlus, IdRule.matchesWith in Hc. unfold noSlash.
  assert (Hl : forall c, IdRule.letter c = true -> negb (Ascii.eqb c "/") = true).
  { intros c H. destruct (Ascii.eqb c "/") eqn:E; [|reflexivity].
    apply Ascii.eqb_eq in E. subst c. discriminate. }
  assert (Hi : forall c, IdRule.innerPlus c = true -> negb (Ascii.eqb c "/") = true).
  { intros c H. destruct (Ascii.eqb c "/") eqn:E; [|reflexivity].
    apply Ascii.eqb_eq in E. subst c. discriminate. }
  destruct (list_ascii_of_string s) as [|c rest]; [discriminate|].
  apply andb_true_iff in Hc. destruct Hc as [Hc Hrest].
  cbn [forallb]. rewrite (Hl c Hc). cbn [andb].
  destruct rest as [|c1 rest]; [reflexivity|].
  apply andb_true_iff in Hrest. destruct Hrest as [Hall _].
  apply forallb_forall. intros x Hx. apply Hi.
  exact (proj1 (forallb_forall _ _) Hall x Hx).
Qed.

Lemma segments_vNetKey (nsId vNetId : string) :
  noSlash nsId = true -> noSlash vNetId = true ->
  segments (common.GenResourceKey nsId model.StrVNet vNetId) =
  [""; "ns"; nsId; "resources"; "vNet"; vNetId].
Proof.
  intros Hn Hv. rewrite GenResourceKey_vNet.
  change ("/ns/" +:+ nsId +:+ "/resources/vNet/" +:+ vNetId)
    with ("" +:+ "/" +:+ "ns" +:+ "/" +:+ nsId +:+ "/" +:+ "resources" +:+ "/" +:+
          "vNet" +:+ "/" +:+ vNetId).
  rewrite !segments_slash by (try assumption; reflexivity).
  now rewrite segments_noSlash.
Qed.

Lemma segments_subnetKey (nsId vNetId subnetId : string) :
  noSlash nsId = true -> noSlash vNetId = true -> noSlash subnetId = true ->
  segments (common.GenChildResourceKey nsId model.StrSubnet vNetId subnetId) =
  [""; "ns"; nsId; "resources"; "vNet"; vNetId; "subnet"; subnetId].
Proof.
  intros Hn Hv Hs. rewrite GenChildResourceKey_subnet, GenResourceKey_vNet.
  rewrite !append_assoc.
  change ("/ns/" +:+ nsId +:+ "/resources/vNet/" +:+ vNetId +:+ "/subnet/" +:+ subnetId)
    with ("" +:+ "/" +:+ "ns" +:+ "/" +:+ nsId +:+ "/" +:+ "resources" +:+ "/" +:+
          "vNet" +:+ "/" +:+ vNetId +:+ "/" +:+ "subnet" +:+ "/" +:+ subnetId).
  rewrite !segments_slash by (try assumption; reflexivity).
  now rewrite segments_noSlash.
Qed.

(** With valid ids the keys tell the resources apart: two vNets, and two
    subnets, have the same key only when they are the same in the same
    namespace (and vNet); no subnet key is a vNet key; and the listing
    [<vNetKey>/subnet] by which [DeleteVNet] finds the subnets of a vNet
    never reaches the subnet of another vNet. *)
Theorem vNet_and_subnet_keys_apart
        (nsId1 vNetId1 subnetId1 nsId2 vNetId2 subnetId2 : string) :
  validId nsId1 -> validId vNetId1 -> validId subnetId1 ->
  validId nsId2 -> validId vNetId2 -> validId subnetId2 ->
  let vNetKey := fun nsId vNetId => common.GenResourceKey nsId model.StrVNet vNetId in
  let subnetKey := fun nsId vNetId subnetId =>
                     common.GenChildResourceKey nsId model.StrSubnet vNetId subnetId in
  (vNetKey nsId1 vNetId1 = vNetKey nsId2 vNetId2 -> nsId1 = nsId2 /\ vNetId1 = vNetId2) /\
  (subnetKey nsId1 vNetId1 subnetId1 = subnetKey nsId2 vNetId2 subnetId2 ->
   nsId1 = nsId2 /\ vNetId1 = vNetId2 /\ subnetId1 = subnetId2) /\
  subnetKey nsId1 vNetId1 subnetId1 <> vNetKey nsId2 vNetId2 /\
  (String.prefix (vNetKey nsId2 vNetId2 +:+ "/subnet") (subnetKey nsId1 vNetId1 subnetId1) = true ->
   nsId1 = nsId2 /\ vNetId1 = vNetId2).
Proof.
  intros V1 V2 V3 V4 V5 V6 vNetKey subnetKey.
  apply validId_noSlash in V1, V2, V3, V4, V5, V6.
  split; [|split; [|split]].
  - intros H. apply (f_equal segments) in H. subst vNetKey. cbv beta in H.
    rewrite !segments_vNetKey in H by assumption. now injection H.
  - intros H. apply (f_equal segments) in H. subst subnetKey. cbv beta in H.
    rewrite !segments_subnetKey in H by assumption. now injection H.
  - intros H. apply (f_equal segments) in H. subst subnetKey vNetKey. cbv beta in H.
    rewrite segments_subnetKey, segments_vNetKey in H by assumption. discriminate.
  - intros H. apply prefix_split in H. destruct H as (rest & H).
    apply (f_equal segments) in H. subst subnetKey vNetKey. cbv beta in H.
    rewrite segments_subnetKey in H by assumption.
    rewrite GenResourceKey_vNet, !append_assoc in H.
    change ("/ns/" +:+ nsId2 +:+ "/resources/vNet/" +:+ vNetId2 +:+ "/subnet" +:+ rest)
      with ("" +:+ "/" +:+ "ns" +:+ "/" +:+ nsId2 +:+ "/" +:+ "resources" +:+ "/" +:+
            "vNet" +:+ "/" +:+ vNetId2 +:+ "/" +:+ "subnet" +:+ rest) in H.
    rewrite !segments_slash in H by (try assumption; reflexivity).
    now injection H.
Qed.

Lemma vNet_and_subnet_keys_apart_witness :
  let vNetKey := fun nsId vNetId => common.GenResourceKey nsId model.StrVNet vNetId in
  let subnetKey := fun nsId vNetId subnetId =>
                     common.GenChildResourceKey nsId model.StrSubnet vNetId subnetId in
  (vNetKey "default" "vnet1" = vNetKey "default" "vnet10" ->
   "default" = "default" /\ "vnet1" = "vnet10") /\
  (subnetKey "default" "vnet1" "sn1" = subnetKey "default" "vnet10" "sn1" ->
   "default" = "default" /\ "vnet1" = "vnet10" /\ "sn1" = "sn1") /\
  subnetKey "default" "vnet1" "sn1" <> vNetKey "default" "vnet10" /\
  (String.prefix (vNetKey "default" "vnet10" +:+ "/subnet") (subnetKey "default" "vnet1" "sn1")
     = true -> "default" = "default" /\ "vnet1" = "vnet10").
Proof.
  apply (vNet_and_subnet_keys_apart "default" "vnet1" "sn1" "default" "vnet10" "sn1");
    split; vm_compute; reflexivity.
Defined.

Lemma segments_MciKey (nsId mciId vmId : string) :
  noSlash nsId = true -> noSlash mciId = true -> noSlash vmId = true ->
  segments (utility.GenMciKey nsId mciId vmId) =
  if negb (String.eqb vmId "") then [""; "ns"; nsId; "mci"; mciId; "vm"; vmId]
  else if negb (String.eqb mciId "") then [""; "ns"; nsId; "mci"; mciId]
  else if negb (String.eqb nsId "") then [""; "ns"; nsId]
  else [""].
Proof.
  intros Hn Hm Hv. unfold utility.GenMciKey.
  destruct (negb (String.eqb vmId "")).
  { change ("/ns/" +:+ nsId +:+ "/mci/" +:+ mciId +:+ "/vm/" +:+ vmId)
      with ("" +:+ "/" +:+ "ns" +:+ "/" +:+ nsId +:+ "/" +:+ "mci" +:+ "/" +:+ mciId
            +:+ "/" +:+ "vm" +:+ "/" +:+ vmId).
    rewrite !segments_slash by (try assumption; reflexivity). now rewrite segments_noSlash. }
  destruct (negb (String.eqb mciId "")).
  { change ("/ns/" +:+ nsId +:+ "/mci/" +:+ mciId)
      with ("" +:+ "/" +:+ "ns" +:+ "/" +:+ nsId +:+ "/" +:+ "mci" +:+ "/" +:+ mciId).
    rewrite !segments_slash by (try assumption; reflexivity). now rewrite segments_noSlash. }
  destruct (negb (String.eqb nsId "")); [|reflexivity].
  change ("/ns/" +:+ nsId) with ("" +:+ "/" +:+ "ns" +:+ "/" +:+ nsId).
  rewrite !segments_slash by (try assumption; reflexivity). now rewrite segments_noSlash.
Qed.

Lemma segments_MciPolicyKey (nsId mciId vmId : string) :
  noSlash nsId = true -> noSlash mciId = true -> noSlash vmId = true ->
  segments (utility.GenMciPolicyKey nsId mciId vmId) =
  if negb (String.eqb vmId "") then [""; "ns"; nsId; "policy"; "mci"; mciId; "vm"; vmId]
  else if negb (String.eqb mciId "") then [""; "ns"; nsId; "policy"; "mci"; mciId]
  else if negb (String.eqb nsId "") then [""; "ns"; nsId]
  else [""].
Proof.
  intros Hn Hm Hv. unfold utility.GenMciPolicyKey.
  destruct (negb (String.eqb vmId "")).
  { change ("/ns/" +:+ nsId +:+ "/policy/mci/" +:+ mciId +:+ "/vm/" +:+ vmId)
      with ("" +:+ "/" +:+ "ns" +:+ "/" +:+ nsId +:+ "/" +:+ "policy" +:+ "/" +:+ "mci"
            +:+ "/" +:+ mciId +:+ "/" +:+ "vm" +:+ "/" +:+ vmId).
    rewrite !segments_slash by (try assumption; reflexivity). now rewrite segments_noSlash. }
  destruct (negb (String.eqb mciId "")).
  { change ("/ns/" +:+ nsId +:+ "/policy/mci/" +:+ mciId)
      with ("" +:+ "/" +:+ "ns" +:+ "/" +:+ nsId +:+ "/" +:+ "policy" +:+ "/" +:+ "mci"
            +:+ "/" +:+ mciId).
    rewrite !segments_slash by (try assumption; reflexivity). now rewrite segments_noSlash. }
  destruct (negb (String.eqb nsId "")); [|reflexivity].
  change ("/ns/" +:+ nsId) with ("" +:+ "/" +:+ "ns" +:+ "/" +:+ nsId).
  rewrite !segments_slash by (try assumption; reflexivity). now rewrite segments_noSlash.
Qed.

(** On ids without a slash [GenMciKey] and [GenMciPolicyKey] are
    injective: the key tells the namespace, the MCI and the VM.  A key of
    the one is a key of the other only at the level of the namespace,
    where both give the key of the namespace itself (or the empty key). *)
Theorem mci_keys_apart (nsId1 mciId1 vmId1 nsId2 mciId2 vmId2 : string) :
  noSlash nsId1 = true -> noSlash mciId1 = true -> noSlash vmId1 = true ->
  noSlash nsId2 = true -> noSlash mciId2 = true -> noSlash vmId2 = true ->
  (utility.GenMciKey nsId1 mciId1 vmId1 = utility.GenMciKey nsId2 mciId2 vmId2 ->
   nsId1 = nsId2 /\ mciId1 = mciId2 /\ vmId1 = vmId2) /\
  (utility.GenMciPolicyKey nsId1 mciId1 vmId1 = utility.GenMciPolicyKey nsId2 mciId2 vmId2 ->
   nsId1 = nsId2 /\ mciId1 = mciId2 /\ vmId1 = vmId2) /\
  (utility.GenMciKey nsId1 mciId1 vmId1 = utility.GenMciPolicyKey nsId2 mciId2 vmId2 <->
   nsId1 = nsId2 /\ mciId1 = "" /\ vmId1 = "" /\ mciId2 = "" /\ vmId2 = "").
Proof.
  intros H1 H2 H3 H4 H5 H6. split; [|split; [|split]].
  - intros H. apply (f_equal segments) in H.
    rewrite !segments_MciKey in H by assumption.
    destruct (String.eqb vmId1 "") eqn:Ev1, (String.eqb vmId2 "") eqn:Ev2;
    destruct (String.eqb mciId1 "") eqn:Em1, (String.eqb mciId2 "") eqn:Em2;
    destruct (String.eqb nsId1 "") eqn:En1, (String.eqb nsId2 "") eqn:En2;
    cbn [negb] in H; try discriminate H; empty_or_not;
    subst; try (injection H as ? ? ?); try (injection H as ? ?); try (injection H as ?);
    subst; repeat split; congruence.
  - intros H. apply (f_equal segments) in H.
    rewrite !segments_MciPolicyKey in H by assumption.
    destruct (String.eqb vmId1 "") eqn:Ev1, (String.eqb vmId2 "") eqn:Ev2;
    destruct (String.eqb mciId1 "") eqn:Em1, (String.eqb mciId2 "") eqn:Em2;
    destruct (String.eqb nsId1 "") eqn:En1, (String.eqb nsId2 "") eqn:En2;
    cbn [negb] in H; try discriminate H; empty_or_not;
    subst; try (injection H as ? ? ?); try (injection H as ? ?); try (injection H as ?);
    subst; repeat split; congruence.
  - intros H. apply (f_equal segments) in H.
    rewrite segments_MciKey, segments_MciPolicyKey in H by assumption.
    destruct (String.eqb vmId1 "") eqn:Ev1, (String.eqb vmId2 "") eqn:Ev2;
    destruct (String.eqb mciId1 "") eqn:Em1, (String.eqb mciId2 "") eqn:Em2;
    destruct (String.eqb nsId1 "") eqn:En1, (String.eqb nsId2 "") eqn:En2;
    cbn [negb] in H; try discriminate H; empty_or_not;
    subst; try (injection H as ?); subst; repeat split; congruence.
  - intros (-> & -> & -> & -> & ->). reflexivity.
Qed.

Lemma mci_keys_apart_witness :
  (utility.GenMciKey "default" "mci1" "vm1" = utility.GenMciKey "default" "mci1" "vm2" ->
   "default" = "default" /\ "mci1" = "mci1" /\ "vm1" = "vm2") /\
  (utility.GenMciPolicyKey "default" "mci1" "vm1" = utility.GenMciPolicyKey "default" "mci1" "vm2" ->
   "default" = "default" /\ "mci1" = "mci1" /\ "vm1" = "vm2") /\
  (utility.GenMciKey "default" "mci1" "vm1" = utility.GenMciPolicyKey "default" "mci1" "vm2" <->
   "default" = "default" /\ "mci1" = "" /\ "vm1" = "" /\ "mci1" = "" /\ "vm2" = "").
Proof.
  apply (mci_keys_apart "default" "mci1" "vm1" "default" "mci1" "vm2"); reflexivity.
Defined.

(** ** The store utilities and the connection list *)

Lemma delete_all_run (l : list (string * doc)) : forall w,
  exists w',
    forM_ l (fun v => kvDelete (fst v)) w = (Ok tt, w') /\
    privateKeyStore w' = privateKeyStore w /\ uidCount w' = uidCount w /\
    spiderLog w' = spiderLog w /\
    forall k, kv w' !! k = if existsb (String.eqb k) (List.map fst l) then None
                           else kv w !! k.
Proof.
  induction l as [|[k0 d0] l IH]; intros w.
  - exists w. repeat split; reflexivity.
  - cbn [forM_ fst]. unfold bind at 1, kvDelete at 1. set (w1 := mkWorld _ _ _ _).
    destruct (IH w1) as (w' & E & Hp & Hu & Hl & Hk).
    exists w'. rewrite E. repeat split; auto.
    intros k. rewrite Hk. cbn [List.map fst existsb].
    destruct (existsb (String.eqb k) (List.map fst l)); [now rewrite orb_true_r|].
    rewrite orb_false_r. subst w1. cbn [kv]. unfold kvstore.Delete.
    destruct (String.eqb k k0) eqn:E0.
    + apply String.eqb_eq in E0. subst. apply lookup_delete_eq.
    + apply String.eqb_neq in E0. now apply lookup_delete_ne.
Qed.

Lemma existsb_keys_GetKvList (prefix k : string) (m : gmap string doc) :
  existsb (String.eqb k) (List.map fst (kvstore.GetKvList prefix m)) =
  match m !! k with Some _ => String.prefix prefix k | None => false end.
Proof.
  destruct (existsb _ _) eqn:E.
  - apply existsb_exists in E. destruct E as (k' & Hin & Ek).
    apply String.eqb_eq in Ek. subst k'. apply in_map_iff in Hin.
    destruct Hin as ([k' d] & <- & Hin). apply GetKvList_In in Hin.
    destruct Hin as [Hk Hp]. cbn [fst]. now rewrite Hk, Hp.
  - destruct (m !! k) as [d|] eqn:Hk; [|reflexivity].
    destruct (String.prefix prefix k) eqn:Hp; [|reflexivity].
    assert (Hin : In (k, d) (kvstore.GetKvList prefix m)) by now apply GetKvList_In.
    assert (Ht : existsb (String.eqb k) (List.map fst (kvstore.GetKvList prefix m)) = true).
    { apply existsb_exists. exists k. split; [|apply String.eqb_refl].
      apply in_map_iff. now exists (k, d). }
    congruence.
Qed.

Lemma GetKvList_empty (prefix : string) (m : gmap string doc) :
  (forall k d, m !! k = Some d -> String.prefix prefix k = false) ->
  kvstore.GetKvList prefix m = [].
Proof.
  intros H. destruct (kvstore.GetKvList prefix m) as [|[k d] l] eqn:E; [reflexivity|].
  assert (Hin : In (k, d) (kvstore.GetKvList prefix m)) by (rewrite E; now left).
  apply GetKvList_In in Hin. destruct Hin as [Hk Hp]. now rewrite (H k d Hk) in Hp.
Qed.

(** [DeleteObjects] removes from the store every key that starts with the
    given text (whether or not a slash follows it there) and no other
    key; afterwards [GetObjectList] of the same text is empty. *)
Theorem DeleteObjects_removes_the_prefix (key : string) (w : World) :
  exists w',
    utility.DeleteObjects key w = (Ok tt, w') /\
    (forall k, kv w' !! k = if String.prefix key k then None else kv w !! k) /\
    privateKeyStore w' = privateKeyStore w /\ uidCount w' = uidCount w /\
    spiderLog w' = spiderLog w /\
    utility.GetObjectList key w' = (Ok [], w').
Proof.
  unfold utility.DeleteObjects, bind at 1, kvGetKvList at 1.
  destruct (delete_all_run (kvstore.GetKvList key (kv w)) w) as (w' & E & Hp & Hu & Hl & Hk).
  exists w'. rewrite E.
  assert (Hkv : forall k, kv w' !! k = if String.prefix key k then None else kv w !! k).
  { intros k. rewrite Hk, existsb_keys_GetKvList.
    destruct (kv w !! k); [reflexivity|now destruct (String.prefix key k)]. }
  repeat split; auto.
  unfold utility.GetObjectList, bind, kvGetKvList, ret.
  rewrite GetKvList_empty; [reflexivity|].
  intros k d Hd. rewrite Hkv in Hd. now destruct (String.prefix key k).
Qed.

Lemma dropPrefix_Some (p s r : string) :
  kvutil.dropPrefix p s = Some r <-> s = p +:+ r.
Proof.
  revert s. induction p as [|a p IH]; intros s.
  - cbn [kvutil.dropPrefix]. change ("" +:+ r) with r. split; congruence.
  - destruct s as [|b s]; cbn [kvutil.dropPrefix].
    + rewrite append_cons. split; discriminate.
    + rewrite append_cons. destruct (Ascii.eqb a b) eqn:E.
      * apply Ascii.eqb_eq in E. subst b. rewrite IH. split; [congruence|].
        intros [= ->]. reflexivity.
      * apply Ascii.eqb_neq in E. split; [discriminate|].
        intros H. injection H as Hb _. exfalso. apply E. now symmetry.
Qed.

Lemma countSlash_noSlash (s : string) :
  (kvutil.countSlash s =? 0)%nat = noSlash s.
Proof.
  induction s as [|c s IH]; [reflexivity|].
  rewrite noSlash_cons. cbn [kvutil.countSlash].
  destruct (Ascii.eqb c "/"); cbn [negb andb]; [reflexivity|exact IH].
Qed.

(** The ids [GetChildIdList] returns for a key are exactly the texts
    without a slash that, put after the key and a slash, give a key of the
    store: the direct children, and nothing a level further down. *)
Theorem GetChildIdList_direct_children (key : string) (w : World) :
  exists ids,
    utility.GetChildIdList key w = (Ok ids, w) /\
    forall id, In id ids <->
               noSlash id = true /\ exists d, kv w !! (key +:+ "/" +:+ id) = Some d.
Proof.
  unfold utility.GetChildIdList, bind, kvGetKvList, ret. eexists. split; [reflexivity|].
  intros id. rewrite in_map_iff. unfold kvutil.FilterKvListBy. split.
  - intros ([k d] & Ht & Hin). cbn [fst] in Ht. apply filter_In in Hin.
    destruct Hin as [Hin Hf]. cbn [fst] in Hf. apply GetKvList_In in Hin.
    destruct Hin as [Hk _].
    destruct (kvutil.dropPrefix key k) as [[|c rest]|] eqn:Ed; try discriminate.
    apply andb_true_iff in Hf. destruct Hf as [Hc Hn]. apply Ascii.eqb_eq in Hc. subst c.
    apply dropPrefix_Some in Ed. subst k.
    change (1 - 1)%nat with 0%nat in Hn. rewrite countSlash_noSlash in Hn.
    assert (Et : utility.TrimPrefix (key +:+ String "/" rest) (key +:+ "/") = rest).
    { unfold utility.TrimPrefix.
      assert (E : kvutil.dropPrefix (key +:+ "/") (key +:+ String "/" rest) = Some rest).
      { apply dropPrefix_Some. now rewrite append_assoc. }
      now rewrite E. }
    rewrite Et in Ht. subst id. split; [exact Hn|]. now exists d.
  - intros (Hn & d & Hk). exists (key +:+ "/" +:+ id, d). cbn [fst]. split.
    + unfold utility.TrimPrefix.
      assert (E : kvutil.dropPrefix (key +:+ "/") (key +:+ "/" +:+ id) = Some id).
      { apply dropPrefix_Some. now rewrite append_assoc. }
      now rewrite E.
    + apply filter_In. split.
      * apply GetKvList_In. split; [exact Hk|apply prefix_append].
      * cbn [fst].
        assert (E : kvutil.dropPrefix key (key +:+ "/" +:+ id) = Some (String "/" id)).
        { now apply dropPrefix_Some. }
        rewrite E. change (1 - 1)%nat with 0%nat. now rewrite countSlash_noSlash, Hn.
Qed.

(** What [RegisterConnectionConfig] has returned, [GetConnConfig] returns
    for its name right after: the connection of the holder of the
    request, not verified and not a region representative.  For another
    name that had no key before, [GetConnConfig] still returns the error
    "Cannot find". *)
Theorem GetConnConfig_after_registration (X : Extern) (connConfig connection : ConnConfig.t)
        (w w1 : World) :
  common.RegisterConnectionConfig X connConfig w = (Ok connection, w1) ->
  utility.GetConnConfig (ConnConfig.ConfigName connection) w1 = (Ok connection, w1) /\
  ConnConfig.CredentialHolder connection = ConnConfig.CredentialHolder connConfig /\
  ConnConfig.Verified connection = false /\
  ConnConfig.RegionRepresentative connection = false /\
  (forall name,
     name <> ConnConfig.ConfigName connection ->
     kv w !! common.GenConnectionKey name = None ->
     utility.GetConnConfig name w1 =
       (Err ("Cannot find the model.ConnConfig " +:+ common.GenConnectionKey name), w1)).
Proof.
  intros H. unfold common.RegisterConnectionConfig in H. cbv zeta in H.
  apply bind_Ok_inv in H. destruct H as (callResult & wa & Ha & H).
  apply bind_Ok_inv in H. destruct H as (callResultRegion & wb & Hb & H).
  destruct (common.GetRegion X _ _) as [msg|regionDetail]; [discriminate|].
  unfold bind, kvPut, ret in H. injection H as <- <-.
  cbn [ConnConfig.ConfigName ConnConfig.CredentialHolder ConnConfig.Verified
       ConnConfig.RegionRepresentative].
  assert (Hkv : kv wb = kv w).
  { unfold ExecuteHttpRequest in Ha, Hb.
    destruct (postConnectionConfig _ _); [discriminate|]. injection Ha as _ <-.
    destruct (getRegionByName _ _); [discriminate|]. now injection Hb as _ <-. }
  split; [|repeat split].
  - unfold utility.GetConnConfig, bind, kvGetKv, kvstore.GetKv, kvstore.Put. cbn [kv].
    now rewrite lookup_insert_eq.
  - intros name Hne Hk.
    unfold utility.GetConnConfig, bind, kvGetKv, kvstore.GetKv, kvstore.Put. cbn [kv].
    rewrite lookup_insert_ne, Hkv, Hk; [reflexivity|].
    unfold common.GenConnectionKey. intros E. apply append_inj_l in E. congruence.
Qed.

Lemma GetConnConfig_after_registration_witness :
  exists connection w1,
    common.RegisterConnectionConfig Scenario.X Cases.awsEast Scenario.emptyWorld
      = (Ok connection, w1) /\
    utility.GetConnConfig (ConnConfig.ConfigName connection) w1 = (Ok connection, w1) /\
    ConnConfig.CredentialHolder connection = "admin" /\
    ConnConfig.Verified connection = false /\
    ConnConfig.RegionRepresentative connection = false /\
    (forall name,
       name <> ConnConfig.ConfigName connection ->
       kv Scenario.emptyWorld !! common.GenConnectionKey name = None ->
       utility.GetConnConfig name w1 =
         (Err ("Cannot find the model.ConnConfig " +:+ common.GenConnectionKey name), w1)).
Proof.
  eexists. eexists. split; [vm_compute; reflexivity|].
  eapply (GetConnConfig_after_registration Scenario.X Cases.awsEast).
  vm_compute. reflexivity.
Defined.

Lemma filter_filter {A} (f g : A -> bool) (l : list A) :
  List.filter f (List.filter g l) = List.filter (fun x => g x && f x) l.
Proof.
  induction l as [|x l IH]; [reflexivity|]. cbn [List.filter].
  destruct (g x); cbn [andb List.filter]; [|exact IH]. now rewrite IH.
Qed.

Lemma filter_all {A} (l : list A) : List.filter (fun _ => true) l = l.
Proof. induction l as [|x l IH]; [reflexivity|]. cbn. now rewrite IH. Qed.

(** The three filters of [GetConnConfigList] select from the unfiltered
    list: with a holder, and with the flags set, it returns those
    connections of the list for no holder and no flag, in the same order,
    that belong to the holder (up to case), are verified, and are region
    representatives; and it returns the same error when that list cannot
    be decoded. *)
Theorem GetConnConfigList_filters (X : Extern) (filterCredentialHolder : string)
        (filterVerified filterRegionRepresentative : bool) (w : World) :
  match common.GetConnConfigList X "" false false w with
  | (Ok (all, None), _) =>
      common.GetConnConfigList X filterCredentialHolder filterVerified
        filterRegionRepresentative w =
      (Ok (List.filter
             (fun connConfig =>
                (String.eqb filterCredentialHolder ""
                 || EqualFold X (ConnConfig.CredentialHolder connConfig) filterCredentialHolder)
                && (negb filterVerified || ConnConfig.Verified connConfig)
                && (negb filterRegionRepresentative
                    || ConnConfig.RegionRepresentative connConfig))
             all, nil_error), w)
  | other =>
      common.GetConnConfigList X filterCredentialHolder filterVerified
        filterRegionRepresentative w = other
  end.
Proof.
  unfold common.GetConnConfigList, bind, kvGetKvList, ret.
  destruct (common.decodeConnConfigs _ _) as [all [msg|]]; [reflexivity|].
  cbn [String.eqb negb]. do 2 f_equal. f_equal.
  destruct (String.eqb filterCredentialHolder ""), filterVerified, filterRegionRepresentative;
    cbn [negb orb]; rewrite ?filter_filter;
    try (apply List.filter_ext; intros c; cbn [andb];
         now rewrite ?andb_true_r, ?andb_assoc);
    try (symmetry; apply filter_all).
Qed.

(** ** [ChangeIdString] and [ToLower] *)

Section Utf8Facts.

Lemma In_allAscii (c : ascii) : In c allAscii.
Proof.
  unfold allAscii. rewrite <- (ascii_nat_embedding c). apply List.in_map.
  apply List.in_seq. pose proof (nat_ascii_bounded c). lia.
Qed.

Lemma leadsHigh_all (c0 c1 : ascii) : leadsHigh c0 c1 = true.
Proof.
  assert (H : forallb (fun a => forallb (leadsHigh a) allAscii) allAscii = true)
    by (vm_compute; reflexivity).
  rewrite forallb_forall in H. specialize (H c0 (In_allAscii c0)).
  rewrite forallb_forall in H. exact (H c1 (In_allAscii c1)).
Qed.

Lemma lor_small (a b : N) : (N.lor a b < 128)%N -> (a < 128)%N /\ (b < 128)%N.
Proof.
  intros H.
  assert (Hone : forall x y, (N.lor x y < 128)%N -> (x < 128)%N).
  { intros x y Hxy. destruct (N.eq_dec x 0%N) as [->|Hx]; [lia|].
    assert (Hpos : (0 < N.lor x y)%N).
    { destruct (N.eq_dec (N.lor x y) 0%N) as [E|E]; [|lia].
      apply N.lor_eq_0_l in E. contradiction. }
    change 128%N with (2 ^ 7)%N in *.
    apply N.log2_lt_pow2 in Hxy; [|exact Hpos]. rewrite N.log2_lor in Hxy.
    apply N.log2_lt_pow2; lia. }
  split; [exact (Hone a b H)|]. rewrite N.lor_comm in H. exact (Hone b a H).
Qed.

Lemma shiftl_small (x n : N) : (N.shiftl x n < 128)%N -> (7 <= n)%N -> x = 0%N.
Proof.
  intros H Hn. rewrite N.shiftl_mul_pow2 in H.
  destruct (N.eq_dec x 0%N) as [->|Hx]; [reflexivity|].
  assert (Hp : (2 ^ 7 <= 2 ^ n)%N) by (apply N.pow_le_mono_r; lia).
  change (2 ^ 7)%N with 128%N in Hp. nia.
Qed.

Lemma shiftl6_small (x : N) : (N.shiftl x 6 < 128)%N -> (x < 2)%N.
Proof. rewrite N.shiftl_mul_pow2. change (2 ^ 6)%N with 64%N. lia. Qed.

(** A rune below 128 is decoded from one byte, the byte of its code. *)
Lemma DecodeRune_plain (p : bytes) (r : N) (w : nat) :
  utf8.DecodeRune p = (r, w) -> (r < 128)%N ->
  exists c rest, p = c :: rest /\ r = byteval c /\ w = 1%nat.
Proof.
  intros H Hr. destruct p as [|c0 p1]; cbn [utf8.DecodeRune] in H.
  { injection H as <- _. discriminate Hr. }
  cbv zeta in H. destruct (byteval c0 <? utf8.RuneSelf)%N eqn:E0.
  { injection H as <- <-. now exists c0, p1. }
  exfalso.
  destruct (utf8.seqLen (byteval c0)) as [|n] eqn:Esz.
  { injection H as <- _. discriminate Hr. }
  destruct p1 as [|c1 p2].
  { injection H as <- _. discriminate Hr. }
  pose proof (leadsHigh_all c0 c1) as Hh. unfold leadsHigh in Hh. cbv zeta in Hh.
  rewrite Esz in Hh.
  destruct ((byteval c1 <? utf8.acceptLo (byteval c0))%N
            || (utf8.acceptHi (byteval c0) <? byteval c1)%N) eqn:Eacc.
  { injection H as <- _. discriminate Hr. }
  cbn [orb] in Hh.
  destruct (S n <=? 2)%nat.
  { injection H as <- _. apply lor_small in Hr. destruct Hr as [Hr _].
    apply shiftl6_small in Hr. apply N.leb_le in Hh. lia. }
  destruct p2 as [|c2 p3].
  { injection H as <- _. discriminate Hr. }
  destruct (negb (utf8.isCont (byteval c2))).
  { injection H as <- _. discriminate Hr. }
  destruct (S n <=? 3)%nat.
  { injection H as <- _. apply lor_small in Hr. destruct Hr as [Hr1 Hr2].
    apply shiftl_small in Hr1; [|lia]. apply lor_small in Hr2. destruct Hr2 as [Hr2 _].
    apply shiftl6_small in Hr2. apply orb_true_iff in Hh.
    destruct Hh as [Hh|Hh]; apply N.leb_le in Hh; lia. }
  destruct p3 as [|c3 p4].
  { injection H as <- _. discriminate Hr. }
  destruct (negb (utf8.isCont (byteval c3))).
  { injection H as <- _. discriminate Hr. }
  injection H as <- _. apply lor_small in Hr. destruct Hr as [Hr1 Hr2].
  apply shiftl_small in Hr1; [|lia]. apply lor_small in Hr2. destruct Hr2 as [Hr2 _].
  apply shiftl_small in Hr2; [|lia]. apply orb_true_iff in Hh.
  destruct Hh as [Hh|Hh]; apply N.leb_le in Hh; lia.
Qed.

Lemma nonAlnum_small (c : N) : utility.nonAlnum c = false -> (c < 128)%N.
Proof.
  unfold utility.nonAlnum, regexp.lower, regexp.upper, regexp.digit. intros H.
  apply negb_false_iff in H. repeat rewrite orb_true_iff in H.
  repeat rewrite andb_true_iff in H. repeat rewrite N.leb_le in H. lia.
Qed.

Lemma runesOf_plain (fuel : nat) : forall p, List.Forall plainRune (regexp.runesOf fuel p).
Proof.
  induction fuel as [|fuel IH]; intros p.
  - destruct p; constructor.
  - destruct p as [|c0 p1]; [constructor|]. cbn [regexp.runesOf].
    destruct (utf8.DecodeRune (c0 :: p1)) as [r w] eqn:Ed.
    constructor; [|apply IH].
    intros Hn. cbn [regexp.code regexp.raw] in *.
    destruct (DecodeRune_plain _ _ _ Ed (nonAlnum_small r Hn)) as (c & rest & Hp & Hr & Hw).
    injection Hp as <- <-. subst w. exists c0. split; [reflexivity|now symmetry].
Qed.

Lemma runesOf_nil (fuel : nat) (p : bytes) :
  regexp.runesOf fuel p = [] -> (fuel = 0)%nat \/ p = [].
Proof.
  destruct fuel as [|fuel]; [now left|]. destruct p as [|c0 p1]; [now right|].
  cbn [regexp.runesOf]. now destruct (utf8.DecodeRune (c0 :: p1)).
Qed.

End Utf8Facts.

Section Squeeze.

Import regexp.

Lemma starCls_all (p : N -> bool) (s : list rune) :
  exists rest, starCls p (fun rest => Some rest) s = Some rest.
Proof.
  induction s as [|c s IH]; cbn [starCls]; [now eexists|].
  destruct (p (code c)); [|now eexists]. destruct IH as (rest & ->). now eexists.
Qed.

Lemma starCls_dropRun (s : list rune) :
  starCls utility.nonAlnum (fun rest => Some rest) s = Some (dropRun s).
Proof.
  induction s as [|c s IH]; cbn [starCls dropRun]; [reflexivity|].
  destruct (utility.nonAlnum (code c)); [|reflexivity]. now rewrite IH.
Qed.

Lemma matchK_idPattern (s : list rune) :
  matchK utility.idPattern s (fun rest => Some rest) =
  match s with
  | c :: s' => if utility.nonAlnum (code c) then Some (dropRun s') else None
  | [] => None
  end.
Proof.
  unfold utility.idPattern. cbn [matchK]. destruct s as [|c s']; [reflexivity|].
  destruct (utility.nonAlnum (code c)); [|reflexivity].
  rewrite <- starCls_dropRun. apply (starLoop_class utility.nonAlnum). lia.
Qed.

Lemma dropRun_length (s : list rune) : (List.length (dropRun s) <= List.length s)%nat.
Proof.
  induction s as [|c s IH]; cbn [dropRun List.length]; [lia|].
  destruct (utility.nonAlnum (code c)); cbn [List.length]; lia.
Qed.

Lemma squeeze_true (s : list rune) : squeeze true s = squeeze false (dropRun s).
Proof.
  induction s as [|c s IH]; [reflexivity|]. cbn [squeeze dropRun].
  destruct (utility.nonAlnum (code c)) eqn:E; [exact IH|].
  cbn [squeeze]. now rewrite E.
Qed.

Lemma replaceAll_squeeze (fuel : nat) : forall (s : list rune) (b : bool),
  (List.length s < fuel)%nat ->
  regexpReplace.replaceAll utility.idPattern ["-"%char] fuel b s = squeeze false s.
Proof.
  induction fuel as [|fuel IH]; intros s b Hlen; [lia|].
  cbn [regexpReplace.replaceAll]. rewrite matchK_idPattern.
  destruct s as [|c s']; [reflexivity|]. cbn [squeeze List.length] in *.
  destruct (utility.nonAlnum (code c)).
  - pose proof (dropRun_length s') as Hd.
    assert (Hlt : (List.length (dropRun s') <? S (List.length s'))%nat = true)
      by (apply Nat.ltb_lt; lia).
    rewrite Hlt, IH by lia. now rewrite squeeze_true.
  - rewrite IH by lia. reflexivity.
Qed.

Lemma ReplaceAllString_squeeze (name : string) :
  regexpReplace.ReplaceAllString utility.idPattern name "-" =
  string_of_list_ascii (squeeze false (decode name)).
Proof.
  unfold regexpReplace.ReplaceAllString. cbv zeta. f_equal.
  apply replaceAll_squeeze. lia.
Qed.

End Squeeze.

(** The first byte of a text, or [trail] for the empty text. *)
Lemma dashesInside_cons (a : ascii -> bool) (trail : bool) (c : ascii) (l : bytes) :
  dashesInside a trail (c :: l) =
  (a c || (Ascii.eqb c "-" && match l with [] => trail | c' :: _ => a c' end))
  && dashesInside a trail l.
Proof. reflexivity. Qed.

Lemma plain_alnum (r : regexp.rune) :
  plainRune r -> utility.nonAlnum (regexp.code r) = false ->
  exists c, regexp.raw r = [c] /\ IdRule.alnum c = true.
Proof.
  intros Hp Hn. destruct (Hp Hn) as (c & Hraw & Hc). exists c. split; [exact Hraw|].
  unfold utility.nonAlnum in Hn. apply negb_false_iff in Hn. rewrite <- Hc in Hn.
  unfold IdRule.alnum, IdRule.letter, IdRule.digit, regexp.lower, regexp.upper,
    regexp.digit in *. exact Hn.
Qed.

Lemma squeeze_shape (s : list regexp.rune) :
  List.Forall plainRune s ->
  forall b,
    dashesInside IdRule.alnum true (squeeze b s) = true /\
    (b = true -> match squeeze b s with [] => true | c :: _ => IdRule.alnum c end = true).
Proof.
  induction 1 as [|r s Hr Hs IH]; intros b; [split; reflexivity|].
  cbn [squeeze]. destruct (utility.nonAlnum (regexp.code r)) eqn:E.
  - destruct b; cbn [app].
    + exact (IH true).
    + destruct (IH true) as [Hd Hh]. split; [|discriminate].
      rewrite dashesInside_cons, Hd, (Hh eq_refl). cbn. now rewrite orb_true_r.
  - destruct (plain_alnum r Hr E) as (c & -> & Hc). cbn [app].
    destruct (IH false) as [Hd _]. split; [|intros _; exact Hc].
    now rewrite dashesInside_cons, Hc, Hd.
Qed.

Lemma squeeze_nil (s : list regexp.rune) :
  List.Forall plainRune s -> squeeze false s = [] -> s = [].
Proof.
  intros H E. destruct H as [|r s Hr Hs]; [reflexivity|]. cbn [squeeze] in E.
  destruct (utility.nonAlnum (regexp.code r)) eqn:En; [discriminate|].
  destruct (plain_alnum r Hr En) as (c & Hraw & _). rewrite Hraw in E. discriminate.
Qed.

Lemma alnum_lower (c : ascii) :
  IdRule.alnum c = true -> lowerAlnum (Scenario.lowerByte c) = true.
Proof. destruct c as [[] [] [] [] [] [] [] []]; vm_compute; congruence. Qed.

Lemma dash_lower : Scenario.lowerByte "-" = "-"%char.
Proof. reflexivity. Qed.

Lemma dashesInside_lower (trail : bool) (l : bytes) :
  dashesInside IdRule.alnum trail l = true ->
  dashesInside lowerAlnum trail (List.map Scenario.lowerByte l) = true.
Proof.
  induction l as [|c l IH]; [reflexivity|]. cbn [List.map].
  rewrite !dashesInside_cons. intros H. apply andb_true_iff in H. destruct H as [Hc Hl].
  rewrite (IH Hl), andb_true_r. apply orb_true_iff in Hc. destruct Hc as [Hc|Hc].
  - now rewrite (alnum_lower c Hc).
  - apply andb_true_iff in Hc. destruct Hc as [Hd Hn]. apply Ascii.eqb_eq in Hd. subst c.
    rewrite dash_lower. cbn [Ascii.eqb]. rewrite orb_true_iff. right.
    destruct l as [|c' l']; [exact Hn|]. cbn [List.map]. rewrite (alnum_lower c' Hn).
    reflexivity.
Qed.

Lemma alnum_ascii (c : ascii) :
  IdRule.alnum c = true \/ c = "-"%char -> (byteval c <? 128)%N = true.
Proof.
  intros [H| ->]; [|reflexivity].
  destruct c as [[] [] [] [] [] [] [] []]; vm_compute in H |- *; congruence.
Qed.

Lemma dashesInside_ascii (a : ascii -> bool) (trail : bool) (l : bytes) :
  (forall c, a c = true -> IdRule.alnum c = true) ->
  dashesInside a trail l = true -> forallb (fun c => (byteval c <? 128)%N) l = true.
Proof.
  intros Ha. induction l as [|c l IH]; [reflexivity|].
  rewrite dashesInside_cons. intros H. apply andb_true_iff in H. destruct H as [Hc Hl].
  cbn [forallb]. rewrite (IH Hl), andb_true_r. apply alnum_ascii.
  apply orb_true_iff in Hc. destruct Hc as [Hc|Hc]; [left; now apply Ha|].
  apply andb_true_iff in Hc. destruct Hc as [Hd _]. right. now apply Ascii.eqb_eq in Hd.
Qed.

Lemma mapString_list (f : ascii -> ascii) (l : bytes) :
  Scenario.mapString f (string_of_list_ascii l) = string_of_list_ascii (List.map f l).
Proof. induction l as [|c l IH]; [reflexivity|]. cbn. now rewrite IH. Qed.

Lemma last_cons_cons {A} (a b : A) (l : list A) :
  list.last (a :: b :: l) = list.last (b :: l).
Proof. reflexivity. Qed.

(** The last step of [ChangeIdString] on a text whose dashes are single
    and inside, but for a dash at the end. *)
Lemma dashesInside_close (a : ascii -> bool) (l : bytes) :
  a "r"%char = true -> a "-"%char = false ->
  dashesInside a true l = true ->
  match list.last l with
  | None => l = []
  | Some c =>
      if Ascii.eqb c "-" then dashesInside a false (l ++ ["r"%char]) = true
      else dashesInside a false l = true
  end.
Proof.
  intros Hr Hd. induction l as [|c l IH]; [reflexivity|].
  rewrite dashesInside_cons. intros H. apply andb_true_iff in H. destruct H as [Hc Hl].
  specialize (IH Hl). destruct l as [|c' l'].
  - cbn [list.last]. destruct (Ascii.eqb c "-") eqn:E.
    + apply Ascii.eqb_eq in E. subst c. cbn [app]. rewrite !dashesInside_cons, Hr.
      cbn. now rewrite orb_true_r.
    + rewrite dashesInside_cons. try rewrite E in Hc. cbn [andb] in Hc.
      rewrite orb_false_r in Hc. now rewrite Hc.
  - rewrite last_cons_cons. destruct (list.last (c' :: l')) as [x|] eqn:El; [|discriminate].
    destruct (Ascii.eqb x "-").
    + change ((c :: c' :: l') ++ ["r"%char]) with (c :: (c' :: l') ++ ["r"%char]).
      rewrite dashesInside_cons, IH, andb_true_r. exact Hc.
    + rewrite dashesInside_cons, IH, andb_true_r. exact Hc.
Qed.

Lemma lower_fixed (c : ascii) :
  lowerAlnum c = true \/ c = "-"%char -> Scenario.lowerByte c = c.
Proof.
  intros [H| ->]; [|reflexivity].
  destruct c as [[] [] [] [] [] [] [] []]; vm_compute in H |- *; congruence.
Qed.

Lemma lowerAlnum_alnum (c : ascii) : lowerAlnum c = true -> IdRule.alnum c = true.
Proof. destruct c as [[] [] [] [] [] [] [] []]; vm_compute; congruence. Qed.

Lemma dashesInside_fixed (trail : bool) (l : bytes) :
  dashesInside lowerAlnum trail l = true -> List.map Scenario.lowerByte l = l.
Proof.
  induction l as [|c l IH]; [reflexivity|].
  rewrite dashesInside_cons. intros H. apply andb_true_iff in H. destruct H as [Hc Hl].
  cbn [List.map]. rewrite (IH Hl). f_equal. apply lower_fixed.
  apply orb_true_iff in Hc. destruct Hc as [Hc|Hc]; [now left|].
  apply andb_true_iff in Hc. destruct Hc as [Hd _]. right. now apply Ascii.eqb_eq in Hd.
Qed.

Lemma asc_nonAlnum (c : ascii) :
  utility.nonAlnum (regexp.code (asc c)) = negb (IdRule.alnum c).
Proof. reflexivity. Qed.

Lemma squeeze_normal (l : bytes) :
  dashesInside lowerAlnum false l = true ->
  squeeze false (List.map asc l) = l.
Proof.
  induction l as [|c l IH]; [reflexivity|].
  rewrite dashesInside_cons. intros H. apply andb_true_iff in H. destruct H as [Hc Hl].
  specialize (IH Hl). cbn [List.map squeeze]. rewrite asc_nonAlnum.
  apply orb_true_iff in Hc. destruct Hc as [Hc|Hc].
  - rewrite (lowerAlnum_alnum c Hc). cbn [negb regexp.raw asc app]. now rewrite IH.
  - apply andb_true_iff in Hc. destruct Hc as [Hd Hn]. apply Ascii.eqb_eq in Hd. subst c.
    cbn [negb app]. change (IdRule.alnum "-") with false. cbn [negb]. f_equal.
    destruct l as [|c' l']; [discriminate|].
    cbn [List.map squeeze] in *. rewrite asc_nonAlnum in *.
    rewrite (lowerAlnum_alnum c' Hn) in *. exact IH.
Qed.

Section ChangeId.

Variable X : Extern.
Hypothesis Hlower : lowersAscii X.

Lemma list_of_append (a b : string) :
  list_ascii_of_string (a +:+ b) = list_ascii_of_string a ++ list_ascii_of_string b.
Proof.
  induction a as [|c a IH]; [reflexivity|]. rewrite append_cons. cbn. now rewrite IH.
Qed.

Lemma squeezed_ascii (name : string) :
  IdRule.isAscii (string_of_list_ascii (squeeze false (regexp.decode name))) = true.
Proof.
  unfold IdRule.isAscii. rewrite list_ascii_of_string_of_list_ascii.
  apply (dashesInside_ascii IdRule.alnum true); [auto|].
  apply squeeze_shape, runesOf_plain.
Qed.

Lemma ChangeIdString_run (name : string) :
  let l := List.map Scenario.lowerByte (squeeze false (regexp.decode name)) in
  utility.ChangeIdString X name =
  match list.last l with
  | None => Panic "runtime error: slice bounds out of range [-1:]"
  | Some c =>
      if Ascii.eqb c "-" then Ok (string_of_list_ascii l +:+ "r")
      else Ok (string_of_list_ascii l)
  end.
Proof.
  intros l. unfold utility.ChangeIdString. cbv zeta.
  rewrite ReplaceAllString_squeeze, (Hlower _ (squeezed_ascii name)).
  unfold Scenario.ToLower. rewrite mapString_list. fold l.
  now rewrite list_ascii_of_string_of_list_ascii.
Qed.

Lemma ChangeIdString_normal (name out : string) :
  utility.ChangeIdString X name = Ok out -> normalId out = true.
Proof.
  rewrite ChangeIdString_run. cbv zeta.
  set (l := List.map Scenario.lowerByte (squeeze false (regexp.decode name))).
  assert (Hd : dashesInside lowerAlnum true l = true).
  { apply dashesInside_lower, squeeze_shape, runesOf_plain. }
  pose proof (dashesInside_close lowerAlnum l eq_refl eq_refl Hd) as Hc.
  destruct (list.last l) as [c|] eqn:El; [|discriminate].
  unfold normalId. destruct (Ascii.eqb c "-"); intros [= <-].
  - rewrite list_of_append, list_ascii_of_string_of_list_ascii. cbn [list_ascii_of_string].
    rewrite Hc, andb_true_r. destruct l; reflexivity.
  - rewrite list_ascii_of_string_of_list_ascii, Hc, andb_true_r.
    destruct l; [discriminate El|reflexivity].
Qed.

Lemma ChangeIdString_total (name : string) :
  name <> "" -> exists out, utility.ChangeIdString X name = Ok out.
Proof.
  intros Hne. rewrite ChangeIdString_run. cbv zeta.
  set (l := List.map Scenario.lowerByte (squeeze false (regexp.decode name))).
  destruct (list.last l) as [c|] eqn:El.
  { destruct (Ascii.eqb c "-"); now eexists. }
  exfalso. assert (Hl : l = []) by (destruct l as [|a [|b l']]; [reflexivity|discriminate|];
    exfalso; revert El; generalize (b :: l'); intros l2; revert a;
    induction l2 as [|x l2 IH]; intros a; [discriminate|destruct l2; [discriminate|apply (IH x)]]).
  subst l. apply List.map_eq_nil in Hl.
  apply squeeze_nil in Hl; [|apply runesOf_plain].
  unfold regexp.decode in Hl. apply runesOf_nil in Hl.
  destruct name as [|c0 name]; [congruence|]. cbn in Hl. destruct Hl; discriminate.
Qed.

Lemma normal_last (l : bytes) :
  dashesInside lowerAlnum false l = true -> l <> [] ->
  exists c, list.last l = Some c /\ Ascii.eqb c "-" = false.
Proof.
  induction l as [|c l IH]; [congruence|]. intros H _.
  rewrite dashesInside_cons in H. apply andb_true_iff in H. destruct H as [Hc Hl].
  destruct l as [|c' l'].
  - exists c. split; [reflexivity|]. rewrite andb_false_r, orb_false_r in Hc.
    destruct (Ascii.eqb c "-") eqn:E; [|reflexivity].
    apply Ascii.eqb_eq in E. subst c. discriminate.
  - rewrite last_cons_cons. apply IH; [exact Hl|discriminate].
Qed.

Lemma ChangeIdString_fixed (s : string) :
  normalId s = true -> utility.ChangeIdString X s = Ok s.
Proof.
  unfold normalId. intros H. apply andb_true_iff in H. destruct H as [Hne Hd].
  assert (Ha : IdRule.isAscii s = true).
  { unfold IdRule.isAscii. apply (dashesInside_ascii lowerAlnum false); [|exact Hd].
    apply lowerAlnum_alnum. }
  rewrite ChangeIdString_run. cbv zeta.
  rewrite (decode_ascii s Ha), (squeeze_normal _ Hd), (dashesInside_fixed false _ Hd).
  destruct (normal_last _ Hd) as (c & -> & ->).
  - intros E. rewrite <- (string_of_list_ascii_of_string s), E in Hne. discriminate.
  - now rewrite string_of_list_ascii_of_string.
Qed.

End ChangeId.

Lemma Scenario_lowersAscii : lowersAscii Scenario.X.
Proof. intros s _. reflexivity. Qed.

(** [ChangeIdString] panics on the empty string, on the slice that takes
    the last byte.  On every other input it returns a text that is not
    empty and consists of lower-case letters, digits and dashes, with no
    two dashes in a row and no dash at the end.  (Library fact used:
    [strings.ToLower] on ASCII text.) *)
Theorem ChangeIdString_normalises (X : Extern) (name : string) :
  lowersAscii X ->
  name <> "" ->
  utility.ChangeIdString X "" = Panic "runtime error: slice bounds out of range [-1:]" /\
  exists out, utility.ChangeIdString X name = Ok out /\ normalId out = true.
Proof.
  intros Hlower Hne. split.
  - rewrite (ChangeIdString_run X Hlower ""). reflexivity.
  - destruct (ChangeIdString_total X Hlower name Hne) as (out & E).
    exists out. split; [exact E|]. exact (ChangeIdString_normal X Hlower name out E).
Qed.

Lemma ChangeIdString_normalises_witness :
  utility.ChangeIdString Scenario.X "" =
    Panic "runtime error: slice bounds out of range [-1:]" /\
  exists out, utility.ChangeIdString Scenario.X "Dev Server_#1 (eu)" = Ok out /\
              normalId out = true.
Proof.
  apply (ChangeIdString_normalises Scenario.X "Dev Server_#1 (eu)").
  - exact Scenario_lowersAscii.
  - discriminate.
Defined.

(** [ChangeIdString] leaves its own results as they are: applied to a
    text it has returned, it returns that text again. *)
Theorem ChangeIdString_idempotent (X : Extern) (name out : string) :
  lowersAscii X ->
  utility.ChangeIdString X name = Ok out ->
  utility.ChangeIdString X out = Ok out.
Proof.
  intros Hlower E. apply (ChangeIdString_fixed X Hlower).
  exact (ChangeIdString_normal X Hlower name out E).
Qed.

Lemma ChangeIdString_idempotent_witness :
  utility.ChangeIdString Scenario.X "dev-server-1-eu-r" = Ok "dev-server-1-eu-r".
Proof.
  apply (ChangeIdString_idempotent Scenario.X "Dev Server_#1 (eu)" "dev-server-1-eu-r").
  - exact Scenario_lowersAscii.
  - vm_compute. reflexivity.
Defined.

Section LowerDashed.

Variable X : Extern.
Hypothesis Hlower : lowersAscii X.

Lemma replaceByte_map (old new : ascii) (s : string) :
  utility.replaceByte old new s =
  Scenario.mapString (fun c => if Ascii.eqb c old then new else c) s.
Proof. induction s as [|c s IH]; [reflexivity|]. cbn. now rewrite IH. Qed.

Lemma mapString_mapString (f g : ascii -> ascii) (s : string) :
  Scenario.mapString f (Scenario.mapString g s) = Scenario.mapString (fun c => f (g c)) s.
Proof. induction s as [|c s IH]; [reflexivity|]. cbn. now rewrite IH. Qed.

Lemma list_of_mapString (f : ascii -> ascii) (s : string) :
  list_ascii_of_string (Scenario.mapString f s) = List.map f (list_ascii_of_string s).
Proof. induction s as [|c s IH]; [reflexivity|]. cbn. now rewrite IH. Qed.

Lemma isAscii_mapString (f : ascii -> ascii) (s : string) :
  (forall c, (byteval c <? 128)%N = true -> (byteval (f c) <? 128)%N = true) ->
  IdRule.isAscii s = true -> IdRule.isAscii (Scenario.mapString f s) = true.
Proof.
  intros Hf. unfold IdRule.isAscii. rewrite list_of_mapString.
  induction (list_ascii_of_string s) as [|c l IH]; [reflexivity|].
  cbn [forallb List.map]. intros H. apply andb_true_iff in H. destruct H as [Hc Hl].
  now rewrite (Hf c Hc), (IH Hl).
Qed.

Lemma ToLower_ascii (name : string) :
  IdRule.isAscii name = true ->
  utility.ToLower X name = Scenario.mapString lowerDashed name.
Proof.
  intros Ha. unfold utility.ToLower. cbv zeta. rewrite !replaceByte_map.
  rewrite Hlower.
  - unfold Scenario.ToLower. now rewrite !mapString_mapString.
  - apply isAscii_mapString; [|apply isAscii_mapString; [|exact Ha]];
      intros c Hc; destruct (Ascii.eqb c _); [reflexivity|exact Hc|reflexivity|exact Hc].
Qed.

End LowerDashed.

Lemma lowerDashed_facts (c : ascii) :
  (byteval c <? 128)%N = true ->
  (byteval (lowerDashed c) <? 128)%N = true /\
  lowerDashed c <> "_"%char /\ lowerDashed c <> " "%char /\
  upperLetter (lowerDashed c) = false /\
  lowerDashed (lowerDashed c) = lowerDashed c /\
  (IdRule.letter c = true -> IdRule.letter (lowerDashed c) = true) /\
  (IdRule.alnum c = true -> IdRule.alnum (lowerDashed c) = true) /\
  (IdRule.innerPlus c = true -> IdRule.innerPlus (lowerDashed c) = true).
Proof.
  destruct c as [[] [] [] [] [] [] [] []]; vm_compute; intros H;
    repeat split; congruence.
Qed.

Lemma last_map_default {A B} (f : A -> B) (l : list A) (d : A) :
  List.last (List.map f l) (f d) = f (List.last l d).
Proof.
  induction l as [|x l IH]; [reflexivity|]. destruct l as [|y l]; [reflexivity|].
  exact IH.
Qed.

Lemma last_In_default {A} (l : list A) (d : A) : In (List.last l d) (d :: l).
Proof.
  induction l as [|x l IH]; [now left|]. destruct l as [|y l]; [right; now left|].
  change (List.last (x :: y :: l) d) with (List.last (y :: l) d).
  destruct IH as [E|E]; [left; exact E|right; right; exact E].
Qed.

Lemma matchesPlus_lowerDashed (s : string) :
  IdRule.isAscii s = true ->
  IdRule.matchesPlus s = true ->
  IdRule.matchesPlus (Scenario.mapString lowerDashed s) = true.
Proof.
  unfold IdRule.isAscii, IdRule.matchesPlus, IdRule.matchesWith.
  rewrite list_of_mapString.
  destruct (list_ascii_of_string s) as [|c rest]; [discriminate|].
  cbn [forallb List.map]. intros Ha H.
  apply andb_true_iff in Ha. destruct Ha as [Hc Hrest].
  apply andb_true_iff in H. destruct H as [Hl Hr].
  rewrite (proj1 (proj2 (proj2 (proj2 (proj2 (proj2 (lowerDashed_facts c Hc)))))) Hl).
  cbn [andb]. destruct rest as [|c1 rest]; [reflexivity|].
  apply andb_true_iff in Hr. destruct Hr as [Hall Hlast].
  change (List.map lowerDashed (c1 :: rest)) with (lowerDashed c1 :: List.map lowerDashed rest).
  cbv iota. apply andb_true_iff. split.
  - change (lowerDashed c1 :: List.map lowerDashed rest)
      with (List.map lowerDashed (c1 :: rest)).
    rewrite forallb_forall in *. intros x Hx. apply in_map_iff in Hx.
    destruct Hx as (y & <- & Hy).
    apply (lowerDashed_facts y (Hrest y Hy)). exact (Hall y Hy).
  - change (lowerDashed c1 :: List.map lowerDashed rest)
      with (List.map lowerDashed (c1 :: rest)).
    rewrite last_map_default.
    pose proof (last_In_default (c1 :: rest) c) as Hin.
    assert (Hasc : (byteval (List.last (c1 :: rest) c) <? 128)%N = true).
    { destruct Hin as [<-|Hin]; [exact Hc|].
      rewrite forallb_forall in Hrest. exact (Hrest _ Hin). }
    apply (lowerDashed_facts _ Hasc). exact Hlast.
Qed.

(** On ASCII text [ToLower] keeps the length and returns a text without
    underscores, blanks and upper-case letters that it maps to itself;
    and a name that [CheckString] accepts, it turns into a name that
    [CheckString] accepts.  (Library fact used: [strings.ToLower] on ASCII
    text.) *)
Theorem ToLower_on_ascii (X : Extern) (name : string) :
  lowersAscii X ->
  IdRule.isAscii name = true ->
  let out := utility.ToLower X name in
  String.length out = String.length name /\
  (forall c, In c (list_ascii_of_string out) ->
     c <> "_"%char /\ c <> " "%char /\ upperLetter c = false) /\
  utility.ToLower X out = out /\
  (common.CheckString name = nil_error -> validId out).
Proof.
  intros Hlower Ha out.
  assert (Eout : out = Scenario.mapString lowerDashed name) by (apply ToLower_ascii; auto).
  assert (Haout : IdRule.isAscii out = true).
  { rewrite Eout. apply isAscii_mapString; [|exact Ha].
    intros c Hc. apply (lowerDashed_facts c Hc). }
  split; [|split; [|split]].
  - rewrite Eout. clear. induction name as [|c s IH]; [reflexivity|]. cbn. now rewrite IH.
  - intros c Hc. rewrite Eout, list_of_mapString in Hc. apply in_map_iff in Hc.
    destruct Hc as (y & <- & Hy).
    assert (Hyasc : (byteval y <? 128)%N = true).
    { unfold IdRule.isAscii in Ha. rewrite forallb_forall in Ha. exact (Ha y Hy). }
    pose proof (lowerDashed_facts y Hyasc) as F. tauto.
  - rewrite (ToLower_ascii X Hlower out Haout), Eout, mapString_mapString.
    unfold IdRule.isAscii in Ha. clear - Ha.
    induction name as [|c s IH]; [reflexivity|]. cbn in Ha |- *.
    apply andb_true_iff in Ha. destruct Ha as [Hc Hs].
    rewrite (IH Hs). f_equal. apply (lowerDashed_facts c Hc).
  - intros Hcs. split; [exact Haout|]. apply (CheckString_ascii out Haout).
    rewrite Eout. apply matchesPlus_lowerDashed; [exact Ha|].
    now apply (CheckString_ascii name Ha).
Qed.

Lemma ToLower_on_ascii_witness :
  let out := utility.ToLower Scenario.X "My_Web Server" in
  String.length out = String.length "My_Web Server" /\
  (forall c, In c (list_ascii_of_string out) ->
     c <> "_"%char /\ c <> " "%char /\ upperLetter c = false) /\
  utility.ToLower Scenario.X out = out /\
  (common.CheckString "My_Web Server" = nil_error -> validId out).
Proof.
  apply (ToLower_on_ascii Scenario.X "My_Web Server").
  - exact Scenario_lowersAscii.
  - reflexivity.
Defined.

(** ** The catalog of Kubernetes clusters *)

Section KubernetesFacts.

Variable X : Extern.
Variable K : K8sAssets.

Lemma getK8sClusterDetail_Some (providerName : string) (k8sClusterDetail : K8sClusterDetail.t) :
  utility.getK8sClusterDetail X K providerName = Some k8sClusterDetail ->
  exists key, In (key, k8sClusterDetail) (K8sClusterInfo.CSPs (RuntimeK8sClusterInfo K)) /\
              ToLower X key = providerName.
Proof.
  unfold utility.getK8sClusterDetail.
  destruct (List.find _ _) as [[key d]|] eqn:Ef; [|discriminate].
  intros [= <-]. apply List.find_some in Ef. destruct Ef as [Hin He].
  exists key. split; [exact Hin|]. now apply String.eqb_eq in He.
Qed.

Lemma versionInRegions_Some (regionName : string) (regions : list string)
      (available l : list (string * string)) :
  utility.versionInRegions X K regionName regions available = Some l ->
  listsRegion X regionName regions = true /\
  l = match available with [] => [(StrEmpty K, StrEmpty K)] | _ :: _ => available end.
Proof.
  unfold listsRegion. induction regions as [|region rest IH]; [discriminate|].
  cbn [utility.versionInRegions existsb]. cbv zeta.
  destruct (EqualFold X (ToLower X region) regionName).
  - intros H. split; [reflexivity|]. destruct available; cbn in H; congruence.
  - exact IH.
Qed.

Lemma versionInRegions_None (regionName : string) (regions : list string)
      (available : list (string * string)) :
  utility.versionInRegions X K regionName regions available = None ->
  listsRegion X regionName regions = false.
Proof.
  unfold listsRegion. induction regions as [|region rest IH]; [reflexivity|].
  cbn [utility.versionInRegions existsb]. cbv zeta.
  destruct (EqualFold X (ToLower X region) regionName); [|exact IH].
  now destruct (List.length available =? 0)%nat.
Qed.

Lemma versionInEntries_first (regionName : string) (entries : list K8sClusterVersionDetail.t)
      (l : list (string * string)) :
  utility.versionInEntries X K regionName entries = Some l ->
  exists i versionDetail,
    entries !! i = Some versionDetail /\
    listsRegion X regionName (K8sClusterVersionDetail.Region versionDetail) = true /\
    l = match K8sClusterVersionDetail.Available versionDetail with
        | [] => [(StrEmpty K, StrEmpty K)]
        | _ :: _ => K8sClusterVersionDetail.Available versionDetail
        end /\
    forall j earlier, (j < i)%nat -> entries !! j = Some earlier ->
      listsRegion X regionName (K8sClusterVersionDetail.Region earlier) = false.
Proof.
  induction entries as [|e rest IH]; [discriminate|]. cbn [utility.versionInEntries].
  destruct (utility.versionInRegions X K regionName _ _) as [l'|] eqn:E.
  - intros [= <-]. apply versionInRegions_Some in E. destruct E as [E1 E2].
    exists 0%nat, e. split; [reflexivity|]. split; [exact E1|]. split; [exact E2|].
    intros j earlier Hj. inversion Hj.
  - intros H. destruct (IH H) as (i & v & Hi & Hv & Hl & Hfirst).
    exists (S i), v. split; [exact Hi|]. split; [exact Hv|]. split; [exact Hl|].
    intros [|j] earlier Hj Hlk.
    + cbn in Hlk. injection Hlk as <-. now apply versionInRegions_None in E.
    + cbn in Hlk. apply (Hfirst j earlier); [lia|exact Hlk].
Qed.

Lemma versionInEntries_None (regionName : string) (entries : list K8sClusterVersionDetail.t) :
  utility.versionInEntries X K regionName entries = None ->
  forall versionDetail, In versionDetail entries ->
    listsRegion X regionName (K8sClusterVersionDetail.Region versionDetail) = false.
Proof.
  induction entries as [|e rest IH]; [intros _ ? []|]. cbn [utility.versionInEntries].
  destruct (utility.versionInRegions X K regionName _ _) as [l'|] eqn:E; [discriminate|].
  intros H v [<-|Hin]; [now apply versionInRegions_None in E|now apply IH].
Qed.



End KubernetesFacts.

(** A list of versions that [GetAvailableK8sClusterVersion] returns is
    never empty: it is the list of an entry of the provider's list of
    versions, or the one placeholder pair when the list of that entry is
    empty.  The entry is the first one of the list that lists the region
    asked for; when no entry lists the region, it is the first one that
    lists the region [common]. *)
Theorem GetAvailableK8sClusterVersion_result (X : Extern) (K : K8sAssets)
        (providerName regionName : string) (availableVersion : list (string * string)) :
  utility.GetAvailableK8sClusterVersion X K providerName regionName = inr availableVersion ->
  availableVersion <> [] /\
  exists key k8sClusterDetail i versionDetail,
    In (key, k8sClusterDetail) (K8sClusterInfo.CSPs (RuntimeK8sClusterInfo K)) /\
    ToLower X key = ToLower X providerName /\
    K8sClusterDetail.Version k8sClusterDetail !! i = Some versionDetail /\
    availableVersion =
      match K8sClusterVersionDetail.Available versionDetail with
      | [] => [(StrEmpty K, StrEmpty K)]
      | _ :: _ => K8sClusterVersionDetail.Available versionDetail
      end /\
    ((listsRegion X (ToLower X regionName) (K8sClusterVersionDetail.Region versionDetail) = true /\
      forall j earlier, (j < i)%nat ->
        K8sClusterDetail.Version k8sClusterDetail !! j = Some earlier ->
        listsRegion X (ToLower X regionName) (K8sClusterVersionDetail.Region earlier) = false)
     \/
     (listsRegion X (StrCommon K) (K8sClusterVersionDetail.Region versionDetail) = true /\
      (forall other, In other (K8sClusterDetail.Version k8sClusterDetail) ->
         listsRegion X (ToLower X regionName) (K8sClusterVersionDetail.Region other) = false) /\
      forall j earlier, (j < i)%nat ->
        K8sClusterDetail.Version k8sClusterDetail !! j = Some earlier ->
        listsRegion X (StrCommon K) (K8sClusterVersionDetail.Region earlier) = false)).
Proof.
  unfold utility.GetAvailableK8sClusterVersion. cbv zeta.
  destruct (utility.getK8sClusterDetail X K _) as [detail|] eqn:Ed; [|discriminate].
  apply getK8sClusterDetail_Some in Ed. destruct Ed as (key & Hin & Hkey).
  destruct (utility.versionInEntries X K (ToLower X regionName) _) as [l|] eqn:Er.
  - intros [= <-]. apply versionInEntries_first in Er.
    destruct Er as (i & v & Hi & Hl & -> & Hfirst).
    split; [now destruct (K8sClusterVersionDetail.Available v)|].
    exists key, detail, i, v. repeat split; auto.
  - destruct (utility.versionInEntries X K (StrCommon K) _) as [l|] eqn:Ec; [|discriminate].
    intros [= <-]. apply versionInEntries_first in Ec.
    destruct Ec as (i & v & Hi & Hl & -> & Hfirst).
    split; [now destruct (K8sClusterVersionDetail.Available v)|].
    exists key, detail, i, v. repeat split; auto. right. split; [exact Hl|].
    split; [exact (versionInEntries_None X K _ _ Er)|exact Hfirst].
Qed.

Lemma GetAvailableK8sClusterVersion_result_witness :
  [("empty", "empty")] <> [] /\
  exists key k8sClusterDetail i versionDetail,
    In (key, k8sClusterDetail) (K8sClusterInfo.CSPs (RuntimeK8sClusterInfo Cases.k8s)) /\
    ToLower Scenario.X key = ToLower Scenario.X "aws" /\
    K8sClusterDetail.Version k8sClusterDetail !! i = Some versionDetail /\
    [("empty", "empty")] =
      match K8sClusterVersionDetail.Available versionDetail with
      | [] => [(StrEmpty Cases.k8s, StrEmpty Cases.k8s)]
      | _ :: _ => K8sClusterVersionDetail.Available versionDetail
      end /\
    ((listsRegion Scenario.X (ToLower Scenario.X "us-east-1")
        (K8sClusterVersionDetail.Region versionDetail) = true /\
      forall j earlier, (j < i)%nat ->
        K8sClusterDetail.Version k8sClusterDetail !! j = Some earlier ->
        listsRegion Scenario.X (ToLower Scenario.X "us-east-1")
          (K8sClusterVersionDetail.Region earlier) = false)
     \/
     (listsRegion Scenario.X (StrCommon Cases.k8s)
        (K8sClusterVersionDetail.Region versionDetail) = true /\
      (forall other, In other (K8sClusterDetail.Version k8sClusterDetail) ->
         listsRegion Scenario.X (ToLower Scenario.X "us-east-1")
           (K8sClusterVersionDetail.Region other) = false) /\
      forall j earlier, (j < i)%nat ->
        K8sClusterDetail.Version k8sClusterDetail !! j = Some earlier ->
        listsRegion Scenario.X (StrCommon Cases.k8s)
          (K8sClusterVersionDetail.Region earlier) = false)).
Proof.
  apply (GetAvailableK8sClusterVersion_result Scenario.X Cases.k8s "aws" "us-east-1").
  vm_compute. reflexivity.
Defined.



(** The three Kubernetes functions agree on which providers they know:
    for a provider name, either all of them return the error "unsupported
    provider", or none does; and [CheckNodeGroupsOnK8sCreation] then
    answers [true] or [false]. *)
Theorem K8s_unsupported_provider (X : Extern) (K : K8sAssets)
        (providerName regionName : string) :
  let unsupported :=
    "unsupported provider(" +:+ ToLower X providerName +:+ ") for kubernetes cluster" in
  match utility.CheckNodeGroupsOnK8sCreation X K providerName with
  | inl msg =>
      msg = unsupported /\
      utility.GetAvailableK8sClusterVersion X K providerName regionName = inl unsupported /\
      utility.GetAvailableK8sClusterNodeImage X K providerName regionName = inl unsupported
  | inr result =>
      (result = "true" \/ result = "false") /\
      utility.GetAvailableK8sClusterVersion X K providerName regionName <> inl unsupported /\
      utility.GetAvailableK8sClusterNodeImage X K providerName regionName <> inl unsupported
  end.
Proof.
  intros unsupported. unfold utility.CheckNodeGroupsOnK8sCreation,
    utility.GetAvailableK8sClusterVersion, utility.GetAvailableK8sClusterNodeImage.
  cbv zeta. destruct (utility.getK8sClusterDetail X K _) as [detail|].
  - split; [destruct (K8sClusterDetail.NodeGroupsOnCreation detail); [left|right]; reflexivity|].
    split.
    + destruct (utility.versionInEntries X K (ToLower X regionName) _); [discriminate|].
      destruct (utility.versionInEntries X K (StrCommon K) _); [discriminate|].
      subst unsupported. intros E. first [discriminate E | injection E as E; discriminate E | injection E as E; rewrite ?append_cons in E; discriminate E].
    + destruct (utility.nodeImageInEntries X (ToLower X regionName) _); [discriminate|].
      destruct (utility.nodeImageInEntries X (StrCommon K) _); [discriminate|].
      subst unsupported. intros E. first [discriminate E | injection E as E; discriminate E | injection E as E; rewrite ?append_cons in E; discriminate E].
  - repeat split.
Qed.

(** ** Registration of the catalog with the broker *)

Section BootstrapFacts.

Variable X : Extern.
Variable S : BootSpider.

(** The requests for the zones, as [registerZones] builds them. *)
Lemma registerZones_requests (providerName regionName : string) (zones : list string) :
  let plan :=
    List.map (fun zoneName =>
                SpiderRegionZoneInfo.mk
                  (providerName +:+ "-" +:+ regionName +:+ "-" +:+ zoneName)
                  (ToUpper X providerName)
                  [model.mkKeyValue "Region"
                     (RegionDetail.RegionId (utility.regionOf X providerName regionName));
                   model.mkKeyValue "Zone" zoneName]
                  (RegionDetail.Zones (utility.regionOf X providerName regionName)))
             zones in
  let run := utility.registerZones X S providerName regionName zones in
  exists sent unsent,
    snd run = List.map PostRegion sent /\
    plan = sent ++ unsent /\
    match fst run with
    | None => unsent = [] /\ forall r, In r sent -> exists a, postRegion S r = Body a
    | Some msg =>
        exists accepted refused,
          sent = accepted ++ [refused] /\ postRegion S refused = Failed msg /\
          forall r, In r accepted -> exists a, postRegion S r = Body a
    end.
Proof.
  induction zones as [|zoneName rest IH]; cbv zeta in *.
  - exists [], []. repeat split. intros r [].
  - cbn [utility.registerZones List.map]. cbv zeta.
    match goal with |- context [postRegion S ?r] => set (req := r) end.
    destruct (postRegion S req) as [msg|a] eqn:Ea.
    + exists [req]. eexists. cbn [fst snd List.map app]. split; [reflexivity|].
      split; [reflexivity|]. exists [], req. repeat split; auto. intros r [].
    + destruct IH as (sent & unsent & Hs & Hp & Hf).
      destruct (utility.registerZones X S providerName regionName rest) as [err more].
      cbn [fst snd] in *. exists (req :: sent), unsent. split; [cbn; now rewrite Hs|].
      split; [cbn; now rewrite Hp|].
      destruct err as [msg|].
      * destruct Hf as (accepted & refused & -> & Hr & Hacc).
        exists (req :: accepted), refused. repeat split; auto.
        intros r [<-|Hin]; [now exists a|now apply Hacc].
      * destruct Hf as [-> Hacc]. split; [reflexivity|].
        intros r [<-|Hin]; [now exists a|now apply Hacc].
Qed.

End BootstrapFacts.

(** [RegisterRegionZone] sends the requests for the region in order (the
    region under [<provider>-<region>], then every zone under
    [<provider>-<region>-<zone>]) and stops at the first one the broker
    refuses, whose error it returns; it returns no error when the broker
    has taken them all.  With a broker that takes every region, it sends
    all of them. *)
Theorem RegisterRegionZone_requests (X : Extern) (S : BootSpider)
        (providerName regionName : string) :
  let run := utility.RegisterRegionZone X S providerName regionName in
  (exists sent unsent,
     snd run = List.map PostRegion sent /\
     regionRequests X providerName regionName = sent ++ unsent /\
     match fst run with
     | None => unsent = [] /\ forall r, In r sent -> exists a, postRegion S r = Body a
     | Some msg =>
         exists accepted refused,
           sent = accepted ++ [refused] /\ postRegion S refused = Failed msg /\
           forall r, In r accepted -> exists a, postRegion S r = Body a
     end) /\
  (takesRegions S ->
   run = (nil_error, List.map PostRegion (regionRequests X providerName regionName))).
Proof.
  intros run.
  assert (Hmain : exists sent unsent,
     snd run = List.map PostRegion sent /\
     regionRequests X providerName regionName = sent ++ unsent /\
     match fst run with
     | None => unsent = [] /\ forall r, In r sent -> exists a, postRegion S r = Body a
     | Some msg =>
         exists accepted refused,
           sent = accepted ++ [refused] /\ postRegion S refused = Failed msg /\
           forall r, In r accepted -> exists a, postRegion S r = Body a
     end).
  { subst run. unfold utility.RegisterRegionZone, regionRequests. cbv zeta.
    set (region := utility.regionOf X providerName regionName).
    assert (Ehd : match RegionDetail.Zones region with
                  | zone0 :: _ =>
                      [model.mkKeyValue "Region" (RegionDetail.RegionId region);
                       model.mkKeyValue "Zone" zone0]
                  | [] =>
                      [model.mkKeyValue "Region" (RegionDetail.RegionId region);
                       model.mkKeyValue "Zone" "N/A"]
                  end =
                  [model.mkKeyValue "Region" (RegionDetail.RegionId region);
                   model.mkKeyValue "Zone" (List.hd "N/A" (RegionDetail.Zones region))])
      by now destruct (RegionDetail.Zones region).
    rewrite Ehd. clear Ehd.
    match goal with |- context [postRegion S ?r] => set (req := r) end.
    destruct (postRegion S req) as [msg|a] eqn:Ea.
    - exists [req]. eexists. cbn [fst snd List.map app]. split; [reflexivity|].
      split; [reflexivity|]. exists [], req. repeat split; auto. intros r [].
    - pose proof (registerZones_requests X S providerName regionName
                    (RegionDetail.Zones region)) as IH.
      cbv zeta in IH. fold region in IH. destruct IH as (sent & unsent & Hs & Hp & Hf).
      destruct (utility.registerZones X S providerName regionName _) as [err more].
      cbn [fst snd] in *. exists (req :: sent), unsent. split; [cbn; now rewrite Hs|].
      split; [cbn; now rewrite Hp|].
      destruct err as [msg|].
      + destruct Hf as (accepted & refused & -> & Hr & Hacc).
        exists (req :: accepted), refused. repeat split; auto.
        intros r [<-|Hin]; [now exists a|now apply Hacc].
      + destruct Hf as [-> Hacc]. split; [reflexivity|].
        intros r [<-|Hin]; [now exists a|now apply Hacc]. }
  split; [exact Hmain|].
  intros Htakes. destruct Hmain as (sent & unsent & Hs & Hp & Hf).
  destruct run as [err calls]. cbn [fst snd] in *. destruct err as [msg|].
  - destruct Hf as (accepted & refused & _ & Hr & _).
    destruct (Htakes refused) as (a & Ha). congruence.
  - destruct Hf as [-> _]. rewrite app_nil_r in Hp. now rewrite Hs, Hp.
Qed.

(** On the catalog of the concrete setting the requests are the regions
    the broker of that setting lists. *)
Lemma RegisterRegionZone_requests_witness :
  utility.RegisterRegionZone Scenario.X Cases.bootAll "aws" "us-east-1" =
  (nil_error, List.map PostRegion Scenario.regions).
Proof.
  apply (RegisterRegionZone_requests Scenario.X Cases.bootAll "aws" "us-east-1").
  intros r. now exists r.
Defined.

(** A broker that refuses every driver: [RegisterCloudInfo] returns the
    error for every provider and sends only the driver, and
    [RegisterAllCloudInfo] still returns no error, having sent one driver
    for every provider of the catalog and no region at all. *)
Theorem RegisterAllCloudInfo_swallows_errors (X : Extern) (S : BootSpider) :
  refusesDrivers S ->
  let driverOf := fun providerName =>
    CloudDriverInfo.mk (CSPDetail.Driver (utility.cspOf X providerName))
      (ToUpper X providerName) (CSPDetail.Driver (utility.cspOf X providerName)) in
  (forall providerName,
     exists msg, utility.RegisterCloudInfo X S providerName
                 = (Errorf msg, [PostDriver (driverOf providerName)])) /\
  utility.RegisterAllCloudInfo X S =
    (nil_error,
     List.map (fun providerName => PostDriver (driverOf providerName))
       (List.map fst (map_to_list (CloudInfo.CSPs (RuntimeCloudInfo X))))).
Proof.
  intros Href driverOf.
  assert (Hone : forall providerName,
     exists msg, utility.RegisterCloudInfo X S providerName
                 = (Errorf msg, [PostDriver (driverOf providerName)])).
  { intros p. unfold utility.RegisterCloudInfo. cbv zeta. fold (driverOf p).
    destruct (Href (driverOf p)) as (msg & ->). now exists msg. }
  split; [exact Hone|].
  unfold utility.RegisterAllCloudInfo. f_equal.
  induction (List.map fst (map_to_list (CloudInfo.CSPs (RuntimeCloudInfo X)))) as [|p l IH];
    [reflexivity|].
  cbn [List.map List.concat]. destruct (Hone p) as (msg & ->). cbn [snd app]. now rewrite IH.
Qed.

Lemma RegisterAllCloudInfo_swallows_errors_witness :
  (forall providerName,
     exists msg, utility.RegisterCloudInfo Scenario.X Cases.bootNoDriver providerName
                 = (Errorf msg,
                    [PostDriver
                       (CloudDriverInfo.mk
                          (CSPDetail.Driver (utility.cspOf Scenario.X providerName))
                          (ToUpper Scenario.X providerName)
                          (CSPDetail.Driver (utility.cspOf Scenario.X providerName)))])) /\
  utility.RegisterAllCloudInfo Scenario.X Cases.bootNoDriver =
    (nil_error,
     List.map (fun providerName =>
                 PostDriver
                   (CloudDriverInfo.mk
                      (CSPDetail.Driver (utility.cspOf Scenario.X providerName))
                      (ToUpper Scenario.X providerName)
                      (CSPDetail.Driver (utility.cspOf Scenario.X providerName))))
       (List.map fst (map_to_list (CloudInfo.CSPs (RuntimeCloudInfo Scenario.X))))).
Proof.
  apply (RegisterAllCloudInfo_swallows_errors Scenario.X Cases.bootNoDriver).
  intros d. now eexists.
Defined.

(** ** Random pauses and passwords *)

Lemma wrap64_int (z : Z) : isInt z -> wrap64 z = z.
Proof.
  unfold isInt, wrap64. change (2 ^ 63)%Z with 9223372036854775808%Z.
  change (2 ^ 64)%Z with 18446744073709551616%Z. intros H.
  rewrite Z.mod_small by lia. lia.
Qed.

(** [RandomSleep] panics when its two bounds are equal, since it asks
    [rand.Intn] for a number below zero times thousand; for two different
    bounds at most nine billion apart the pause it takes is shorter than
    their distance in seconds, whichever bound comes first. *)
Theorem RandomSleep_pause (R : Rand) (from to : Z) :
  fairRand R -> isInt from -> isInt to ->
  (from = to -> utility.RandomSleep R from to = Panic "invalid argument to Intn") /\
  (from <> to -> (Z.abs (to - from) <= 9000000000)%Z ->
   exists nanoseconds,
     utility.RandomSleep R from to = Ok nanoseconds /\
     (0 <= nanoseconds < Z.abs (to - from) * 1000000000)%Z).
Proof.
  intros [Hintn _] Hf Ht. unfold isInt in Hf, Ht.
  change (2 ^ 63)%Z with 9223372036854775808%Z in Hf, Ht. split.
  - intros ->. unfold utility.RandomSleep. rewrite Z.ltb_irrefl, Z.sub_diag.
    reflexivity.
  - intros Hne Hd. unfold utility.RandomSleep.
    assert (Hgen : forall a b, (a < b)%Z -> (b - a <= 9000000000)%Z ->
              exists ns,
                (let t := wrap64 (b - a) in
                 let n := wrap64 (t * 1000) in
                 if (n <=? 0)%Z then Panic "invalid argument to Intn"
                 else Ok (wrap64 (Intn R n * 1000000))) = Ok ns /\
                (0 <= ns < (b - a) * 1000000000)%Z).
    { intros a b Hab Hle. cbv zeta.
      assert (Hi : forall z, (-9223372036854775808 <= z < 9223372036854775808)%Z ->
                             wrap64 z = z).
      { intros z Hz. apply wrap64_int. unfold isInt.
        now change (2 ^ 63)%Z with 9223372036854775808%Z. }
      rewrite (Hi (b - a)%Z) by lia. rewrite (Hi ((b - a) * 1000)%Z) by lia.
      destruct ((b - a) * 1000 <=? 0)%Z eqn:E; [apply Z.leb_le in E; lia|].
      pose proof (Hintn ((b - a) * 1000)%Z ltac:(lia)) as Hn.
      rewrite Hi by lia. eexists. split; [reflexivity|]. lia. }
    destruct (to <? from)%Z eqn:E.
    + apply Z.ltb_lt in E. destruct (Hgen to from E ltac:(lia)) as (ns & Hns & Hb).
      exists ns. split; [exact Hns|]. lia.
    + apply Z.ltb_ge in E. destruct (Hgen from to ltac:(lia) ltac:(lia)) as (ns & Hns & Hb).
      exists ns. split; [exact Hns|]. lia.
Qed.

Lemma Cases_fairRand : fairRand Cases.rand.
Proof.
  split.
  - intros n Hn. cbn. lia.
  - intros k l. apply Permutation_rev.
Qed.

Lemma RandomSleep_pause_witness :
  ((1 = 3)%Z -> utility.RandomSleep Cases.rand 1 3 = Panic "invalid argument to Intn") /\
  ((1 <> 3)%Z -> (Z.abs (3 - 1) <= 9000000000)%Z ->
   exists nanoseconds,
     utility.RandomSleep Cases.rand 1 3 = Ok nanoseconds /\
     (0 <= nanoseconds < Z.abs (3 - 1) * 1000000000)%Z).
Proof.
  apply (RandomSleep_pause Cases.rand 1 3 Cases_fairRand); unfold isInt;
    change (2 ^ 63)%Z with 9223372036854775808%Z; lia.
Defined.

Lemma encodeRune_asc (c : ascii) : utility.encodeRune (asc c) = [c].
Proof.
  unfold utility.encodeRune, asc. cbn [regexp.code regexp.raw].
  destruct (N.eqb_spec (byteval c) utf8.RuneError) as [E|E]; [|reflexivity].
  exfalso. pose proof (N_ascii_bounded c) as Hb. unfold byteval in E.
  rewrite E in Hb. vm_compute in Hb. discriminate.
Qed.

Lemma stringOfRunes_asc (l : bytes) :
  utility.stringOfRunes (List.map asc l) = string_of_list_ascii l.
Proof.
  unfold utility.stringOfRunes. f_equal.
  induction l as [|c l IH]; [reflexivity|].
  cbn [List.map List.concat]. now rewrite encodeRune_asc, IH.
Qed.

Lemma isAscii_Forall (l : bytes) :
  IdRule.isAscii (string_of_list_ascii l) = true <->
  List.Forall (fun c => (byteval c <? 128)%N = true) l.
Proof.
  unfold IdRule.isAscii. rewrite list_ascii_of_string_of_list_ascii.
  rewrite forallb_forall, List.Forall_forall. reflexivity.
Qed.

Lemma shuffled_string (R : Rand) (k : nat) (l : bytes) :
  fairRand R -> IdRule.isAscii (string_of_list_ascii l) = true ->
  exists l',
    utility.stringOfRunes (Shuffle R k (regexp.decode (string_of_list_ascii l)))
    = string_of_list_ascii l' /\ Permutation l l'.
Proof.
  intros [_ Hsh] Ha. rewrite (decode_ascii _ Ha).
  rewrite list_ascii_of_string_of_list_ascii.
  pose proof (Hsh k (List.map asc l)) as Hp.
  apply Permutation_sym, Permutation_map_inv in Hp as (l' & El & Hp).
  exists l'. split; [|exact Hp]. rewrite El. apply stringOfRunes_asc.
Qed.

Lemma length_list_of (s : string) :
  List.length (list_ascii_of_string s) = String.length s.
Proof. induction s as [|c s IH]; [reflexivity|]. cbn. now rewrite IH. Qed.

Lemma length_of_list (l : bytes) :
  String.length (string_of_list_ascii l) = List.length l.
Proof. induction l as [|c l IH]; [reflexivity|]. cbn. now rewrite IH. Qed.

Lemma password_of (R : Rand) (ids : string) (hi : Z) :
  fairRand R -> IdRule.isAscii ids = true ->
  (0 <= hi <= Z.of_nat (String.length ids))%Z ->
  exists pw,
    utility.stringOfRunes
      (Shuffle R 1
         (regexp.decode
            (string_of_list_ascii (firstn (Z.to_nat hi) (list_ascii_of_string ids))
             +:+ utility.stringOfRunes (Shuffle R 0 (regexp.decode "A1!$"))))) = pw /\
    Permutation (list_ascii_of_string pw)
      (firstn (Z.to_nat hi) (list_ascii_of_string ids) ++ list_ascii_of_string "A1!$") /\
    Z.of_nat (String.length pw) = (hi + 4)%Z.
Proof.
  intros HR Ha Hhi.
  destruct (shuffled_string R 0 (list_ascii_of_string "A1!$") HR eq_refl)
    as (l0 & E0 & P0).
  change (string_of_list_ascii (list_ascii_of_string "A1!$")) with "A1!$" in E0.
  rewrite E0. set (red := firstn (Z.to_nat hi) (list_ascii_of_string ids)).
  assert (Eapp : string_of_list_ascii red +:+ string_of_list_ascii l0
                 = string_of_list_ascii (red ++ l0)).
  { clear. induction red as [|c red IH]; [reflexivity|].
    cbn [string_of_list_ascii List.app]. change (String c ?a +:+ ?b) with (String c (a +:+ b)).
    now rewrite <- IH. }
  rewrite Eapp.
  assert (Hall : IdRule.isAscii (string_of_list_ascii (red ++ l0)) = true).
  { apply isAscii_Forall. apply List.Forall_app. split.
    - apply List.Forall_forall. intros c Hc.
      unfold IdRule.isAscii in Ha. rewrite forallb_forall in Ha. apply Ha.
      rewrite <- (firstn_skipn (Z.to_nat hi)). apply in_or_app. left. exact Hc.
    - apply List.Forall_forall. intros c Hc.
      apply (Permutation_in _ (Permutation_sym P0)) in Hc.
      cbn in Hc. destruct Hc as [<-|[<-|[<-|[<-|[]]]]]; reflexivity. }
  destruct (shuffled_string R 1 (red ++ l0) HR Hall) as (l1 & E1 & P1).
  exists (string_of_list_ascii l1). split; [exact E1|].
  rewrite list_ascii_of_string_of_list_ascii.
  assert (Hp : Permutation l1 (red ++ list_ascii_of_string "A1!$")).
  { apply Permutation_sym. etransitivity; [|exact P1].
    apply Permutation_app_head. exact P0. }
  split; [exact Hp|].
  rewrite length_of_list, (Permutation_length Hp), List.length_app.
  unfold red. rewrite List.length_firstn, length_list_of. cbn [List.length list_ascii_of_string].
  lia.
Qed.

(** [GenRandomPassword] panics on a slice bound for a length under four
    or over forty-four, since it draws at most two ids of twenty
    characters.  For a length from four to forty-four it returns a password
    of that length, made of the characters [A], [1], [!] and [$] and the
    first characters of the ids it drew, in some order. *)
Theorem GenRandomPassword_shape (X : Extern) (R : Rand) (length : Z) (w : World) :
  fairRand R -> xidIds X -> isInt length ->
  let ids := if (length <=? 20)%Z then xid X (uidCount w)
             else xid X (uidCount w) +:+ xid X (S (uidCount w)) in
  ((length < 4 \/ 44 < length)%Z ->
   fst (utility.GenRandomPassword X R length w)
   = Panic "runtime error: slice bounds out of range") /\
  ((4 <= length <= 44)%Z ->
   exists pw,
     fst (utility.GenRandomPassword X R length w) = Ok pw /\
     Z.of_nat (String.length pw) = length /\
     Permutation (list_ascii_of_string pw)
       (firstn (Z.to_nat (length - 4)) (list_ascii_of_string ids)
        ++ list_ascii_of_string "A1!$")).
Proof.
  intros HR HX Hl ids.
  pose proof (HX (uidCount w)) as [L0 A0]. pose proof (HX (S (uidCount w))) as [L1 A1].
  assert (Lids : Z.of_nat (String.length ids) = if (length <=? 20)%Z then 20%Z else 40%Z).
  { unfold ids. destruct (length <=? 20)%Z; [now rewrite L0|].
    rewrite <- length_list_of, list_of_append, List.length_app, !length_list_of, L0, L1.
    reflexivity. }
  assert (Aids : IdRule.isAscii ids = true).
  { unfold ids. destruct (length <=? 20)%Z; [exact A0|].
    unfold IdRule.isAscii. rewrite list_of_append, forallb_app.
    unfold IdRule.isAscii in A0, A1. now rewrite A0, A1. }
  assert (Hw : wrap64 (length - 4) = (length - 4)%Z \/
               (length < 4 /\ 40 < wrap64 (length - 4))%Z).
  { unfold isInt in Hl. change (2 ^ 63)%Z with 9223372036854775808%Z in Hl.
    destruct (Z_lt_le_dec (length - 4) (-9223372036854775808)) as [Hlt|Hge].
    - right. split; [lia|]. unfold wrap64.
      change (2 ^ 63)%Z with 9223372036854775808%Z.
      change (2 ^ 64)%Z with 18446744073709551616%Z.
      replace (length - 4 + 9223372036854775808)%Z
        with ((length - 4 + 9223372036854775808 + 18446744073709551616)
              + (-1) * 18446744073709551616)%Z by lia.
      rewrite Z.mod_add by lia. rewrite Z.mod_small by lia. lia.
    - left. apply wrap64_int. unfold isInt.
      change (2 ^ 63)%Z with 9223372036854775808%Z. lia. }
  assert (Erun : utility.GenRandomPassword X R length w =
    let hi := wrap64 (length - 4) in
    let w' := mkWorld (kv w) (privateKeyStore w)
                (if (length <=? 20)%Z then S (uidCount w) else S (S (uidCount w)))
                (spiderLog w) in
    if (hi <? 0)%Z || (Z.of_nat (String.length ids) <? hi)%Z
    then (Panic "runtime error: slice bounds out of range", w')
    else (Ok (utility.stringOfRunes
               (Shuffle R 1
                  (regexp.decode
                     (string_of_list_ascii
                        (firstn (Z.to_nat hi) (list_ascii_of_string ids))
                      +:+ utility.stringOfRunes (Shuffle R 0 (regexp.decode "A1!$")))))),
          w')).
  { unfold utility.GenRandomPassword, bind, common.GenUid, ret, panic. cbv zeta.
    rewrite L0. unfold ids.
    change (Z.of_nat (String.length "A1!$")) with 4%Z.
    destruct (length <=? 20)%Z eqn:E20.
    - apply Z.leb_le in E20.
      destruct (Z.of_nat 20 <? length)%Z eqn:E; [apply Z.ltb_lt in E; lia|].
      cbn [uidCount kv privateKeyStore spiderLog].
      destruct ((wrap64 (length - 4) <? 0)%Z
                || (Z.of_nat (String.length (xid X (uidCount w))) <? wrap64 (length - 4))%Z);
        reflexivity.
    - apply Z.leb_gt in E20.
      destruct (Z.of_nat 20 <? length)%Z eqn:E; [|apply Z.ltb_ge in E; lia].
      cbn [uidCount kv privateKeyStore spiderLog].
      destruct ((wrap64 (length - 4) <? 0)%Z
                || (Z.of_nat (String.length (xid X (uidCount w) +:+ xid X (S (uidCount w))))
                    <? wrap64 (length - 4))%Z);
        reflexivity. }
  rewrite Erun. cbv zeta. split.
  - intros Hout.
    assert (Hb : ((wrap64 (length - 4) <? 0)%Z
                  || (Z.of_nat (String.length ids) <? wrap64 (length - 4))%Z) = true).
    { apply orb_true_iff. rewrite Lids.
      destruct Hw as [-> | [Hlt Hbig]].
      - destruct Hout as [Hlt|Hgt]; [left; apply Z.ltb_lt; lia|].
        right. apply Z.ltb_lt. destruct (length <=? 20)%Z eqn:E; [apply Z.leb_le in E|]; lia.
      - right. apply Z.ltb_lt. destruct (length <=? 20)%Z; lia. }
    rewrite Hb. reflexivity.
  - intros Hin. destruct Hw as [Ew | [Hlt _]]; [|lia]. rewrite Ew.
    assert (Hhi : (0 <= length - 4 <= Z.of_nat (String.length ids))%Z).
    { rewrite Lids. destruct (length <=? 20)%Z eqn:E; [apply Z.leb_le in E|]; lia. }
    assert (Hb : ((length - 4 <? 0)%Z
                  || (Z.of_nat (String.length ids) <? length - 4)%Z) = false).
    { apply orb_false_iff. split; apply Z.ltb_ge; lia. }
    rewrite Hb. cbn [fst].
    destruct (password_of R ids (length - 4) HR Aids Hhi) as (pw & Epw & Pp & Lp).
    exists pw. split; [now rewrite Epw|]. split; [lia|exact Pp].
Qed.

Lemma digitChar_digit (m : nat) :
  In (Cases.digitChar m) (list_ascii_of_string "0123456789").
Proof. do 10 (try destruct m as [|m]); cbn; tauto. Qed.

Lemma Cases_xidIds : xidIds Cases.X20.
Proof.
  intros n. cbn [xid Cases.X20]. unfold Cases.xid20.
  pose proof (digitChar_digit ((n / 10) mod 10)) as H1.
  pose proof (digitChar_digit (n mod 10)) as H2.
  revert H1 H2.
  generalize (Cases.digitChar ((n / 10) mod 10)), (Cases.digitChar (n mod 10)).
  intros a b H1 H2. cbn in H1, H2.
  repeat (destruct H1 as [<-|H1]; [|]); try contradiction;
    repeat (destruct H2 as [<-|H2]; [|]); try contradiction; split; reflexivity.
Qed.

Lemma GenRandomPassword_shape_witness :
  let w := mkWorld ∅ ∅ 0 [] in
  let ids := if (12 <=? 20)%Z then xid Cases.X20 (uidCount w)
             else xid Cases.X20 (uidCount w) +:+ xid Cases.X20 (S (uidCount w)) in
  ((12 < 4 \/ 44 < 12)%Z ->
   fst (utility.GenRandomPassword Cases.X20 Cases.rand 12 w)
   = Panic "runtime error: slice bounds out of range") /\
  ((4 <= 12 <= 44)%Z ->
   exists pw,
     fst (utility.GenRandomPassword Cases.X20 Cases.rand 12 w) = Ok pw /\
     Z.of_nat (String.length pw) = 12%Z /\
     Permutation (list_ascii_of_string pw)
       (firstn (Z.to_nat (12 - 4)) (list_ascii_of_string ids)
        ++ list_ascii_of_string "A1!$")).
Proof.
  apply (GenRandomPassword_shape Cases.X20 Cases.rand 12 (mkWorld ∅ ∅ 0 [])
           Cases_fairRand Cases_xidIds).
  unfold isInt. change (2 ^ 63)%Z with 9223372036854775808%Z. lia.
Defined.

(** ** A vNet registered and read *)

Lemma decValue_app (a b : string) : forall acc,
  decValue acc (a +:+ b) = decValue (decValue acc a) b.
Proof.
  induction a as [|c a IH]; intros acc; [reflexivity|].
  rewrite append_cons. cbn [decValue]. apply IH.
Qed.

Lemma pretty_N_go_app (x : N) : forall s,
  pretty_N_go x s = pretty_N_go x "" +:+ s.
Proof.
  induction (N.lt_wf_0 x) as [x _ IH]; intros s.
  destruct (N.eq_dec x 0%N) as [->|Hx]; [now rewrite !pretty_N_go_0|].
  rewrite !(pretty_N_go_step x) by lia.
  assert (Hlt : (x `div` 10 < x)%N) by (apply N.div_lt; lia).
  rewrite (IH _ Hlt (String _ s)), (IH _ Hlt (String _ "")).
  generalize (pretty_N_go (x `div` 10) ""), (pretty_N_char (x `mod` 10)).
  intros a c. clear. induction a as [|b a IHa]; [reflexivity|].
  rewrite !append_cons. now rewrite IHa.
Qed.

Lemma pretty_N_char_value (d : N) : (d < 10)%N -> (byteval (pretty_N_char d) - 48 = d)%N.
Proof.
  intros Hd.
  assert (d = 0 \/ d = 1 \/ d = 2 \/ d = 3 \/ d = 4 \/ d = 5 \/ d = 6 \/ d = 7
          \/ d = 8 \/ d = 9)%N as H by lia.
  repeat (destruct H as [-> | H]; [reflexivity|]). now subst d.
Qed.

Lemma decValue_pretty_go (x : N) : decValue 0 (pretty_N_go x "") = x.
Proof.
  induction (N.lt_wf_0 x) as [x _ IH].
  destruct (N.eq_dec x 0%N) as [->|Hx]; [reflexivity|].
  rewrite pretty_N_go_step by lia. rewrite pretty_N_go_app, decValue_app.
  rewrite IH by (apply N.div_lt; lia). cbn [decValue].
  rewrite pretty_N_char_value by (apply N.mod_lt; lia).
  pose proof (N.div_mod x 10 ltac:(lia)). lia.
Qed.

Lemma decValue_pretty (n : nat) : decValue 0 (pretty n) = N.of_nat n.
Proof.
  unfold pretty, pretty_nat, pretty, pretty_N.
  destruct (decide (N.of_nat n = 0%N)) as [E|E]; [now rewrite E|].
  apply decValue_pretty_go.
Qed.

Lemma decValue_pad2 (n : nat) : decValue 0 (pad2 n) = N.of_nat n.
Proof.
  unfold pad2. destruct (n <? 10)%nat; [|apply decValue_pretty].
  rewrite append_cons. cbn [decValue]. change (0 * 10 + (byteval "0" - 48))%N with 0%N.
  change ("" +:+ pretty n) with (pretty n). apply decValue_pretty.
Qed.

Lemma pad2_inj (a b : nat) : pad2 a = pad2 b -> a = b.
Proof.
  intros E. apply (f_equal (decValue 0)) in E. rewrite !decValue_pad2 in E. lia.
Qed.

Section Registered.

Variable X : Extern.
Variable V : VNetExtern.

Lemma regSubnetKey_inj (nsId vNetId : string) (a b : nat) :
  common.GenChildResourceKey nsId model.StrSubnet vNetId ("reg-subnet-" +:+ pad2 (a + 1))
  = common.GenChildResourceKey nsId model.StrSubnet vNetId ("reg-subnet-" +:+ pad2 (b + 1)) ->
  a = b.
Proof.
  rewrite !GenChildResourceKey_subnet. intros E.
  apply append_inj_l, append_inj_l, append_inj_l, pad2_inj in E. lia.
Qed.

Lemma registerSubnets_store (nsId vNetId conn : string) (spResp : spiderVPCInfo.t)
      (l : list spiderSubnetInfo.t) :
  forall i w, exists w',
    vnet.registerSubnets nsId vNetId conn spResp i l w
      = (Ok (registeredSubnets conn spResp i l), w') /\
    privateKeyStore w' = privateKeyStore w /\ uidCount w' = uidCount w /\
    spiderLog w' = spiderLog w /\
    (forall j sp, l !! j = Some sp ->
       kv w' !! common.GenChildResourceKey nsId model.StrSubnet vNetId
                  ("reg-subnet-" +:+ pad2 (i + j + 1))
       = Some (DocSubnet (vnet.registeredSubnet conn spResp (i + j) sp))) /\
    (forall k,
       (forall j, (j < List.length l)%nat ->
          common.GenChildResourceKey nsId model.StrSubnet vNetId
            ("reg-subnet-" +:+ pad2 (i + j + 1)) <> k) ->
       kv w' !! k = kv w !! k).
Proof.
  induction l as [|sp l IH]; intros i w.
  - exists w. cbn. repeat split; auto. intros j sp' H. destruct j; discriminate H.
  - cbn [vnet.registerSubnets registeredSubnets]. cbv zeta.
    unfold bind at 1, kvPut at 1. set (w1 := mkWorld _ _ _ _).
    destruct (IH (S i) w1) as (w' & E & Hp & Hu & Hl & Hin & Hother).
    exists w'. unfold bind at 1. rewrite E. unfold ret.
    split; [reflexivity|]. split; [exact Hp|]. split; [exact Hu|]. split; [exact Hl|].
    split.
    + intros [|j] sp' Hj.
      * cbn in Hj. injection Hj as <-. rewrite Nat.add_0_r. rewrite Hother.
        -- subst w1. cbn [kv TbSubnetInfo.Id vnet.registeredSubnet]. unfold kvstore.Put.
           apply lookup_insert_eq.
        -- intros j _ Ek. apply regSubnetKey_inj in Ek. lia.
      * cbn in Hj. replace (i + S j)%nat with (S i + j)%nat by lia. now apply Hin.
    + intros k Hk. rewrite Hother.
      * subst w1. cbn [kv TbSubnetInfo.Id vnet.registeredSubnet]. unfold kvstore.Put.
        apply lookup_insert_ne. specialize (Hk 0%nat ltac:(cbn; lia)).
        now rewrite Nat.add_0_r in Hk.
      * intros j Hj. specialize (Hk (S j) ltac:(cbn; lia)).
        now replace (i + S j)%nat with (S i + j)%nat in Hk by lia.
Qed.

Lemma registeredSubnets_lookup (conn : string) (spResp : spiderVPCInfo.t)
      (l : list spiderSubnetInfo.t) : forall i j sp,
  l !! j = Some sp ->
  registeredSubnets conn spResp i l !! j
  = Some (vnet.registeredSubnet conn spResp (i + j) sp).
Proof.
  induction l as [|x l IH]; intros i [|j] sp H; try discriminate H.
  - cbn in H. injection H as <-. cbn. now rewrite Nat.add_0_r.
  - cbn in H. cbn [registeredSubnets]. cbn.
    replace (i + S j)%nat with (S i + j)%nat by lia. now apply IH.
Qed.

Lemma registeredSubnets_length (conn : string) (spResp : spiderVPCInfo.t)
      (l : list spiderSubnetInfo.t) : forall i,
  List.length (registeredSubnets conn spResp i l) = List.length l.
Proof. induction l as [|x l IH]; intros i; cbn; [reflexivity|now rewrite IH]. Qed.

(** The vNet object at the end of a registration. *)
Lemma RegisterVNet_start (nsId : string) (req : TbRegisterVNetReq.t) (w : World) :
  common.CheckString nsId = nil_error ->
  validateRegisterReq V req = nil_error ->
  kv w !! common.GenResourceKey nsId model.StrVNet (TbRegisterVNetReq.Name req) = None ->
  let vNetKey := common.GenResourceKey nsId model.StrVNet (TbRegisterVNetReq.Name req) in
  let vNetInfo := vnet.registeringVNet req (xid X (uidCount w)) in
  let w1 := mkWorld (<[vNetKey := DocVNet vNetInfo]> (kv w)) (privateKeyStore w)
              (S (S (uidCount w))) (spiderLog w) in
  vnet.RegisterVNet X V nsId req w =
  match postRegVpc V (vnet.registerRequest req (xid X (S (uidCount w)))) with
  | Failed msg => (Err msg, w1)
  | Body spResp =>
      let vNetInfo := vnet.withVpc spResp vNetInfo in
      let vNetInfo :=
        if String.eqb (TbRegisterVNetReq.CspVNetId req) ""
        then vnet.withSystemLabel "Registered from CB-Spider resource" vNetInfo
        else vnet.withSystemLabel "Registered from CSP resource" vNetInfo in
      (subnets <- vnet.registerSubnets nsId (TbVNetInfo.Id vNetInfo)
                    (TbVNetInfo.ConnectionName vNetInfo) spResp 0
                    (spiderVPCInfo.SubnetInfoList spResp) ;;
       let vNetInfo := TbVNetInfo.withSubnetInfoList subnets vNetInfo in
       let vNetInfo := TbVNetInfo.withStatus resource.NetworkAvailable vNetInfo in
       kvPut vNetKey (DocVNet vNetInfo) ;;;
       keyValue <- kvGetKv vNetKey ;;
       match keyValue with
       | None => fail ("does not exist, vNet: " +:+ TbRegisterVNetReq.Name req)
       | Some d =>
           match json.UnmarshalVNet d with
           | None => ret vNetInfo
           | Some stored => ret stored
           end
       end) w1
  end.
Proof.
  intros E1 E2 Hk vNetKey vNetInfo w1.
  unfold vnet.RegisterVNet. cbv zeta. rewrite E1, E2.
  unfold bind at 1, check at 1, ret at 1.
  unfold bind at 1, check at 1, ret at 1.
  unfold bind at 1, common.GenUid at 1.
  unfold bind at 1, resource.CheckResource at 1, bind at 1, kvGetKv at 1, kvstore.GetKv.
  cbn [kv]. fold vNetKey. unfold vNetKey at 1. rewrite Hk. unfold ret at 1. cbn [fst snd].
  unfold bind at 1, kvPut at 1. cbn [kv privateKeyStore uidCount spiderLog].
  unfold bind at 1, common.GenUid at 1. cbn [kv privateKeyStore uidCount spiderLog].
  unfold bind at 1, request at 1. unfold kvstore.Put. fold vNetInfo. fold w1.
  destruct (postRegVpc V _) as [msg|spResp]; reflexivity.
Qed.

Lemma RegisterVNet_duplicate_run (nsId : string) (req : TbRegisterVNetReq.t) (w : World)
      (d : doc) :
  common.CheckString nsId = nil_error ->
  validateRegisterReq V req = nil_error ->
  kv w !! common.GenResourceKey nsId model.StrVNet (TbRegisterVNetReq.Name req) = Some d ->
  vnet.RegisterVNet X V nsId req w =
  (Err ("already exists, vNet: " +:+ TbRegisterVNetReq.Name req),
   mkWorld (kv w) (privateKeyStore w) (S (uidCount w)) (spiderLog w)).
Proof.
  intros E1 E2 Hk. unfold vnet.RegisterVNet. cbv zeta. rewrite E1, E2.
  unfold bind at 1, check at 1, ret at 1.
  unfold bind at 1, check at 1, ret at 1.
  unfold bind at 1, common.GenUid at 1.
  unfold bind at 1, resource.CheckResource at 1, bind at 1, kvGetKv at 1, kvstore.GetKv.
  cbn [kv]. rewrite Hk. unfold ret at 1. cbn [fst snd]. reflexivity.
Qed.

End Registered.

(** When the broker registers the network, [RegisterVNet] draws two ids
    and returns the vNet it has stored, with the status [Available] whatever
    subnets it has.  Every subnet of the broker's answer has become a local
    subnet with the status [Unknown], named [reg-subnet-] and its position
    counted from one in two digits at least, and stored under a key of its
    own; no other key of the store has changed. *)
Theorem RegisterVNet_registered (X : Extern) (V : VNetExtern) (nsId : string)
        (req : TbRegisterVNetReq.t) (w : World) (spResp : spiderVPCInfo.t) :
  common.CheckString nsId = nil_error ->
  validateRegisterReq V req = nil_error ->
  kv w !! common.GenResourceKey nsId model.StrVNet (TbRegisterVNetReq.Name req) = None ->
  postRegVpc V (vnet.registerRequest req (xid X (S (uidCount w)))) = Body spResp ->
  let vNetKey := common.GenResourceKey nsId model.StrVNet (TbRegisterVNetReq.Name req) in
  let childKey := common.GenChildResourceKey nsId model.StrSubnet (TbRegisterVNetReq.Name req) in
  let subnetId := fun j : nat => "reg-subnet-" +:+ pad2 (j + 1) in
  exists vNetInfo w',
    vnet.RegisterVNet X V nsId req w = (Ok vNetInfo, w') /\
    uidCount w' = S (S (uidCount w)) /\
    kv w' !! vNetKey = Some (DocVNet vNetInfo) /\
    TbVNetInfo.Id vNetInfo = TbRegisterVNetReq.Name req /\
    TbVNetInfo.Uuid vNetInfo = xid X (uidCount w) /\
    TbVNetInfo.Status vNetInfo = "Available" /\
    TbVNetInfo.CspVNetId vNetInfo = model.SystemId (spiderVPCInfo.IId spResp) /\
    List.length (TbVNetInfo.SubnetInfoList vNetInfo)
      = List.length (spiderVPCInfo.SubnetInfoList spResp) /\
    (forall j sp, spiderVPCInfo.SubnetInfoList spResp !! j = Some sp ->
       exists subnet,
         TbVNetInfo.SubnetInfoList vNetInfo !! j = Some subnet /\
         kv w' !! childKey (subnetId j) = Some (DocSubnet subnet) /\
         TbSubnetInfo.Id subnet = subnetId j /\
         TbSubnetInfo.Status subnet = "Unknown" /\
         TbSubnetInfo.CspSubnetId subnet = model.SystemId (spiderSubnetInfo.IId sp) /\
         TbSubnetInfo.CspSubnetName subnet = model.NameId (spiderSubnetInfo.IId sp)) /\
    (forall k, k <> vNetKey ->
       (forall j, (j < List.length (spiderVPCInfo.SubnetInfoList spResp))%nat ->
          childKey (subnetId j) <> k) ->
       kv w' !! k = kv w !! k).
Proof.
  intros E1 E2 Hk Hb vNetKey childKey subnetId.
  pose proof (RegisterVNet_start X V nsId req w E1 E2 Hk) as Erun. cbv zeta in Erun.
  rewrite Hb in Erun. rewrite Erun. clear Erun. fold vNetKey.
  set (w1 := mkWorld _ _ _ _).
  set (v1 := if String.eqb (TbRegisterVNetReq.CspVNetId req) "" then _ else _).
  assert (Hid : TbVNetInfo.Id v1 = TbRegisterVNetReq.Name req)
    by (subst v1; now destruct (String.eqb _ _)).
  rewrite Hid.
  destruct (registerSubnets_store nsId (TbRegisterVNetReq.Name req)
              (TbVNetInfo.ConnectionName v1) spResp
              (spiderVPCInfo.SubnetInfoList spResp) 0 w1)
    as (w2 & E & Hp & Hu & Hl & Hin & Hother).
  unfold bind at 1. rewrite E.
  set (subnets := registeredSubnets _ _ _ _) in *.
  set (v2 := TbVNetInfo.withStatus _ _).
  unfold bind at 1, kvPut at 1. unfold bind at 1, kvGetKv at 1, kvstore.GetKv, kvstore.Put.
  cbn [kv]. rewrite lookup_insert_eq. cbn [json.UnmarshalVNet]. unfold ret.
  exists v2. eexists. split; [reflexivity|]. cbn [kv uidCount].
  split; [rewrite Hu; reflexivity|].
  split; [apply lookup_insert_eq|].
  split; [exact Hid|].
  split; [subst v2 v1; now destruct (String.eqb _ _)|].
  split; [reflexivity|].
  split; [subst v2 v1; now destruct (String.eqb _ _)|].
  split; [subst v2 subnets; cbn; apply registeredSubnets_length|].
  split.
  - intros j sp Hj. eexists. split.
    { subst v2 subnets. cbn [TbVNetInfo.withStatus TbVNetInfo.withSubnetInfoList
                             TbVNetInfo.SubnetInfoList].
      apply registeredSubnets_lookup. exact Hj. }
    split.
    { rewrite lookup_insert_ne by (apply not_eq_sym, subnetKey_ne_vNetKey).
      apply (Hin j sp Hj). }
    repeat split.
  - intros k Hne Hks.
    rewrite lookup_insert_ne by (now apply not_eq_sym).
    rewrite Hother by exact Hks.
    subst w1. cbn [kv]. rewrite lookup_insert_ne by (now apply not_eq_sym). reflexivity.
Qed.

Lemma RegisterVNet_registered_witness :
  let vNetKey := common.GenResourceKey "default" model.StrVNet
                   (TbRegisterVNetReq.Name RegCases.req) in
  let childKey := common.GenChildResourceKey "default" model.StrSubnet
                    (TbRegisterVNetReq.Name RegCases.req) in
  let subnetId := fun j : nat => "reg-subnet-" +:+ pad2 (j + 1) in
  exists vNetInfo w',
    vnet.RegisterVNet Scenario.X RegCases.broker "default" RegCases.req Scenario.emptyWorld
      = (Ok vNetInfo, w') /\
    uidCount w' = S (S (uidCount Scenario.emptyWorld)) /\
    kv w' !! vNetKey = Some (DocVNet vNetInfo) /\
    TbVNetInfo.Id vNetInfo = TbRegisterVNetReq.Name RegCases.req /\
    TbVNetInfo.Uuid vNetInfo = xid Scenario.X (uidCount Scenario.emptyWorld) /\
    TbVNetInfo.Status vNetInfo = "Available" /\
    TbVNetInfo.CspVNetId vNetInfo = model.SystemId (spiderVPCInfo.IId RegCases.vpc) /\
    List.length (TbVNetInfo.SubnetInfoList vNetInfo)
      = List.length (spiderVPCInfo.SubnetInfoList RegCases.vpc) /\
    (forall j sp, spiderVPCInfo.SubnetInfoList RegCases.vpc !! j = Some sp ->
       exists subnet,
         TbVNetInfo.SubnetInfoList vNetInfo !! j = Some subnet /\
         kv w' !! childKey (subnetId j) = Some (DocSubnet subnet) /\
         TbSubnetInfo.Id subnet = subnetId j /\
         TbSubnetInfo.Status subnet = "Unknown" /\
         TbSubnetInfo.CspSubnetId subnet = model.SystemId (spiderSubnetInfo.IId sp) /\
         TbSubnetInfo.CspSubnetName subnet = model.NameId (spiderSubnetInfo.IId sp)) /\
    (forall k, k <> vNetKey ->
       (forall j, (j < List.length (spiderVPCInfo.SubnetInfoList RegCases.vpc))%nat ->
          childKey (subnetId j) <> k) ->
       kv w' !! k = kv Scenario.emptyWorld !! k).
Proof.
  apply (RegisterVNet_registered Scenario.X RegCases.broker "default" RegCases.req
           Scenario.emptyWorld RegCases.vpc).
  - vm_compute. reflexivity.
  - reflexivity.
  - reflexivity.
  - reflexivity.
Defined.

(** When the broker refuses the registration, [RegisterVNet] returns its
    error and leaves the vNet in the store with the status [Registering];
    nothing else of the store changes.  A second registration under the
    same name is then refused as a duplicate, whatever the broker would
    answer. *)
Theorem RegisterVNet_refused_by_broker (X : Extern) (V : VNetExtern) (nsId : string)
        (req again : TbRegisterVNetReq.t) (w : World) (msg : string) :
  common.CheckString nsId = nil_error ->
  validateRegisterReq V req = nil_error ->
  validateRegisterReq V again = nil_error ->
  TbRegisterVNetReq.Name again = TbRegisterVNetReq.Name req ->
  kv w !! common.GenResourceKey nsId model.StrVNet (TbRegisterVNetReq.Name req) = None ->
  postRegVpc V (vnet.registerRequest req (xid X (S (uidCount w)))) = Failed msg ->
  let vNetKey := common.GenResourceKey nsId model.StrVNet (TbRegisterVNetReq.Name req) in
  let w1 := snd (vnet.RegisterVNet X V nsId req w) in
  fst (vnet.RegisterVNet X V nsId req w) = Err msg /\
  kv w1 = <[vNetKey := DocVNet (vnet.registeringVNet req (xid X (uidCount w)))]> (kv w) /\
  TbVNetInfo.Status (vnet.registeringVNet req (xid X (uidCount w))) = "Registering" /\
  fst (vnet.RegisterVNet X V nsId again w1)
    = Err ("already exists, vNet: " +:+ TbRegisterVNetReq.Name req) /\
  kv (snd (vnet.RegisterVNet X V nsId again w1)) = kv w1.
Proof.
  intros E1 E2 E3 Hname Hk Hb vNetKey w1.
  pose proof (RegisterVNet_start X V nsId req w E1 E2 Hk) as Erun. cbv zeta in Erun.
  rewrite Hb in Erun. subst w1. rewrite Erun. cbn [fst snd kv].
  split; [reflexivity|]. split; [reflexivity|]. split; [reflexivity|].
  rewrite (RegisterVNet_duplicate_run X V nsId again _
             (DocVNet (vnet.registeringVNet req (xid X (uidCount w)))) E1 E3).
  - rewrite Hname. split; reflexivity.
  - cbn [kv]. rewrite Hname. apply lookup_insert_eq.
Qed.

Lemma RegisterVNet_refused_by_broker_witness :
  let vNetKey := common.GenResourceKey "default" model.StrVNet
                   (TbRegisterVNetReq.Name RegCases.req) in
  let w1 := snd (vnet.RegisterVNet Scenario.X RegCases.brokerDown "default" RegCases.req
                   Scenario.emptyWorld) in
  fst (vnet.RegisterVNet Scenario.X RegCases.brokerDown "default" RegCases.req
         Scenario.emptyWorld) = Err "broker: connection refused" /\
  kv w1 = <[vNetKey := DocVNet (vnet.registeringVNet RegCases.req
                                  (xid Scenario.X (uidCount Scenario.emptyWorld)))]>
            (kv Scenario.emptyWorld) /\
  TbVNetInfo.Status (vnet.registeringVNet RegCases.req
                       (xid Scenario.X (uidCount Scenario.emptyWorld))) = "Registering" /\
  fst (vnet.RegisterVNet Scenario.X RegCases.brokerDown "default" RegCases.req w1)
    = Err ("already exists, vNet: " +:+ TbRegisterVNetReq.Name RegCases.req) /\
  kv (snd (vnet.RegisterVNet Scenario.X RegCases.brokerDown "default" RegCases.req w1))
    = kv w1.
Proof.
  apply (RegisterVNet_refused_by_broker Scenario.X RegCases.brokerDown "default"
           RegCases.req RegCases.req Scenario.emptyWorld "broker: connection refused").
  - vm_compute. reflexivity.
  - reflexivity.
  - reflexivity.
  - reflexivity.
  - reflexivity.
  - reflexivity.
Defined.

(** [GetVNet] never panics, and a call that returns an error has changed
    nothing.  A call that succeeds has found the vNet in the store, asked
    the broker about it, and stored and returned the vNet with the ids, the
    address block, the tags and the key-value list of the broker's answer:
    the status and the subnets of the vNet are as they were, and no other
    key of the store has changed. *)
Theorem GetVNet_outcome (V : VNetExtern) (nsId vNetId : string) (w : World) :
  let vNetKey := common.GenResourceKey nsId model.StrVNet vNetId in
  match vnet.GetVNet V nsId vNetId w with
  | (Ok vNetInfo, w') =>
      exists stored spResp,
        kv w !! vNetKey = Some (DocVNet stored) /\
        getVpc V (TbVNetInfo.CspVNetName stored) (TbVNetInfo.ConnectionName stored)
          = Body spResp /\
        TbVNetInfo.Status vNetInfo = TbVNetInfo.Status stored /\
        TbVNetInfo.SubnetInfoList vNetInfo = TbVNetInfo.SubnetInfoList stored /\
        TbVNetInfo.Id vNetInfo = TbVNetInfo.Id stored /\
        TbVNetInfo.CspVNetId vNetInfo = model.SystemId (spiderVPCInfo.IId spResp) /\
        TbVNetInfo.CspVNetName vNetInfo = model.NameId (spiderVPCInfo.IId spResp) /\
        TbVNetInfo.CidrBlock vNetInfo = spiderVPCInfo.IPv4_CIDR spResp /\
        TbVNetInfo.TagList vNetInfo = spiderVPCInfo.TagList spResp /\
        TbVNetInfo.KeyValueList vNetInfo = spiderVPCInfo.KeyValueList spResp /\
        kv w' = <[vNetKey := DocVNet vNetInfo]> (kv w)
  | (Err msg, w') =>
      w' = w /\
      (common.CheckString nsId = nil_error -> common.CheckString vNetId = nil_error ->
       kv w !! vNetKey = None -> msg = "does not exist, vNet: " +:+ vNetId)
  | (Panic _, _) => False
  end.
Proof.
  intros vNetKey. unfold vnet.GetVNet. cbv zeta. fold vNetKey.
  destruct (common.CheckString nsId) as [e1|] eqn:E1.
  { cbn. split; [reflexivity|discriminate]. }
  destruct (common.CheckString vNetId) as [e2|] eqn:E2.
  { cbn. split; [reflexivity|discriminate]. }
  unfold bind at 1, check at 1, ret at 1.
  unfold bind at 1, check at 1, ret at 1.
  unfold bind at 1, kvGetKv at 1, kvstore.GetKv.
  destruct (kv w !! vNetKey) as [d|] eqn:Hk.
  2:{ cbn. split; [reflexivity|]. intros _ _ _. reflexivity. }
  destruct d as [stored|s|c]; cbn [json.UnmarshalVNet].
  2,3: (cbn; split; [reflexivity|]; intros _ _ H; discriminate H).
  unfold bind at 1, request at 1.
  destruct (getVpc V _ _) as [msg|spResp] eqn:Hb.
  { split; [reflexivity|]. intros _ _ H. discriminate H. }
  unfold bind, kvPut, ret. destruct w as [m p u l]. cbn [kv] in *.
  exists stored, spResp. repeat split; try reflexivity; assumption.
Qed.
